(** * Azoteq IQS269A capacitive touch controller: register model and decode engine

    A shallow embedding of [drivers/input/misc/iqs269a.c].  Integers of the
    driver ([u8], [u16], [unsigned int], [int]) are values of [Z] with the
    truncation of every narrowing store written out; the register image is a
    record per C structure; the driver functions run in a state-and-error
    monad over the private structure of the driver, so that what a failing
    call leaves behind in the structure is part of its result. *)

From Stdlib Require Import ZArith List Lia Bool String.
From stdpp Require Import base list gmap strings.

Local Open Scope Z_scope.

(** ** Kernel helpers used by the driver *)

(** Modelled from the spec: [BIT] and [GENMASK] come from [linux/bits.h],
    which is not part of the driver file; they are the usual single-bit and
    contiguous-bit-range masks ("all multi-bit fields are masked-and-shifted"). *)
Definition BIT (n : Z) : Z := Z.shiftl 1 n.
Definition GENMASK (h l : Z) : Z := Z.shiftl (Z.ones (h - l + 1)) l.

(** Narrowing stores. *)
Definition u8 (x : Z) : Z := Z.land x (Z.ones 8).
Definition u16 (x : Z) : Z := Z.land x (Z.ones 16).

(** Modelled from the spec: a [__be16] field is two bytes in memory, most
    significant first ("fixed-size big-endian register structures");
    [be16_to_cpu] and [cpu_to_be16] of the kernel convert between these two
    bytes and the 16-bit value. *)
Record be16 := Be16 { be_hi : Z; be_lo : Z }.

Definition be16_to_cpu (b : be16) : Z :=
  u16 (Z.lor (Z.shiftl (u8 (be_hi b)) 8) (u8 (be_lo b))).
Definition cpu_to_be16 (v : Z) : be16 :=
  Be16 (u8 (Z.shiftr v 8)) (u8 v).

(** Modelled from the spec: the error numbers come from the kernel's errno
    headers, which are not part of the driver file.  The driver returns
    [-EINVAL] both where the spec says [OutOfRange] and where it says
    [InvalidEnum]; [-EIO] stands for a failed transfer
    ([CommunicationError]). *)
Definition EINVAL : Z := 22.
Definition EIO : Z := 5.
Definition EOVERFLOW : Z := 75.

(** ** Constants of the register map *)

Definition IQS269_VER_INFO_FW_NUM_3 : Z := 0x10.

Definition IQS269_SYS_FLAGS : Z := 0x02.
Definition IQS269_SYS_FLAGS_SHOW_RESET : Z := BIT 15.
Definition IQS269_SYS_FLAGS_IN_ATI : Z := BIT 10.

Definition IQS269_SLIDER_X : Z := 0x30.

Definition IQS269_SYS_SETTINGS : Z := 0x80.
Definition IQS269_SYS_SETTINGS_CLK_DIV : Z := BIT 15.
Definition IQS269_SYS_SETTINGS_ULP_AUTO : Z := BIT 14.
Definition IQS269_SYS_SETTINGS_DIS_AUTO : Z := BIT 13.
Definition IQS269_SYS_SETTINGS_PWR_MODE_MASK : Z := GENMASK 12 11.
Definition IQS269_SYS_SETTINGS_PWR_MODE_SHIFT : Z := 11.
Definition IQS269_SYS_SETTINGS_PWR_MODE_MAX : Z := 3.
Definition IQS269_SYS_SETTINGS_ULP_UPDATE_MASK : Z := GENMASK 10 8.
Definition IQS269_SYS_SETTINGS_ULP_UPDATE_SHIFT : Z := 8.
Definition IQS269_SYS_SETTINGS_ULP_UPDATE_MAX : Z := 7.
Definition IQS269_SYS_SETTINGS_SLIDER_SWIPE : Z := BIT 7.
Definition IQS269_SYS_SETTINGS_RESEED_OFFSET : Z := BIT 6.
Definition IQS269_SYS_SETTINGS_EVENT_MODE : Z := BIT 5.
Definition IQS269_SYS_SETTINGS_EVENT_MODE_LP : Z := BIT 4.
Definition IQS269_SYS_SETTINGS_REDO_ATI : Z := BIT 2.
Definition IQS269_SYS_SETTINGS_ACK_RESET : Z := BIT 0.

Definition IQS269_FILT_STR_LP_LTA_MASK : Z := GENMASK 7 6.
Definition IQS269_FILT_STR_LP_LTA_SHIFT : Z := 6.
Definition IQS269_FILT_STR_LP_CNT_MASK : Z := GENMASK 5 4.
Definition IQS269_FILT_STR_LP_CNT_SHIFT : Z := 4.
Definition IQS269_FILT_STR_NP_LTA_MASK : Z := GENMASK 3 2.
Definition IQS269_FILT_STR_NP_LTA_SHIFT : Z := 2.
Definition IQS269_FILT_STR_NP_CNT_MASK : Z := GENMASK 1 0.
Definition IQS269_FILT_STR_MAX : Z := 3.

Definition IQS269_EVENT_MASK_SYS : Z := BIT 6.
Definition IQS269_EVENT_MASK_GESTURE : Z := BIT 3.
Definition IQS269_EVENT_MASK_DEEP : Z := BIT 2.
Definition IQS269_EVENT_MASK_TOUCH : Z := BIT 1.
Definition IQS269_EVENT_MASK_PROX : Z := BIT 0.

Definition IQS269_RATE_NP_MS_MAX : Z := 255.
Definition IQS269_RATE_LP_MS_MAX : Z := 255.
Definition IQS269_RATE_ULP_MS_MAX : Z := 4080.
Definition IQS269_TIMEOUT_PWR_MS_MAX : Z := 130560.
Definition IQS269_TIMEOUT_LTA_MS_MAX : Z := 130560.

Definition IQS269_MISC_A_ATI_BAND_DISABLE : Z := BIT 15.
Definition IQS269_MISC_A_ATI_LP_ONLY : Z := BIT 14.
Definition IQS269_MISC_A_ATI_BAND_TIGHTEN : Z := BIT 13.
Definition IQS269_MISC_A_FILT_DISABLE : Z := BIT 12.
Definition IQS269_MISC_A_GPIO3_SELECT_MASK : Z := GENMASK 10 8.
Definition IQS269_MISC_A_GPIO3_SELECT_SHIFT : Z := 8.
Definition IQS269_MISC_A_DUAL_DIR : Z := BIT 6.
Definition IQS269_MISC_A_TX_FREQ_MASK : Z := GENMASK 5 4.
Definition IQS269_MISC_A_TX_FREQ_SHIFT : Z := 4.
Definition IQS269_MISC_A_TX_FREQ_MAX : Z := 3.
Definition IQS269_MISC_A_GLOBAL_CAP_SIZE : Z := BIT 0.

Definition IQS269_MISC_B_RESEED_UI_SEL_MASK : Z := GENMASK 7 6.
Definition IQS269_MISC_B_RESEED_UI_SEL_SHIFT : Z := 6.
Definition IQS269_MISC_B_RESEED_UI_SEL_MAX : Z := 3.
Definition IQS269_MISC_B_TRACKING_UI_ENABLE : Z := BIT 4.
Definition IQS269_MISC_B_FILT_STR_SLIDER : Z := GENMASK 1 0.

Definition IQS269_TOUCH_HOLD_SLIDER_SEL : Z := 0x89.
Definition IQS269_TOUCH_HOLD_DEFAULT : Z := 0x14.
Definition IQS269_TOUCH_HOLD_MS_MIN : Z := 256.
Definition IQS269_TOUCH_HOLD_MS_MAX : Z := 65280.

Definition IQS269_TIMEOUT_TAP_MS_MAX : Z := 4080.
Definition IQS269_TIMEOUT_SWIPE_MS_MAX : Z := 4080.
Definition IQS269_THRESH_SWIPE_MAX : Z := 255.

Definition IQS269_CHx_ENG_A_MEAS_CAP_SIZE : Z := BIT 15.
Definition IQS269_CHx_ENG_A_RX_GND_INACTIVE : Z := BIT 13.
Definition IQS269_CHx_ENG_A_LOCAL_CAP_SIZE : Z := BIT 12.
Definition IQS269_CHx_ENG_A_ATI_MODE_MASK : Z := GENMASK 9 8.
Definition IQS269_CHx_ENG_A_ATI_MODE_SHIFT : Z := 8.
Definition IQS269_CHx_ENG_A_ATI_MODE_MAX : Z := 3.
Definition IQS269_CHx_ENG_A_INV_LOGIC : Z := BIT 7.
Definition IQS269_CHx_ENG_A_PROJ_BIAS_MASK : Z := GENMASK 6 5.
Definition IQS269_CHx_ENG_A_PROJ_BIAS_SHIFT : Z := 5.
Definition IQS269_CHx_ENG_A_PROJ_BIAS_MAX : Z := 3.
Definition IQS269_CHx_ENG_A_SENSE_MODE_MASK : Z := GENMASK 3 0.
Definition IQS269_CHx_ENG_A_SENSE_MODE_MAX : Z := 15.

Definition IQS269_CHx_ENG_B_LOCAL_CAP_ENABLE : Z := BIT 13.
Definition IQS269_CHx_ENG_B_SENSE_FREQ_MASK : Z := GENMASK 10 9.
Definition IQS269_CHx_ENG_B_SENSE_FREQ_SHIFT : Z := 9.
Definition IQS269_CHx_ENG_B_SENSE_FREQ_MAX : Z := 3.
Definition IQS269_CHx_ENG_B_STATIC_ENABLE : Z := BIT 8.
Definition IQS269_CHx_ENG_B_ATI_BASE_MASK : Z := GENMASK 7 6.
Definition IQS269_CHx_ENG_B_ATI_BASE_75 : Z := 0x00.
Definition IQS269_CHx_ENG_B_ATI_BASE_100 : Z := 0x40.
Definition IQS269_CHx_ENG_B_ATI_BASE_150 : Z := 0x80.
Definition IQS269_CHx_ENG_B_ATI_BASE_200 : Z := 0xC0.
Definition IQS269_CHx_ENG_B_ATI_TARGET_MASK : Z := GENMASK 5 0.
Definition IQS269_CHx_ENG_B_ATI_TARGET_MAX : Z := 2016.

Definition IQS269_CHx_WEIGHT_MAX : Z := 255.
Definition IQS269_CHx_THRESH_MAX : Z := 255.
Definition IQS269_CHx_HYST_DEEP_MASK : Z := GENMASK 7 4.
Definition IQS269_CHx_HYST_DEEP_SHIFT : Z := 4.
Definition IQS269_CHx_HYST_TOUCH_MASK : Z := GENMASK 3 0.
Definition IQS269_CHx_HYST_MAX : Z := 15.

Definition IQS269_CHx_HALL_INACTIVE : Z := 6.
Definition IQS269_CHx_HALL_ACTIVE : Z := 7.

Definition IQS269_HALL_UI : Z := 0xF5.
Definition IQS269_HALL_UI_ENABLE : Z := BIT 15.

Definition IQS269_OTP_OPTION_DEFAULT : Z := 0x00.
Definition IQS269_OTP_OPTION_TWS : Z := 0xD0.
Definition IQS269_OTP_OPTION_HOLD : Z := BIT 7.

Definition IQS269_NUM_CH : Z := 8.
Definition IQS269_NUM_SL : Z := 2.

(** Modelled from the spec: event codes of the input core
    ([uapi/linux/input-event-codes.h]), which is not part of the driver
    file; [KEY_RESERVED] is the empty entry of a code table. *)
Definition KEY_RESERVED : Z := 0.
Definition BTN_TOUCH : Z := 0x14a.
Definition ABS_X : Z := 0.

(** ** Enumerations and the fixed event table *)

Inductive iqs269_local_cap_size :=
  | IQS269_LOCAL_CAP_SIZE_0
  | IQS269_LOCAL_CAP_SIZE_GLOBAL_ONLY
  | IQS269_LOCAL_CAP_SIZE_GLOBAL_0pF5.

Inductive iqs269_st_offs :=
  | IQS269_ST_OFFS_PROX
  | IQS269_ST_OFFS_DIR
  | IQS269_ST_OFFS_TOUCH
  | IQS269_ST_OFFS_DEEP.

Inductive iqs269_th_offs :=
  | IQS269_TH_OFFS_PROX
  | IQS269_TH_OFFS_TOUCH
  | IQS269_TH_OFFS_DEEP.

Inductive iqs269_event_id :=
  | IQS269_EVENT_PROX_DN
  | IQS269_EVENT_PROX_UP
  | IQS269_EVENT_TOUCH_DN
  | IQS269_EVENT_TOUCH_UP
  | IQS269_EVENT_DEEP_DN
  | IQS269_EVENT_DEEP_UP.

Inductive iqs269_slider_id :=
  | IQS269_SLIDER_NONE
  | IQS269_SLIDER_KEY
  | IQS269_SLIDER_RAW.

Inductive iqs269_gesture_id :=
  | IQS269_GESTURE_TAP
  | IQS269_GESTURE_HOLD
  | IQS269_GESTURE_FLICK_POS
  | IQS269_GESTURE_FLICK_NEG.

Definition IQS269_NUM_GESTURES : Z := 4.

(** The value of an enumerator, as C numbers it. *)
Definition local_cap_size_val (c : iqs269_local_cap_size) : Z :=
  match c with
  | IQS269_LOCAL_CAP_SIZE_0 => 0
  | IQS269_LOCAL_CAP_SIZE_GLOBAL_ONLY => 1
  | IQS269_LOCAL_CAP_SIZE_GLOBAL_0pF5 => 2
  end.

Definition st_offs_val (o : iqs269_st_offs) : nat :=
  match o with
  | IQS269_ST_OFFS_PROX => 0
  | IQS269_ST_OFFS_DIR => 1
  | IQS269_ST_OFFS_TOUCH => 2
  | IQS269_ST_OFFS_DEEP => 3
  end%nat.

Definition th_offs_val (o : iqs269_th_offs) : nat :=
  match o with
  | IQS269_TH_OFFS_PROX => 0
  | IQS269_TH_OFFS_TOUCH => 1
  | IQS269_TH_OFFS_DEEP => 2
  end%nat.

Definition event_id_val (e : iqs269_event_id) : nat :=
  match e with
  | IQS269_EVENT_PROX_DN => 0
  | IQS269_EVENT_PROX_UP => 1
  | IQS269_EVENT_TOUCH_DN => 2
  | IQS269_EVENT_TOUCH_UP => 3
  | IQS269_EVENT_DEEP_DN => 4
  | IQS269_EVENT_DEEP_UP => 5
  end%nat.

Definition gesture_id_val (g : iqs269_gesture_id) : nat :=
  match g with
  | IQS269_GESTURE_TAP => 0
  | IQS269_GESTURE_HOLD => 1
  | IQS269_GESTURE_FLICK_POS => 2
  | IQS269_GESTURE_FLICK_NEG => 3
  end%nat.

Record iqs269_switch_desc := SwitchDesc {
  code : Z;
  enabled : bool;
}.

Record iqs269_event_desc := EventDesc {
  name : string;
  st_offs : iqs269_st_offs;
  th_offs : iqs269_th_offs;
  dir_up : bool;
  mask : Z;
}.

(** [iqs269_events], indexed by [iqs269_event_id]; a field the C initializer
    leaves out ([dir_up] of the "down" variants) is zero. *)
Definition iqs269_events : list iqs269_event_desc :=
  [ EventDesc "event-prox" IQS269_ST_OFFS_PROX IQS269_TH_OFFS_PROX
      false IQS269_EVENT_MASK_PROX;
    EventDesc "event-prox-alt" IQS269_ST_OFFS_PROX IQS269_TH_OFFS_PROX
      true IQS269_EVENT_MASK_PROX;
    EventDesc "event-touch" IQS269_ST_OFFS_TOUCH IQS269_TH_OFFS_TOUCH
      false IQS269_EVENT_MASK_TOUCH;
    EventDesc "event-touch-alt" IQS269_ST_OFFS_TOUCH IQS269_TH_OFFS_TOUCH
      true IQS269_EVENT_MASK_TOUCH;
    EventDesc "event-deep" IQS269_ST_OFFS_DEEP IQS269_TH_OFFS_DEEP
      false IQS269_EVENT_MASK_DEEP;
    EventDesc "event-deep-alt" IQS269_ST_OFFS_DEEP IQS269_TH_OFFS_DEEP
      true IQS269_EVENT_MASK_DEEP ].

(** ** Register structures *)

Record iqs269_ver_info := VerInfo {
  prod_num : Z;
  sw_num : Z;
  hw_num : Z;
  fw_num : Z;
}.

Record iqs269_ch_reg := ChReg {
  rx_enable : Z;
  tx_enable : Z;
  engine_a : be16;
  engine_b : be16;
  ati_comp : be16;
  thresh : list Z;
  hyst : Z;
  assoc_select : Z;
  assoc_weight : Z;
}.

Record iqs269_sys_reg := SysReg {
  general : be16;
  active : Z;
  filter : Z;
  reseed : Z;
  event_mask : Z;
  rate_np : Z;
  rate_lp : Z;
  rate_ulp : Z;
  timeout_pwr : Z;
  timeout_rdy : Z;
  timeout_lta : Z;
  misc_a : be16;
  misc_b : be16;
  blocking : Z;
  padding : Z;
  slider_select : list Z;
  timeout_tap : Z;
  timeout_swipe : Z;
  thresh_swipe : Z;
  redo_ati : Z;
  ch_reg : list iqs269_ch_reg;
}.

Record iqs269_flags := Flags {
  system : be16;
  gesture : Z;
  flags_padding : Z;
  states : list Z;
}.

(** [struct iqs269_private], without the handles of the kernel objects it
    points to (the I2C client, the register map, the mutex and the input
    devices); [ati_done] is the state of the completion: [true] once
    [complete_all] has run. *)
Record iqs269_private := Private {
  switches : list iqs269_switch_desc;
  ver_info : iqs269_ver_info;
  sys_reg : iqs269_sys_reg;
  ati_done : bool;
  keycode : list Z;
  sl_code : list (list Z);
  otp_option : Z;
  ch_num : Z;
  hall_enable : bool;
  ati_current : bool;
}.

#[global] Instance be16_inhabited : Inhabited be16 := populate (Be16 0 0).
#[global] Instance iqs269_ch_reg_inhabited : Inhabited iqs269_ch_reg :=
  populate (ChReg 0 0 inhabitant inhabitant inhabitant [] 0 0 0).
#[global] Instance iqs269_switch_desc_inhabited : Inhabited iqs269_switch_desc :=
  populate (SwitchDesc 0 false).
#[global] Instance iqs269_event_desc_inhabited : Inhabited iqs269_event_desc :=
  populate (EventDesc "" IQS269_ST_OFFS_PROX IQS269_TH_OFFS_PROX false 0).

(** *** Field stores *)

Definition set_rx_enable (v : Z) (r : iqs269_ch_reg) : iqs269_ch_reg :=
  ChReg v (tx_enable r) (engine_a r) (engine_b r) (ati_comp r) (thresh r)
    (hyst r) (assoc_select r) (assoc_weight r).
Definition set_tx_enable (v : Z) (r : iqs269_ch_reg) : iqs269_ch_reg :=
  ChReg (rx_enable r) v (engine_a r) (engine_b r) (ati_comp r) (thresh r)
    (hyst r) (assoc_select r) (assoc_weight r).
Definition set_engine_a (v : be16) (r : iqs269_ch_reg) : iqs269_ch_reg :=
  ChReg (rx_enable r) (tx_enable r) v (engine_b r) (ati_comp r) (thresh r)
    (hyst r) (assoc_select r) (assoc_weight r).
Definition set_engine_b (v : be16) (r : iqs269_ch_reg) : iqs269_ch_reg :=
  ChReg (rx_enable r) (tx_enable r) (engine_a r) v (ati_comp r) (thresh r)
    (hyst r) (assoc_select r) (assoc_weight r).
Definition set_thresh (v : list Z) (r : iqs269_ch_reg) : iqs269_ch_reg :=
  ChReg (rx_enable r) (tx_enable r) (engine_a r) (engine_b r) (ati_comp r) v
    (hyst r) (assoc_select r) (assoc_weight r).
Definition set_hyst (v : Z) (r : iqs269_ch_reg) : iqs269_ch_reg :=
  ChReg (rx_enable r) (tx_enable r) (engine_a r) (engine_b r) (ati_comp r)
    (thresh r) v (assoc_select r) (assoc_weight r).
Definition set_assoc_select (v : Z) (r : iqs269_ch_reg) : iqs269_ch_reg :=
  ChReg (rx_enable r) (tx_enable r) (engine_a r) (engine_b r) (ati_comp r)
    (thresh r) (hyst r) v (assoc_weight r).
Definition set_assoc_weight (v : Z) (r : iqs269_ch_reg) : iqs269_ch_reg :=
  ChReg (rx_enable r) (tx_enable r) (engine_a r) (engine_b r) (ati_comp r)
    (thresh r) (hyst r) (assoc_select r) v.

Definition set_general (v : be16) (r : iqs269_sys_reg) : iqs269_sys_reg :=
  SysReg v (active r) (filter r) (reseed r) (event_mask r) (rate_np r)
    (rate_lp r) (rate_ulp r) (timeout_pwr r) (timeout_rdy r) (timeout_lta r)
    (misc_a r) (misc_b r) (blocking r) (padding r) (slider_select r)
    (timeout_tap r) (timeout_swipe r) (thresh_swipe r) (redo_ati r) (ch_reg r).
Definition set_active (v : Z) (r : iqs269_sys_reg) : iqs269_sys_reg :=
  SysReg (general r) v (filter r) (reseed r) (event_mask r) (rate_np r)
    (rate_lp r) (rate_ulp r) (timeout_pwr r) (timeout_rdy r) (timeout_lta r)
    (misc_a r) (misc_b r) (blocking r) (padding r) (slider_select r)
    (timeout_tap r) (timeout_swipe r) (thresh_swipe r) (redo_ati r) (ch_reg r).
Definition set_filter (v : Z) (r : iqs269_sys_reg) : iqs269_sys_reg :=
  SysReg (general r) (active r) v (reseed r) (event_mask r) (rate_np r)
    (rate_lp r) (rate_ulp r) (timeout_pwr r) (timeout_rdy r) (timeout_lta r)
    (misc_a r) (misc_b r) (blocking r) (padding r) (slider_select r)
    (timeout_tap r) (timeout_swipe r) (thresh_swipe r) (redo_ati r) (ch_reg r).
Definition set_reseed (v : Z) (r : iqs269_sys_reg) : iqs269_sys_reg :=
  SysReg (general r) (active r) (filter r) v (event_mask r) (rate_np r)
    (rate_lp r) (rate_ulp r) (timeout_pwr r) (timeout_rdy r) (timeout_lta r)
    (misc_a r) (misc_b r) (blocking r) (padding r) (slider_select r)
    (timeout_tap r) (timeout_swipe r) (thresh_swipe r) (redo_ati r) (ch_reg r).
Definition set_event_mask (v : Z) (r : iqs269_sys_reg) : iqs269_sys_reg :=
  SysReg (general r) (active r) (filter r) (reseed r) v (rate_np r)
    (rate_lp r) (rate_ulp r) (timeout_pwr r) (timeout_rdy r) (timeout_lta r)
    (misc_a r) (misc_b r) (blocking r) (padding r) (slider_select r)
    (timeout_tap r) (timeout_swipe r) (thresh_swipe r) (redo_ati r) (ch_reg r).
Definition set_rate_np (v : Z) (r : iqs269_sys_reg) : iqs269_sys_reg :=
  SysReg (general r) (active r) (filter r) (reseed r) (event_mask r) v
    (rate_lp r) (rate_ulp r) (timeout_pwr r) (timeout_rdy r) (timeout_lta r)
    (misc_a r) (misc_b r) (blocking r) (padding r) (slider_select r)
    (timeout_tap r) (timeout_swipe r) (thresh_swipe r) (redo_ati r) (ch_reg r).
Definition set_rate_lp (v : Z) (r : iqs269_sys_reg) : iqs269_sys_reg :=
  SysReg (general r) (active r) (filter r) (reseed r) (event_mask r) (rate_np r)
    v (rate_ulp r) (timeout_pwr r) (timeout_rdy r) (timeout_lta r)
    (misc_a r) (misc_b r) (blocking r) (padding r) (slider_select r)
    (timeout_tap r) (timeout_swipe r) (thresh_swipe r) (redo_ati r) (ch_reg r).
Definition set_rate_ulp (v : Z) (r : iqs269_sys_reg) : iqs269_sys_reg :=
  SysReg (general r) (active r) (filter r) (reseed r) (event_mask r) (rate_np r)
    (rate_lp r) v (timeout_pwr r) (timeout_rdy r) (timeout_lta r)
    (misc_a r) (misc_b r) (blocking r) (padding r) (slider_select r)
    (timeout_tap r) (timeout_swipe r) (thresh_swipe r) (redo_ati r) (ch_reg r).
Definition set_timeout_pwr (v : Z) (r : iqs269_sys_reg) : iqs269_sys_reg :=
  SysReg (general r) (active r) (filter r) (reseed r) (event_mask r) (rate_np r)
    (rate_lp r) (rate_ulp r) v (timeout_rdy r) (timeout_lta r)
    (misc_a r) (misc_b r) (blocking r) (padding r) (slider_select r)
    (timeout_tap r) (timeout_swipe r) (thresh_swipe r) (redo_ati r) (ch_reg r).
Definition set_timeout_lta (v : Z) (r : iqs269_sys_reg) : iqs269_sys_reg :=
  SysReg (general r) (active r) (filter r) (reseed r) (event_mask r) (rate_np r)
    (rate_lp r) (rate_ulp r) (timeout_pwr r) (timeout_rdy r) v
    (misc_a r) (misc_b r) (blocking r) (padding r) (slider_select r)
    (timeout_tap r) (timeout_swipe r) (thresh_swipe r) (redo_ati r) (ch_reg r).
Definition set_misc_a (v : be16) (r : iqs269_sys_reg) : iqs269_sys_reg :=
  SysReg (general r) (active r) (filter r) (reseed r) (event_mask r) (rate_np r)
    (rate_lp r) (rate_ulp r) (timeout_pwr r) (timeout_rdy r) (timeout_lta r)
    v (misc_b r) (blocking r) (padding r) (slider_select r)
    (timeout_tap r) (timeout_swipe r) (thresh_swipe r) (redo_ati r) (ch_reg r).
Definition set_misc_b (v : be16) (r : iqs269_sys_reg) : iqs269_sys_reg :=
  SysReg (general r) (active r) (filter r) (reseed r) (event_mask r) (rate_np r)
    (rate_lp r) (rate_ulp r) (timeout_pwr r) (timeout_rdy r) (timeout_lta r)
    (misc_a r) v (blocking r) (padding r) (slider_select r)
    (timeout_tap r) (timeout_swipe r) (thresh_swipe r) (redo_ati r) (ch_reg r).
Definition set_blocking (v : Z) (r : iqs269_sys_reg) : iqs269_sys_reg :=
  SysReg (general r) (active r) (filter r) (reseed r) (event_mask r) (rate_np r)
    (rate_lp r) (rate_ulp r) (timeout_pwr r) (timeout_rdy r) (timeout_lta r)
    (misc_a r) (misc_b r) v (padding r) (slider_select r)
    (timeout_tap r) (timeout_swipe r) (thresh_swipe r) (redo_ati r) (ch_reg r).
Definition set_slider_select (v : list Z) (r : iqs269_sys_reg) : iqs269_sys_reg :=
  SysReg (general r) (active r) (filter r) (reseed r) (event_mask r) (rate_np r)
    (rate_lp r) (rate_ulp r) (timeout_pwr r) (timeout_rdy r) (timeout_lta r)
    (misc_a r) (misc_b r) (blocking r) (padding r) v
    (timeout_tap r) (timeout_swipe r) (thresh_swipe r) (redo_ati r) (ch_reg r).
Definition set_timeout_tap (v : Z) (r : iqs269_sys_reg) : iqs269_sys_reg :=
  SysReg (general r) (active r) (filter r) (reseed r) (event_mask r) (rate_np r)
    (rate_lp r) (rate_ulp r) (timeout_pwr r) (timeout_rdy r) (timeout_lta r)
    (misc_a r) (misc_b r) (blocking r) (padding r) (slider_select r)
    v (timeout_swipe r) (thresh_swipe r) (redo_ati r) (ch_reg r).
Definition set_timeout_swipe (v : Z) (r : iqs269_sys_reg) : iqs269_sys_reg :=
  SysReg (general r) (active r) (filter r) (reseed r) (event_mask r) (rate_np r)
    (rate_lp r) (rate_ulp r) (timeout_pwr r) (timeout_rdy r) (timeout_lta r)
    (misc_a r) (misc_b r) (blocking r) (padding r) (slider_select r)
    (timeout_tap r) v (thresh_swipe r) (redo_ati r) (ch_reg r).
Definition set_thresh_swipe (v : Z) (r : iqs269_sys_reg) : iqs269_sys_reg :=
  SysReg (general r) (active r) (filter r) (reseed r) (event_mask r) (rate_np r)
    (rate_lp r) (rate_ulp r) (timeout_pwr r) (timeout_rdy r) (timeout_lta r)
    (misc_a r) (misc_b r) (blocking r) (padding r) (slider_select r)
    (timeout_tap r) (timeout_swipe r) v (redo_ati r) (ch_reg r).
Definition set_redo_ati (v : Z) (r : iqs269_sys_reg) : iqs269_sys_reg :=
  SysReg (general r) (active r) (filter r) (reseed r) (event_mask r) (rate_np r)
    (rate_lp r) (rate_ulp r) (timeout_pwr r) (timeout_rdy r) (timeout_lta r)
    (misc_a r) (misc_b r) (blocking r) (padding r) (slider_select r)
    (timeout_tap r) (timeout_swipe r) (thresh_swipe r) v (ch_reg r).
Definition set_ch_reg (v : list iqs269_ch_reg) (r : iqs269_sys_reg) : iqs269_sys_reg :=
  SysReg (general r) (active r) (filter r) (reseed r) (event_mask r) (rate_np r)
    (rate_lp r) (rate_ulp r) (timeout_pwr r) (timeout_rdy r) (timeout_lta r)
    (misc_a r) (misc_b r) (blocking r) (padding r) (slider_select r)
    (timeout_tap r) (timeout_swipe r) (thresh_swipe r) (redo_ati r) v.

Definition set_switches (v : list iqs269_switch_desc) (p : iqs269_private) : iqs269_private :=
  Private v (ver_info p) (sys_reg p) (ati_done p) (keycode p) (sl_code p)
    (otp_option p) (ch_num p) (hall_enable p) (ati_current p).
Definition set_sys_reg (v : iqs269_sys_reg) (p : iqs269_private) : iqs269_private :=
  Private (switches p) (ver_info p) v (ati_done p) (keycode p) (sl_code p)
    (otp_option p) (ch_num p) (hall_enable p) (ati_current p).
Definition set_ati_done (v : bool) (p : iqs269_private) : iqs269_private :=
  Private (switches p) (ver_info p) (sys_reg p) v (keycode p) (sl_code p)
    (otp_option p) (ch_num p) (hall_enable p) (ati_current p).
Definition set_keycode (v : list Z) (p : iqs269_private) : iqs269_private :=
  Private (switches p) (ver_info p) (sys_reg p) (ati_done p) v (sl_code p)
    (otp_option p) (ch_num p) (hall_enable p) (ati_current p).
Definition set_sl_code (v : list (list Z)) (p : iqs269_private) : iqs269_private :=
  Private (switches p) (ver_info p) (sys_reg p) (ati_done p) (keycode p) v
    (otp_option p) (ch_num p) (hall_enable p) (ati_current p).
Definition set_hall_enable (v : bool) (p : iqs269_private) : iqs269_private :=
  Private (switches p) (ver_info p) (sys_reg p) (ati_done p) (keycode p)
    (sl_code p) (otp_option p) (ch_num p) v (ati_current p).
Definition set_ati_current (v : bool) (p : iqs269_private) : iqs269_private :=
  Private (switches p) (ver_info p) (sys_reg p) (ati_done p) (keycode p)
    (sl_code p) (otp_option p) (ch_num p) (hall_enable p) v.

(** Read-modify-write of the system register block, and of one channel
    block [sys_reg.ch_reg[n]] of it. *)
Definition upd_sys_reg (f : iqs269_sys_reg -> iqs269_sys_reg)
    (p : iqs269_private) : iqs269_private :=
  set_sys_reg (f (sys_reg p)) p.

Definition upd_ch_reg (n : nat) (f : iqs269_ch_reg -> iqs269_ch_reg)
    (p : iqs269_private) : iqs269_private :=
  upd_sys_reg (fun r => set_ch_reg (<[n := f (ch_reg r !!! n)]> (ch_reg r)) r) p.

(** ** The state-and-error monad of the driver functions

    A driver function takes the structure it works on by pointer and returns
    an [int]: zero, or a negative [errno].  [M S A] threads the structure
    ([S]) and either yields a value or stops with the error code; the
    structure as the failing call left it is still returned. *)

Inductive result (A : Type) : Type :=
  | Ok (a : A)
  | Err (e : Z).
Arguments Ok {A} a.
Arguments Err {A} e.

Definition M (S A : Type) : Type := S -> result A * S.

Definition ret {S A} (a : A) : M S A := fun s => (Ok a, s).
Definition throw {S A} (e : Z) : M S A := fun s => (Err e, s).
Definition bind {S A B} (m : M S A) (k : A -> M S B) : M S B :=
  fun s => match m s with
           | (Ok a, s') => k a s'
           | (Err e, s') => (Err e, s')
           end.
Definition gets {S A} (f : S -> A) : M S A := fun s => (Ok (f s), s).
Definition modify {S} (f : S -> S) : M S unit := fun s => (Ok tt, f s).

Notation "x <- c ;; k" := (bind c (fun x => k))
  (at level 100, c at next level, right associativity).
Notation "c ;; k" := (bind c (fun _ => k))
  (at level 100, right associativity).

(** [when c m]: an [if] without [else]. *)
Definition when {S} (c : bool) (m : M S unit) : M S unit :=
  if c then m else ret tt.

(** The [int] a C caller sees. *)
Definition retcode {A} (r : result A) : Z :=
  match r with Ok _ => 0 | Err e => e end.

(** ** ATI parameter accessors

    Each accessor holds [iqs269->lock] from its first access to the
    structure to its return ([guard(mutex)]); a call is therefore one
    transition of the structure, which is what a function of [M] is. *)

Definition iqs269_ati_mode_set (ch_num mode : Z) : M iqs269_private unit :=
  if ch_num >=? IQS269_NUM_CH then throw (- EINVAL) else
  if mode >? IQS269_CHx_ENG_A_ATI_MODE_MAX then throw (- EINVAL) else
  ch <- gets (fun p => ch_reg (sys_reg p) !!! Z.to_nat ch_num) ;;
  let engine_a := be16_to_cpu (engine_a ch) in
  let engine_a := u16 (Z.land engine_a (Z.lnot IQS269_CHx_ENG_A_ATI_MODE_MASK)) in
  let engine_a := u16 (Z.lor engine_a (Z.shiftl mode IQS269_CHx_ENG_A_ATI_MODE_SHIFT)) in
  modify (upd_ch_reg (Z.to_nat ch_num) (set_engine_a (cpu_to_be16 engine_a))) ;;
  modify (set_ati_current false) ;;
  ret tt.

Definition iqs269_ati_mode_get (ch_num : Z) : M iqs269_private Z :=
  if ch_num >=? IQS269_NUM_CH then throw (- EINVAL) else
  ch <- gets (fun p => ch_reg (sys_reg p) !!! Z.to_nat ch_num) ;;
  let engine_a := be16_to_cpu (engine_a ch) in
  let engine_a := u16 (Z.land engine_a IQS269_CHx_ENG_A_ATI_MODE_MASK) in
  ret (Z.shiftr engine_a IQS269_CHx_ENG_A_ATI_MODE_SHIFT).

Definition iqs269_ati_base_set (ch_num base : Z) : M iqs269_private unit :=
  if ch_num >=? IQS269_NUM_CH then throw (- EINVAL) else
  base <- (if base =? 75 then ret IQS269_CHx_ENG_B_ATI_BASE_75
           else if base =? 100 then ret IQS269_CHx_ENG_B_ATI_BASE_100
           else if base =? 150 then ret IQS269_CHx_ENG_B_ATI_BASE_150
           else if base =? 200 then ret IQS269_CHx_ENG_B_ATI_BASE_200
           else throw (- EINVAL)) ;;
  ch <- gets (fun p => ch_reg (sys_reg p) !!! Z.to_nat ch_num) ;;
  let engine_b := be16_to_cpu (engine_b ch) in
  let engine_b := u16 (Z.land engine_b (Z.lnot IQS269_CHx_ENG_B_ATI_BASE_MASK)) in
  let engine_b := u16 (Z.lor engine_b base) in
  modify (upd_ch_reg (Z.to_nat ch_num) (set_engine_b (cpu_to_be16 engine_b))) ;;
  modify (set_ati_current false) ;;
  ret tt.

Definition iqs269_ati_base_get (ch_num : Z) : M iqs269_private Z :=
  if ch_num >=? IQS269_NUM_CH then throw (- EINVAL) else
  ch <- gets (fun p => ch_reg (sys_reg p) !!! Z.to_nat ch_num) ;;
  let engine_b := be16_to_cpu (engine_b ch) in
  let sel := Z.land engine_b IQS269_CHx_ENG_B_ATI_BASE_MASK in
  if sel =? IQS269_CHx_ENG_B_ATI_BASE_75 then ret 75
  else if sel =? IQS269_CHx_ENG_B_ATI_BASE_100 then ret 100
  else if sel =? IQS269_CHx_ENG_B_ATI_BASE_150 then ret 150
  else if sel =? IQS269_CHx_ENG_B_ATI_BASE_200 then ret 200
  else throw (- EINVAL).

Definition iqs269_ati_target_set (ch_num target : Z) : M iqs269_private unit :=
  if ch_num >=? IQS269_NUM_CH then throw (- EINVAL) else
  if target >? IQS269_CHx_ENG_B_ATI_TARGET_MAX then throw (- EINVAL) else
  ch <- gets (fun p => ch_reg (sys_reg p) !!! Z.to_nat ch_num) ;;
  let engine_b := be16_to_cpu (engine_b ch) in
  let engine_b := u16 (Z.land engine_b (Z.lnot IQS269_CHx_ENG_B_ATI_TARGET_MASK)) in
  let engine_b := u16 (Z.lor engine_b (target / 32)) in
  modify (upd_ch_reg (Z.to_nat ch_num) (set_engine_b (cpu_to_be16 engine_b))) ;;
  modify (set_ati_current false) ;;
  ret tt.

Definition iqs269_ati_target_get (ch_num : Z) : M iqs269_private Z :=
  if ch_num >=? IQS269_NUM_CH then throw (- EINVAL) else
  ch <- gets (fun p => ch_reg (sys_reg p) !!! Z.to_nat ch_num) ;;
  let engine_b := be16_to_cpu (engine_b ch) in
  ret (Z.land engine_b IQS269_CHx_ENG_B_ATI_TARGET_MASK * 32).

(** ** Array sizes

    The C arrays have the sizes of their declarations:
    [ch_reg[IQS269_NUM_CH]], [thresh[3]], [slider_select[IQS269_NUM_SL]],
    [switches[ARRAY_SIZE(iqs269_events)]],
    [keycode[ARRAY_SIZE(iqs269_events) * IQS269_NUM_CH]] and
    [sl_code[IQS269_NUM_SL][IQS269_NUM_GESTURES]].  Lists carry no size in
    their type, so the size is a decidable predicate on the value. *)
Definition sized_sys_reg (r : iqs269_sys_reg) : bool :=
  Nat.eqb (length (ch_reg r)) 8
  && forallb (fun c => Nat.eqb (length (thresh c)) 3) (ch_reg r)
  && Nat.eqb (length (slider_select r)) 2.

Definition sized (p : iqs269_private) : bool :=
  sized_sys_reg (sys_reg p)
  && Nat.eqb (length (switches p)) 6
  && Nat.eqb (length (keycode p)) 48
  && Nat.eqb (length (sl_code p)) 2
  && forallb (fun g => Nat.eqb (length g) 4) (sl_code p).

(** The private structure as [devm_kzalloc] hands it to [iqs269_probe]:
    every byte zero. *)
Definition zero_ch_reg : iqs269_ch_reg :=
  ChReg 0 0 (Be16 0 0) (Be16 0 0) (Be16 0 0) [0; 0; 0] 0 0 0.

Definition zero_sys_reg : iqs269_sys_reg :=
  SysReg (Be16 0 0) 0 0 0 0 0 0 0 0 0 0 (Be16 0 0) (Be16 0 0) 0 0 [0; 0]
    0 0 0 0 (replicate 8 zero_ch_reg).

Definition kzalloc_private : iqs269_private :=
  Private (replicate 6 (SwitchDesc 0 false)) (VerInfo 0 0 0 0) zero_sys_reg
    false (replicate 48 0) (replicate 2 (replicate 4 0)) 0 0 false false.

(** ** The configuration source *)

#[local] Set Warnings "-register-all".

(** Modelled from the spec: the firmware-node interface of the kernel
    ([linux/property.h]) is not part of the driver file.  The driver consumes
    it "only as a set of named, typed key/value lookups": a node has a name,
    named properties and child nodes.  A property holds an array of [u32]
    cells; a boolean property is one that is present, with no cells. *)
Inductive fwnode_handle : Type :=
  | FwNode (node_name : string) (node_props : gmap string (list Z))
      (node_children : list fwnode_handle).

Definition node_name (n : fwnode_handle) : string :=
  match n with FwNode s _ _ => s end.
Definition node_props (n : fwnode_handle) : gmap string (list Z) :=
  match n with FwNode _ m _ => m end.
Definition node_children (n : fwnode_handle) : list fwnode_handle :=
  match n with FwNode _ _ l => l end.

(** Modelled from the spec: presence lookup. *)
Definition fwnode_property_present (n : fwnode_handle) (propname : string) : bool :=
  match node_props n !! propname with
  | Some _ => true
  | None => false
  end.

(** Modelled from the spec: scalar lookup.  A missing property is [-EINVAL]
    (the driver tests for exactly this code when it reads "linux,code"); a
    property too short to hold one cell is [-EOVERFLOW]. *)
Definition fwnode_property_read_u32 (n : fwnode_handle) (propname : string) : result Z :=
  match node_props n !! propname with
  | None => Err (- EINVAL)
  | Some [] => Err (- EOVERFLOW)
  | Some (v :: _) => Ok v
  end.

(** Modelled from the spec: number of cells of an array property, or a
    negative [errno] when the property is missing. *)
Definition fwnode_property_count_u32 (n : fwnode_handle) (propname : string) : Z :=
  match node_props n !! propname with
  | None => - EINVAL
  | Some l => Z.of_nat (length l)
  end.

(** Modelled from the spec: array lookup of the first [nval] cells. *)
Definition fwnode_property_read_u32_array (n : fwnode_handle) (propname : string)
    (nval : Z) : result (list Z) :=
  match node_props n !! propname with
  | None => Err (- EINVAL)
  | Some l =>
      if Z.of_nat (length l) <? nval then Err (- EOVERFLOW)
      else Ok (take (Z.to_nat nval) l)
  end.

(** Modelled from the spec: the first child node of that name, if any. *)
Definition fwnode_get_named_child_node (n : fwnode_handle) (childname : string)
    : option fwnode_handle :=
  List.find (fun c => String.eqb (node_name c) childname) (node_children n).

(** ** Control structure *)

(** A result computed outside the structure, brought into the monad. *)
Definition lift {S A} (r : result A) : M S A := fun s => (r, s).

(** A callee that receives a pointer to one field of the structure. *)
Definition zoom {S T A} (get : S -> T) (put : T -> S -> S) (m : M T A) : M S A :=
  fun s => match m (get s) with (r, t) => (r, put t s) end.

(** A [for] loop over the elements of a list; an error leaves the loop. *)
Fixpoint for_each {S A} (l : list A) (body : A -> M S unit) : M S unit :=
  match l with
  | [] => ret tt
  | x :: l' => body x ;; for_each l' body
  end.

(** ** Parsing one channel node *)

(** The loop of [iqs269_parse_mask] over the cells read. *)
Fixpoint parse_mask_cells (val : list Z) : M Z unit :=
  match val with
  | [] => ret tt
  | v :: rest =>
      if v >=? IQS269_NUM_CH then throw (- EINVAL) else
      modify (fun mask => u8 (Z.lor mask (BIT v))) ;;
      parse_mask_cells rest
  end.

(** [iqs269_parse_mask]; the state is the byte [*mask]. *)
Definition iqs269_parse_mask (fwnode : fwnode_handle) (propname : string) : M Z unit :=
  let count := fwnode_property_count_u32 fwnode propname in
  if count <? 0 then ret tt else
  if count >? IQS269_NUM_CH then throw (- EINVAL) else
  val <- lift (fwnode_property_read_u32_array fwnode propname count) ;;
  modify (fun _ => 0) ;;
  parse_mask_cells val.

(** [if (!fwnode_property_read_u32(node, propname, &val)) { body }]: the
    body runs when the property could be read, and any failure to read it is
    ignored. *)
Definition if_read_u32 {S} (n : fwnode_handle) (propname : string)
    (body : Z -> M S unit) : M S unit :=
  match fwnode_property_read_u32 n propname with
  | Ok val => body val
  | Err _ => ret tt
  end.

(** The "azoteq,thresh" block of the event loop of [iqs269_parse_chan]. *)
Definition parse_event_thresh (reg : Z) (i : nat) (ev_node : fwnode_handle)
    : M iqs269_private unit :=
  if_read_u32 ev_node "azoteq,thresh" (fun val =>
    if val >? IQS269_CHx_THRESH_MAX then throw (- EINVAL) else
    modify (upd_ch_reg (Z.to_nat reg) (fun c =>
      set_thresh (<[th_offs_val (th_offs (iqs269_events !!! i)) := u8 val]> (thresh c)) c))).

(** The "azoteq,hyst" block of the event loop of [iqs269_parse_chan]: the
    deep-touch events own the high nibble of [ch_reg->hyst], the touch events
    the low nibble, and the proximity events have no hysteresis field. *)
Definition parse_event_hyst (reg : Z) (i : nat) (ev_node : fwnode_handle)
    : M iqs269_private unit :=
  if_read_u32 ev_node "azoteq,hyst" (fun val =>
    if val >? IQS269_CHx_HYST_MAX then throw (- EINVAL) else
    if Nat.eqb i (event_id_val IQS269_EVENT_DEEP_DN)
       || Nat.eqb i (event_id_val IQS269_EVENT_DEEP_UP) then
      modify (upd_ch_reg (Z.to_nat reg) (fun c =>
        let hyst := u8 (Z.land (hyst c) (Z.lnot IQS269_CHx_HYST_DEEP_MASK)) in
        let hyst := u8 (Z.lor hyst (Z.shiftl val IQS269_CHx_HYST_DEEP_SHIFT)) in
        set_hyst hyst c))
    else if Nat.eqb i (event_id_val IQS269_EVENT_TOUCH_DN)
            || Nat.eqb i (event_id_val IQS269_EVENT_TOUCH_UP) then
      modify (upd_ch_reg (Z.to_nat reg) (fun c =>
        let hyst := u8 (Z.land (hyst c) (Z.lnot IQS269_CHx_HYST_TOUCH_MASK)) in
        let hyst := u8 (Z.lor hyst val) in
        set_hyst hyst c))
    else ret tt).

(** The "linux,code" block of the event loop of [iqs269_parse_chan],
    with the [switch (reg)] that singles out the Hall-effect channel pair. *)
Definition parse_event_code (reg : Z) (i : nat) (ev_node : fwnode_handle)
    : M iqs269_private unit :=
  match fwnode_property_read_u32 ev_node "linux,code" with
  | Err error =>
      if error =? - EINVAL then ret tt else throw error
  | Ok val =>
      hall <- gets hall_enable ;;
      when ((reg =? IQS269_CHx_HALL_ACTIVE) && hall)
        (modify (fun p => set_switches (<[i := SwitchDesc val true]> (switches p)) p)) ;;
      when (negb (((reg =? IQS269_CHx_HALL_ACTIVE) || (reg =? IQS269_CHx_HALL_INACTIVE))
                  && hall))
        (modify (fun p =>
           set_keycode (<[(i * Z.to_nat IQS269_NUM_CH + Z.to_nat reg)%nat := val]>
                          (keycode p)) p)) ;;
      modify (upd_sys_reg (fun r =>
        set_event_mask
          (u8 (Z.land (event_mask r) (Z.lnot (mask (iqs269_events !!! i))))) r))
  end.

(** One iteration of the event loop of [iqs269_parse_chan]. *)
Definition parse_event (reg : Z) (ch_node : fwnode_handle) (i : nat)
    : M iqs269_private unit :=
  match fwnode_get_named_child_node ch_node (name (iqs269_events !!! i)) with
  | None => ret tt
  | Some ev_node =>
      parse_event_thresh reg i ev_node ;;
      parse_event_hyst reg i ev_node ;;
      parse_event_code reg i ev_node
  end.

(** The byte fields of channel [n] that [iqs269_parse_mask] is pointed at. *)
Definition zoom_ch {A} (n : nat) (get : iqs269_ch_reg -> Z)
    (put : Z -> iqs269_ch_reg -> iqs269_ch_reg) (m : M Z A) : M iqs269_private A :=
  zoom (fun p => get (ch_reg (sys_reg p) !!! n)) (fun v => upd_ch_reg n (put v)) m.

(** The part of [iqs269_parse_chan] that builds the two engine words in the
    locals [engine_a] and [engine_b]; it yields their final values. *)
Definition parse_chan_engine (ch_node : fwnode_handle) (engine_a engine_b : Z)
    : M iqs269_private (Z * Z) :=
  let engine_a := u16 (Z.lor engine_a IQS269_CHx_ENG_A_MEAS_CAP_SIZE) in
  let engine_a :=
    if fwnode_property_present ch_node "azoteq,meas-cap-decrease"
    then u16 (Z.land engine_a (Z.lnot IQS269_CHx_ENG_A_MEAS_CAP_SIZE))
    else engine_a in
  let engine_a := u16 (Z.lor engine_a IQS269_CHx_ENG_A_RX_GND_INACTIVE) in
  let engine_a :=
    if fwnode_property_present ch_node "azoteq,rx-float-inactive"
    then u16 (Z.land engine_a (Z.lnot IQS269_CHx_ENG_A_RX_GND_INACTIVE))
    else engine_a in
  let engine_a := u16 (Z.land engine_a (Z.lnot IQS269_CHx_ENG_A_LOCAL_CAP_SIZE)) in
  let engine_b := u16 (Z.land engine_b (Z.lnot IQS269_CHx_ENG_B_LOCAL_CAP_ENABLE)) in
  eng <- match fwnode_property_read_u32 ch_node "azoteq,local-cap-size" with
         | Ok val =>
             if val =? local_cap_size_val IQS269_LOCAL_CAP_SIZE_0 then
               ret (engine_a, engine_b)
             else if val =? local_cap_size_val IQS269_LOCAL_CAP_SIZE_GLOBAL_0pF5 then
               ret (u16 (Z.lor engine_a IQS269_CHx_ENG_A_LOCAL_CAP_SIZE),
                    u16 (Z.lor engine_b IQS269_CHx_ENG_B_LOCAL_CAP_ENABLE))
             else if val =? local_cap_size_val IQS269_LOCAL_CAP_SIZE_GLOBAL_ONLY then
               ret (engine_a, u16 (Z.lor engine_b IQS269_CHx_ENG_B_LOCAL_CAP_ENABLE))
             else throw (- EINVAL)
         | Err _ => ret (engine_a, engine_b)
         end ;;
  let engine_a := fst eng in
  let engine_b := snd eng in
  let engine_a := u16 (Z.land engine_a (Z.lnot IQS269_CHx_ENG_A_INV_LOGIC)) in
  let engine_a :=
    if fwnode_property_present ch_node "azoteq,invert-enable"
    then u16 (Z.lor engine_a IQS269_CHx_ENG_A_INV_LOGIC)
    else engine_a in
  engine_a <- match fwnode_property_read_u32 ch_node "azoteq,proj-bias" with
              | Ok val =>
                  if val >? IQS269_CHx_ENG_A_PROJ_BIAS_MAX then throw (- EINVAL) else
                  let engine_a :=
                    u16 (Z.land engine_a (Z.lnot IQS269_CHx_ENG_A_PROJ_BIAS_MASK)) in
                  ret (u16 (Z.lor engine_a (Z.shiftl val IQS269_CHx_ENG_A_PROJ_BIAS_SHIFT)))
              | Err _ => ret engine_a
              end ;;
  engine_a <- match fwnode_property_read_u32 ch_node "azoteq,sense-mode" with
              | Ok val =>
                  if val >? IQS269_CHx_ENG_A_SENSE_MODE_MAX then throw (- EINVAL) else
                  let engine_a :=
                    u16 (Z.land engine_a (Z.lnot IQS269_CHx_ENG_A_SENSE_MODE_MASK)) in
                  ret (u16 (Z.lor engine_a val))
              | Err _ => ret engine_a
              end ;;
  engine_b <- match fwnode_property_read_u32 ch_node "azoteq,sense-freq" with
              | Ok val =>
                  if val >? IQS269_CHx_ENG_B_SENSE_FREQ_MAX then throw (- EINVAL) else
                  let engine_b :=
                    u16 (Z.land engine_b (Z.lnot IQS269_CHx_ENG_B_SENSE_FREQ_MASK)) in
                  ret (u16 (Z.lor engine_b (Z.shiftl val IQS269_CHx_ENG_B_SENSE_FREQ_SHIFT)))
              | Err _ => ret engine_b
              end ;;
  let engine_b := u16 (Z.land engine_b (Z.lnot IQS269_CHx_ENG_B_STATIC_ENABLE)) in
  let engine_b :=
    if fwnode_property_present ch_node "azoteq,static-enable"
    then u16 (Z.lor engine_b IQS269_CHx_ENG_B_STATIC_ENABLE)
    else engine_b in
  ret (engine_a, engine_b).

(** [iqs269_parse_chan] ([dev_err] only logs and is left out). *)
Definition iqs269_parse_chan (ch_node : fwnode_handle) : M iqs269_private unit :=
  reg <- lift (fwnode_property_read_u32 ch_node "reg") ;;
  if reg >=? IQS269_NUM_CH then throw (- EINVAL) else
  let n := Z.to_nat reg in
  modify (upd_sys_reg (fun r => set_active (u8 (Z.lor (active r) (BIT reg))) r)) ;;
  when (negb (fwnode_property_present ch_node "azoteq,reseed-disable"))
    (modify (upd_sys_reg (fun r => set_reseed (u8 (Z.lor (reseed r) (BIT reg))) r))) ;;
  when (fwnode_property_present ch_node "azoteq,blocking-enable")
    (modify (upd_sys_reg (fun r => set_blocking (u8 (Z.lor (blocking r) (BIT reg))) r))) ;;
  when (fwnode_property_present ch_node "azoteq,slider0-select")
    (modify (upd_sys_reg (fun r =>
       set_slider_select
         (<[0%nat := u8 (Z.lor (slider_select r !!! 0%nat) (BIT reg))]> (slider_select r)) r))) ;;
  otp <- gets otp_option ;;
  when (fwnode_property_present ch_node "azoteq,slider1-select"
        && (Z.land otp IQS269_OTP_OPTION_HOLD =? 0))
    (modify (upd_sys_reg (fun r =>
       set_slider_select
         (<[1%nat := u8 (Z.lor (slider_select r !!! 1%nat) (BIT reg))]> (slider_select r)) r))) ;;
  zoom_ch n rx_enable set_rx_enable (iqs269_parse_mask ch_node "azoteq,rx-enable") ;;
  zoom_ch n tx_enable set_tx_enable (iqs269_parse_mask ch_node "azoteq,tx-enable") ;;
  ch <- gets (fun p => ch_reg (sys_reg p) !!! n) ;;
  eng <- parse_chan_engine ch_node (be16_to_cpu (engine_a ch)) (be16_to_cpu (engine_b ch)) ;;
  modify (upd_ch_reg n (set_engine_a (cpu_to_be16 (fst eng)))) ;;
  modify (upd_ch_reg n (set_engine_b (cpu_to_be16 (snd eng)))) ;;
  if_read_u32 ch_node "azoteq,ati-mode" (fun val => iqs269_ati_mode_set reg val) ;;
  if_read_u32 ch_node "azoteq,ati-base" (fun val => iqs269_ati_base_set reg val) ;;
  if_read_u32 ch_node "azoteq,ati-target" (fun val => iqs269_ati_target_set reg val) ;;
  zoom_ch n assoc_select set_assoc_select (iqs269_parse_mask ch_node "azoteq,assoc-select") ;;
  if_read_u32 ch_node "azoteq,assoc-weight" (fun val =>
    if val >? IQS269_CHx_WEIGHT_MAX then throw (- EINVAL) else
    modify (upd_ch_reg n (set_assoc_weight (u8 val)))) ;;
  for_each (seq 0 (length iqs269_events)) (parse_event reg ch_node).

(** ** The bus *)

(** Modelled from the spec: the register map ([linux/regmap.h]) is not part
    of the driver file; the spec gives it as the consumed bus primitive
    "[read(offset, length) → bytes | Error], [write(offset, bytes) → () |
    Error]".  Each driver function below issues each of its transfers at most
    once, so the bus is given by the answer it has for each of them: the data
    or a negative [errno] for a read, zero or a negative [errno] for a
    write. *)
Record regmap := Regmap {
  sys_settings_read : result iqs269_sys_reg;
  sys_flags_read : result iqs269_flags;
  slider_x_read : result (list Z);
  tws_init_write : Z;
  hall_ui_update : Z;
  sys_settings_write : Z;
}.

(** [error = f(...); if (error) return error;] *)
Definition check {S} (error : Z) : M S unit :=
  if error =? 0 then ret tt else throw error.

(** ** Slider operating mode *)

#[global] Instance list_Z_inhabited : Inhabited (list Z) := populate [].

Definition slider_id_eqb (a b : iqs269_slider_id) : bool :=
  match a, b with
  | IQS269_SLIDER_NONE, IQS269_SLIDER_NONE
  | IQS269_SLIDER_KEY, IQS269_SLIDER_KEY
  | IQS269_SLIDER_RAW, IQS269_SLIDER_RAW => true
  | _, _ => false
  end.

Definition iqs269_slider_type (p : iqs269_private) (slider_num : nat) : iqs269_slider_id :=
  if negb (Nat.eqb slider_num 0)
     && negb (Z.land (otp_option p) IQS269_OTP_OPTION_HOLD =? 0)
  then IQS269_SLIDER_NONE
  else if slider_select (sys_reg p) !!! slider_num =? 0
  then IQS269_SLIDER_NONE
  else if existsb (fun i => negb (((sl_code p !!! slider_num) !!! i) =? KEY_RESERVED))
            (seq 0 (Z.to_nat IQS269_NUM_GESTURES))
  then IQS269_SLIDER_KEY
  else IQS269_SLIDER_RAW.

(** ** Parsing the device node *)

(** A two-bit sub-field of [sys_reg->filter]. *)
Definition parse_filt_str (dev : fwnode_handle) (propname : string)
    (field_mask field_shift : Z) : M iqs269_private unit :=
  if_read_u32 dev propname (fun val =>
    if val >? IQS269_FILT_STR_MAX then throw (- EINVAL) else
    modify (upd_sys_reg (fun r =>
      let filter := u8 (Z.land (filter r) (Z.lnot field_mask)) in
      let filter := u8 (Z.lor filter (Z.shiftl val field_shift)) in
      set_filter filter r))).

(** The filter strengths, report rates and timeouts of [iqs269_parse_prop]. *)
Definition parse_prop_rates (dev : fwnode_handle) : M iqs269_private unit :=
  parse_filt_str dev "azoteq,filt-str-lp-lta"
    IQS269_FILT_STR_LP_LTA_MASK IQS269_FILT_STR_LP_LTA_SHIFT ;;
  parse_filt_str dev "azoteq,filt-str-lp-cnt"
    IQS269_FILT_STR_LP_CNT_MASK IQS269_FILT_STR_LP_CNT_SHIFT ;;
  parse_filt_str dev "azoteq,filt-str-np-lta"
    IQS269_FILT_STR_NP_LTA_MASK IQS269_FILT_STR_NP_LTA_SHIFT ;;
  parse_filt_str dev "azoteq,filt-str-np-cnt" IQS269_FILT_STR_NP_CNT_MASK 0 ;;
  if_read_u32 dev "azoteq,rate-np-ms" (fun val =>
    if val >? IQS269_RATE_NP_MS_MAX then throw (- EINVAL) else
    modify (upd_sys_reg (set_rate_np (u8 val)))) ;;
  if_read_u32 dev "azoteq,rate-lp-ms" (fun val =>
    if val >? IQS269_RATE_LP_MS_MAX then throw (- EINVAL) else
    modify (upd_sys_reg (set_rate_lp (u8 val)))) ;;
  if_read_u32 dev "azoteq,rate-ulp-ms" (fun val =>
    if val >? IQS269_RATE_ULP_MS_MAX then throw (- EINVAL) else
    modify (upd_sys_reg (set_rate_ulp (u8 (val / 16))))) ;;
  if_read_u32 dev "azoteq,timeout-pwr-ms" (fun val =>
    if val >? IQS269_TIMEOUT_PWR_MS_MAX then throw (- EINVAL) else
    modify (upd_sys_reg (set_timeout_pwr (u8 (val / 512))))) ;;
  if_read_u32 dev "azoteq,timeout-lta-ms" (fun val =>
    if val >? IQS269_TIMEOUT_LTA_MS_MAX then throw (- EINVAL) else
    modify (upd_sys_reg (set_timeout_lta (u8 (val / 512))))).

(** [w &= ~bit; if (present) w |= bit;] on a 16-bit local. *)
Definition flag16 (dev : fwnode_handle) (propname : string) (bit w : Z) : Z :=
  let w := u16 (Z.land w (Z.lnot bit)) in
  if fwnode_property_present dev propname then u16 (Z.lor w bit) else w.

(** The two "misc" words of [iqs269_parse_prop], built in the locals
    [misc_a] and [misc_b] and stored at the end. *)
Definition parse_prop_misc (dev : fwnode_handle) : M iqs269_private unit :=
  r <- gets sys_reg ;;
  let misc_a := be16_to_cpu (misc_a r) in
  let misc_b := be16_to_cpu (misc_b r) in
  let misc_a := flag16 dev "azoteq,ati-band-disable" IQS269_MISC_A_ATI_BAND_DISABLE misc_a in
  let misc_a := flag16 dev "azoteq,ati-lp-only" IQS269_MISC_A_ATI_LP_ONLY misc_a in
  let misc_a := flag16 dev "azoteq,ati-band-tighten" IQS269_MISC_A_ATI_BAND_TIGHTEN misc_a in
  let misc_a := flag16 dev "azoteq,filt-disable" IQS269_MISC_A_FILT_DISABLE misc_a in
  misc_a <- match fwnode_property_read_u32 dev "azoteq,gpio3-select" with
            | Ok val =>
                if val >=? IQS269_NUM_CH then throw (- EINVAL) else
                let misc_a := u16 (Z.land misc_a (Z.lnot IQS269_MISC_A_GPIO3_SELECT_MASK)) in
                ret (u16 (Z.lor misc_a (Z.shiftl val IQS269_MISC_A_GPIO3_SELECT_SHIFT)))
            | Err _ => ret misc_a
            end ;;
  let misc_a := flag16 dev "azoteq,dual-direction" IQS269_MISC_A_DUAL_DIR misc_a in
  misc_a <- match fwnode_property_read_u32 dev "azoteq,tx-freq" with
            | Ok val =>
                if val >? IQS269_MISC_A_TX_FREQ_MAX then throw (- EINVAL) else
                let misc_a := u16 (Z.land misc_a (Z.lnot IQS269_MISC_A_TX_FREQ_MASK)) in
                ret (u16 (Z.lor misc_a (Z.shiftl val IQS269_MISC_A_TX_FREQ_SHIFT)))
            | Err _ => ret misc_a
            end ;;
  let misc_a := flag16 dev "azoteq,global-cap-increase" IQS269_MISC_A_GLOBAL_CAP_SIZE misc_a in
  misc_b <- match fwnode_property_read_u32 dev "azoteq,reseed-select" with
            | Ok val =>
                if val >? IQS269_MISC_B_RESEED_UI_SEL_MAX then throw (- EINVAL) else
                let misc_b := u16 (Z.land misc_b (Z.lnot IQS269_MISC_B_RESEED_UI_SEL_MASK)) in
                ret (u16 (Z.lor misc_b (Z.shiftl val IQS269_MISC_B_RESEED_UI_SEL_SHIFT)))
            | Err _ => ret misc_b
            end ;;
  let misc_b := flag16 dev "azoteq,tracking-enable" IQS269_MISC_B_TRACKING_UI_ENABLE misc_b in
  misc_b <- match fwnode_property_read_u32 dev "azoteq,filt-str-slider" with
            | Ok val =>
                if val >? IQS269_FILT_STR_MAX then throw (- EINVAL) else
                let misc_b := u16 (Z.land misc_b (Z.lnot IQS269_MISC_B_FILT_STR_SLIDER)) in
                ret (u16 (Z.lor misc_b val))
            | Err _ => ret misc_b
            end ;;
  modify (upd_sys_reg (set_misc_a (cpu_to_be16 misc_a))) ;;
  modify (upd_sys_reg (set_misc_b (cpu_to_be16 misc_b))).

(** The touch-and-hold block of [iqs269_parse_prop]: with the OTP option the
    selection byte of slider 1 holds the timer ceiling. *)
Definition parse_prop_touch_hold (dev : fwnode_handle) : M iqs269_private unit :=
  p <- gets (fun p => p) ;;
  let store v := modify (upd_sys_reg (fun r =>
                   set_slider_select (<[1%nat := u8 v]> (slider_select r)) r)) in
  if negb (Z.land (otp_option p) IQS269_OTP_OPTION_HOLD =? 0) then
    match fwnode_property_read_u32 dev "azoteq,touch-hold-ms" with
    | Ok val =>
        if (val <? IQS269_TOUCH_HOLD_MS_MIN) || (val >? IQS269_TOUCH_HOLD_MS_MAX)
        then throw (- EINVAL)
        else store (val / 256)
    | Err _ =>
        if fw_num (ver_info p) <? IQS269_VER_INFO_FW_NUM_3
        then store IQS269_TOUCH_HOLD_DEFAULT
        else ret tt
    end
  else store 0.

(** [device_property_read_u32_array(dev, "linux,keycodes", *iqs269->sl_code,
    count)]: the cells overwrite the first [count] entries of the
    two-dimensional table, row after row. *)
Definition store_sl_code (val : list Z) (sl_code : list (list Z)) : list (list Z) :=
  let flat := val ++ drop (length val) (concat sl_code) in
  [take 4 flat; take 4 (drop 4 flat)].

(** The three range-checked stores of the "linux,keycodes" block of
    [iqs269_parse_prop], for the value [scale] has when they are reached. *)
Definition parse_gesture_params (dev : fwnode_handle) (scale : Z)
    : M iqs269_private unit :=
  if_read_u32 dev "azoteq,timeout-tap-ms" (fun val =>
    if val >? IQS269_TIMEOUT_TAP_MS_MAX / scale then throw (- EINVAL) else
    modify (upd_sys_reg (set_timeout_tap (u8 (val / (16 / scale)))))) ;;
  if_read_u32 dev "azoteq,timeout-swipe-ms" (fun val =>
    if val >? IQS269_TIMEOUT_SWIPE_MS_MAX / scale then throw (- EINVAL) else
    modify (upd_sys_reg (set_timeout_swipe (u8 (val / (16 / scale)))))) ;;
  if_read_u32 dev "azoteq,thresh-swipe" (fun val =>
    if val >? IQS269_THRESH_SWIPE_MAX then throw (- EINVAL) else
    modify (upd_sys_reg (set_thresh_swipe (u8 val)))).

(** The "linux,keycodes" block of [iqs269_parse_prop]: slider gesture codes,
    tap and swipe timeouts and the swipe threshold.  [general] is the local
    of that name; its new value is returned. *)
Definition parse_prop_gestures (dev : fwnode_handle) (general : Z)
    : M iqs269_private Z :=
  if fwnode_property_present dev "linux,keycodes" then
    let scale := 1 in
    let count := fwnode_property_count_u32 dev "linux,keycodes" in
    if count >? IQS269_NUM_GESTURES * IQS269_NUM_SL then throw (- EINVAL)
    else if count <? 0 then throw count
    else
    val <- lift (fwnode_property_read_u32_array dev "linux,keycodes" count) ;;
    modify (fun p => set_sl_code (store_sl_code val (sl_code p)) p) ;;
    let general :=
      if fwnode_property_present dev "azoteq,gesture-swipe"
      then u16 (Z.lor general IQS269_SYS_SETTINGS_SLIDER_SWIPE)
      else general in
    fw <- gets (fun p => fw_num (ver_info p)) ;;
    let scale := if fw <? IQS269_VER_INFO_FW_NUM_3 then 4 else scale in
    parse_gesture_params dev scale ;;
    modify (upd_sys_reg (fun r =>
      set_event_mask (u8 (Z.land (event_mask r) (Z.lnot IQS269_EVENT_MASK_GESTURE))) r)) ;;
    ret general
  else ret general.

(** The "general" word of [iqs269_parse_prop], from reading it into the
    local to storing it back. *)
Definition parse_prop_general (dev : fwnode_handle) : M iqs269_private unit :=
  r <- gets sys_reg ;;
  let general := be16_to_cpu (general r) in
  let general :=
    if fwnode_property_present dev "azoteq,clk-div"
    then u16 (Z.lor general IQS269_SYS_SETTINGS_CLK_DIV)
    else general in
  let general := u16 (Z.land general (Z.lnot IQS269_SYS_SETTINGS_ULP_AUTO)) in
  let general := u16 (Z.land general (Z.lnot IQS269_SYS_SETTINGS_DIS_AUTO)) in
  let general := u16 (Z.land general (Z.lnot IQS269_SYS_SETTINGS_PWR_MODE_MASK)) in
  general <- match fwnode_property_read_u32 dev "azoteq,suspend-mode" with
             | Ok val =>
                 if val >? IQS269_SYS_SETTINGS_PWR_MODE_MAX then throw (- EINVAL) else
                 ret (u16 (Z.lor general (Z.shiftl val IQS269_SYS_SETTINGS_PWR_MODE_SHIFT)))
             | Err _ => ret general
             end ;;
  general <- match fwnode_property_read_u32 dev "azoteq,ulp-update" with
             | Ok val =>
                 if val >? IQS269_SYS_SETTINGS_ULP_UPDATE_MAX then throw (- EINVAL) else
                 let general :=
                   u16 (Z.land general (Z.lnot IQS269_SYS_SETTINGS_ULP_UPDATE_MASK)) in
                 ret (u16 (Z.lor general (Z.shiftl val IQS269_SYS_SETTINGS_ULP_UPDATE_SHIFT)))
             | Err _ => ret general
             end ;;
  general <- parse_prop_gestures dev general ;;
  let general := flag16 dev "azoteq,reseed-offset" IQS269_SYS_SETTINGS_RESEED_OFFSET general in
  let general := u16 (Z.lor general IQS269_SYS_SETTINGS_EVENT_MODE) in
  p <- gets (fun p => p) ;;
  let general :=
    if slider_id_eqb (iqs269_slider_type p 0) IQS269_SLIDER_RAW
       || slider_id_eqb (iqs269_slider_type p 1) IQS269_SLIDER_RAW
    then u16 (Z.lor general IQS269_SYS_SETTINGS_EVENT_MODE_LP)
    else general in
  let general := u16 (Z.lor general IQS269_SYS_SETTINGS_REDO_ATI) in
  let general := u16 (Z.lor general IQS269_SYS_SETTINGS_ACK_RESET) in
  modify (upd_sys_reg (set_general (cpu_to_be16 general))).

(** [iqs269_parse_prop]; [dev] is the firmware node of the I2C client and
    [bus] answers the initial read of the register block. *)
Definition iqs269_parse_prop (bus : regmap) (dev : fwnode_handle)
    : M iqs269_private unit :=
  modify (set_hall_enable (fwnode_property_present dev "azoteq,hall-enable")) ;;
  image <- lift (sys_settings_read bus) ;;
  modify (set_sys_reg image) ;;
  parse_prop_rates dev ;;
  parse_prop_misc dev ;;
  modify (upd_sys_reg (set_active 0)) ;;
  modify (upd_sys_reg (set_reseed 0)) ;;
  modify (upd_sys_reg (set_blocking 0)) ;;
  modify (upd_sys_reg (fun r => set_slider_select (<[0%nat := 0]> (slider_select r)) r)) ;;
  parse_prop_touch_hold dev ;;
  modify (upd_sys_reg (set_event_mask (u8 (Z.lnot (u8 IQS269_EVENT_MASK_SYS))))) ;;
  for_each (node_children dev) iqs269_parse_chan ;;
  modify (upd_sys_reg (fun r => set_redo_ati (active r) r)) ;;
  parse_prop_general dev.

(** ** Device initialization and the decode engine *)

(** Modelled from the spec: the input core ([linux/input.h]) is not part of
    the driver file; it is the event sink of the spec, taking "discrete
    key-press/release, switch-state, and absolute-axis-position
    notifications per logical input device (one keypad-like device; up to
    two slider devices)". *)
Inductive input_dev :=
  | keypad
  | slider (i : nat).

(** What the driver sends out, in the order it sends it: transfers on the
    bus and calls into the input core.  [input_report_key] and
    [input_report_switch] pass on [!!value], so the value kept here is
    whether the C argument is non-zero. *)
Inductive action :=
  | regmap_raw_read (reg : Z)
  | regmap_multi_reg_write (regs : list (Z * Z))
  | regmap_update_bits (reg mask val : Z)
  | regmap_raw_write (reg : Z) (image : iqs269_sys_reg)
  | input_report_key (dev : input_dev) (code : Z) (value : bool)
  | input_report_switch (dev : input_dev) (code : Z) (value : bool)
  | input_report_abs (dev : input_dev) (code : Z) (value : Z)
  | input_sync (dev : input_dev).

(** The driver together with what it has sent out so far. *)
Record world := World {
  drv : iqs269_private;
  trace : list action;
}.

Definition emit (a : action) : M world unit :=
  modify (fun w => World (drv w) (trace w ++ [a])).

Definition upd_drv (f : iqs269_private -> iqs269_private) : M world unit :=
  modify (fun w => World (f (drv w)) (trace w)).

(** A C value used as a truth value. *)
Definition nonzero (v : Z) : bool := negb (v =? 0).

Definition iqs269_tws_init : list (Z * Z) :=
  [ (IQS269_TOUCH_HOLD_SLIDER_SEL, IQS269_TOUCH_HOLD_DEFAULT);
    (0xF0, 0x580F);
    (0xF0, 0x59EF) ].

(** [iqs269_dev_init] (the delay after the write is left out). *)
Definition iqs269_dev_init (bus : regmap) : M world unit :=
  p <- gets drv ;;
  when ((otp_option p =? IQS269_OTP_OPTION_TWS)
        && (fw_num (ver_info p) <? IQS269_VER_INFO_FW_NUM_3))
    (emit (regmap_multi_reg_write iqs269_tws_init) ;;
     check (tws_init_write bus)) ;;
  emit (regmap_update_bits IQS269_HALL_UI IQS269_HALL_UI_ENABLE
          (if hall_enable p then Z.ones 32 else 0)) ;;
  check (hall_ui_update bus) ;;
  emit (regmap_raw_write IQS269_SYS_SETTINGS (sys_reg p)) ;;
  check (sys_settings_write bus) ;;
  upd_drv (set_ati_current true).

(** A [for] loop that carries a local from one iteration to the next. *)
Fixpoint for_fold {S A B} (l : list A) (acc : B) (body : B -> A -> M S B) : M S B :=
  match l with
  | [] => ret acc
  | x :: l' => acc' <- body acc x ;; for_fold l' acc' body
  end.

(** The gesture-key case of the slider loop of [iqs269_report]. *)
Definition report_slider_key (p : iqs269_private) (gesture : Z) (i : nat)
    : M world unit :=
  for_each (seq 0 (Z.to_nat IQS269_NUM_GESTURES)) (fun j =>
    emit (input_report_key (slider i) ((sl_code p !!! i) !!! j)
            (nonzero (Z.land gesture (BIT (Z.of_nat j)))))) ;;
  if negb (nonzero (Z.land gesture
             (Z.lor (Z.lor (BIT (Z.of_nat (gesture_id_val IQS269_GESTURE_FLICK_NEG)))
                           (BIT (Z.of_nat (gesture_id_val IQS269_GESTURE_FLICK_POS))))
                    (BIT (Z.of_nat (gesture_id_val IQS269_GESTURE_TAP))))))
  then ret tt
  else
    emit (input_sync (slider i)) ;;
    for_each (seq 0 (Z.to_nat IQS269_NUM_GESTURES)) (fun j =>
      when (negb (Nat.eqb j (gesture_id_val IQS269_GESTURE_HOLD)))
        (emit (input_report_key (slider i) ((sl_code p !!! i) !!! j) false))).

(** The raw-position case of the slider loop of [iqs269_report]. *)
Definition report_slider_raw (p : iqs269_private) (flags : iqs269_flags)
    (slider_x : list Z) (i : nat) : M world unit :=
  let state := states flags !!! st_offs_val IQS269_ST_OFFS_TOUCH in
  let state := u8 (Z.land state (slider_select (sys_reg p) !!! i)) in
  emit (input_report_key (slider i) BTN_TOUCH (nonzero state)) ;;
  when (nonzero state)
    (emit (input_report_abs (slider i) ABS_X (slider_x !!! i))).

(** One iteration of the slider loop of [iqs269_report]; [gesture] is
    [flags.gesture], which the loop shifts in place. *)
Definition report_slider (p : iqs269_private) (flags : iqs269_flags)
    (slider_x : list Z) (gesture : Z) (i : nat) : M world Z :=
  let gesture := u8 (Z.shiftr gesture (Z.of_nat i * IQS269_NUM_GESTURES)) in
  match iqs269_slider_type p i with
  | IQS269_SLIDER_NONE => ret gesture
  | IQS269_SLIDER_KEY =>
      report_slider_key p gesture i ;;
      emit (input_sync (slider i)) ;;
      ret gesture
  | IQS269_SLIDER_RAW =>
      report_slider_raw p flags slider_x i ;;
      emit (input_sync (slider i)) ;;
      ret gesture
  end.

(** The body of the channel loop of [iqs269_report], with the [switch (j)]
    that singles out the Hall-effect channel pair. *)
Definition report_channel (p : iqs269_private) (i : nat) (state : Z) (j : nat)
    : M world unit :=
  let sw_code := code (switches p !!! i) in
  let keycode := keycode p !!! (i * Z.to_nat IQS269_NUM_CH + j)%nat in
  let value := nonzero (Z.land state (BIT (Z.of_nat j))) in
  let is_active := Z.of_nat j =? IQS269_CHx_HALL_ACTIVE in
  let is_inactive := Z.of_nat j =? IQS269_CHx_HALL_INACTIVE in
  when (is_active && hall_enable p && enabled (switches p !!! i))
    (emit (input_report_switch keypad sw_code value)) ;;
  when (negb ((is_active || is_inactive) && hall_enable p))
    (emit (input_report_key keypad keycode value)).

(** One iteration of the event loop of [iqs269_report]. *)
Definition report_event (p : iqs269_private) (flags : iqs269_flags) (i : nat)
    : M world unit :=
  let ev := iqs269_events !!! i in
  let dir_mask := states flags !!! st_offs_val IQS269_ST_OFFS_DIR in
  let dir_mask := if negb (dir_up ev) then u8 (Z.lnot dir_mask) else dir_mask in
  let state := u8 (Z.land (states flags !!! st_offs_val (st_offs ev)) dir_mask) in
  for_each (seq 0 (Z.to_nat IQS269_NUM_CH)) (report_channel p i state).

(** [iqs269_report] ([dev_err] only logs and is left out). *)
Definition iqs269_report (bus : regmap) : M world unit :=
  emit (regmap_raw_read IQS269_SYS_FLAGS) ;;
  flags <- lift (sys_flags_read bus) ;;
  if nonzero (Z.land (be16_to_cpu (system flags)) IQS269_SYS_FLAGS_SHOW_RESET) then
    iqs269_dev_init bus
  else if nonzero (Z.land (be16_to_cpu (system flags)) IQS269_SYS_FLAGS_IN_ATI) then
    ret tt
  else
    p <- gets drv ;;
    slider_x <-
      (if slider_id_eqb (iqs269_slider_type p 0) IQS269_SLIDER_RAW
          || slider_id_eqb (iqs269_slider_type p 1) IQS269_SLIDER_RAW
       then emit (regmap_raw_read IQS269_SLIDER_X) ;; lift (slider_x_read bus)
       else ret []) ;;
    for_fold (seq 0 (Z.to_nat IQS269_NUM_SL)) (gesture flags)
      (report_slider p flags slider_x) ;;
    for_each (seq 0 (length iqs269_events)) (report_event p flags) ;;
    emit (input_sync keypad) ;;
    upd_drv (set_ati_done true) ;;
    ret tt.

(** ** Reference definitions *)

(** Following the words of the claim on pin lists: "the bitwise OR of
    BIT(index) over all entries". *)
Definition or_of_bits (l : list Z) : Z :=
  fold_right (fun v acc => Z.lor (BIT v) acc) 0 l.

(** Following the words of the claim on gesture parameters: after
    [iqs269_parse_prop] has accepted a device node with gesture key codes,
    the register field [field] filled from property [propname] is the
    supplied value divided by "a step size derived from the firmware revision
    (a finer step on silicon older than the named firmware threshold)". *)
Definition fw_derived_step (propname : string) (field : iqs269_sys_reg -> Z) : Prop :=
  exists step_old step_new : Z,
    0 < step_old < step_new /\
    forall (bus : regmap) (dev : fwnode_handle) (val : Z) (p p' : iqs269_private),
      fwnode_property_read_u32 dev propname = Ok val ->
      0 <= val ->
      fwnode_property_present dev "linux,keycodes" = true ->
      iqs269_parse_prop bus dev p = (Ok tt, p') ->
      field (sys_reg p') =
      val / (if fw_num (ver_info p) <? IQS269_VER_INFO_FW_NUM_3
             then step_old else step_new).

(** A private structure that differs from the zeroed one in the firmware
    number read from the device. *)
Definition with_fw_num (fw : Z) (p : iqs269_private) : iqs269_private :=
  Private (switches p) (VerInfo (prod_num (ver_info p)) (sw_num (ver_info p))
                          (hw_num (ver_info p)) fw)
    (sys_reg p) (ati_done p) (keycode p) (sl_code p) (otp_option p) (ch_num p)
    (hall_enable p) (ati_current p).

(** A device node that maps slider gestures to key codes and sets the tap
    timeout (in ms) and the swipe threshold. *)
Definition gesture_node : fwnode_handle :=
  FwNode "touch@44"
    (list_to_map [ ("linux,keycodes", [0x1c; 0x39; 0x6a; 0x69]);
                   ("azoteq,timeout-tap-ms", [400]);
                   ("azoteq,thresh-swipe", [200]) ])
    [].

(** *** Reading a trace *)

Definition input_dev_eqb (a b : input_dev) : bool :=
  match a, b with
  | keypad, keypad => true
  | slider i, slider j => Nat.eqb i j
  | _, _ => false
  end.

(** The input device an action is addressed to, if it is an input event. *)
Definition action_dev (a : action) : option input_dev :=
  match a with
  | input_report_key d _ _ | input_report_switch d _ _
  | input_report_abs d _ _ | input_sync d => Some d
  | _ => None
  end.

(** The input events of a trace: everything handed to the input core. *)
Definition input_events (t : list action) : list action :=
  List.filter (fun a => match action_dev a with Some _ => true | None => false end) t.

(** The input events of a trace that go to device [d]. *)
Definition dev_actions (d : input_dev) (t : list action) : list action :=
  List.filter (fun a => match action_dev a with
                        | Some d' => input_dev_eqb d d'
                        | None => false
                        end) t.

(** The register images written to [IQS269_SYS_SETTINGS] in a trace: the
    full-image rewrites. *)
Definition image_writes (t : list action) : list iqs269_sys_reg :=
  flat_map (fun a => match a with
                     | regmap_raw_write reg image =>
                         if reg =? IQS269_SYS_SETTINGS then [image] else []
                     | _ => []
                     end) t.

(** Whether the bus accepts the writes that [iqs269_dev_init] issues before
    it writes the register image: the workaround sequence, where the part
    needs it, and the Hall-effect enable bit. *)
Definition early_writes_ok (bus : regmap) (p : iqs269_private) : bool :=
  (if (otp_option p =? IQS269_OTP_OPTION_TWS)
      && (fw_num (ver_info p) <? IQS269_VER_INFO_FW_NUM_3)
   then tws_init_write bus =? 0 else true)
  && (hall_ui_update bus =? 0).


(** A snapshot with only the reset bit set, and a bus that delivers it and
    then refuses the write of the Hall-effect enable bit with [-EIO]. *)
Definition reset_flags : iqs269_flags :=
  Flags (cpu_to_be16 IQS269_SYS_FLAGS_SHOW_RESET) 0 0 [0; 0; 0; 0].


(** [m] always succeeds with [a], leaves the driver as it is and appends to
    the trace a fixed list of actions, all of which satisfy [P]. *)
Definition emits {A} (P : action -> Prop) (m : M world A) (a : A) : Prop :=
  exists acts, Forall P acts /\
    forall w, m w = (Ok a, World (drv w) (trace w ++ acts)).

(** *** A configured device

    A device node with two channels on slider 0, gestures of slider 0 mapped
    to four key codes, and a proximity key on channel 2; the structure that
    [iqs269_parse_prop] builds from it on a device whose registers read as
    zero. *)
Definition slider_node : fwnode_handle :=
  FwNode "touch@44"
    (list_to_map [ ("linux,keycodes", [0x1c; 0x39; 0x6a; 0x69]);
                   ("azoteq,timeout-tap-ms", [400]);
                   ("azoteq,thresh-swipe", [200]) ])
    [ FwNode "channel@0"
        (list_to_map [ ("reg", [0]); ("azoteq,slider0-select", []) ]) [];
      FwNode "channel@1"
        (list_to_map [ ("reg", [1]); ("azoteq,slider0-select", []) ]) [];
      FwNode "channel@2"
        (list_to_map [ ("reg", [2]) ])
        [ FwNode "event-prox"
            (list_to_map [ ("linux,code", [0x1e]); ("azoteq,thresh", [10]) ]) [] ] ].

Definition quiet_flags : iqs269_flags := Flags (Be16 0 0) 0 0 [0; 0; 0; 0].

(** A bus on which every transfer succeeds and the status read delivers
    [flags]. *)
Definition bus_with (flags : iqs269_flags) : regmap :=
  Regmap (Ok zero_sys_reg) (Ok flags) (Ok [0; 0]) 0 0 0.

Definition slider_private : iqs269_private :=
  snd (iqs269_parse_prop (bus_with quiet_flags) slider_node kzalloc_private).

(** Snapshots with nothing but one gesture bit of slider 0. *)
Definition tap_flags : iqs269_flags := Flags (Be16 0 0) 0x01 0 [0; 0; 0; 0].
Definition hold_flags : iqs269_flags := Flags (Be16 0 0) 0x02 0 [0; 0; 0; 0].

(** A snapshot with the proximity bit of channel 2 and no direction bit. *)
Definition prox2_flags : iqs269_flags := Flags (Be16 0 0) 0 0 [0x04; 0; 0; 0].

(** The reports of a trace that carry a non-zero value. *)
Definition presses (t : list action) : list action :=
  List.filter (fun a => match a with
                        | input_report_key _ _ v | input_report_switch _ _ v => v
                        | _ => false
                        end) t.

(** ** The attribute surface, power management and input set-up

    The rest of the driver talks to the interrupt line, to single
    registers and to the set-up side of the input core. *)

Definition EPERM : Z := 1.
Definition ENOMEM : Z := 12.
Definition EBUSY : Z := 16.

Definition EV_KEY : Z := 0x01.
Definition EV_SW : Z := 0x05.

Definition IQS269_VER_INFO : Z := 0x00.
Definition IQS269_VER_INFO_PROD_NUM : Z := 0x4F.
Definition IQS269_CHx_COUNTS : Z := 0x08.
Definition IQS269_CAL_DATA_A : Z := 0x35.
Definition IQS269_CAL_DATA_A_HALL_BIN_L_MASK : Z := GENMASK 15 12.
Definition IQS269_CAL_DATA_A_HALL_BIN_L_SHIFT : Z := 12.
Definition IQS269_CAL_DATA_A_HALL_BIN_R_MASK : Z := GENMASK 11 8.
Definition IQS269_CAL_DATA_A_HALL_BIN_R_SHIFT : Z := 8.
Definition IQS269_HALL_PAD_R : Z := BIT 0.
Definition IQS269_HALL_PAD_L : Z := BIT 1.

Definition set_ch_num (v : Z) (p : iqs269_private) : iqs269_private :=
  Private (switches p) (ver_info p) (sys_reg p) (ati_done p) (keycode p)
    (sl_code p) (otp_option p) v (hall_enable p) (ati_current p).

(** What these functions send out, in order. *)
Inductive io :=
  | disable_irq
  | enable_irq
  | iqs269_irq_wait
  | raw_read (reg len : Z)
  | regmap_read (reg : Z)
  | regmap_write (reg val : Z)
  | input_set_capability (dev : input_dev) (type code : Z)
  | input_set_abs_params (dev : input_dev) (axis min max fuzz flat : Z)
  | input_register_device (dev : input_dev).

Record io_world := IoWorld {
  io_drv : iqs269_private;
  io_trace : list io;
}.

Definition io_emit (a : io) : M io_world unit :=
  modify (fun w => IoWorld (io_drv w) (io_trace w ++ [a])).

(** Modelled from the spec: what the kernel answers to these functions.
    The count registers are read as two bytes, least significant first;
    [regmap_read] delivers a 16-bit value; [regmap_write] to
    [IQS269_SYS_SETTINGS] answers by the value written;
    [devm_input_allocate_device] may run out of memory and
    [input_register_device] may fail. *)
Record io_env := IoEnv {
  counts_read : result (Z * Z);
  cal_data_read : result Z;
  general_write : Z -> Z;
  alloc_ok : input_dev -> bool;
  register_result : input_dev -> Z;
}.

Definition le16_to_cpu (b : Z * Z) : Z :=
  u16 (Z.lor (Z.shiftl (u8 (snd b)) 8) (u8 (fst b))).

(** Modelled from the spec: [kstrtouint] and [sysfs_emit] are not part of
    the driver file.  A store function is given the outcome of parsing the
    text written to the attribute (the number, or the error of
    [kstrtouint]) and the length [count] of that text; a show function
    yields the number it prints. *)
Definition hall_enable_show : M iqs269_private Z :=
  gets (fun p => if hall_enable p then 1 else 0).

Definition hall_enable_store (parsed : result Z) (count : Z) : M iqs269_private Z :=
  val <- lift parsed ;;
  modify (set_hall_enable (nonzero val)) ;;
  modify (set_ati_current false) ;;
  ret count.

Definition ch_number_show : M iqs269_private Z := gets ch_num.

Definition ch_number_store (parsed : result Z) (count : Z) : M iqs269_private Z :=
  val <- lift parsed ;;
  if val >=? IQS269_NUM_CH then throw (- EINVAL) else
  modify (set_ch_num val) ;;
  ret count.

Definition rx_enable_show : M iqs269_private Z :=
  gets (fun p => rx_enable (ch_reg (sys_reg p) !!! Z.to_nat (ch_num p))).

Definition rx_enable_store (parsed : result Z) (count : Z) : M iqs269_private Z :=
  val <- lift parsed ;;
  if val >? 0xFF then throw (- EINVAL) else
  n <- gets (fun p => Z.to_nat (ch_num p)) ;;
  modify (upd_ch_reg n (set_rx_enable (u8 val))) ;;
  modify (set_ati_current false) ;;
  ret count.

Definition ati_mode_show : M iqs269_private Z :=
  ch <- gets ch_num ;; iqs269_ati_mode_get ch.

Definition ati_mode_store (parsed : result Z) (count : Z) : M iqs269_private Z :=
  val <- lift parsed ;;
  ch <- gets ch_num ;;
  iqs269_ati_mode_set ch val ;;
  ret count.

Definition ati_base_show : M iqs269_private Z :=
  ch <- gets ch_num ;; iqs269_ati_base_get ch.

Definition ati_base_store (parsed : result Z) (count : Z) : M iqs269_private Z :=
  val <- lift parsed ;;
  ch <- gets ch_num ;;
  iqs269_ati_base_set ch val ;;
  ret count.

Definition ati_target_show : M iqs269_private Z :=
  ch <- gets ch_num ;; iqs269_ati_target_get ch.

Definition ati_target_store (parsed : result Z) (count : Z) : M iqs269_private Z :=
  val <- lift parsed ;;
  ch <- gets ch_num ;;
  iqs269_ati_target_set ch val ;;
  ret count.

(** [ati_trigger_show]: "configuration ready and idle". *)
Definition ati_trigger_show : M iqs269_private Z :=
  gets (fun p => if ati_current p && ati_done p then 1 else 0).

(** [counts_show]. *)
Definition counts_show (env : io_env) : M io_world Z :=
  p <- gets io_drv ;;
  if negb (ati_current p) || hall_enable p then throw (- EPERM) else
  if negb (ati_done p) then throw (- EBUSY) else
  io_emit disable_irq ;;
  io_emit (raw_read (IQS269_CHx_COUNTS + ch_num p * 2) 2) ;;
  io_emit iqs269_irq_wait ;;
  io_emit enable_irq ;;
  counts <- lift (counts_read env) ;;
  ret (le16_to_cpu counts).

(** [hall_bin_show]. *)
Definition hall_bin_show (env : io_env) : M io_world Z :=
  p <- gets io_drv ;;
  io_emit disable_irq ;;
  io_emit (regmap_read IQS269_CAL_DATA_A) ;;
  io_emit iqs269_irq_wait ;;
  io_emit enable_irq ;;
  val <- lift (cal_data_read env) ;;
  let pads :=
    Z.land (rx_enable (ch_reg (sys_reg p) !!! Z.to_nat IQS269_CHx_HALL_ACTIVE))
           (rx_enable (ch_reg (sys_reg p) !!! Z.to_nat IQS269_CHx_HALL_INACTIVE)) in
  if pads =? IQS269_HALL_PAD_R then
    let val := Z.land val IQS269_CAL_DATA_A_HALL_BIN_R_MASK in
    ret (Z.shiftr val IQS269_CAL_DATA_A_HALL_BIN_R_SHIFT)
  else if pads =? IQS269_HALL_PAD_L then
    let val := Z.land val IQS269_CAL_DATA_A_HALL_BIN_L_MASK in
    ret (Z.shiftr val IQS269_CAL_DATA_A_HALL_BIN_L_SHIFT)
  else throw (- EINVAL).

(** [iqs269_general_get]. *)
Definition iqs269_general_get (p : iqs269_private) : Z :=
  let general := be16_to_cpu (general (sys_reg p)) in
  let general := u16 (Z.land general (Z.lnot IQS269_SYS_SETTINGS_REDO_ATI)) in
  let general := u16 (Z.land general (Z.lnot IQS269_SYS_SETTINGS_ACK_RESET)) in
  u16 (Z.lor general IQS269_SYS_SETTINGS_DIS_AUTO).

(** [iqs269_suspend]. *)
Definition iqs269_suspend (env : io_env) : M io_world unit :=
  p <- gets io_drv ;;
  let general := iqs269_general_get p in
  if Z.land general IQS269_SYS_SETTINGS_PWR_MODE_MASK =? 0 then ret tt else
  io_emit disable_irq ;;
  io_emit (regmap_write IQS269_SYS_SETTINGS general) ;;
  let error := general_write env general in
  io_emit iqs269_irq_wait ;;
  io_emit enable_irq ;;
  check error.

(** [iqs269_resume]. *)
Definition iqs269_resume (env : io_env) : M io_world unit :=
  p <- gets io_drv ;;
  let general := iqs269_general_get p in
  if Z.land general IQS269_SYS_SETTINGS_PWR_MODE_MASK =? 0 then ret tt else
  io_emit disable_irq ;;
  let awake := Z.land general (Z.lnot IQS269_SYS_SETTINGS_PWR_MODE_MASK) in
  io_emit (regmap_write IQS269_SYS_SETTINGS awake) ;;
  let error := general_write env awake in
  error <- (if error =? 0 then
              let auto := Z.land general (Z.lnot IQS269_SYS_SETTINGS_DIS_AUTO) in
              io_emit (regmap_write IQS269_SYS_SETTINGS auto) ;;
              ret (general_write env auto)
            else ret error) ;;
  io_emit iqs269_irq_wait ;;
  io_emit enable_irq ;;
  check error.

(** The body of the two nested loops of [iqs269_input_init] over events and
    channels, with the [switch (j)] on the Hall-effect channel pair. *)
Definition input_init_channel (p : iqs269_private) (i j : nat) : M io_world unit :=
  let sw_code := code (switches p !!! i) in
  let keycode := keycode p !!! (i * Z.to_nat IQS269_NUM_CH + j)%nat in
  let is_active := Z.of_nat j =? IQS269_CHx_HALL_ACTIVE in
  let is_inactive := Z.of_nat j =? IQS269_CHx_HALL_INACTIVE in
  when (is_active && hall_enable p && enabled (switches p !!! i))
    (io_emit (input_set_capability keypad EV_SW sw_code)) ;;
  when (negb ((is_active || is_inactive) && hall_enable p))
    (when (negb (keycode =? KEY_RESERVED))
       (io_emit (input_set_capability keypad EV_KEY keycode))).

(** One iteration of the slider loop of [iqs269_input_init]. *)
Definition input_init_slider (env : io_env) (p : iqs269_private) (i : nat)
    : M io_world unit :=
  if slider_id_eqb (iqs269_slider_type p i) IQS269_SLIDER_NONE then ret tt else
  if negb (alloc_ok env (slider i)) then throw (- ENOMEM) else
  for_each (seq 0 (Z.to_nat IQS269_NUM_GESTURES)) (fun j =>
    when (negb (((sl_code p !!! i) !!! j) =? KEY_RESERVED))
      (io_emit (input_set_capability (slider i) EV_KEY ((sl_code p !!! i) !!! j)))) ;;
  when (slider_id_eqb (iqs269_slider_type p i) IQS269_SLIDER_RAW)
    (io_emit (input_set_capability (slider i) EV_KEY BTN_TOUCH) ;;
     io_emit (input_set_abs_params (slider i) ABS_X 0 255 0 0)) ;;
  io_emit (input_register_device (slider i)) ;;
  check (register_result env (slider i)).

(** [iqs269_input_init]; the stores into the fields of the input devices
    (name, bus type, key-code table) are left out. *)
Definition iqs269_input_init (env : io_env) : M io_world unit :=
  if negb (alloc_ok env keypad) then throw (- ENOMEM) else
  p <- gets io_drv ;;
  for_each (seq 0 (length iqs269_events)) (fun i =>
    for_each (seq 0 (Z.to_nat IQS269_NUM_CH)) (input_init_channel p i)) ;;
  for_each (seq 0 (Z.to_nat IQS269_NUM_SL)) (input_init_slider env p).

(** *** Proof support *)

(** [m] keeps the invariant [I], whether it succeeds or fails. *)
Definition maintains {S A} (I : S -> Prop) (m : M S A) : Prop :=
  forall s, I s -> I (snd (m s)).

(** The interrupt line is switched off before the first transfer of a
    trace and switched on again after the last: [irq_bracketed off t] reads
    the trace [t] starting with the line off ([true]) or on ([false]). *)
Fixpoint irq_bracketed (off : bool) (t : list io) : bool :=
  match t with
  | [] => negb off
  | disable_irq :: t' => negb off && irq_bracketed true t'
  | enable_irq :: t' => off && irq_bracketed false t'
  | raw_read _ _ :: t' | regmap_read _ :: t' | regmap_write _ _ :: t' =>
      off && irq_bracketed off t'
  | _ :: t' => irq_bracketed off t'
  end.

(** [m] leaves the private structure alone and appends to the trace a
    stretch in which the interrupt line is handled as [irq_bracketed]
    demands. *)
Definition irq_safe {A} (m : M io_world A) : Prop :=
  forall p t, exists t',
    snd (m (IoWorld p t)) = IoWorld p (t ++ t') /\ irq_bracketed false t' = true.

(** The store functions that change what the device is to be configured
    with. *)
Definition config_stores : list (result Z -> Z -> M iqs269_private Z) :=
  [hall_enable_store; rx_enable_store; ati_mode_store; ati_base_store; ati_target_store].

(** The words written to registers in a trace, in order. *)
Definition io_writes (t : list io) : list (Z * Z) :=
  omap (fun a => match a with regmap_write reg val => Some (reg, val) | _ => None end) t.


(** *** A device with a raw-position slider

    Channels 0 and 1 on slider 0 and no gesture codes. *)
Definition raw_node : fwnode_handle :=
  FwNode "touch@44" ∅
    [ FwNode "channel@0"
        (list_to_map [ ("reg", [0]); ("azoteq,slider0-select", []) ]) [];
      FwNode "channel@1"
        (list_to_map [ ("reg", [1]); ("azoteq,slider0-select", []) ]) [] ].

Definition raw_private : iqs269_private :=
  snd (iqs269_parse_prop (bus_with quiet_flags) raw_node kzalloc_private).

(** A snapshot with channel 1 in touch, read together with the position
    0x40 of slider 0. *)
Definition touch1_flags : iqs269_flags := Flags (Be16 0 0) 0 0 [0; 0; 0x02; 0].

Definition touch1_bus : regmap :=
  Regmap (Ok zero_sys_reg) (Ok touch1_flags) (Ok [0x40; 0]) 0 0 0.

(** *** Channel nodes

    A channel node that is refused late, for its ATI base, after its masks
    have been stored; and a well-formed one with every mask property. *)
Definition late_fail_chan : fwnode_handle :=
  FwNode "channel@3"
    (list_to_map [ ("reg", [3]); ("azoteq,blocking-enable", []);
                   ("azoteq,ati-base", [90]) ]) [].

Definition full_chan : fwnode_handle :=
  FwNode "channel@5"
    (list_to_map [ ("reg", [5]); ("azoteq,reseed-disable", []);
                   ("azoteq,blocking-enable", []);
                   ("azoteq,slider1-select", []);
                   ("azoteq,local-cap-size", [1]);
                   ("azoteq,proj-bias", [2]);
                   ("azoteq,sense-freq", [3]);
                   ("azoteq,invert-enable", []) ]) [].

(** *** A device node with rates and a suspend mode

    An ultra-low-power rate of 100 ms, a power-mode timeout of 2000 ms, the
    deepest suspend mode and one channel. *)
Definition rates_node : fwnode_handle :=
  FwNode "touch@44"
    (list_to_map [ ("azoteq,rate-ulp-ms", [100]);
                   ("azoteq,timeout-pwr-ms", [2000]);
                   ("azoteq,suspend-mode", [3]);
                   ("azoteq,clk-div", []) ])
    [ FwNode "channel@4" (list_to_map [ ("reg", [4]) ]) [] ].

Definition rates_private : iqs269_private :=
  snd (iqs269_parse_prop (bus_with quiet_flags) rates_node kzalloc_private).

(** *** Hall-effect pads

    Both Hall-effect channels on the right pad. *)
Definition hall_pad_r_private : iqs269_private :=
  upd_ch_reg 6 (set_rx_enable 1) (upd_ch_reg 7 (set_rx_enable 1) kzalloc_private).

(** *** A device with the touch-and-hold option

    A private structure whose [otp_option] has the HOLD bit, and a device
    node with a ceiling of 5120 ms whose only channel asks for slider 1. *)
Definition hold_start : iqs269_private :=
  Private (replicate 6 (SwitchDesc 0 false)) (VerInfo 0 0 0 0) zero_sys_reg
    false (replicate 48 0) (replicate 2 (replicate 4 0))
    IQS269_OTP_OPTION_HOLD 0 false false.

Definition hold_node : fwnode_handle :=
  FwNode "touch@44" (list_to_map [ ("azoteq,touch-hold-ms", [5120]) ]) [ full_chan ].

Definition hold_private : iqs269_private :=
  snd (iqs269_parse_prop (bus_with quiet_flags) hold_node hold_start).

(** *** A Hall-effect switch

    The active Hall channel with a switch code on its touch event, parsed
    with Hall-effect sensing enabled. *)
Definition hall_chan : fwnode_handle :=
  FwNode "channel@7" (list_to_map [ ("reg", [7]) ])
    [ FwNode "event-touch" (list_to_map [ ("linux,code", [0x0d]) ]) [] ].

Definition hall_private : iqs269_private :=
  snd (iqs269_parse_chan hall_chan (set_hall_enable true kzalloc_private)).

(** *** Hysteresis nodes

    Three nodes of channel 2: one with a touch hysteresis of 5, one with a
    deep-touch hysteresis of 9, and one with both. *)
Definition hyst_touch_chan : fwnode_handle :=
  FwNode "channel@2" (list_to_map [ ("reg", [2]) ])
    [ FwNode "event-touch-alt" (list_to_map [ ("azoteq,hyst", [5]) ]) [] ].

Definition hyst_deep_chan : fwnode_handle :=
  FwNode "channel@2" (list_to_map [ ("reg", [2]) ])
    [ FwNode "event-deep" (list_to_map [ ("azoteq,hyst", [9]) ]) [] ].

Definition hyst_both_chan : fwnode_handle :=
  FwNode "channel@2" (list_to_map [ ("reg", [2]) ])
    [ FwNode "event-deep" (list_to_map [ ("azoteq,hyst", [9]) ]) [];
      FwNode "event-touch" (list_to_map [ ("azoteq,hyst", [5]) ]) [] ].

(** ** What a parser leaves alone *)

(** The fields of the register image outside the channel blocks, the
    channel masks and the event mask. *)
Definition sys_outside (r : iqs269_sys_reg) :=
  (general r, filter r, rate_np r, rate_lp r, rate_ulp r, timeout_pwr r,
   timeout_rdy r, timeout_lta r, misc_a r, misc_b r, padding r,
   timeout_tap r, timeout_swipe r, thresh_swipe r, redo_ati r).

(** The same, with the fields of the private structure that no channel
    node can reach. *)
Definition outside_channels (p : iqs269_private) :=
  (sys_outside (sys_reg p), ver_info p, ati_done p, sl_code p,
   otp_option p, ch_num p, hall_enable p).

(** [p] differs from [p0] at most in what belongs to channel [n]: the
    array sizes hold, the fields outside the channels are those of [p0],
    the blocks of the other channels and the compensation word of channel
    [n] are those of [p0], and so are the key codes of the other
    channels. *)
Definition chan_frame (n : nat) (p0 p : iqs269_private) : Prop :=
  sized p = true /\
  outside_channels p = outside_channels p0 /\
  (forall m, m <> n -> ch_reg (sys_reg p) !!! m = ch_reg (sys_reg p0) !!! m) /\
  ati_comp (ch_reg (sys_reg p) !!! n) = ati_comp (ch_reg (sys_reg p0) !!! n) /\
  (forall i m, m <> n -> (m < 8)%nat ->
     keycode p !!! (i * 8 + m)%nat = keycode p0 !!! (i * 8 + m)%nat).

(** The channel masks of the register image. *)
Definition mask_fields (p : iqs269_private) :=
  (active (sys_reg p), reseed (sys_reg p), blocking (sys_reg p),
   slider_select (sys_reg p)).

(** ** The engine words as fields *)

(** The value of a scalar property, or [old] when it cannot be read. *)
Definition prop_or (n : fwnode_handle) (propname : string) (old : Z) : Z :=
  match fwnode_property_read_u32 n propname with
  | Ok val => val
  | Err _ => old
  end.





(** ** The device node as a whole *)

(** Some node of [l] that [sel] accepts has channel number [b]. *)
Definition chan_marked (sel : fwnode_handle -> bool) (l : list fwnode_handle)
    (b : Z) : bool :=
  existsb (fun c => sel c && match fwnode_property_read_u32 c "reg" with
                             | Ok reg => reg =? b
                             | Err _ => false
                             end) l.

(** The report rates and timeouts of the register image. *)
Definition rate_fields (p : iqs269_private) :=
  (rate_np (sys_reg p), rate_lp (sys_reg p), rate_ulp (sys_reg p),
   timeout_pwr (sys_reg p), timeout_lta (sys_reg p)).

(** What the channel loop of [iqs269_parse_prop] starts from: the channel
    masks and the selection byte of slider 0 cleared. *)
Definition clear_masks (p : iqs269_private) : iqs269_private :=
  upd_sys_reg (fun r => set_slider_select (<[0%nat := 0]> (slider_select r)) r)
    (upd_sys_reg (set_blocking 0)
       (upd_sys_reg (set_reseed 0) (upd_sys_reg (set_active 0) p))).

(** A rate or timeout property: the field it fills, its unit in ms and the
    largest value accepted. *)
Definition rate_props : list (string * (iqs269_sys_reg -> Z) * Z * Z) :=
  [ ("azoteq,rate-np-ms", rate_np, 1, IQS269_RATE_NP_MS_MAX);
    ("azoteq,rate-lp-ms", rate_lp, 1, IQS269_RATE_LP_MS_MAX);
    ("azoteq,rate-ulp-ms", rate_ulp, 16, IQS269_RATE_ULP_MS_MAX);
    ("azoteq,timeout-pwr-ms", timeout_pwr, 512, IQS269_TIMEOUT_PWR_MS_MAX);
    ("azoteq,timeout-lta-ms", timeout_lta, 512, IQS269_TIMEOUT_LTA_MS_MAX) ].

(** The general word after [iqs269_parse_prop], field by field, from the
    word the device held ([general]) and from whether a slider reports raw
    positions ([lp]): bits 15, 7, 4, 3 and 1 of the old word are kept where
    no property sets them, and so is the update rate in bits 10..8 when
    [azoteq,ulp-update] cannot be read; bits 5, 2 and 0 are always set and
    bits 14 and 13 always clear. *)
Definition general_fields (dev : fwnode_handle) (general : Z) (lp : bool) : Z :=
  let has := fwnode_property_present dev in
  let kept :=
    match fwnode_property_read_u32 dev "azoteq,ulp-update" with
    | Ok _ => 0x809A
    | Err _ => 0x879A
    end in
  Z.lor (Z.land general kept)
    (Z.lor (Z.shiftl (Z.b2z (has "azoteq,clk-div")) 15)
    (Z.lor (Z.shiftl (prop_or dev "azoteq,suspend-mode" 0) 11)
    (Z.lor (Z.shiftl (prop_or dev "azoteq,ulp-update" 0) 8)
    (Z.lor (Z.shiftl (Z.b2z (has "linux,keycodes" && has "azoteq,gesture-swipe")) 7)
    (Z.lor (Z.shiftl (Z.b2z (has "azoteq,reseed-offset")) 6)
    (Z.lor (Z.shiftl (Z.b2z lp) 4) 0x25)))))).

(** Some slider of [p] reports raw positions. *)
Definition raw_slider (p : iqs269_private) : bool :=
  slider_id_eqb (iqs269_slider_type p 0) IQS269_SLIDER_RAW
  || slider_id_eqb (iqs269_slider_type p 1) IQS269_SLIDER_RAW.

(** ** What the input core was told *)

(** What [input_init_channel] declares for event [i] and channel [j]. *)
Definition chan_caps (p : iqs269_private) (i j : nat) : list io :=
  io_trace (snd (input_init_channel p i j (IoWorld p []))).

(** What the keypad loops of [iqs269_input_init] declare. *)
Definition keypad_caps (p : iqs269_private) : list io :=
  flat_map (fun i => flat_map (chan_caps p i) (seq 0 (Z.to_nat IQS269_NUM_CH)))
    (seq 0 (length iqs269_events)).

(** What [input_init_slider] sends for slider [i] when it succeeds. *)
Definition slider_acts (p : iqs269_private) (i : nat) : list io :=
  if slider_id_eqb (iqs269_slider_type p i) IQS269_SLIDER_NONE then [] else
  flat_map (fun j =>
      if (sl_code p !!! i) !!! j =? KEY_RESERVED then []
      else [input_set_capability (slider i) EV_KEY ((sl_code p !!! i) !!! j)])
    (seq 0 (Z.to_nat IQS269_NUM_GESTURES))
  ++ (if slider_id_eqb (iqs269_slider_type p i) IQS269_SLIDER_RAW
      then [input_set_capability (slider i) EV_KEY BTN_TOUCH;
            input_set_abs_params (slider i) ABS_X 0 255 0 0]
      else [])
  ++ [input_register_device (slider i)].

(** An input event that the set-up trace [caps] allows: a key with the
    reserved code or a declared code, a declared switch, a declared axis. *)
Definition declared (caps : list io) (a : action) : Prop :=
  match a with
  | input_report_key d c _ =>
      c = KEY_RESERVED \/ In (input_set_capability d EV_KEY c) caps
  | input_report_switch d c _ => In (input_set_capability d EV_SW c) caps
  | input_report_abs d axis _ => In (input_set_abs_params d axis 0 255 0 0) caps
  | _ => True
  end.

(** *** Key codes of a channel node *)

(** The code that the child node of event [i] gives for a channel, when the
    node is there and has a readable [linux,code]. *)
Definition event_code (ch_node : fwnode_handle) (i : nat) : option Z :=
  match fwnode_get_named_child_node ch_node (name (iqs269_events !!! i)) with
  | Some ev_node =>
      match fwnode_property_read_u32 ev_node "linux,code" with
      | Ok val => Some val
      | Err _ => None
      end
  | None => None
  end.

(** The two channels of the Hall-effect pair. *)
Definition hall_pair (reg : Z) : bool :=
  (reg =? IQS269_CHx_HALL_ACTIVE) || (reg =? IQS269_CHx_HALL_INACTIVE).

(** What the [linux,code] block of the event loop stores to. *)
Definition code_fields (p : iqs269_private)
    : list Z * list iqs269_switch_desc * Z * bool :=
  (keycode p, switches p, event_mask (sys_reg p), hall_enable p).

(** *** Hysteresis of a channel node *)

(** The hysteresis that the child node of event [i] gives for a channel,
    when the node is there and has a readable [azoteq,hyst]. *)
Definition event_hyst (ch_node : fwnode_handle) (i : nat) : option Z :=
  match fwnode_get_named_child_node ch_node (name (iqs269_events !!! i)) with
  | Some ev_node =>
      match fwnode_property_read_u32 ev_node "azoteq,hyst" with
      | Ok val => Some val
      | Err _ => None
      end
  | None => None
  end.

(** The two events of a pair share one nibble, and the loop visits [dn]
    before [up]: the value of [up], when there is one, is the one that
    stays. *)
Definition pair_hyst (ch_node : fwnode_handle) (dn up : iqs269_event_id) : option Z :=
  match event_hyst ch_node (event_id_val up) with
  | Some val => Some val
  | None => event_hyst ch_node (event_id_val dn)
  end.

Definition touch_hyst (ch_node : fwnode_handle) : option Z :=
  pair_hyst ch_node IQS269_EVENT_TOUCH_DN IQS269_EVENT_TOUCH_UP.

Definition deep_hyst (ch_node : fwnode_handle) : option Z :=
  pair_hyst ch_node IQS269_EVENT_DEEP_DN IQS269_EVENT_DEEP_UP.

(** The cells that [fwnode_property_read_u32] delivers are unsigned. *)
Definition hyst_cells_u32 (ch_node : fwnode_handle) : bool :=
  forallb (fun i => match event_hyst ch_node i with
                    | Some val => 0 <=? val
                    | None => true
                    end)
    (seq 0 (length iqs269_events)).

(** A node of channel [reg] that sets the touch hysteresis to [t] and the
    deep-touch hysteresis to [d] ([None]: leaves it alone). *)
Definition sets_hyst (ch_node : fwnode_handle) (reg : Z) (t d : option Z) : Prop :=
  fwnode_property_read_u32 ch_node "reg" = Ok reg /\
  hyst_cells_u32 ch_node = true /\
  touch_hyst ch_node = t /\ deep_hyst ch_node = d.

(** The hysteresis byte of channel [reg]. *)
Definition hyst_byte (reg : Z) (p : iqs269_private) : Z :=
  hyst (ch_reg (sys_reg p) !!! Z.to_nat reg).

(** The two nibbles of a byte. *)
Definition lo_nibble (b : Z) : Z := Z.land b (Z.ones 4).
Definition hi_nibble (b : Z) : Z := Z.land (Z.shiftr b 4) (Z.ones 4).

(** The hysteresis byte of channel [n] is [h], in a register block of the
    declared size. *)
Definition hyst_kept (n : nat) (h : Z) (p : iqs269_private) : Prop :=
  length (ch_reg (sys_reg p)) = 8%nat /\ hyst (ch_reg (sys_reg p) !!! n) = h.

(** A computation that fails in no state. *)
Definition accepts {S A} (m : M S A) : Prop :=
  forall s, exists a s', m s = (Ok a, s').

(** An event node with a hysteresis and nothing else, and a channel node
    with a channel number, such event nodes and nothing else. *)
Definition hyst_event (event_name : string) (val : Z) : fwnode_handle :=
  FwNode event_name {[ "azoteq,hyst" := [val] ]} [].

Definition hyst_chan (reg : Z) (events : list fwnode_handle) : fwnode_handle :=
  FwNode "channel" {[ "reg" := [reg] ]} events.

(** * Properties *)

(** ** Bit-level reasoning *)

(** Two integers are equal when all their bits are; the bits of the masks
    and of the shifted operands are decided by comparing bit positions. *)
Lemma testbit_BIT (k n : Z) :
  0 <= k -> Z.testbit (BIT k) n = (n =? k).
Proof.
  intros Hk. unfold BIT.
  destruct (Z.eqb_spec n k) as [->|Hne].
  - rewrite Z.shiftl_spec by lia. now rewrite Z.sub_diag.
  - destruct (Z.lt_ge_cases n 0) as [Hn|Hn].
    + apply Z.testbit_neg_r; lia.
    + rewrite Z.shiftl_spec by lia.
      destruct (Z.lt_ge_cases (n - k) 0).
      * apply Z.testbit_neg_r; lia.
      * apply Z.bits_above_log2; simpl; lia.
Qed.

Lemma testbit_GENMASK (h l n : Z) :
  0 <= l <= h -> Z.testbit (GENMASK h l) n = (l <=? n) && (n <=? h).
Proof.
  intros Hlh. unfold GENMASK.
  destruct (Z.lt_ge_cases n 0) as [Hn|Hn].
  - rewrite Z.testbit_neg_r by lia.
    destruct (Z.leb_spec l n); [lia | reflexivity].
  - rewrite Z.shiftl_spec by lia.
    rewrite Z.testbit_ones by lia.
    destruct (Z.leb_spec 0 (n - l)), (Z.ltb_spec (n - l) (h - l + 1)),
      (Z.leb_spec l n), (Z.leb_spec n h); simpl; try reflexivity; lia.
Qed.

Lemma testbit_u8 (x n : Z) : Z.testbit (u8 x) n = Z.testbit x n && ((0 <=? n) && (n <? 8)).
Proof. unfold u8. rewrite Z.land_spec, Z.testbit_ones by lia. reflexivity. Qed.

Lemma testbit_u16 (x n : Z) : Z.testbit (u16 x) n = Z.testbit x n && ((0 <=? n) && (n <? 16)).
Proof. unfold u16. rewrite Z.land_spec, Z.testbit_ones by lia. reflexivity. Qed.

(** A non-negative integer below [2 ^ k] has no bit at or above position [k]. *)
Lemma testbit_small (x k n : Z) :
  0 <= x < 2 ^ k -> k <= n -> Z.testbit x n = false.
Proof.
  intros Hx Hn.
  destruct (Z.eq_dec x 0) as [->|Hx0]; [apply Z.bits_0|].
  apply Z.bits_above_log2; [lia|].
  assert (0 <= k) by (destruct (Z.lt_ge_cases k 0); [rewrite Z.pow_neg_r in Hx; lia | lia]).
  apply Z.lt_le_trans with k; [|lia].
  apply Z.log2_lt_pow2; lia.
Qed.

Ltac cmp_cases :=
  repeat match goal with
  | |- context [?a <=? ?b] => destruct (Z.leb_spec a b)
  | |- context [?a <? ?b] => destruct (Z.ltb_spec a b)
  | |- context [?a =? ?b] => destruct (Z.eqb_spec a b)
  end.

Ltac bits_step :=
  first
    [ rewrite Z.land_spec | rewrite Z.lor_spec | rewrite Z.lnot_spec by lia
    | rewrite testbit_u8 | rewrite testbit_u16
    | rewrite testbit_BIT by lia | rewrite testbit_GENMASK by lia
    | rewrite Z.shiftl_spec by lia | rewrite Z.shiftr_spec by lia ].

(** [bits]: prove an equation between bit-vector expressions position by
    position. *)
Ltac bits :=
  apply Z.bits_inj'; intros ?n ?Hn; repeat bits_step;
  cmp_cases; simpl;
  rewrite ?andb_true_r, ?andb_false_r, ?orb_false_r, ?orb_true_r,
    ?andb_false_l, ?orb_false_l;
  try reflexivity; try lia;
  try (f_equal; lia).

Lemma be16_roundtrip (v : Z) : be16_to_cpu (cpu_to_be16 v) = u16 v.
Proof.
  unfold be16_to_cpu, cpu_to_be16; simpl.
  apply Z.bits_inj'; intros n Hn; repeat bits_step.
  destruct (Z.ltb_spec n 8).
  - rewrite (Z.testbit_neg_r _ (n - 8)) by lia. cmp_cases; simpl; try lia.
    now rewrite !andb_true_r.
  - repeat bits_step. replace (n - 8 + 8) with n by lia.
    cmp_cases; simpl; rewrite ?andb_true_r, ?andb_false_r, ?orb_false_r;
      try reflexivity; lia.
Qed.

Lemma u16_idem (v : Z) : u16 (u16 v) = u16 v.
Proof. bits. Qed.

Lemma u16_range (v : Z) : 0 <= u16 v < 2 ^ 16.
Proof. unfold u16. rewrite Z.land_ones by lia. apply Z.mod_pos_bound. lia. Qed.

Lemma u8_range (v : Z) : 0 <= u8 v < 2 ^ 8.
Proof. unfold u8. rewrite Z.land_ones by lia. apply Z.mod_pos_bound. lia. Qed.

Lemma u8_small (v : Z) : 0 <= v < 256 -> u8 v = v.
Proof. intros H. unfold u8. rewrite Z.land_ones by lia. apply Z.mod_small. lia. Qed.

Lemma u16_small (v : Z) : 0 <= v < 65536 -> u16 v = v.
Proof. intros H. unfold u16. rewrite Z.land_ones by lia. apply Z.mod_small. lia. Qed.

(** ** The ATI accessors *)

Lemma sized_ch_reg (p : iqs269_private) :
  sized p = true -> length (ch_reg (sys_reg p)) = 8%nat.
Proof.
  unfold sized, sized_sys_reg. intros H.
  repeat (apply andb_prop in H; destruct H as [H ?]).
  now apply Nat.eqb_eq.
Qed.

Lemma ch_index_lt (p : iqs269_private) (ch : Z) :
  sized p = true -> 0 <= ch < IQS269_NUM_CH ->
  (Z.to_nat ch < length (ch_reg (sys_reg p)))%nat.
Proof. intros Hs Hch. rewrite (sized_ch_reg p Hs). unfold IQS269_NUM_CH in Hch. lia. Qed.

(** Reading back the channel block that was just stored. *)
Lemma ch_reg_upd_same (n : nat) f (p : iqs269_private) :
  (n < length (ch_reg (sys_reg p)))%nat ->
  ch_reg (sys_reg (upd_ch_reg n f p)) !!! n = f (ch_reg (sys_reg p) !!! n).
Proof. intros Hn. simpl. now apply list_lookup_total_insert_eq. Qed.

Ltac chan_guard ch :=
  let H := fresh "Hguard" in
  destruct (ch >=? IQS269_NUM_CH) eqn:H;
  [ rewrite Z.geb_leb in H; apply Z.leb_le in H; unfold IQS269_NUM_CH in *; try lia
  | rewrite Z.geb_leb in H; apply Z.leb_gt in H; unfold IQS269_NUM_CH in *; try lia ].

Ltac max_guard v m :=
  let H := fresh "Hmax" in
  destruct (v >? m) eqn:H;
  [ rewrite Z.gtb_ltb in H; apply Z.ltb_lt in H; unfold m in *; try lia
  | rewrite Z.gtb_ltb in H; apply Z.ltb_ge in H; unfold m in *; try lia ].

(** The 6-bit target field: clear, then or in a value below 64. *)
Lemma target_field (e q : Z) :
  0 <= q < 64 ->
  Z.land (u16 (u16 (Z.lor (u16 (Z.land e (Z.lnot IQS269_CHx_ENG_B_ATI_TARGET_MASK))) q)))
    IQS269_CHx_ENG_B_ATI_TARGET_MASK = q.
Proof.
  intros Hq. unfold IQS269_CHx_ENG_B_ATI_TARGET_MASK.
  apply Z.bits_inj'; intros n Hn; repeat bits_step.
  cmp_cases; simpl;
    rewrite ?andb_true_r, ?andb_false_r, ?orb_false_r, ?andb_false_l, ?orb_false_l;
    try reflexivity; try lia.
  all: symmetry; apply (testbit_small q 6); lia.
Qed.

(** The 2-bit base field: clear, then or in one of the four codes. *)
Lemma base_field (e b : Z) :
  Z.land b (Z.lnot IQS269_CHx_ENG_B_ATI_BASE_MASK) = 0 ->
  Z.land (u16 (u16 (Z.lor (u16 (Z.land e (Z.lnot IQS269_CHx_ENG_B_ATI_BASE_MASK))) b)))
    IQS269_CHx_ENG_B_ATI_BASE_MASK = b.
Proof.
  intros Hb. unfold IQS269_CHx_ENG_B_ATI_BASE_MASK in *.
  apply Z.bits_inj'; intros n Hn.
  assert (Hbn : Z.testbit b n && negb ((6 <=? n) && (n <=? 7)) = false).
  { rewrite <- (Z.bits_0 n), <- Hb. now repeat bits_step. }
  repeat bits_step. revert Hbn.
  cmp_cases; simpl;
    rewrite ?andb_true_r, ?andb_false_r, ?orb_false_r, ?andb_false_l, ?orb_false_l;
    try reflexivity; try lia; intros ->; reflexivity.
Qed.

(** Whatever the engine word holds, its base field is one of the four codes:
    the [default] branch of [iqs269_ati_base_get] is never taken. *)
Lemma base_field_cases (e : Z) :
  let sel := Z.land e IQS269_CHx_ENG_B_ATI_BASE_MASK in
  sel = IQS269_CHx_ENG_B_ATI_BASE_75 \/ sel = IQS269_CHx_ENG_B_ATI_BASE_100 \/
  sel = IQS269_CHx_ENG_B_ATI_BASE_150 \/ sel = IQS269_CHx_ENG_B_ATI_BASE_200.
Proof.
  simpl.
  assert (H : Z.land e IQS269_CHx_ENG_B_ATI_BASE_MASK
              = Z.lor (if Z.testbit e 6 then BIT 6 else 0) (if Z.testbit e 7 then BIT 7 else 0)).
  { unfold IQS269_CHx_ENG_B_ATI_BASE_MASK.
    apply Z.bits_inj'; intros n Hn; repeat bits_step.
    destruct (Z.eq_dec n 6) as [->|H6]; [destruct (Z.testbit e 6), (Z.testbit e 7); reflexivity|].
    destruct (Z.eq_dec n 7) as [->|H7]; [destruct (Z.testbit e 6), (Z.testbit e 7); reflexivity|].
    destruct (Z.testbit e 6), (Z.testbit e 7); repeat bits_step; rewrite ?Z.bits_0;
      cmp_cases; simpl; rewrite ?andb_false_r; try reflexivity; lia. }
  rewrite H. destruct (Z.testbit e 6), (Z.testbit e 7); vm_compute; tauto.
Qed.

(** C4.  For a channel below 8 and a target in [0, 2016], setting the target
    succeeds and reading it back yields [target - target mod 32]: what is
    read back is the target itself exactly when the target is a multiple
    of 32. *)
Theorem ati_target_set_get (p : iqs269_private) (ch target : Z) :
  sized p = true -> 0 <= ch < IQS269_NUM_CH ->
  0 <= target <= IQS269_CHx_ENG_B_ATI_TARGET_MAX ->
  let p' := snd (iqs269_ati_target_set ch target p) in
  fst (iqs269_ati_target_set ch target p) = Ok tt /\
  fst (iqs269_ati_target_get ch p') = Ok (target - target mod 32) /\
  (fst (iqs269_ati_target_get ch p') = Ok target <-> target mod 32 = 0).
Proof.
  intros Hs Hch Ht.
  assert (Hidx := ch_index_lt p ch Hs Hch).
  assert (Hget : forall q, iqs269_ati_target_get ch q
            = (Ok (Z.land (be16_to_cpu (engine_b (ch_reg (sys_reg q) !!! Z.to_nat ch)))
                     IQS269_CHx_ENG_B_ATI_TARGET_MASK * 32), q)).
  { intros q. unfold iqs269_ati_target_get. chan_guard ch. reflexivity. }
  assert (Hset : iqs269_ati_target_set ch target p
            = (Ok tt, set_ati_current false
                 (upd_ch_reg (Z.to_nat ch)
                    (set_engine_b (cpu_to_be16
                       (u16 (Z.lor (u16 (Z.land
                           (be16_to_cpu (engine_b (ch_reg (sys_reg p) !!! Z.to_nat ch)))
                           (Z.lnot IQS269_CHx_ENG_B_ATI_TARGET_MASK))) (target / 32))))) p))).
  { unfold iqs269_ati_target_set. chan_guard ch.
    max_guard target IQS269_CHx_ENG_B_ATI_TARGET_MAX. reflexivity. }
  assert (Hback : fst (iqs269_ati_target_get ch (snd (iqs269_ati_target_set ch target p)))
            = Ok (target - target mod 32)).
  { rewrite Hset, Hget. cbn [fst snd]. f_equal.
    change (sys_reg (set_ati_current false ?q)) with (sys_reg q).
    rewrite ch_reg_upd_same by exact Hidx.
    cbn [engine_b set_engine_b]. rewrite be16_roundtrip.
    rewrite target_field.
    - pose proof (Z.div_mod target 32). lia.
    - unfold IQS269_CHx_ENG_B_ATI_TARGET_MAX in Ht.
      split; [apply Z.div_pos; lia | apply Z.div_lt_upper_bound; lia]. }
  cbv zeta. rewrite Hback. split; [now rewrite Hset|]. split; [reflexivity|].
  split; [intros [= H]; lia | intros H; f_equal; lia].
Qed.

Lemma ati_target_set_get_witness :
  fst (iqs269_ati_target_get 3 (snd (iqs269_ati_target_set 3 1000 kzalloc_private)))
  = Ok 992.
Proof.
  pose proof (ati_target_set_get kzalloc_private 3 1000) as H.
  destruct H as [_ [H _]].
  - reflexivity.
  - unfold IQS269_NUM_CH; lia.
  - unfold IQS269_CHx_ENG_B_ATI_TARGET_MAX; lia.
  - exact H.
Defined.

(** What each setter does, branch by branch. *)
Lemma ati_mode_set_eq (p : iqs269_private) (ch mode : Z) :
  iqs269_ati_mode_set ch mode p =
  if (ch >=? IQS269_NUM_CH) || (mode >? IQS269_CHx_ENG_A_ATI_MODE_MAX)
  then (Err (- EINVAL), p)
  else (Ok tt, set_ati_current false
         (upd_ch_reg (Z.to_nat ch)
            (set_engine_a (cpu_to_be16
               (u16 (Z.lor (u16 (Z.land
                   (be16_to_cpu (engine_a (ch_reg (sys_reg p) !!! Z.to_nat ch)))
                   (Z.lnot IQS269_CHx_ENG_A_ATI_MODE_MASK)))
                 (Z.shiftl mode IQS269_CHx_ENG_A_ATI_MODE_SHIFT))))) p)).
Proof.
  unfold iqs269_ati_mode_set.
  destruct (ch >=? IQS269_NUM_CH); [reflexivity|].
  destruct (mode >? IQS269_CHx_ENG_A_ATI_MODE_MAX); reflexivity.
Qed.

Lemma ati_base_set_eq (p : iqs269_private) (ch base b : Z) :
  (base = 75 /\ b = IQS269_CHx_ENG_B_ATI_BASE_75) \/
  (base = 100 /\ b = IQS269_CHx_ENG_B_ATI_BASE_100) \/
  (base = 150 /\ b = IQS269_CHx_ENG_B_ATI_BASE_150) \/
  (base = 200 /\ b = IQS269_CHx_ENG_B_ATI_BASE_200) ->
  iqs269_ati_base_set ch base p =
  if ch >=? IQS269_NUM_CH then (Err (- EINVAL), p) else
    (Ok tt, set_ati_current false
       (upd_ch_reg (Z.to_nat ch)
          (set_engine_b (cpu_to_be16
             (u16 (Z.lor (u16 (Z.land
                 (be16_to_cpu (engine_b (ch_reg (sys_reg p) !!! Z.to_nat ch)))
                 (Z.lnot IQS269_CHx_ENG_B_ATI_BASE_MASK))) b)))) p)).
Proof.
  unfold iqs269_ati_base_set.
  destruct (ch >=? IQS269_NUM_CH); [reflexivity|].
  intros [[-> ->]|[[-> ->]|[[-> ->]|[-> ->]]]]; reflexivity.
Qed.

Lemma ati_base_set_other (p : iqs269_private) (ch base : Z) :
  ~ (base = 75 \/ base = 100 \/ base = 150 \/ base = 200) ->
  iqs269_ati_base_set ch base p = (Err (- EINVAL), p).
Proof.
  intros H. unfold iqs269_ati_base_set.
  destruct (ch >=? IQS269_NUM_CH); [reflexivity|]. unfold bind.
  destruct (Z.eqb_spec base 75); [tauto|].
  destruct (Z.eqb_spec base 100); [tauto|].
  destruct (Z.eqb_spec base 150); [tauto|].
  destruct (Z.eqb_spec base 200); [tauto|reflexivity].
Qed.

Lemma ati_base_get_eq (p : iqs269_private) (ch : Z) :
  iqs269_ati_base_get ch p =
  if ch >=? IQS269_NUM_CH then (Err (- EINVAL), p) else
  let sel := Z.land (be16_to_cpu (engine_b (ch_reg (sys_reg p) !!! Z.to_nat ch)))
               IQS269_CHx_ENG_B_ATI_BASE_MASK in
  (if sel =? IQS269_CHx_ENG_B_ATI_BASE_75 then Ok 75
   else if sel =? IQS269_CHx_ENG_B_ATI_BASE_100 then Ok 100
   else if sel =? IQS269_CHx_ENG_B_ATI_BASE_150 then Ok 150
   else if sel =? IQS269_CHx_ENG_B_ATI_BASE_200 then Ok 200
   else Err (- EINVAL), p).
Proof.
  unfold iqs269_ati_base_get.
  destruct (ch >=? IQS269_NUM_CH); [reflexivity|].
  unfold bind, gets. cbv zeta.
  repeat match goal with |- context [if ?c then _ else _] => destruct c end;
    reflexivity.
Qed.

Lemma ati_target_set_eq (p : iqs269_private) (ch target : Z) :
  iqs269_ati_target_set ch target p =
  if (ch >=? IQS269_NUM_CH) || (target >? IQS269_CHx_ENG_B_ATI_TARGET_MAX)
  then (Err (- EINVAL), p)
  else (Ok tt, set_ati_current false
         (upd_ch_reg (Z.to_nat ch)
            (set_engine_b (cpu_to_be16
               (u16 (Z.lor (u16 (Z.land
                   (be16_to_cpu (engine_b (ch_reg (sys_reg p) !!! Z.to_nat ch)))
                   (Z.lnot IQS269_CHx_ENG_B_ATI_TARGET_MASK))) (target / 32))))) p)).
Proof.
  unfold iqs269_ati_target_set.
  destruct (ch >=? IQS269_NUM_CH); [reflexivity|].
  destruct (target >? IQS269_CHx_ENG_B_ATI_TARGET_MAX); reflexivity.
Qed.

(** C5.  For a channel below 8, a base of 75, 100, 150 or 200 is stored and
    read back unchanged; any other base is refused with [-EINVAL]. *)
Theorem ati_base_set_get (p : iqs269_private) (ch base : Z) :
  sized p = true -> 0 <= ch < IQS269_NUM_CH ->
  (base = 75 \/ base = 100 \/ base = 150 \/ base = 200 ->
     fst (iqs269_ati_base_set ch base p) = Ok tt /\
     fst (iqs269_ati_base_get ch (snd (iqs269_ati_base_set ch base p))) = Ok base) /\
  (~ (base = 75 \/ base = 100 \/ base = 150 \/ base = 200) ->
     fst (iqs269_ati_base_set ch base p) = Err (- EINVAL)).
Proof.
  intros Hs Hch.
  assert (Hidx := ch_index_lt p ch Hs Hch).
  split.
  - intros Hb.
    assert (Hcode : exists b,
      ((base = 75 /\ b = IQS269_CHx_ENG_B_ATI_BASE_75) \/
       (base = 100 /\ b = IQS269_CHx_ENG_B_ATI_BASE_100) \/
       (base = 150 /\ b = IQS269_CHx_ENG_B_ATI_BASE_150) \/
       (base = 200 /\ b = IQS269_CHx_ENG_B_ATI_BASE_200))).
    { destruct Hb as [-> | [-> | [-> | ->]]]; eexists; intuition eauto. }
    destruct Hcode as [b Hcode].
    rewrite (ati_base_set_eq p ch base b Hcode). chan_guard ch.
    split; [reflexivity|]. cbn [fst snd].
    rewrite ati_base_get_eq. chan_guard ch.
    change (sys_reg (set_ati_current false ?q)) with (sys_reg q).
    rewrite ch_reg_upd_same by exact Hidx.
    cbn [engine_b set_engine_b]. rewrite be16_roundtrip. cbv zeta.
    rewrite base_field.
    + destruct Hcode as [[-> ->]|[[-> ->]|[[-> ->]|[-> ->]]]]; reflexivity.
    + destruct Hcode as [[-> ->]|[[-> ->]|[[-> ->]|[-> ->]]]]; reflexivity.
  - intros Hb. now rewrite (ati_base_set_other p ch base Hb).
Qed.

Lemma ati_base_set_get_witness :
  fst (iqs269_ati_base_get 5 (snd (iqs269_ati_base_set 5 150 kzalloc_private))) = Ok 150
  /\ fst (iqs269_ati_base_set 5 120 kzalloc_private) = Err (- EINVAL).
Proof.
  pose proof (ati_base_set_get kzalloc_private 5 150) as H150.
  pose proof (ati_base_set_get kzalloc_private 5 120) as H120.
  destruct H150 as [H150 _]; [reflexivity | unfold IQS269_NUM_CH; lia |].
  destruct H120 as [_ H120]; [reflexivity | unfold IQS269_NUM_CH; lia |].
  split.
  - apply H150. right; right; left; reflexivity.
  - apply H120. intros [H | [H | [H | H]]]; discriminate H.
Defined.

Lemma classic_base (v : Z) :
  (v = 75 \/ v = 100 \/ v = 150 \/ v = 200) \/
  ~ (v = 75 \/ v = 100 \/ v = 150 \/ v = 200).
Proof. lia. Qed.

(** C6.  Each setter refuses a channel index of 8 or more and a value
    outside its domain with [-EINVAL], and a refused call returns the
    private structure exactly as it received it: the register image and
    [ati_current] are untouched. *)
Theorem ati_set_rejects_unchanged (p : iqs269_private) (ch v : Z) :
  (ch >= IQS269_NUM_CH \/ v > IQS269_CHx_ENG_A_ATI_MODE_MAX ->
     iqs269_ati_mode_set ch v p = (Err (- EINVAL), p)) /\
  (ch >= IQS269_NUM_CH \/ ~ (v = 75 \/ v = 100 \/ v = 150 \/ v = 200) ->
     iqs269_ati_base_set ch v p = (Err (- EINVAL), p)) /\
  (ch >= IQS269_NUM_CH \/ v > IQS269_CHx_ENG_B_ATI_TARGET_MAX ->
     iqs269_ati_target_set ch v p = (Err (- EINVAL), p)) /\
  (forall e, fst (iqs269_ati_mode_set ch v p) = Err e ->
     snd (iqs269_ati_mode_set ch v p) = p) /\
  (forall e, fst (iqs269_ati_base_set ch v p) = Err e ->
     snd (iqs269_ati_base_set ch v p) = p) /\
  (forall e, fst (iqs269_ati_target_set ch v p) = Err e ->
     snd (iqs269_ati_target_set ch v p) = p).
Proof.
  repeat split.
  - intros H. rewrite ati_mode_set_eq.
    chan_guard ch; [reflexivity|].
    max_guard v IQS269_CHx_ENG_A_ATI_MODE_MAX. reflexivity.
  - intros [H | H].
    + unfold iqs269_ati_base_set. chan_guard ch. reflexivity.
    + exact (ati_base_set_other p ch v H).
  - intros H. rewrite ati_target_set_eq.
    chan_guard ch; [reflexivity|].
    max_guard v IQS269_CHx_ENG_B_ATI_TARGET_MAX. reflexivity.
  - intros e. rewrite ati_mode_set_eq.
    destruct (_ || _); [reflexivity | discriminate].
  - intros e.
    destruct (classic_base v) as [Hb | Hb].
    + assert (Hcode : exists b,
        ((v = 75 /\ b = IQS269_CHx_ENG_B_ATI_BASE_75) \/
         (v = 100 /\ b = IQS269_CHx_ENG_B_ATI_BASE_100) \/
         (v = 150 /\ b = IQS269_CHx_ENG_B_ATI_BASE_150) \/
         (v = 200 /\ b = IQS269_CHx_ENG_B_ATI_BASE_200))).
      { destruct Hb as [-> | [-> | [-> | ->]]]; eexists; intuition eauto. }
      destruct Hcode as [b Hcode]. rewrite (ati_base_set_eq p ch v b Hcode).
      destruct (ch >=? IQS269_NUM_CH); [reflexivity | discriminate].
    + now rewrite (ati_base_set_other p ch v Hb).
  - intros e. rewrite ati_target_set_eq.
    destruct (_ || _); [reflexivity | discriminate].
Qed.

Lemma ati_set_rejects_unchanged_witness :
  iqs269_ati_mode_set 8 1 kzalloc_private = (Err (- EINVAL), kzalloc_private) /\
  iqs269_ati_mode_set 2 4 kzalloc_private = (Err (- EINVAL), kzalloc_private) /\
  iqs269_ati_base_set 2 90 kzalloc_private = (Err (- EINVAL), kzalloc_private) /\
  iqs269_ati_target_set 2 2017 kzalloc_private = (Err (- EINVAL), kzalloc_private) /\
  snd (iqs269_ati_target_set 9 2048 kzalloc_private) = kzalloc_private.
Proof.
  destruct (ati_set_rejects_unchanged kzalloc_private 8 1) as [Hch _].
  destruct (ati_set_rejects_unchanged kzalloc_private 2 4) as [Hmode _].
  destruct (ati_set_rejects_unchanged kzalloc_private 2 90) as [_ [Hbase _]].
  destruct (ati_set_rejects_unchanged kzalloc_private 2 2017) as [_ [_ [Htarget _]]].
  destruct (ati_set_rejects_unchanged kzalloc_private 9 2048) as [_ [_ [_ [_ [_ Hsame]]]]].
  split; [|split; [|split; [|split]]].
  - apply Hch. left. unfold IQS269_NUM_CH. lia.
  - apply Hmode. right. unfold IQS269_CHx_ENG_A_ATI_MODE_MAX. lia.
  - apply Hbase. right. intros [H | [H | [H | H]]]; discriminate H.
  - apply Htarget. right. unfold IQS269_CHx_ENG_B_ATI_TARGET_MAX. lia.
  - apply (Hsame (- EINVAL)). reflexivity.
Defined.

(** C7.  For a channel below 8 and a value in the setter's domain, the call
    succeeds and leaves [ati_current] false, whatever the structure held
    before: also when the value written is the one already stored and when
    [ati_current] was true. *)
Theorem ati_set_marks_stale (p : iqs269_private) (ch v : Z) :
  0 <= ch < IQS269_NUM_CH ->
  (0 <= v <= IQS269_CHx_ENG_A_ATI_MODE_MAX ->
     fst (iqs269_ati_mode_set ch v p) = Ok tt /\
     ati_current (snd (iqs269_ati_mode_set ch v p)) = false) /\
  (v = 75 \/ v = 100 \/ v = 150 \/ v = 200 ->
     fst (iqs269_ati_base_set ch v p) = Ok tt /\
     ati_current (snd (iqs269_ati_base_set ch v p)) = false) /\
  (0 <= v <= IQS269_CHx_ENG_B_ATI_TARGET_MAX ->
     fst (iqs269_ati_target_set ch v p) = Ok tt /\
     ati_current (snd (iqs269_ati_target_set ch v p)) = false).
Proof.
  intros Hch. split; [|split].
  - intros Hv. rewrite ati_mode_set_eq. chan_guard ch.
    max_guard v IQS269_CHx_ENG_A_ATI_MODE_MAX. split; reflexivity.
  - intros Hb.
    assert (Hcode : exists b,
      ((v = 75 /\ b = IQS269_CHx_ENG_B_ATI_BASE_75) \/
       (v = 100 /\ b = IQS269_CHx_ENG_B_ATI_BASE_100) \/
       (v = 150 /\ b = IQS269_CHx_ENG_B_ATI_BASE_150) \/
       (v = 200 /\ b = IQS269_CHx_ENG_B_ATI_BASE_200))).
    { destruct Hb as [-> | [-> | [-> | ->]]]; eexists; intuition eauto. }
    destruct Hcode as [b Hcode]. rewrite (ati_base_set_eq p ch v b Hcode).
    chan_guard ch. split; reflexivity.
  - intros Hv. rewrite ati_target_set_eq. chan_guard ch.
    max_guard v IQS269_CHx_ENG_B_ATI_TARGET_MAX. split; reflexivity.
Qed.

(** The mode already stored in channel 1 is 0 and [ati_current] is true;
    writing 0 again leaves the image as it was and still clears the flag. *)
Lemma ati_set_marks_stale_witness :
  let p := set_ati_current true kzalloc_private in
  fst (iqs269_ati_mode_get 1 p) = Ok 0 /\
  ati_current p = true /\
  sys_reg (snd (iqs269_ati_mode_set 1 0 p)) = sys_reg p /\
  ati_current (snd (iqs269_ati_mode_set 1 0 p)) = false /\
  ati_current (snd (iqs269_ati_base_set 1 75 p)) = false /\
  ati_current (snd (iqs269_ati_target_set 1 0 p)) = false.
Proof.
  intros p.
  assert (Hch : 0 <= 1 < IQS269_NUM_CH) by (unfold IQS269_NUM_CH; lia).
  destruct (ati_set_marks_stale p 1 0 Hch) as [Hmode [_ Htarget]].
  destruct (ati_set_marks_stale p 1 75 Hch) as [_ [Hbase _]].
  split; [reflexivity|]. split; [reflexivity|]. split; [reflexivity|].
  split; [|split].
  - apply Hmode. unfold IQS269_CHx_ENG_A_ATI_MODE_MAX. lia.
  - apply Hbase. left. reflexivity.
  - apply Htarget. unfold IQS269_CHx_ENG_B_ATI_TARGET_MAX. lia.
Defined.

(** C10.  For a channel below 8 each getter succeeds and hands back the
    private structure it was given: neither the register image nor
    [ati_current] (nor any other field) differs after the call. *)
Theorem ati_get_frame (p : iqs269_private) (ch : Z) :
  0 <= ch < IQS269_NUM_CH ->
  (exists mode, iqs269_ati_mode_get ch p = (Ok mode, p)) /\
  (exists base, iqs269_ati_base_get ch p = (Ok base, p)) /\
  (exists target, iqs269_ati_target_get ch p = (Ok target, p)).
Proof.
  intros Hch. split; [|split].
  - unfold iqs269_ati_mode_get. chan_guard ch. eexists. reflexivity.
  - rewrite ati_base_get_eq. chan_guard ch. cbv zeta.
    destruct (base_field_cases
      (be16_to_cpu (engine_b (ch_reg (sys_reg p) !!! Z.to_nat ch))))
      as [H | [H | [H | H]]]; cbv zeta in H; rewrite H; eexists; reflexivity.
  - unfold iqs269_ati_target_get. chan_guard ch. eexists. reflexivity.
Qed.

Lemma ati_get_frame_witness :
  iqs269_ati_mode_get 7 kzalloc_private = (Ok 0, kzalloc_private) /\
  iqs269_ati_base_get 7 kzalloc_private = (Ok 75, kzalloc_private) /\
  iqs269_ati_target_get 7 kzalloc_private = (Ok 0, kzalloc_private).
Proof.
  destruct (ati_get_frame kzalloc_private 7) as [[m Hm] [[b Hb] [t Ht]]].
  - unfold IQS269_NUM_CH. lia.
  - split; [|split].
    + rewrite Hm. vm_compute in Hm. congruence.
    + rewrite Hb. vm_compute in Hb. congruence.
    + rewrite Ht. vm_compute in Ht. congruence.
Defined.

(** ** Pin-index lists *)

Lemma or_of_bits_u8 (l : list Z) :
  Forall (fun v => 0 <= v < 8) l -> u8 (or_of_bits l) = or_of_bits l.
Proof.
  induction 1 as [|v l Hv _ IH]; [reflexivity|].
  simpl. rewrite <- IH at 2.
  apply Z.bits_inj'; intros n Hn. repeat bits_step.
  cmp_cases; simpl; rewrite ?andb_true_r, ?andb_false_r, ?orb_false_r;
    try reflexivity; lia.
Qed.

Lemma parse_mask_cells_ok (l : list Z) (mask : Z) :
  Forall (fun v => 0 <= v < 8) l -> u8 mask = mask ->
  parse_mask_cells l mask = (Ok tt, Z.lor mask (or_of_bits l)).
Proof.
  intros Hl. revert mask.
  induction Hl as [|v l Hv Hl IH]; intros mask Hm.
  - simpl. now rewrite Z.lor_0_r.
  - simpl. chan_guard v. unfold bind, modify.
    rewrite IH.
    + f_equal. rewrite <- Hm at 2. rewrite <- (or_of_bits_u8 l Hl).
      apply Z.bits_inj'; intros n Hn. repeat bits_step.
      cmp_cases; simpl; rewrite ?andb_true_r, ?andb_false_r, ?orb_false_r;
        try reflexivity; lia.
    + apply Z.bits_inj'; intros n Hn. repeat bits_step.
      cmp_cases; simpl; rewrite ?andb_true_r, ?andb_false_r, ?orb_false_r;
        try reflexivity; lia.
Qed.

Lemma parse_mask_cells_bad (l : list Z) (mask : Z) :
  Exists (fun v => 8 <= v) l ->
  fst (parse_mask_cells l mask) = Err (- EINVAL).
Proof.
  intros Hl. revert mask.
  induction Hl as [v l Hv | v l Hl IH]; intros mask; simpl.
  - chan_guard v. reflexivity.
  - destruct (v >=? IQS269_NUM_CH); [reflexivity|].
    unfold bind, modify. specialize (IH (u8 (Z.lor mask (BIT v)))).
    destruct (parse_mask_cells l _) as [[u|e] m]; simpl in *; congruence.
Qed.

(** C3.  A pin list of at most 8 entries, all below 8, is encoded as the OR
    of [BIT] over its entries, whatever the byte held before; a list of more
    than 8 entries, or with an entry of 8 or more, is refused with
    [-EINVAL]. *)
Theorem parse_mask_encodes (fwnode : fwnode_handle) (propname : string)
    (l : list Z) (mask : Z) :
  node_props fwnode !! propname = Some l ->
  ((length l <= 8)%nat -> Forall (fun v => 0 <= v < 8) l ->
     iqs269_parse_mask fwnode propname mask = (Ok tt, or_of_bits l)) /\
  ((length l > 8)%nat \/ Exists (fun v => 8 <= v) l ->
     fst (iqs269_parse_mask fwnode propname mask) = Err (- EINVAL)).
Proof.
  intros Hprop.
  unfold iqs269_parse_mask, fwnode_property_count_u32,
    fwnode_property_read_u32_array. rewrite Hprop.
  destruct (Z.ltb_spec (Z.of_nat (length l)) 0) as [Hneg|_]; [lia|].
  split.
  - intros Hlen Hall.
    max_guard (Z.of_nat (length l)) IQS269_NUM_CH.
    rewrite Z.ltb_irrefl. unfold bind, lift, modify.
    rewrite Nat2Z.id, firstn_all.
    rewrite parse_mask_cells_ok by (assumption || reflexivity).
    reflexivity.
  - intros [Hlen | Hbad].
    + max_guard (Z.of_nat (length l)) IQS269_NUM_CH. reflexivity.
    + destruct (Z.of_nat (length l) >? IQS269_NUM_CH); [reflexivity|].
      rewrite Z.ltb_irrefl. unfold bind, lift, modify.
      rewrite Nat2Z.id, firstn_all.
      pose proof (parse_mask_cells_bad l 0 Hbad) as H.
      destruct (parse_mask_cells l 0) as [[u|e] m]; simpl in *; congruence.
Qed.

Lemma parse_mask_encodes_witness :
  let rx := FwNode "channel@0" {[ "azoteq,rx-enable" := [0; 3; 3; 7] ]} [] in
  let tx := FwNode "channel@1" {[ "azoteq,tx-enable" := [1; 8] ]} [] in
  iqs269_parse_mask rx "azoteq,rx-enable" 0x55 = (Ok tt, 0x89) /\
  fst (iqs269_parse_mask tx "azoteq,tx-enable" 0x55) = Err (- EINVAL).
Proof.
  intros rx tx.
  destruct (parse_mask_encodes rx "azoteq,rx-enable" [0; 3; 3; 7] 0x55) as [Hok _];
    [reflexivity|].
  destruct (parse_mask_encodes tx "azoteq,tx-enable" [1; 8] 0x55) as [_ Hbad];
    [reflexivity|].
  split.
  - apply Hok; [simpl; lia|]. repeat constructor; lia.
  - apply Hbad. right. apply Exists_cons_tl, Exists_cons_hd. lia.
Defined.

(** ** Channel blocks and bit cases *)

Lemma upd_ch_reg_length (n : nat) f (p : iqs269_private) :
  length (ch_reg (sys_reg (upd_ch_reg n f p))) = length (ch_reg (sys_reg p)).
Proof. simpl. apply length_insert. Qed.

Ltac bits_cases :=
  cmp_cases; simpl;
  rewrite ?andb_true_r, ?andb_false_r, ?orb_false_r, ?orb_true_r,
    ?andb_false_l, ?orb_false_l;
  try reflexivity; try lia.


(** ** The gesture block of the device node *)

Lemma present_lookup (n : fwnode_handle) (propname : string) :
  fwnode_property_present n propname = true ->
  exists l, node_props n !! propname = Some l.
Proof.
  unfold fwnode_property_present.
  destruct (node_props n !! propname) as [l|]; [eauto | discriminate].
Qed.

Ltac gtb_cases :=
  repeat match goal with
  | |- context [?a >? ?b] =>
      let H := fresh "Hgt" in
      destruct (a >? b) eqn:H;
      [ rewrite Z.gtb_ltb in H; apply Z.ltb_lt in H
      | rewrite Z.gtb_ltb in H; apply Z.ltb_ge in H ]
  end.

(** The "linux,keycodes" block up to and after the three stores. *)
Lemma parse_prop_gestures_run (dev : fwnode_handle) (general : Z)
    (p : iqs269_private) (codes : list Z) :
  node_props dev !! "linux,keycodes" = Some codes ->
  parse_prop_gestures dev general p =
  if Z.of_nat (length codes) >? IQS269_NUM_GESTURES * IQS269_NUM_SL
  then (Err (- EINVAL), p)
  else
    let p1 := set_sl_code (store_sl_code codes (sl_code p)) p in
    let general' :=
      if fwnode_property_present dev "azoteq,gesture-swipe"
      then u16 (Z.lor general IQS269_SYS_SETTINGS_SLIDER_SWIPE) else general in
    let scale := if fw_num (ver_info p) <? IQS269_VER_INFO_FW_NUM_3 then 4 else 1 in
    match parse_gesture_params dev scale p1 with
    | (Ok _, p2) =>
        (Ok general',
         upd_sys_reg (fun r =>
           set_event_mask
             (u8 (Z.land (event_mask r) (Z.lnot IQS269_EVENT_MASK_GESTURE))) r) p2)
    | (Err e, p2) => (Err e, p2)
    end.
Proof.
  intros Hcodes.
  unfold parse_prop_gestures, fwnode_property_present, fwnode_property_count_u32,
    fwnode_property_read_u32_array.
  rewrite Hcodes.
  destruct (Z.of_nat (length codes) >? IQS269_NUM_GESTURES * IQS269_NUM_SL);
    [reflexivity|].
  destruct (Z.ltb_spec (Z.of_nat (length codes)) 0) as [Hneg|_]; [lia|].
  rewrite Z.ltb_irrefl, Nat2Z.id, firstn_all.
  unfold bind, lift, modify, gets, ret. cbv zeta.
  change (fw_num (ver_info (set_sl_code ?c p))) with (fw_num (ver_info p)).
  destruct (parse_gesture_params dev _ _) as [[[]|e] p2]; reflexivity.
Qed.

(** ** Reset recovery *)

Lemma check_eq {S} (error : Z) (s : S) :
  check error s = if error =? 0 then (Ok tt, s) else (Err error, s).
Proof. unfold check. now destruct (error =? 0). Qed.

Lemma retcode_check (error : Z) :
  retcode (if error =? 0 then Ok tt else Err error) = error.
Proof. destruct (Z.eqb_spec error 0) as [-> |]; reflexivity. Qed.

(** [iqs269_dev_init], transfer by transfer. *)
Lemma dev_init_run (bus : regmap) (p : iqs269_private) (t : list action) :
  let tws := (otp_option p =? IQS269_OTP_OPTION_TWS)
             && (fw_num (ver_info p) <? IQS269_VER_INFO_FW_NUM_3) in
  let t1 := if tws then t ++ [regmap_multi_reg_write iqs269_tws_init] else t in
  let t2 := t1 ++ [regmap_update_bits IQS269_HALL_UI IQS269_HALL_UI_ENABLE
                     (if hall_enable p then Z.ones 32 else 0)] in
  let t3 := t2 ++ [regmap_raw_write IQS269_SYS_SETTINGS (sys_reg p)] in
  iqs269_dev_init bus (World p t) =
  if tws && negb (tws_init_write bus =? 0) then (Err (tws_init_write bus), World p t1)
  else if negb (hall_ui_update bus =? 0) then (Err (hall_ui_update bus), World p t2)
  else if negb (sys_settings_write bus =? 0) then (Err (sys_settings_write bus), World p t3)
  else (Ok tt, World (set_ati_current true p) t3).
Proof.
  cbv zeta.
  unfold iqs269_dev_init, bind, gets, when, emit, upd_drv, modify, ret, check, throw.
  cbn [drv trace].
  destruct ((otp_option p =? IQS269_OTP_OPTION_TWS)
            && (fw_num (ver_info p) <? IQS269_VER_INFO_FW_NUM_3));
    destruct (tws_init_write bus =? 0);
    destruct (hall_ui_update bus =? 0);
    destruct (sys_settings_write bus =? 0); reflexivity.
Qed.

Lemma report_on_reset (bus : regmap) (p : iqs269_private) (flags : iqs269_flags)
    (t : list action) :
  sys_flags_read bus = Ok flags ->
  Z.land (be16_to_cpu (system flags)) IQS269_SYS_FLAGS_SHOW_RESET <> 0 ->
  iqs269_report bus (World p t) =
  iqs269_dev_init bus (World p (t ++ [regmap_raw_read IQS269_SYS_FLAGS])).
Proof.
  intros Hread Hreset.
  unfold iqs269_report, bind, emit, modify, lift. cbn [drv trace].
  rewrite Hread. unfold nonzero.
  destruct (Z.eqb_spec (Z.land (be16_to_cpu (system flags)) IQS269_SYS_FLAGS_SHOW_RESET) 0);
    [contradiction | reflexivity].
Qed.




(** ** Gesture keys *)

Lemma emits_ret {A} (P : action -> Prop) (a : A) : emits P (ret a) a.
Proof.
  exists []. split; [constructor|]. intros w. rewrite app_nil_r. now destruct w.
Qed.

Lemma emits_emit (P : action -> Prop) (a : action) : P a -> emits P (emit a) tt.
Proof. intros Ha. exists [a]. split; [repeat constructor; exact Ha | reflexivity]. Qed.

Lemma emits_bind {A B} (P : action -> Prop) (m : M world A) (k : A -> M world B)
    (a : A) (b : B) :
  emits P m a -> emits P (k a) b -> emits P (bind m k) b.
Proof.
  intros (acts1 & F1 & E1) (acts2 & F2 & E2).
  exists (acts1 ++ acts2). split; [now apply Forall_app|].
  intros w. unfold bind. rewrite E1, E2. cbn [drv trace].
  now rewrite app_assoc.
Qed.

Lemma emits_when (P : action -> Prop) (c : bool) (m : M world unit) :
  emits P m tt -> emits P (when c m) tt.
Proof. intros Hm. destruct c; [exact Hm | apply emits_ret]. Qed.

Lemma emits_for_each {A} (P : action -> Prop) (l : list A) (body : A -> M world unit) :
  (forall x, emits P (body x) tt) -> emits P (for_each l body) tt.
Proof.
  intros Hbody. induction l as [|x l IH]; simpl.
  - apply emits_ret.
  - eapply emits_bind; [apply Hbody | exact IH].
Qed.

(** The channel loop only talks to the keypad. *)
Lemma report_event_keypad (p : iqs269_private) (flags : iqs269_flags) (i : nat) :
  emits (fun a => action_dev a = Some keypad) (report_event p flags i) tt.
Proof.
  unfold report_event. apply emits_for_each. intros j. unfold report_channel.
  eapply emits_bind; apply emits_when, emits_emit; reflexivity.
Qed.

(** One iteration of the slider loop only talks to its own slider. *)
Lemma report_slider_own (p : iqs269_private) (flags : iqs269_flags)
    (slider_x : list Z) (gesture : Z) (i : nat) :
  emits (fun a => action_dev a = Some (slider i))
    (report_slider p flags slider_x gesture i)
    (u8 (Z.shiftr gesture (Z.of_nat i * IQS269_NUM_GESTURES))).
Proof.
  unfold report_slider. cbv zeta.
  destruct (iqs269_slider_type p i).
  - apply emits_ret.
  - eapply emits_bind; [|eapply emits_bind; [apply emits_emit; reflexivity | apply emits_ret]].
    unfold report_slider_key.
    eapply emits_bind.
    + apply emits_for_each. intros j. apply emits_emit. reflexivity.
    + destruct (negb _); [apply emits_ret|].
      eapply emits_bind; [apply emits_emit; reflexivity|].
      apply emits_for_each. intros j. apply emits_when, emits_emit. reflexivity.
  - eapply emits_bind; [|eapply emits_bind; [apply emits_emit; reflexivity | apply emits_ret]].
    unfold report_slider_raw. cbv zeta.
    eapply emits_bind; [apply emits_emit; reflexivity|].
    apply emits_when, emits_emit. reflexivity.
Qed.

Lemma dev_actions_app (d : input_dev) (t1 t2 : list action) :
  dev_actions d (t1 ++ t2) = dev_actions d t1 ++ dev_actions d t2.
Proof. unfold dev_actions. apply List.filter_app. Qed.

Lemma input_dev_eqb_refl (d : input_dev) : input_dev_eqb d d = true.
Proof. destruct d; simpl; [reflexivity | apply Nat.eqb_refl]. Qed.

(** Actions addressed to one device are all kept, or all dropped, when the
    trace is read for a device. *)
Lemma dev_actions_own (d : input_dev) (acts : list action) :
  Forall (fun a => action_dev a = Some d) acts -> dev_actions d acts = acts.
Proof.
  induction 1 as [|a acts Ha _ IH]; [reflexivity|].
  unfold dev_actions in *. simpl. rewrite Ha, input_dev_eqb_refl. now f_equal.
Qed.

Lemma dev_actions_other (d d' : input_dev) (acts : list action) :
  input_dev_eqb d d' = false ->
  Forall (fun a => action_dev a = Some d') acts -> dev_actions d acts = [].
Proof.
  intros Hne. induction 1 as [|a acts Ha _ IH]; [reflexivity|].
  unfold dev_actions in *. simpl. now rewrite Ha, Hne.
Qed.

Lemma input_dev_eqb_eq (d d' : input_dev) : input_dev_eqb d d' = true -> d = d'.
Proof.
  destruct d, d'; simpl; try discriminate; [reflexivity|].
  intros H. apply Nat.eqb_eq in H. now subst.
Qed.

Lemma land_nibble (g m : Z) :
  Z.land (Z.ones 4) m = m -> Z.land g m = Z.land (Z.land g (Z.ones 4)) m.
Proof. intros H. now rewrite <- Z.land_assoc, H. Qed.

(** The gesture nibble the slider loop looks at in iteration [i]. *)
Lemma slider_nibble (gesture : Z) :
  Z.land (u8 (Z.shiftr gesture (Z.of_nat 0 * IQS269_NUM_GESTURES))) (Z.ones 4)
  = Z.land (Z.shiftr gesture (Z.of_nat 0 * IQS269_NUM_GESTURES)) (Z.ones 4) /\
  Z.land (u8 (Z.shiftr (u8 (Z.shiftr gesture (Z.of_nat 0 * IQS269_NUM_GESTURES)))
                (Z.of_nat 1 * IQS269_NUM_GESTURES))) (Z.ones 4)
  = Z.land (Z.shiftr gesture (Z.of_nat 1 * IQS269_NUM_GESTURES)) (Z.ones 4).
Proof.
  change (Z.of_nat 0 * IQS269_NUM_GESTURES) with 0.
  change (Z.of_nat 1 * IQS269_NUM_GESTURES) with 4.
  split; apply Z.bits_inj'; intros n Hn; repeat bits_step;
    rewrite !Z.testbit_ones by lia; repeat bits_step.
  - rewrite Z.add_0_r. bits_cases.
  - rewrite Z.add_0_r. bits_cases.
Qed.

Ltac run_slider_key Hn g :=
  unfold report_slider_key;
  change (Z.to_nat IQS269_NUM_GESTURES) with 4%nat;
  cbn [seq for_each gesture_id_val Nat.eqb negb when];
  change (Z.of_nat 0) with 0; change (Z.of_nat 1) with 1;
  change (Z.of_nat 2) with 2; change (Z.of_nat 3) with 3;
  rewrite (land_nibble g (BIT 0)), (land_nibble g (BIT 1)), (land_nibble g (BIT 2)),
    (land_nibble g (BIT 3)), (land_nibble g (Z.lor (Z.lor (BIT 3) (BIT 2)) (BIT 0)))
    by reflexivity;
  rewrite Hn;
  repeat match goal with
  | |- context [nonzero ?x] =>
      let b := eval vm_compute in (nonzero x) in change (nonzero x) with b
  end;
  cbn [negb].

(** The gesture-key case on a nibble with only the tap bit: four reports,
    a sync, and the release of every code but the hold code. *)
Lemma report_slider_key_tap (p : iqs269_private) (g : Z) (i : nat) (w : world) :
  Z.land g (Z.ones 4) = BIT (Z.of_nat (gesture_id_val IQS269_GESTURE_TAP)) ->
  report_slider_key p g i w =
  (Ok tt, World (drv w) (trace w ++
     [ input_report_key (slider i) ((sl_code p !!! i) !!! 0%nat) true;
       input_report_key (slider i) ((sl_code p !!! i) !!! 1%nat) false;
       input_report_key (slider i) ((sl_code p !!! i) !!! 2%nat) false;
       input_report_key (slider i) ((sl_code p !!! i) !!! 3%nat) false;
       input_sync (slider i);
       input_report_key (slider i) ((sl_code p !!! i) !!! 0%nat) false;
       input_report_key (slider i) ((sl_code p !!! i) !!! 2%nat) false;
       input_report_key (slider i) ((sl_code p !!! i) !!! 3%nat) false ])).
Proof.
  intros Hn. change (BIT _) with 1 in Hn. run_slider_key Hn g.
  unfold bind, emit, modify, ret. cbn. rewrite <- !app_assoc. reflexivity.
Qed.

(** The gesture-key case on a nibble with only the hold bit: four reports
    and nothing after them. *)
Lemma report_slider_key_hold (p : iqs269_private) (g : Z) (i : nat) (w : world) :
  Z.land g (Z.ones 4) = BIT (Z.of_nat (gesture_id_val IQS269_GESTURE_HOLD)) ->
  report_slider_key p g i w =
  (Ok tt, World (drv w) (trace w ++
     [ input_report_key (slider i) ((sl_code p !!! i) !!! 0%nat) false;
       input_report_key (slider i) ((sl_code p !!! i) !!! 1%nat) true;
       input_report_key (slider i) ((sl_code p !!! i) !!! 2%nat) false;
       input_report_key (slider i) ((sl_code p !!! i) !!! 3%nat) false ])).
Proof.
  intros Hn. change (BIT _) with 2 in Hn. run_slider_key Hn g.
  unfold bind, emit, modify, ret. cbn. rewrite <- !app_assoc. reflexivity.
Qed.

(** [iqs269_report] on a clean snapshot, up to the two loops. *)
Lemma report_clean (bus : regmap) (p : iqs269_private) (flags : iqs269_flags)
    (xs : list Z) (t : list action) :
  sys_flags_read bus = Ok flags ->
  Z.land (be16_to_cpu (system flags)) IQS269_SYS_FLAGS_SHOW_RESET = 0 ->
  Z.land (be16_to_cpu (system flags)) IQS269_SYS_FLAGS_IN_ATI = 0 ->
  slider_x_read bus = Ok xs ->
  let raw := slider_id_eqb (iqs269_slider_type p 0) IQS269_SLIDER_RAW
             || slider_id_eqb (iqs269_slider_type p 1) IQS269_SLIDER_RAW in
  let t1 := t ++ [regmap_raw_read IQS269_SYS_FLAGS] in
  let t2 := if raw then t1 ++ [regmap_raw_read IQS269_SLIDER_X] else t1 in
  let slider_x := if raw then xs else [] in
  iqs269_report bus (World p t) =
  (for_fold (seq 0 (Z.to_nat IQS269_NUM_SL)) (gesture flags)
     (report_slider p flags slider_x) ;;
   for_each (seq 0 (length iqs269_events)) (report_event p flags) ;;
   emit (input_sync keypad) ;;
   upd_drv (set_ati_done true) ;;
   ret tt) (World p t2).
Proof.
  intros Hread Hreset Hati Hx. cbv zeta.
  unfold iqs269_report.
  unfold bind at 1. unfold emit at 1, modify at 1. cbn [drv trace].
  unfold bind at 1. unfold lift at 1. rewrite Hread.
  unfold nonzero at 1. rewrite Hreset. cbn [Z.eqb negb].
  unfold nonzero at 1. rewrite Hati. cbn [Z.eqb negb].
  unfold bind at 1. unfold gets at 1. cbn [drv].
  unfold bind at 1.
  destruct (slider_id_eqb (iqs269_slider_type p 0) IQS269_SLIDER_RAW
            || slider_id_eqb (iqs269_slider_type p 1) IQS269_SLIDER_RAW).
  - unfold bind at 1. unfold emit at 1, modify at 1, lift at 1. cbn [drv trace].
    rewrite Hx. reflexivity.
  - reflexivity.
Qed.

(** C2.  On a clean snapshot (read without error, neither the reset bit nor
    the ATI bit set), for a slider in gesture-key mode: when of its four
    gesture bits only the tap bit is set, the slider device receives the press
    of the tap code and, after a sync, its release, the only other events
    being releases; when only the hold bit is set, the device receives the
    press of the hold code and no release after it. *)
Theorem gesture_key_events (bus : regmap) (p : iqs269_private)
    (flags : iqs269_flags) (xs : list Z) (i : nat) :
  sys_flags_read bus = Ok flags ->
  Z.land (be16_to_cpu (system flags)) IQS269_SYS_FLAGS_SHOW_RESET = 0 ->
  Z.land (be16_to_cpu (system flags)) IQS269_SYS_FLAGS_IN_ATI = 0 ->
  slider_x_read bus = Ok xs ->
  (i < 2)%nat ->
  iqs269_slider_type p i = IQS269_SLIDER_KEY ->
  let res := iqs269_report bus (World p []) in
  let nibble :=
    Z.land (Z.shiftr (gesture flags) (Z.of_nat i * IQS269_NUM_GESTURES)) (Z.ones 4) in
  let key g v :=
    input_report_key (slider i) ((sl_code p !!! i) !!! gesture_id_val g) v in
  fst res = Ok tt /\
  (nibble = BIT (Z.of_nat (gesture_id_val IQS269_GESTURE_TAP)) ->
     dev_actions (slider i) (trace (snd res)) =
     [ key IQS269_GESTURE_TAP true; key IQS269_GESTURE_HOLD false;
       key IQS269_GESTURE_FLICK_POS false; key IQS269_GESTURE_FLICK_NEG false;
       input_sync (slider i);
       key IQS269_GESTURE_TAP false;
       key IQS269_GESTURE_FLICK_POS false; key IQS269_GESTURE_FLICK_NEG false;
       input_sync (slider i) ]) /\
  (nibble = BIT (Z.of_nat (gesture_id_val IQS269_GESTURE_HOLD)) ->
     dev_actions (slider i) (trace (snd res)) =
     [ key IQS269_GESTURE_TAP false; key IQS269_GESTURE_HOLD true;
       key IQS269_GESTURE_FLICK_POS false; key IQS269_GESTURE_FLICK_NEG false;
       input_sync (slider i) ]).
Proof.
  intros Hread Hreset Hati Hx Hi Hkey res nibble key.
  pose proof (slider_nibble (gesture flags)) as [Hn0 Hn1].
  assert (Hres : exists t2 slider_x a0 a1 kacts,
    res = (Ok tt, World (set_ati_done true p)
                    (t2 ++ a0 ++ a1 ++ kacts ++ [input_sync keypad])) /\
    dev_actions (slider i) t2 = [] /\
    dev_actions (slider i) (kacts ++ [input_sync keypad]) = [] /\
    Forall (fun a => action_dev a = Some (slider 0)) a0 /\
    Forall (fun a => action_dev a = Some (slider 1)) a1 /\
    (forall w, report_slider p flags slider_x (gesture flags) 0 w
       = (Ok (u8 (Z.shiftr (gesture flags) (Z.of_nat 0 * IQS269_NUM_GESTURES))),
          World (drv w) (trace w ++ a0))) /\
    (forall w, report_slider p flags slider_x
         (u8 (Z.shiftr (gesture flags) (Z.of_nat 0 * IQS269_NUM_GESTURES))) 1 w
       = (Ok (u8 (Z.shiftr (u8 (Z.shiftr (gesture flags)
                                  (Z.of_nat 0 * IQS269_NUM_GESTURES)))
                    (Z.of_nat 1 * IQS269_NUM_GESTURES))),
          World (drv w) (trace w ++ a1)))).
  { subst res.
    rewrite (report_clean bus p flags xs [] Hread Hreset Hati Hx). cbv zeta.
    match goal with |- context [World p ?t] => set (t2 := t) end.
    match goal with |- context [report_slider p flags ?sx] => set (slider_x := sx) end.
    assert (Hev : emits (fun a => action_dev a = Some keypad)
                    (for_each (seq 0 (length iqs269_events)) (report_event p flags)) tt).
    { apply emits_for_each. intros j. apply report_event_keypad. }
    destruct Hev as (kacts & Fk & Ek).
    destruct (report_slider_own p flags slider_x (gesture flags) 0) as (a0 & F0 & E0).
    destruct (report_slider_own p flags slider_x
                (u8 (Z.shiftr (gesture flags) (Z.of_nat 0 * IQS269_NUM_GESTURES))) 1)
      as (a1 & F1 & E1).
    exists t2, slider_x, a0, a1, kacts.
    split; [|split; [|split; [|split; [exact F0 | split; [exact F1 | split; [exact E0 | exact E1]]]]]].
    - change (Z.to_nat IQS269_NUM_SL) with 2%nat. cbn [seq for_fold].
      unfold bind. rewrite E0, E1. unfold ret at 1. rewrite Ek.
      unfold emit, upd_drv, modify, ret. cbn [fst snd drv trace].
      rewrite <- !app_assoc. reflexivity.
    - subst t2. destruct (_ || _); reflexivity.
    - apply dev_actions_other with (d' := keypad); [reflexivity|].
      apply Forall_app. split; [exact Fk | repeat constructor]. }
  destruct Hres as (t2 & slider_x & a0 & a1 & kacts & -> & Ht2 & Hk & F0 & F1 & E0 & E1).
  cbn [fst snd trace drv].
  split; [reflexivity|].
  rewrite (dev_actions_app _ t2), Ht2. cbn [app].
  rewrite (dev_actions_app _ a0), (dev_actions_app _ a1), Hk, app_nil_r.
  (* the slider of interest *)
  subst nibble key. cbv beta.
  assert (Hcase : i = 0%nat \/ i = 1%nat) by lia.
  destruct Hcase as [-> | ->].
  - rewrite (dev_actions_own (slider 0) a0 F0).
    rewrite (dev_actions_other (slider 0) (slider 1) a1 eq_refl F1), app_nil_r.
    assert (Ha0 : forall w, report_slider p flags slider_x (gesture flags) 0 w
                    = (Ok (u8 (Z.shiftr (gesture flags) (Z.of_nat 0 * IQS269_NUM_GESTURES))),
                       World (drv w) (trace w ++ a0))) by exact E0.
    clear E0. revert Ha0. unfold report_slider. cbv zeta. rewrite Hkey.
    rewrite <- Hn0. intros Ha0. split; intros Hnib.
    + specialize (Ha0 (World p [])). revert Ha0.
      unfold bind. rewrite (report_slider_key_tap _ _ _ _ Hnib).
      unfold emit, modify, ret. cbn [drv trace app].
      intros [= <-]. reflexivity.
    + specialize (Ha0 (World p [])). revert Ha0.
      unfold bind. rewrite (report_slider_key_hold _ _ _ _ Hnib).
      unfold emit, modify, ret. cbn [drv trace app].
      intros [= <-]. reflexivity.
  - rewrite (dev_actions_own (slider 1) a1 F1).
    rewrite (dev_actions_other (slider 1) (slider 0) a0 eq_refl F0). cbn [app].
    assert (Ha1 : forall w, report_slider p flags slider_x
                      (u8 (Z.shiftr (gesture flags) (Z.of_nat 0 * IQS269_NUM_GESTURES))) 1 w
                    = (Ok (u8 (Z.shiftr (u8 (Z.shiftr (gesture flags)
                                               (Z.of_nat 0 * IQS269_NUM_GESTURES)))
                                 (Z.of_nat 1 * IQS269_NUM_GESTURES))),
                       World (drv w) (trace w ++ a1))) by exact E1.
    clear E1. revert Ha1. unfold report_slider. cbv zeta. rewrite Hkey.
    rewrite <- Hn1. intros Ha1. split; intros Hnib.
    + specialize (Ha1 (World p [])). revert Ha1.
      unfold bind. rewrite (report_slider_key_tap _ _ _ _ Hnib).
      unfold emit, modify, ret. cbn [drv trace app].
      intros [= <-]. reflexivity.
    + specialize (Ha1 (World p [])). revert Ha1.
      unfold bind. rewrite (report_slider_key_hold _ _ _ _ Hnib).
      unfold emit, modify, ret. cbn [drv trace app].
      intros [= <-]. reflexivity.
Qed.

(** The configured device of [slider_node]: parsing succeeds and slider 0 is
    in gesture-key mode. *)
Example slider_private_key :
  fst (iqs269_parse_prop (bus_with quiet_flags) slider_node kzalloc_private) = Ok tt /\
  sized slider_private = true /\
  iqs269_slider_type slider_private 0 = IQS269_SLIDER_KEY /\
  iqs269_slider_type slider_private 1 = IQS269_SLIDER_NONE.
Proof. vm_compute. repeat split. Qed.

Lemma gesture_key_events_witness :
  dev_actions (slider 0)
    (trace (snd (iqs269_report (bus_with tap_flags) (World slider_private []))))
  = [ input_report_key (slider 0) 0x1c true;
      input_report_key (slider 0) 0x39 false;
      input_report_key (slider 0) 0x6a false;
      input_report_key (slider 0) 0x69 false;
      input_sync (slider 0);
      input_report_key (slider 0) 0x1c false;
      input_report_key (slider 0) 0x6a false;
      input_report_key (slider 0) 0x69 false;
      input_sync (slider 0) ] /\
  dev_actions (slider 0)
    (trace (snd (iqs269_report (bus_with hold_flags) (World slider_private []))))
  = [ input_report_key (slider 0) 0x1c false;
      input_report_key (slider 0) 0x39 true;
      input_report_key (slider 0) 0x6a false;
      input_report_key (slider 0) 0x69 false;
      input_sync (slider 0) ].
Proof.
  assert (Hkey : iqs269_slider_type slider_private 0 = IQS269_SLIDER_KEY)
    by (vm_compute; reflexivity).
  assert (Hlt : (0 < 2)%nat) by lia.
  destruct (gesture_key_events (bus_with tap_flags) slider_private tap_flags [0; 0] 0%nat
              eq_refl eq_refl eq_refl eq_refl Hlt Hkey) as (_ & Htap & _).
  destruct (gesture_key_events (bus_with hold_flags) slider_private hold_flags [0; 0] 0%nat
              eq_refl eq_refl eq_refl eq_refl Hlt Hkey) as (_ & _ & Hhold).
  split.
  - exact (Htap eq_refl).
  - exact (Hhold eq_refl).
Defined.

(** ** Scenarios on the configured device *)

(** The register image built from [slider_node] on firmware 0 (older than
    [IQS269_VER_INFO_FW_NUM_3]) and on firmware 0x10. *)
Example parse_prop_image :
  let r := sys_reg slider_private in
  active r = 0x07 /\ redo_ati r = 0x07 /\ reseed r = 0x07 /\
  slider_select r = [0x03; 0] /\
  timeout_tap r = 100 /\ thresh_swipe r = 200 /\
  be16_to_cpu (general r) = 0x25 /\
  thresh (ch_reg r !!! 2%nat) = [10; 0; 0] /\
  keycode slider_private !!! 2%nat = 0x1e /\
  ati_current slider_private = false.
Proof. vm_compute. repeat split. Qed.

Example parse_prop_image_new_firmware :
  let p := snd (iqs269_parse_prop (bus_with quiet_flags) slider_node
                  (with_fw_num 0x10 kzalloc_private)) in
  timeout_tap (sys_reg p) = 25 /\ thresh_swipe (sys_reg p) = 200.
Proof. vm_compute. split; reflexivity. Qed.

(** Channel 2 carries a proximity key: a snapshot with its proximity bit and
    no direction bit yields one press, of that key, on the keypad, and
    completes [ati_done]. *)
Example report_prox_key :
  let res := iqs269_report (bus_with prox2_flags) (World slider_private []) in
  fst res = Ok tt /\
  presses (trace (snd res)) = [input_report_key keypad 0x1e true] /\
  ati_done (drv (snd res)) = true.
Proof. vm_compute. repeat split. Qed.

(** Reset, then a clean snapshot: the first report rewrites the image and
    sends no event; the second decodes as usual. *)
Example report_reset_then_clean :
  let w1 := snd (iqs269_report (bus_with reset_flags) (World slider_private [])) in
  let w2 := snd (iqs269_report (bus_with tap_flags) (World (drv w1) [])) in
  trace w1 =
    [ regmap_raw_read IQS269_SYS_FLAGS;
      regmap_update_bits IQS269_HALL_UI IQS269_HALL_UI_ENABLE 0;
      regmap_raw_write IQS269_SYS_SETTINGS (sys_reg slider_private) ] /\
  ati_current (drv w1) = true /\
  presses (trace w2) = [input_report_key (slider 0) 0x1c true].
Proof. vm_compute. repeat split. Qed.

(** * Further properties of the driver *)

(** ** ATI accessors: mode round trip and independence of the fields *)

(** The 2-bit mode field: clear, then or in a value below 4. *)
Lemma mode_field (e m : Z) :
  0 <= m < 4 ->
  Z.shiftr
    (u16 (Z.land
       (u16 (u16 (Z.lor (u16 (Z.land e (Z.lnot IQS269_CHx_ENG_A_ATI_MODE_MASK)))
                    (Z.shiftl m IQS269_CHx_ENG_A_ATI_MODE_SHIFT))))
       IQS269_CHx_ENG_A_ATI_MODE_MASK))
    IQS269_CHx_ENG_A_ATI_MODE_SHIFT = m.
Proof.
  intros Hm. unfold IQS269_CHx_ENG_A_ATI_MODE_MASK, IQS269_CHx_ENG_A_ATI_MODE_SHIFT.
  apply Z.bits_inj'; intros n Hn. repeat bits_step.
  replace (n + 8 - 8) with n by lia.
  destruct (Z.ltb_spec n 2).
  - bits_cases.
  - rewrite (testbit_small m 2 n) by lia. bits_cases.
Qed.

(** X1.  For a channel below 8 and a mode in [0, 3], the mode that
    [iqs269_ati_mode_set] stores is the mode [iqs269_ati_mode_get] reads
    back. *)
Theorem ati_mode_set_get (p : iqs269_private) (ch mode : Z) :
  sized p = true -> 0 <= ch < IQS269_NUM_CH ->
  0 <= mode <= IQS269_CHx_ENG_A_ATI_MODE_MAX ->
  fst (iqs269_ati_mode_set ch mode p) = Ok tt /\
  fst (iqs269_ati_mode_get ch (snd (iqs269_ati_mode_set ch mode p))) = Ok mode.
Proof.
  intros Hs Hch Hm.
  assert (Hidx := ch_index_lt p ch Hs Hch).
  rewrite ati_mode_set_eq. chan_guard ch.
  max_guard mode IQS269_CHx_ENG_A_ATI_MODE_MAX.
  cbn [orb fst snd]. split; [reflexivity|].
  unfold iqs269_ati_mode_get. chan_guard ch.
  unfold bind, gets, ret. cbn [fst].
  change (sys_reg (set_ati_current false ?q)) with (sys_reg q).
  rewrite ch_reg_upd_same by exact Hidx.
  cbn [engine_a set_engine_a]. rewrite be16_roundtrip.
  f_equal. apply mode_field. lia.
Qed.

Lemma ati_mode_set_get_witness :
  fst (iqs269_ati_mode_get 4 (snd (iqs269_ati_mode_set 4 3 kzalloc_private))) = Ok 3.
Proof.
  assert (Hch : 0 <= 4 < IQS269_NUM_CH) by (unfold IQS269_NUM_CH; lia).
  assert (Hm : 0 <= 3 <= IQS269_CHx_ENG_A_ATI_MODE_MAX)
    by (unfold IQS269_CHx_ENG_A_ATI_MODE_MAX; lia).
  exact (proj2 (ati_mode_set_get kzalloc_private 4 3 eq_refl Hch Hm)).
Defined.

Lemma ch_reg_upd_other (n m : nat) f (p : iqs269_private) :
  n <> m ->
  ch_reg (sys_reg (upd_ch_reg n f p)) !!! m = ch_reg (sys_reg p) !!! m.
Proof. intros Hne. simpl. now apply list_lookup_total_insert_ne. Qed.

(** Storing a base code leaves the target field as it was, and storing a
    target leaves the base field as it was. *)
Lemma base_store_keeps_target (e b : Z) :
  Z.land b (Z.lnot IQS269_CHx_ENG_B_ATI_BASE_MASK) = 0 ->
  Z.land (u16 (u16 (Z.lor (u16 (Z.land e (Z.lnot IQS269_CHx_ENG_B_ATI_BASE_MASK))) b)))
    IQS269_CHx_ENG_B_ATI_TARGET_MASK
  = Z.land e IQS269_CHx_ENG_B_ATI_TARGET_MASK.
Proof.
  intros Hb. unfold IQS269_CHx_ENG_B_ATI_BASE_MASK, IQS269_CHx_ENG_B_ATI_TARGET_MASK in *.
  apply Z.bits_inj'; intros n Hn.
  assert (Hbn : Z.testbit b n && negb ((6 <=? n) && (n <=? 7)) = false).
  { rewrite <- (Z.bits_0 n), <- Hb. now repeat bits_step. }
  repeat bits_step. revert Hbn.
  cmp_cases; simpl;
    rewrite ?andb_true_r, ?andb_false_r, ?orb_false_r, ?andb_false_l, ?orb_false_l;
    try reflexivity; try lia; intros ->; now rewrite orb_false_r.
Qed.

Lemma target_store_keeps_base (e q : Z) :
  0 <= q < 64 ->
  Z.land (u16 (u16 (Z.lor (u16 (Z.land e (Z.lnot IQS269_CHx_ENG_B_ATI_TARGET_MASK))) q)))
    IQS269_CHx_ENG_B_ATI_BASE_MASK
  = Z.land e IQS269_CHx_ENG_B_ATI_BASE_MASK.
Proof.
  intros Hq. unfold IQS269_CHx_ENG_B_ATI_BASE_MASK, IQS269_CHx_ENG_B_ATI_TARGET_MASK.
  apply Z.bits_inj'; intros n Hn. repeat bits_step.
  destruct (Z.ltb_spec n 6).
  - bits_cases.
  - rewrite (testbit_small q 6 n) by lia. bits_cases.
Qed.

Lemma base_code_in_field (v b : Z) :
  (v = 75 /\ b = IQS269_CHx_ENG_B_ATI_BASE_75) \/
  (v = 100 /\ b = IQS269_CHx_ENG_B_ATI_BASE_100) \/
  (v = 150 /\ b = IQS269_CHx_ENG_B_ATI_BASE_150) \/
  (v = 200 /\ b = IQS269_CHx_ENG_B_ATI_BASE_200) ->
  Z.land b (Z.lnot IQS269_CHx_ENG_B_ATI_BASE_MASK) = 0.
Proof. intros [[_ ->] | [[_ ->] | [[_ ->] | [_ ->]]]]; reflexivity. Qed.

Lemma base_code_exists (v : Z) :
  v = 75 \/ v = 100 \/ v = 150 \/ v = 200 ->
  exists b,
    (v = 75 /\ b = IQS269_CHx_ENG_B_ATI_BASE_75) \/
    (v = 100 /\ b = IQS269_CHx_ENG_B_ATI_BASE_100) \/
    (v = 150 /\ b = IQS269_CHx_ENG_B_ATI_BASE_150) \/
    (v = 200 /\ b = IQS269_CHx_ENG_B_ATI_BASE_200).
Proof. intros [-> | [-> | [-> | ->]]]; eexists; intuition eauto. Qed.

(** How the three getters depend on the structure. *)
Lemma ati_mode_get_dep (p q : iqs269_private) (ch : Z) :
  engine_a (ch_reg (sys_reg q) !!! Z.to_nat ch)
  = engine_a (ch_reg (sys_reg p) !!! Z.to_nat ch) ->
  fst (iqs269_ati_mode_get ch q) = fst (iqs269_ati_mode_get ch p).
Proof.
  intros H. unfold iqs269_ati_mode_get.
  destruct (ch >=? IQS269_NUM_CH); [reflexivity|].
  unfold bind, gets, ret. cbn [fst]. now rewrite H.
Qed.

Lemma ati_base_get_dep (p q : iqs269_private) (ch : Z) :
  Z.land (be16_to_cpu (engine_b (ch_reg (sys_reg q) !!! Z.to_nat ch)))
    IQS269_CHx_ENG_B_ATI_BASE_MASK
  = Z.land (be16_to_cpu (engine_b (ch_reg (sys_reg p) !!! Z.to_nat ch)))
      IQS269_CHx_ENG_B_ATI_BASE_MASK ->
  fst (iqs269_ati_base_get ch q) = fst (iqs269_ati_base_get ch p).
Proof.
  intros H. rewrite !ati_base_get_eq.
  destruct (ch >=? IQS269_NUM_CH); [reflexivity|].
  cbv zeta. cbn [fst]. now rewrite H.
Qed.

Lemma ati_target_get_dep (p q : iqs269_private) (ch : Z) :
  Z.land (be16_to_cpu (engine_b (ch_reg (sys_reg q) !!! Z.to_nat ch)))
    IQS269_CHx_ENG_B_ATI_TARGET_MASK
  = Z.land (be16_to_cpu (engine_b (ch_reg (sys_reg p) !!! Z.to_nat ch)))
      IQS269_CHx_ENG_B_ATI_TARGET_MASK ->
  fst (iqs269_ati_target_get ch q) = fst (iqs269_ati_target_get ch p).
Proof.
  intros H. unfold iqs269_ati_target_get.
  destruct (ch >=? IQS269_NUM_CH); [reflexivity|].
  unfold bind, gets, ret. cbn [fst]. now rewrite H.
Qed.

Ltac upd_lookup Hidx :=
  change (sys_reg (set_ati_current false ?q)) with (sys_reg q);
  match goal with
  | |- context [ch_reg (sys_reg (upd_ch_reg ?n ?f ?p)) !!! ?m] =>
      destruct (Nat.eq_dec n m) as [Hnm | Hnm];
      [ rewrite <- ?Hnm; rewrite (ch_reg_upd_same n f p) by exact Hidx
      | rewrite (ch_reg_upd_other n m f p) by exact Hnm ]
  end.

(** X2.  The three ATI parameters of a channel are stored independently:
    whatever a setter is called with, and whether it succeeds or not, the
    other two parameters of every channel, and the same parameter of every
    other channel, read back as before. *)
Theorem ati_fields_independent (p : iqs269_private) (ch ch' v : Z) :
  sized p = true -> 0 <= ch -> 0 <= ch' -> 0 <= v ->
  let after_mode := snd (iqs269_ati_mode_set ch v p) in
  let after_base := snd (iqs269_ati_base_set ch v p) in
  let after_target := snd (iqs269_ati_target_set ch v p) in
  fst (iqs269_ati_base_get ch' after_mode) = fst (iqs269_ati_base_get ch' p) /\
  fst (iqs269_ati_target_get ch' after_mode) = fst (iqs269_ati_target_get ch' p) /\
  fst (iqs269_ati_mode_get ch' after_base) = fst (iqs269_ati_mode_get ch' p) /\
  fst (iqs269_ati_target_get ch' after_base) = fst (iqs269_ati_target_get ch' p) /\
  fst (iqs269_ati_mode_get ch' after_target) = fst (iqs269_ati_mode_get ch' p) /\
  fst (iqs269_ati_base_get ch' after_target) = fst (iqs269_ati_base_get ch' p) /\
  (ch' <> ch ->
     fst (iqs269_ati_mode_get ch' after_mode) = fst (iqs269_ati_mode_get ch' p) /\
     fst (iqs269_ati_base_get ch' after_base) = fst (iqs269_ati_base_get ch' p) /\
     fst (iqs269_ati_target_get ch' after_target) = fst (iqs269_ati_target_get ch' p)).
Proof.
  intros Hs Hch Hch' Hv. cbv zeta.
  rewrite ati_mode_set_eq, ati_target_set_eq.
  assert (Hbase : snd (iqs269_ati_base_set ch v p) = p \/
    exists b, Z.land b (Z.lnot IQS269_CHx_ENG_B_ATI_BASE_MASK) = 0 /\
      ch < IQS269_NUM_CH /\
      snd (iqs269_ati_base_set ch v p) =
      set_ati_current false
        (upd_ch_reg (Z.to_nat ch)
           (set_engine_b (cpu_to_be16
              (u16 (Z.lor (u16 (Z.land
                  (be16_to_cpu (engine_b (ch_reg (sys_reg p) !!! Z.to_nat ch)))
                  (Z.lnot IQS269_CHx_ENG_B_ATI_BASE_MASK))) b)))) p)).
  { destruct (classic_base v) as [Hb | Hb].
    - destruct (base_code_exists v Hb) as [b Hcode].
      rewrite (ati_base_set_eq p ch v b Hcode).
      chan_guard ch; [left; reflexivity|].
      right. exists b. split; [exact (base_code_in_field v b Hcode)|].
      split; [unfold IQS269_NUM_CH; lia | reflexivity].
    - left. now rewrite (ati_base_set_other p ch v Hb). }
  destruct (ch >=? IQS269_NUM_CH) eqn:Hguard; cbn [orb snd].
  { (* the channel is refused: nothing is stored *)
    destruct Hbase as [-> | (b & _ & Hlt & _)].
    - repeat split; reflexivity.
    - rewrite Z.geb_leb in Hguard. apply Z.leb_le in Hguard. lia. }
  rewrite Z.geb_leb in Hguard. apply Z.leb_gt in Hguard.
  assert (Hidx : (Z.to_nat ch < length (ch_reg (sys_reg p)))%nat).
  { apply ch_index_lt; [exact Hs | lia]. }
  assert (Hq : v <= IQS269_CHx_ENG_B_ATI_TARGET_MAX -> 0 <= v / 32 < 64).
  { intros Ht. unfold IQS269_CHx_ENG_B_ATI_TARGET_MAX in Ht.
    split; [apply Z.div_pos; lia | apply Z.div_lt_upper_bound; lia]. }
  split; [|split; [|split; [|split; [|split; [|split]]]]].
  - destruct (v >? IQS269_CHx_ENG_A_ATI_MODE_MAX); cbn [snd]; [reflexivity|].
    apply ati_base_get_dep. upd_lookup Hidx; reflexivity.
  - destruct (v >? IQS269_CHx_ENG_A_ATI_MODE_MAX); cbn [snd]; [reflexivity|].
    apply ati_target_get_dep. upd_lookup Hidx; reflexivity.
  - destruct Hbase as [-> | (b & Hb & _ & ->)]; [reflexivity|].
    apply ati_mode_get_dep. upd_lookup Hidx; reflexivity.
  - destruct Hbase as [-> | (b & Hb & _ & ->)]; [reflexivity|].
    apply ati_target_get_dep. upd_lookup Hidx; [|reflexivity].
    cbn [engine_b set_engine_b]. rewrite be16_roundtrip.
    now apply base_store_keeps_target.
  - destruct (v >? IQS269_CHx_ENG_B_ATI_TARGET_MAX); cbn [snd]; [reflexivity|].
    apply ati_mode_get_dep. upd_lookup Hidx; reflexivity.
  - destruct (v >? IQS269_CHx_ENG_B_ATI_TARGET_MAX) eqn:Hmax; cbn [snd]; [reflexivity|].
    apply ati_base_get_dep. upd_lookup Hidx; [|reflexivity].
    cbn [engine_b set_engine_b]. rewrite be16_roundtrip.
    apply target_store_keeps_base.
    rewrite Z.gtb_ltb in Hmax. apply Z.ltb_ge in Hmax.
    exact (Hq Hmax).
  - intros Hne.
    assert (Hn : Z.to_nat ch <> Z.to_nat ch') by lia.
    split; [|split].
    + destruct (v >? IQS269_CHx_ENG_A_ATI_MODE_MAX); cbn [snd]; [reflexivity|].
      apply ati_mode_get_dep.
      change (sys_reg (set_ati_current false ?q)) with (sys_reg q).
      now rewrite ch_reg_upd_other.
    + destruct Hbase as [-> | (b & Hb & _ & ->)]; [reflexivity|].
      apply ati_base_get_dep.
      change (sys_reg (set_ati_current false ?q)) with (sys_reg q).
      now rewrite ch_reg_upd_other.
    + destruct (v >? IQS269_CHx_ENG_B_ATI_TARGET_MAX); cbn [snd]; [reflexivity|].
      apply ati_target_get_dep.
      change (sys_reg (set_ati_current false ?q)) with (sys_reg q).
      now rewrite ch_reg_upd_other.
Qed.

Lemma ati_fields_independent_witness :
  let p := snd (iqs269_ati_base_set 2 150
                  (snd (iqs269_ati_target_set 2 1000 kzalloc_private))) in
  fst (iqs269_ati_target_get 2 (snd (iqs269_ati_base_set 2 200 p))) = Ok 992 /\
  fst (iqs269_ati_base_get 2 (snd (iqs269_ati_target_set 2 64 p))) = Ok 150.
Proof.
  intros p.
  assert (H0 : 0 <= 2) by lia. assert (H200 : 0 <= 200) by lia.
  assert (H64 : 0 <= 64) by lia.
  destruct (ati_fields_independent p 2 2 200 eq_refl H0 H0 H200)
    as (_ & _ & _ & Htarget & _).
  destruct (ati_fields_independent p 2 2 64 eq_refl H0 H0 H64)
    as (_ & _ & _ & _ & _ & Hbase & _).
  split.
  - exact (eq_trans Htarget eq_refl).
  - exact (eq_trans Hbase eq_refl).
Defined.

(** ** Pin-index lists: a missing property and a refused list *)

Lemma parse_mask_cells_prefix (l1 l2 : list Z) (v mask : Z) :
  Forall (fun x => 0 <= x < 8) l1 -> 8 <= v -> u8 mask = mask ->
  parse_mask_cells (l1 ++ v :: l2) mask = (Err (- EINVAL), Z.lor mask (or_of_bits l1)).
Proof.
  intros Hl1 Hv. revert mask.
  induction Hl1 as [|x l1 Hx Hl1 IH]; intros mask Hm.
  - simpl. chan_guard v. unfold throw. now rewrite Z.lor_0_r.
  - simpl. chan_guard x. unfold bind, modify.
    rewrite IH.
    + f_equal. rewrite <- Hm at 2. rewrite <- (or_of_bits_u8 l1 Hl1).
      apply Z.bits_inj'; intros n Hn. repeat bits_step.
      cmp_cases; simpl; rewrite ?andb_true_r, ?andb_false_r, ?orb_false_r;
        try reflexivity; lia.
    + apply Z.bits_inj'; intros n Hn. repeat bits_step.
      cmp_cases; simpl; rewrite ?andb_true_r, ?andb_false_r, ?orb_false_r;
        try reflexivity; lia.
Qed.

(** X3.  What [iqs269_parse_mask] leaves in the byte when it does not
    encode a list.  A missing property is no error and the byte keeps its
    value; a list of more than 8 entries is refused before the byte is
    touched; a list refused for an entry of 8 or more has already replaced
    the byte by the OR of the entries before that one. *)
Theorem parse_mask_edge_cases (fwnode : fwnode_handle) (propname : string) (mask : Z) :
  (node_props fwnode !! propname = None ->
     iqs269_parse_mask fwnode propname mask = (Ok tt, mask)) /\
  (forall l, node_props fwnode !! propname = Some l -> (length l > 8)%nat ->
     iqs269_parse_mask fwnode propname mask = (Err (- EINVAL), mask)) /\
  (forall l1 v l2,
     node_props fwnode !! propname = Some (l1 ++ v :: l2) ->
     (length (l1 ++ v :: l2) <= 8)%nat ->
     Forall (fun x => 0 <= x < 8) l1 -> 8 <= v ->
     iqs269_parse_mask fwnode propname mask = (Err (- EINVAL), or_of_bits l1)).
Proof.
  unfold iqs269_parse_mask, fwnode_property_count_u32,
    fwnode_property_read_u32_array.
  split; [|split].
  - intros ->. reflexivity.
  - intros l -> Hlen.
    destruct (Z.ltb_spec (Z.of_nat (length l)) 0) as [Hneg|_]; [lia|].
    max_guard (Z.of_nat (length l)) IQS269_NUM_CH. reflexivity.
  - intros l1 v l2 -> Hlen Hl1 Hv.
    destruct (Z.ltb_spec (Z.of_nat (length (l1 ++ v :: l2))) 0) as [Hneg|_]; [lia|].
    max_guard (Z.of_nat (length (l1 ++ v :: l2))) IQS269_NUM_CH.
    rewrite Z.ltb_irrefl. unfold bind, lift, modify.
    rewrite Nat2Z.id, firstn_all.
    now rewrite (parse_mask_cells_prefix l1 l2 v 0 Hl1 Hv eq_refl).
Qed.

Lemma parse_mask_edge_cases_witness :
  let absent := FwNode "channel@0" ∅ [] in
  let bad := FwNode "channel@1" {[ "azoteq,tx-enable" := [1; 2; 9; 4] ]} [] in
  iqs269_parse_mask absent "azoteq,rx-enable" 0x55 = (Ok tt, 0x55) /\
  iqs269_parse_mask bad "azoteq,tx-enable" 0x55 = (Err (- EINVAL), 0x06).
Proof.
  intros absent bad.
  destruct (parse_mask_edge_cases absent "azoteq,rx-enable" 0x55) as (Habsent & _ & _).
  destruct (parse_mask_edge_cases bad "azoteq,tx-enable" 0x55) as (_ & _ & Hbad).
  split.
  - exact (Habsent eq_refl).
  - apply (Hbad [1; 2] 9 [4] eq_refl).
    + simpl. lia.
    + repeat constructor; lia.
    + lia.
Defined.

(** ** Invariants of monadic code *)

Lemma maintains_ret {S A} (I : S -> Prop) (a : A) : maintains I (ret a).
Proof. intros s Hs. exact Hs. Qed.

Lemma maintains_throw {S A} (I : S -> Prop) (e : Z) : maintains I (@throw S A e).
Proof. intros s Hs. exact Hs. Qed.

Lemma maintains_lift {S A} (I : S -> Prop) (r : result A) : maintains I (lift r).
Proof. intros s Hs. exact Hs. Qed.

Lemma maintains_gets {S A} (I : S -> Prop) (f : S -> A) : maintains I (gets f).
Proof. intros s Hs. exact Hs. Qed.

Lemma maintains_check {S} (I : S -> Prop) (error : Z) : maintains I (@check S error).
Proof. intros s Hs. unfold check. destruct (error =? 0); exact Hs. Qed.

Lemma maintains_modify {S} (I : S -> Prop) (f : S -> S) :
  (forall s, I s -> I (f s)) -> maintains I (modify f).
Proof. intros Hf s Hs. apply Hf, Hs. Qed.

Lemma maintains_bind {S A B} (I : S -> Prop) (m : M S A) (k : A -> M S B) :
  maintains I m -> (forall a, maintains I (k a)) -> maintains I (bind m k).
Proof.
  intros Hm Hk s Hs. unfold bind. specialize (Hm s Hs).
  destruct (m s) as [[a|e] s']; cbn [snd] in *; [apply Hk, Hm | exact Hm].
Qed.

Lemma maintains_when {S} (I : S -> Prop) (c : bool) (m : M S unit) :
  maintains I m -> maintains I (when c m).
Proof. intros Hm. destruct c; [exact Hm | apply maintains_ret]. Qed.

Lemma maintains_if {S A} (I : S -> Prop) (c : bool) (m1 m2 : M S A) :
  maintains I m1 -> maintains I m2 -> maintains I (if c then m1 else m2).
Proof. intros H1 H2. destruct c; assumption. Qed.

Lemma maintains_for_each {S A} (I : S -> Prop) (l : list A) (body : A -> M S unit) :
  (forall x, maintains I (body x)) -> maintains I (for_each l body).
Proof.
  intros Hbody. induction l as [|x l IH]; simpl.
  - apply maintains_ret.
  - apply maintains_bind; [apply Hbody | intros _; exact IH].
Qed.

Lemma maintains_for_fold {S A B} (I : S -> Prop) (l : list A) (acc : B)
    (body : B -> A -> M S B) :
  (forall b x, maintains I (body b x)) -> maintains I (for_fold l acc body).
Proof.
  intros Hbody. revert acc. induction l as [|x l IH]; intros acc; simpl.
  - apply maintains_ret.
  - apply maintains_bind; [apply Hbody | intros b; apply IH].
Qed.

Lemma maintains_if_read_u32 {S} (I : S -> Prop) (n : fwnode_handle)
    (propname : string) (body : Z -> M S unit) :
  (forall v, maintains I (body v)) -> maintains I (if_read_u32 n propname body).
Proof.
  intros Hbody. unfold if_read_u32.
  destruct (fwnode_property_read_u32 n propname); [apply Hbody | apply maintains_ret].
Qed.

Lemma maintains_zoom {S T A} (I : S -> Prop) (get : S -> T) (put : T -> S -> S)
    (m : M T A) :
  (forall t s, I s -> I (put t s)) -> maintains I (zoom get put m).
Proof.
  intros Hput s Hs. unfold zoom. destruct (m (get s)) as [r t]. cbn [snd].
  apply Hput, Hs.
Qed.

Lemma maintains_emit (I : world -> Prop) (a : action) :
  (forall w t, I w -> I (World (drv w) t)) -> maintains I (emit a).
Proof. intros H. apply maintains_modify. intros w Hw. apply H, Hw. Qed.

(** Repeated structural steps. *)
Ltac maintains_step :=
  first
    [ apply maintains_ret | apply maintains_throw | apply maintains_lift
    | apply maintains_gets | apply maintains_check
    | apply maintains_bind; [|intros ?]
    | apply maintains_when | apply maintains_for_each; intros ?
    | apply maintains_for_fold; intros ? ?
    | apply maintains_if_read_u32; intros ?
    | apply maintains_if
    | match goal with
      | |- maintains _ (match ?r with Ok _ => _ | Err _ => _ end) => destruct r
      | |- maintains _ (match ?o with Some _ => _ | None => _ end) => destruct o
      | |- maintains _ (let '(_, _) := ?x in _) => destruct x
      end ].

(** ** The decode engine and the configuration *)

Lemma report_event_maintains (I : world -> Prop) (p : iqs269_private)
    (flags : iqs269_flags) (i : nat) :
  (forall w t, I w -> I (World (drv w) t)) ->
  maintains I (report_event p flags i).
Proof.
  intros HI. unfold report_event, report_channel. cbv zeta.
  repeat maintains_step; apply maintains_emit, HI.
Qed.

Lemma report_slider_maintains (I : world -> Prop) (p : iqs269_private)
    (flags : iqs269_flags) (slider_x : list Z) (g : Z) (i : nat) :
  (forall w t, I w -> I (World (drv w) t)) ->
  maintains I (report_slider p flags slider_x g i).
Proof.
  intros HI. unfold report_slider, report_slider_key, report_slider_raw. cbv zeta.
  destruct (iqs269_slider_type p i);
    repeat maintains_step; apply maintains_emit, HI.
Qed.

Lemma dev_init_maintains (I : world -> Prop) (bus : regmap) :
  (forall w t, I w -> I (World (drv w) t)) ->
  (forall w, I w -> I (World (set_ati_current true (drv w)) (trace w))) ->
  maintains I (iqs269_dev_init bus).
Proof.
  intros HI Hcur. unfold iqs269_dev_init, upd_drv.
  repeat maintains_step; try (apply maintains_emit, HI).
  apply maintains_modify. exact Hcur.
Qed.

Lemma report_maintains (I : world -> Prop) (bus : regmap) :
  (forall w t, I w -> I (World (drv w) t)) ->
  (forall w, I w -> I (World (set_ati_current true (drv w)) (trace w))) ->
  (forall w, I w -> I (World (set_ati_done true (drv w)) (trace w))) ->
  maintains I (iqs269_report bus).
Proof.
  intros HI Hcur Hdone. unfold iqs269_report, upd_drv.
  apply maintains_bind; [apply maintains_emit, HI | intros _].
  apply maintains_bind; [apply maintains_lift | intros flags].
  apply maintains_if; [apply dev_init_maintains; assumption|].
  apply maintains_if; [apply maintains_ret|].
  apply maintains_bind; [apply maintains_gets | intros p].
  apply maintains_bind.
  { apply maintains_if; [|apply maintains_ret].
    apply maintains_bind; [apply maintains_emit, HI | intros _; apply maintains_lift]. }
  intros slider_x.
  apply maintains_bind.
  { apply maintains_for_fold. intros g i. apply report_slider_maintains, HI. }
  intros _.
  apply maintains_bind.
  { apply maintains_for_each. intros i. apply report_event_maintains, HI. }
  intros _.
  apply maintains_bind; [apply maintains_emit, HI | intros _].
  apply maintains_bind; [apply maintains_modify, Hdone | intros _].
  apply maintains_ret.
Qed.

(** X4.  Whatever the bus answers and whatever the snapshot holds,
    [iqs269_report] leaves the configuration in the private structure as it
    found it: the register image, both code tables, the switch table and the
    Hall-effect, OTP, firmware and channel-selection fields.  It only ever
    changes [ati_current] and [ati_done]. *)
Theorem report_keeps_configuration (bus : regmap) (w : world) :
  let p := drv w in
  let p' := drv (snd (iqs269_report bus w)) in
  sys_reg p' = sys_reg p /\ keycode p' = keycode p /\ sl_code p' = sl_code p /\
  switches p' = switches p /\ hall_enable p' = hall_enable p /\
  otp_option p' = otp_option p /\ ver_info p' = ver_info p /\ ch_num p' = ch_num p.
Proof.
  cbv zeta.
  set (cfg := fun q : iqs269_private =>
    (sys_reg q, keycode q, sl_code q, switches q, hall_enable q,
     otp_option q, ver_info q, ch_num q)).
  assert (H : cfg (drv (snd (iqs269_report bus w))) = cfg (drv w)).
  { apply (report_maintains (fun w' => cfg (drv w') = cfg (drv w)) bus);
      try (intros; assumption); reflexivity. }
  unfold cfg in H. injection H as H1 H2 H3 H4 H5 H6 H7 H8.
  repeat split; assumption.
Qed.

(** ** Which cycles decode *)

Lemma emits_weaken {A} (P Q : action -> Prop) (m : M world A) (a : A) :
  (forall x, P x -> Q x) -> emits P m a -> emits Q m a.
Proof.
  intros HPQ (acts & F & E). exists acts. split; [|exact E].
  eapply Forall_impl; [exact F | exact HPQ].
Qed.

Lemma emits_for_fold {A B} (P : action -> Prop) (l : list A) (acc : B)
    (body : B -> A -> M world B) (next : B -> A -> B) :
  (forall b x, emits P (body b x) (next b x)) ->
  emits P (for_fold l acc body) (fold_left next l acc).
Proof.
  intros Hbody. revert acc. induction l as [|x l IH]; intros acc; simpl.
  - apply emits_ret.
  - eapply emits_bind; [apply Hbody | apply IH].
Qed.

(** The decode proper: the two loops, the final sync and the completion. *)
Lemma report_loops (p : iqs269_private) (flags : iqs269_flags) (slider_x : list Z) :
  exists acts, Forall (fun a => action_dev a <> None) acts /\
    forall w,
      (for_fold (seq 0 (Z.to_nat IQS269_NUM_SL)) (gesture flags)
         (report_slider p flags slider_x) ;;
       for_each (seq 0 (length iqs269_events)) (report_event p flags) ;;
       emit (input_sync keypad) ;;
       upd_drv (set_ati_done true) ;;
       ret tt) w
      = (Ok tt, World (set_ati_done true (drv w))
                  (trace w ++ acts ++ [input_sync keypad])).
Proof.
  assert (Hs : emits (fun a => action_dev a <> None)
                 (for_fold (seq 0 (Z.to_nat IQS269_NUM_SL)) (gesture flags)
                    (report_slider p flags slider_x))
                 (fold_left (fun g i => u8 (Z.shiftr g (Z.of_nat i * IQS269_NUM_GESTURES)))
                    (seq 0 (Z.to_nat IQS269_NUM_SL)) (gesture flags))).
  { apply emits_for_fold. intros g i.
    eapply emits_weaken; [|apply report_slider_own].
    intros a ->. discriminate. }
  assert (He : emits (fun a => action_dev a <> None)
                 (for_each (seq 0 (length iqs269_events)) (report_event p flags)) tt).
  { apply emits_for_each. intros i.
    eapply emits_weaken; [|apply report_event_keypad].
    intros a ->. discriminate. }
  destruct Hs as (a1 & F1 & E1). destruct He as (a2 & F2 & E2).
  exists (a1 ++ a2). split; [now apply Forall_app|].
  intros w. unfold bind. rewrite E1, E2.
  unfold emit, upd_drv, modify, ret. cbn [drv trace].
  now rewrite <- !app_assoc.
Qed.

(** [iqs269_report] on a snapshot with neither the reset bit nor the ATI
    bit, whatever the read of the slider positions gives. *)
Lemma report_decode (bus : regmap) (p : iqs269_private) (flags : iqs269_flags)
    (t : list action) :
  sys_flags_read bus = Ok flags ->
  Z.land (be16_to_cpu (system flags)) IQS269_SYS_FLAGS_SHOW_RESET = 0 ->
  Z.land (be16_to_cpu (system flags)) IQS269_SYS_FLAGS_IN_ATI = 0 ->
  let raw := slider_id_eqb (iqs269_slider_type p 0) IQS269_SLIDER_RAW
             || slider_id_eqb (iqs269_slider_type p 1) IQS269_SLIDER_RAW in
  let loops slider_x :=
    (for_fold (seq 0 (Z.to_nat IQS269_NUM_SL)) (gesture flags)
       (report_slider p flags slider_x) ;;
     for_each (seq 0 (length iqs269_events)) (report_event p flags) ;;
     emit (input_sync keypad) ;;
     upd_drv (set_ati_done true) ;;
     ret tt) in
  iqs269_report bus (World p t) =
  if raw then
    match slider_x_read bus with
    | Ok xs =>
        loops xs (World p ((t ++ [regmap_raw_read IQS269_SYS_FLAGS])
                             ++ [regmap_raw_read IQS269_SLIDER_X]))
    | Err e =>
        (Err e, World p ((t ++ [regmap_raw_read IQS269_SYS_FLAGS])
                           ++ [regmap_raw_read IQS269_SLIDER_X]))
    end
  else loops [] (World p (t ++ [regmap_raw_read IQS269_SYS_FLAGS])).
Proof.
  intros Hread Hreset Hati. cbv zeta.
  unfold iqs269_report.
  unfold bind at 1. unfold emit at 1, modify at 1. cbn [drv trace].
  unfold bind at 1. unfold lift at 1. rewrite Hread.
  unfold nonzero at 1. rewrite Hreset. cbn [Z.eqb negb].
  unfold nonzero at 1. rewrite Hati. cbn [Z.eqb negb].
  unfold bind at 1. unfold gets at 1. cbn [drv].
  unfold bind at 1.
  destruct (slider_id_eqb (iqs269_slider_type p 0) IQS269_SLIDER_RAW
            || slider_id_eqb (iqs269_slider_type p 1) IQS269_SLIDER_RAW).
  - unfold bind at 1. unfold emit at 1, modify at 1, lift at 1. cbn [drv trace].
    destruct (slider_x_read bus); reflexivity.
  - reflexivity.
Qed.

Lemma input_events_app (t1 t2 : list action) :
  input_events (t1 ++ t2) = input_events t1 ++ input_events t2.
Proof. unfold input_events. apply List.filter_app. Qed.

(** X5.  A cycle of [iqs269_report] decodes when the status read succeeds
    with neither the reset bit nor the ATI bit set and the cycle succeeds.
    [ati_done] is completed by such a cycle and by no other, and a cycle that
    does not decode (a failed read of the status or of the slider positions,
    a reset, calibration in progress) sends no input event; a cycle that
    decodes ends with the sync of the keypad. *)
Theorem report_completion (bus : regmap) (p : iqs269_private) :
  let res := iqs269_report bus (World p []) in
  let decoded :=
    match sys_flags_read bus with
    | Ok flags =>
        negb (nonzero (Z.land (be16_to_cpu (system flags)) IQS269_SYS_FLAGS_SHOW_RESET))
        && negb (nonzero (Z.land (be16_to_cpu (system flags)) IQS269_SYS_FLAGS_IN_ATI))
        && (match fst res with Ok _ => true | Err _ => false end)
    | Err _ => false
    end in
  ati_done (drv (snd res)) = ati_done p || decoded /\
  if decoded
  then last (trace (snd res)) = Some (input_sync keypad)
  else input_events (trace (snd res)) = [].
Proof.
  cbv zeta.
  destruct (sys_flags_read bus) as [flags | e] eqn:Hread.
  2: { unfold iqs269_report, bind, emit, modify, lift. rewrite Hread. cbn.
       rewrite orb_false_r. split; reflexivity. }
  unfold nonzero.
  destruct (Z.eqb_spec (Z.land (be16_to_cpu (system flags)) IQS269_SYS_FLAGS_SHOW_RESET) 0)
    as [Hreset | Hreset]; cbn [negb andb].
  2: { rewrite (report_on_reset bus p flags [] Hread Hreset), dev_init_run. cbv zeta.
       rewrite orb_false_r.
       destruct ((otp_option p =? IQS269_OTP_OPTION_TWS)
                 && (fw_num (ver_info p) <? IQS269_VER_INFO_FW_NUM_3));
         destruct (tws_init_write bus =? 0);
         destruct (hall_ui_update bus =? 0); destruct (sys_settings_write bus =? 0);
         cbn; split; reflexivity. }
  destruct (Z.eqb_spec (Z.land (be16_to_cpu (system flags)) IQS269_SYS_FLAGS_IN_ATI) 0)
    as [Hati | Hati]; cbn [negb andb].
  2: { unfold iqs269_report, bind, emit, modify, lift. rewrite Hread. unfold nonzero.
       destruct (Z.eqb_spec (Z.land (be16_to_cpu (system flags))
                               IQS269_SYS_FLAGS_SHOW_RESET) 0); [|contradiction].
       destruct (Z.eqb_spec (Z.land (be16_to_cpu (system flags))
                               IQS269_SYS_FLAGS_IN_ATI) 0); [contradiction|].
       cbn. rewrite orb_false_r. split; reflexivity. }
  rewrite (report_decode bus p flags [] Hread Hreset Hati). cbv zeta.
  assert (Hloops : forall xs t,
    exists acts, Forall (fun a => action_dev a <> None) acts /\
      (for_fold (seq 0 (Z.to_nat IQS269_NUM_SL)) (gesture flags)
         (report_slider p flags xs) ;;
       for_each (seq 0 (length iqs269_events)) (report_event p flags) ;;
       emit (input_sync keypad) ;;
       upd_drv (set_ati_done true) ;;
       ret tt) (World p t)
      = (Ok tt, World (set_ati_done true p) (t ++ acts ++ [input_sync keypad]))).
  { intros xs t. destruct (report_loops p flags xs) as (acts & F & E).
    exists acts. split; [exact F|]. now rewrite E. }
  destruct (_ || _).
  - destruct (slider_x_read bus) as [xs | e].
    + destruct (Hloops xs (([] ++ [regmap_raw_read IQS269_SYS_FLAGS])
                             ++ [regmap_raw_read IQS269_SLIDER_X])) as (acts & _ & ->).
      cbn [fst snd drv trace ati_done set_ati_done].
      rewrite orb_true_r. split; [reflexivity|].
      rewrite !app_assoc. apply last_snoc.
    + cbn [fst snd drv trace]. rewrite orb_false_r. split; reflexivity.
  - destruct (Hloops [] ([] ++ [regmap_raw_read IQS269_SYS_FLAGS])) as (acts & _ & ->).
    cbn [fst snd drv trace ati_done set_ati_done].
    rewrite orb_true_r. split; [reflexivity|].
    rewrite !app_assoc. apply last_snoc.
Qed.

(** ** Raw slider position *)

(** The raw-position case of the slider loop. *)
Lemma report_slider_raw_run (p : iqs269_private) (flags : iqs269_flags)
    (slider_x : list Z) (g : Z) (i : nat) (w : world) :
  iqs269_slider_type p i = IQS269_SLIDER_RAW ->
  let touch :=
    u8 (Z.land (states flags !!! st_offs_val IQS269_ST_OFFS_TOUCH)
               (slider_select (sys_reg p) !!! i)) in
  report_slider p flags slider_x g i w =
  (Ok (u8 (Z.shiftr g (Z.of_nat i * IQS269_NUM_GESTURES))),
   World (drv w)
     (trace w ++
        input_report_key (slider i) BTN_TOUCH (nonzero touch)
        :: (if nonzero touch
            then [input_report_abs (slider i) ABS_X (slider_x !!! i)] else [])
        ++ [input_sync (slider i)])).
Proof.
  intros Hraw. cbv zeta. unfold report_slider, report_slider_raw. cbv zeta.
  rewrite Hraw. unfold bind, emit, modify, when, ret. cbn [drv trace].
  destruct (nonzero _); cbn [drv trace]; rewrite <- !app_assoc; reflexivity.
Qed.

(** The two loops of the decode, given what each slider iteration sends. *)
Lemma report_loops_sliders (p : iqs269_private) (flags : iqs269_flags)
    (slider_x : list Z) :
  exists kacts, Forall (fun a => action_dev a = Some keypad) kacts /\
    forall (a0 a1 : list action) (g0 g1 : Z) (t : list action),
      (forall w, report_slider p flags slider_x (gesture flags) 0 w
                 = (Ok g0, World (drv w) (trace w ++ a0))) ->
      (forall w, report_slider p flags slider_x g0 1 w
                 = (Ok g1, World (drv w) (trace w ++ a1))) ->
      (for_fold (seq 0 (Z.to_nat IQS269_NUM_SL)) (gesture flags)
         (report_slider p flags slider_x) ;;
       for_each (seq 0 (length iqs269_events)) (report_event p flags) ;;
       emit (input_sync keypad) ;;
       upd_drv (set_ati_done true) ;;
       ret tt) (World p t)
      = (Ok tt, World (set_ati_done true p)
                  (t ++ a0 ++ a1 ++ kacts ++ [input_sync keypad])).
Proof.
  assert (Hev : emits (fun a => action_dev a = Some keypad)
                  (for_each (seq 0 (length iqs269_events)) (report_event p flags)) tt).
  { apply emits_for_each. intros j. apply report_event_keypad. }
  destruct Hev as (kacts & Fk & Ek).
  exists kacts. split; [exact Fk|].
  intros a0 a1 g0 g1 t E0 E1.
  change (Z.to_nat IQS269_NUM_SL) with 2%nat. cbn [seq for_fold].
  unfold bind. rewrite E0, E1. unfold ret at 1. rewrite Ek.
  unfold emit, upd_drv, modify, ret. cbn [fst snd drv trace].
  now rewrite <- !app_assoc.
Qed.

(** X6.  On a clean snapshot whose slider positions were read, a slider in
    raw-position mode receives the touch key, pressed exactly when one of the
    channels selected for the slider is in touch, then its position only if
    it is touched, then a sync. *)
Theorem raw_slider_events (bus : regmap) (p : iqs269_private)
    (flags : iqs269_flags) (xs : list Z) (i : nat) :
  sys_flags_read bus = Ok flags ->
  Z.land (be16_to_cpu (system flags)) IQS269_SYS_FLAGS_SHOW_RESET = 0 ->
  Z.land (be16_to_cpu (system flags)) IQS269_SYS_FLAGS_IN_ATI = 0 ->
  slider_x_read bus = Ok xs ->
  (i < 2)%nat ->
  iqs269_slider_type p i = IQS269_SLIDER_RAW ->
  let res := iqs269_report bus (World p []) in
  let touch :=
    u8 (Z.land (states flags !!! st_offs_val IQS269_ST_OFFS_TOUCH)
               (slider_select (sys_reg p) !!! i)) in
  fst res = Ok tt /\
  dev_actions (slider i) (trace (snd res)) =
  input_report_key (slider i) BTN_TOUCH (nonzero touch)
  :: (if nonzero touch then [input_report_abs (slider i) ABS_X (xs !!! i)] else [])
  ++ [input_sync (slider i)].
Proof.
  intros Hread Hreset Hati Hx Hi Hraw res touch.
  set (own := input_report_key (slider i) BTN_TOUCH (nonzero touch)
              :: (if nonzero touch
                  then [input_report_abs (slider i) ABS_X (xs !!! i)] else [])
              ++ [input_sync (slider i)]).
  assert (Fown : Forall (fun a => action_dev a = Some (slider i)) own).
  { subst own. destruct (nonzero touch); repeat constructor. }
  assert (Hcase : i = 0%nat \/ i = 1%nat) by lia.
  assert (Hany : slider_id_eqb (iqs269_slider_type p 0) IQS269_SLIDER_RAW
                 || slider_id_eqb (iqs269_slider_type p 1) IQS269_SLIDER_RAW = true).
  { destruct Hcase as [-> | ->]; rewrite Hraw; cbn; [reflexivity | apply orb_true_r]. }
  destruct (report_loops_sliders p flags xs) as (kacts & Fk & Hrun).
  assert (Hk : dev_actions (slider i) (kacts ++ [input_sync keypad]) = []).
  { apply dev_actions_other with (d' := keypad); [reflexivity|].
    apply Forall_app. split; [exact Fk | repeat constructor]. }
  assert (Hres : exists a0 a1,
    res = (Ok tt, World (set_ati_done true p)
             ([regmap_raw_read IQS269_SYS_FLAGS; regmap_raw_read IQS269_SLIDER_X]
              ++ a0 ++ a1 ++ kacts ++ [input_sync keypad])) /\
    dev_actions (slider i) a0 ++ dev_actions (slider i) a1 = own).
  { subst res.
    rewrite (report_decode bus p flags [] Hread Hreset Hati). cbv zeta.
    rewrite Hany, Hx.
    change (([] ++ [regmap_raw_read IQS269_SYS_FLAGS]) ++ [regmap_raw_read IQS269_SLIDER_X])
      with [regmap_raw_read IQS269_SYS_FLAGS; regmap_raw_read IQS269_SLIDER_X].
    destruct Hcase as [-> | ->].
    - destruct (report_slider_own p flags xs
                  (u8 (Z.shiftr (gesture flags) (Z.of_nat 0 * IQS269_NUM_GESTURES))) 1)
        as (a1 & F1 & E1).
      exists own, a1. split.
      + apply Hrun with (g0 := u8 (Z.shiftr (gesture flags)
                                     (Z.of_nat 0 * IQS269_NUM_GESTURES)))
                        (g1 := u8 (Z.shiftr (u8 (Z.shiftr (gesture flags)
                                     (Z.of_nat 0 * IQS269_NUM_GESTURES)))
                                     (Z.of_nat 1 * IQS269_NUM_GESTURES))).
        * intros w. exact (report_slider_raw_run p flags xs _ 0 w Hraw).
        * exact E1.
      + rewrite (dev_actions_own _ own Fown).
        rewrite (dev_actions_other (slider 0) (slider 1) a1 eq_refl F1).
        apply app_nil_r.
    - destruct (report_slider_own p flags xs (gesture flags) 0) as (a0 & F0 & E0).
      exists a0, own. split.
      + apply Hrun with (g0 := u8 (Z.shiftr (gesture flags)
                                     (Z.of_nat 0 * IQS269_NUM_GESTURES)))
                        (g1 := u8 (Z.shiftr (u8 (Z.shiftr (gesture flags)
                                     (Z.of_nat 0 * IQS269_NUM_GESTURES)))
                                     (Z.of_nat 1 * IQS269_NUM_GESTURES))).
        * exact E0.
        * intros w. exact (report_slider_raw_run p flags xs _ 1 w Hraw).
      + rewrite (dev_actions_own _ own Fown).
        now rewrite (dev_actions_other (slider 1) (slider 0) a0 eq_refl F0). }
  destruct Hres as (a0 & a1 & -> & Hown).
  cbn [fst snd trace]. split; [reflexivity|].
  rewrite (app_assoc a0 a1).
  rewrite (dev_actions_app _ [_; _]), (dev_actions_app _ (a0 ++ a1)), Hk, app_nil_r.
  rewrite (dev_actions_app _ a0 a1), Hown. reflexivity.
Qed.

Lemma raw_slider_events_witness :
  dev_actions (slider 0)
    (trace (snd (iqs269_report touch1_bus (World raw_private []))))
  = [ input_report_key (slider 0) BTN_TOUCH true;
      input_report_abs (slider 0) ABS_X 0x40;
      input_sync (slider 0) ] /\
  dev_actions (slider 0)
    (trace (snd (iqs269_report (bus_with quiet_flags) (World raw_private []))))
  = [ input_report_key (slider 0) BTN_TOUCH false;
      input_sync (slider 0) ].
Proof.
  assert (Hraw : iqs269_slider_type raw_private 0 = IQS269_SLIDER_RAW)
    by (vm_compute; reflexivity).
  assert (Hlt : (0 < 2)%nat) by lia.
  split.
  - exact (proj2 (raw_slider_events touch1_bus raw_private touch1_flags [0x40; 0] 0%nat
                    eq_refl eq_refl eq_refl eq_refl Hlt Hraw)).
  - exact (proj2 (raw_slider_events (bus_with quiet_flags) raw_private quiet_flags
                    [0; 0] 0%nat eq_refl eq_refl eq_refl eq_refl Hlt Hraw)).
Defined.

(** ** The event loop: polarity and the Hall-effect pair *)




(** ** Device initialization *)

(** X8.  [iqs269_dev_init] succeeds exactly when the bus accepts every
    write it issues.  It then has written the register image it holds, once,
    after the Hall-effect enable bit, and [ati_current] is true.  When it
    fails, the private structure is as it was, so a stale [ati_current]
    stays stale.  In no case does it change anything but [ati_current]. *)
Theorem dev_init_outcome (bus : regmap) (p : iqs269_private) (t : list action) :
  let res := iqs269_dev_init bus (World p t) in
  let ok := early_writes_ok bus p && (sys_settings_write bus =? 0) in
  (fst res = Ok tt <-> ok = true) /\
  drv (snd res) = (if ok then set_ati_current true p else p) /\
  image_writes (trace (snd res)) =
    image_writes t ++ (if early_writes_ok bus p then [sys_reg p] else []) /\
  (ok = true ->
     exists before,
       trace (snd res) =
       t ++ before ++
         [ regmap_update_bits IQS269_HALL_UI IQS269_HALL_UI_ENABLE
             (if hall_enable p then Z.ones 32 else 0);
           regmap_raw_write IQS269_SYS_SETTINGS (sys_reg p) ]).
Proof.
  cbv zeta. rewrite dev_init_run. cbv zeta. unfold early_writes_ok.
  assert (Himg : forall l, image_writes (t ++ l) = image_writes t ++ image_writes l).
  { intros l. unfold image_writes. apply flat_map_app. }
  destruct ((otp_option p =? IQS269_OTP_OPTION_TWS)
            && (fw_num (ver_info p) <? IQS269_VER_INFO_FW_NUM_3));
    destruct (Z.eqb_spec (tws_init_write bus) 0) as [Htws | Htws];
    destruct (Z.eqb_spec (hall_ui_update bus) 0) as [Hhall | Hhall];
    destruct (Z.eqb_spec (sys_settings_write bus) 0) as [Hsys | Hsys];
    cbn [andb negb fst snd drv trace];
    rewrite <- ?app_assoc, ?Himg; cbn [app];
    (split; [split; intros H; first [reflexivity | discriminate H]|]);
    (split; [reflexivity|]);
    (split; [unfold image_writes at 2; cbn; rewrite ?app_nil_r; reflexivity|]);
    first [ intros H; discriminate H | intros _ ].
  - exists [regmap_multi_reg_write iqs269_tws_init]. reflexivity.
  - exists []. reflexivity.
  - exists []. reflexivity.
Qed.

Lemma dev_init_outcome_witness :
  let stale := snd (iqs269_ati_mode_set 1 2 slider_private) in
  let res := iqs269_dev_init (bus_with quiet_flags) (World stale []) in
  ati_current stale = false /\
  fst res = Ok tt /\ ati_current (drv (snd res)) = true /\
  trace (snd res) =
    [ regmap_update_bits IQS269_HALL_UI IQS269_HALL_UI_ENABLE 0;
      regmap_raw_write IQS269_SYS_SETTINGS (sys_reg stale) ].
Proof.
  intros stale res.
  destruct (dev_init_outcome (bus_with quiet_flags) stale [])
    as (Hok & Hdrv & _ & Htrace).
  split; [reflexivity|]. split; [apply Hok; reflexivity|].
  split; [fold res in Hdrv; rewrite Hdrv; reflexivity|].
  destruct (Htrace eq_refl) as [before Hbefore].
  reflexivity.
Defined.

(** ** The attribute surface *)

Lemma ati_shows_succeed (q : iqs269_private) :
  0 <= ch_num q < IQS269_NUM_CH ->
  (exists mode, ati_mode_show q = (Ok mode, q)) /\
  (exists base, ati_base_show q = (Ok base, q)) /\
  (exists target, ati_target_show q = (Ok target, q)).
Proof.
  intros Hch. unfold ati_mode_show, ati_base_show, ati_target_show.
  split; [|split]; unfold bind at 1; unfold gets at 1; cbv beta iota.
  - unfold iqs269_ati_mode_get. chan_guard (ch_num q). eexists. reflexivity.
  - rewrite ati_base_get_eq. chan_guard (ch_num q). cbv zeta.
    destruct (base_field_cases
      (be16_to_cpu (engine_b (ch_reg (sys_reg q) !!! Z.to_nat (ch_num q)))))
      as [H | [H | [H | H]]]; cbv zeta in H; rewrite H; eexists; reflexivity.
  - unfold iqs269_ati_target_get. chan_guard (ch_num q). eexists. reflexivity.
Qed.

(** X9.  The channel selector stays below 8.  [ch_number_store] refuses a
    number of 8 or more and a text that does not parse, leaving the
    structure as it was; it never touches the register image or
    [ati_current]; and with the selector below 8 the three ATI show
    functions cannot fail. *)
Theorem ch_number_store_bounded (p : iqs269_private) (parsed : result Z) (count : Z) :
  0 <= ch_num p < IQS269_NUM_CH ->
  (forall v, parsed = Ok v -> 0 <= v) ->
  let res := ch_number_store parsed count p in
  let p' := snd res in
  0 <= ch_num p' < IQS269_NUM_CH /\
  sys_reg p' = sys_reg p /\ ati_current p' = ati_current p /\
  (forall v, parsed = Ok v -> v < IQS269_NUM_CH -> res = (Ok count, set_ch_num v p)) /\
  (forall v, parsed = Ok v -> IQS269_NUM_CH <= v -> res = (Err (- EINVAL), p)) /\
  (forall e, parsed = Err e -> res = (Err e, p)) /\
  (exists mode, ati_mode_show p' = (Ok mode, p')) /\
  (exists base, ati_base_show p' = (Ok base, p')) /\
  (exists target, ati_target_show p' = (Ok target, p')).
Proof.
  intros Hch Hpos. cbv zeta.
  assert (Hbound : 0 <= ch_num (snd (ch_number_store parsed count p)) < IQS269_NUM_CH).
  { unfold ch_number_store, bind, lift.
    destruct parsed as [v | e]; [|exact Hch].
    specialize (Hpos v eq_refl).
    chan_guard v; [unfold IQS269_NUM_CH; exact Hch|].
    cbn. unfold IQS269_NUM_CH. lia. }
  split; [exact Hbound|].
  split; [|split; [|split; [|split; [|split]]]].
  - unfold ch_number_store, bind, lift. destruct parsed as [v | e]; [|reflexivity].
    destruct (v >=? IQS269_NUM_CH); reflexivity.
  - unfold ch_number_store, bind, lift. destruct parsed as [v | e]; [|reflexivity].
    destruct (v >=? IQS269_NUM_CH); reflexivity.
  - intros v -> Hv. unfold ch_number_store, bind, lift. chan_guard v. reflexivity.
  - intros v -> Hv. unfold ch_number_store, bind, lift. chan_guard v. reflexivity.
  - intros e ->. reflexivity.
  - exact (ati_shows_succeed _ Hbound).
Qed.

Lemma ch_number_store_bounded_witness :
  ch_number_store (Ok 9) 2 kzalloc_private = (Err (- EINVAL), kzalloc_private) /\
  ch_num (snd (ch_number_store (Ok 5) 2 kzalloc_private)) = 5 /\
  ati_base_show (snd (ch_number_store (Ok 5) 2 kzalloc_private))
  = (Ok 75, snd (ch_number_store (Ok 5) 2 kzalloc_private)).
Proof.
  assert (Hch : 0 <= ch_num kzalloc_private < IQS269_NUM_CH)
    by (unfold IQS269_NUM_CH; cbn; lia).
  assert (H9 : forall v, Ok 9 = Ok v -> 0 <= v) by (intros v [= <-]; lia).
  assert (H5 : forall v, Ok 5 = Ok v -> 0 <= v) by (intros v [= <-]; lia).
  destruct (ch_number_store_bounded kzalloc_private (Ok 9) 2 Hch H9)
    as (_ & _ & _ & _ & Hbad & _).
  destruct (ch_number_store_bounded kzalloc_private (Ok 5) 2 Hch H5)
    as (_ & _ & _ & Hgood & _ & _ & _ & [b Hb] & _).
  split; [apply (Hbad 9 eq_refl); unfold IQS269_NUM_CH; lia|].
  split.
  - rewrite (Hgood 5 eq_refl) by (unfold IQS269_NUM_CH; lia). reflexivity.
  - rewrite Hb. vm_compute in Hb. congruence.
Defined.

(** X10.  [rx_enable_store] on the selected channel: a number up to 255 is
    stored, read back by [rx_enable_show], and marks the configuration
    stale; a larger number, or a text that does not parse, is refused and
    changes nothing. *)
Theorem rx_enable_store_show (p : iqs269_private) (parsed : result Z) (count : Z) :
  sized p = true -> 0 <= ch_num p < IQS269_NUM_CH ->
  let res := rx_enable_store parsed count p in
  (forall v, parsed = Ok v -> 0 <= v <= 0xFF ->
     fst res = Ok count /\
     rx_enable_show (snd res) = (Ok v, snd res) /\
     ati_current (snd res) = false /\
     ch_num (snd res) = ch_num p) /\
  (forall v, parsed = Ok v -> 0xFF < v -> res = (Err (- EINVAL), p)) /\
  (forall e, parsed = Err e -> res = (Err e, p)).
Proof.
  intros Hs Hch. cbv zeta.
  assert (Hidx := ch_index_lt p (ch_num p) Hs Hch).
  split; [|split].
  - intros v -> Hv. unfold rx_enable_store, bind, lift, gets, modify, ret.
    destruct (v >? 255) eqn:Hgt; [rewrite Z.gtb_ltb in Hgt; apply Z.ltb_lt in Hgt; lia|].
    cbn [fst snd]. split; [reflexivity|]. split; [|split; reflexivity].
    unfold rx_enable_show, gets. f_equal. f_equal.
    change (ch_num (set_ati_current false ?q)) with (ch_num q).
    change (sys_reg (set_ati_current false ?q)) with (sys_reg q).
    change (ch_num (upd_ch_reg ?n ?f p)) with (ch_num p).
    rewrite ch_reg_upd_same by exact Hidx.
    cbn [rx_enable set_rx_enable]. apply u8_small. lia.
  - intros v -> Hv. unfold rx_enable_store, bind, lift.
    destruct (v >? 255) eqn:Hgt; [reflexivity|].
    rewrite Z.gtb_ltb in Hgt. apply Z.ltb_ge in Hgt. lia.
  - intros e ->. reflexivity.
Qed.

Lemma rx_enable_store_show_witness :
  let p := snd (ch_number_store (Ok 3) 2 kzalloc_private) in
  rx_enable_show (snd (rx_enable_store (Ok 0x81) 4 p))
  = (Ok 0x81, snd (rx_enable_store (Ok 0x81) 4 p)) /\
  rx_enable_store (Ok 256) 4 p = (Err (- EINVAL), p).
Proof.
  intros p.
  assert (Hch : 0 <= ch_num p < IQS269_NUM_CH) by (unfold IQS269_NUM_CH; cbn; lia).
  destruct (rx_enable_store_show p (Ok 0x81) 4 eq_refl Hch) as (Hgood & _ & _).
  destruct (rx_enable_store_show p (Ok 256) 4 eq_refl Hch) as (_ & Hbad & _).
  split.
  - apply (Hgood 0x81 eq_refl). lia.
  - apply (Hbad 256 eq_refl). lia.
Defined.

(** X11.  The functions that talk to the device outside the interrupt
    handler never leave the interrupt line switched off and never make a
    transfer with the line switched on, whether the transfer succeeds or
    fails; none of them changes the private structure. *)
Theorem irq_line_restored (env : io_env) :
  irq_safe (counts_show env) /\ irq_safe (hall_bin_show env) /\
  irq_safe (iqs269_suspend env) /\ irq_safe (iqs269_resume env).
Proof.
  assert (Hnil : forall p t, exists t',
            IoWorld p t = IoWorld p (t ++ t') /\ irq_bracketed false t' = true).
  { intros p t. exists []. rewrite app_nil_r. split; reflexivity. }
  split; [|split; [|split]]; intros p t.
  - unfold counts_show, bind, gets, io_emit, modify, lift, throw, ret.
    cbn [io_drv io_trace fst snd].
    destruct (negb (ati_current p) || hall_enable p); [apply Hnil|].
    destruct (negb (ati_done p)); [apply Hnil|].
    eexists. split.
    + destruct (counts_read env); cbn [snd]; rewrite <- !app_assoc; reflexivity.
    + reflexivity.
  - unfold hall_bin_show, bind, gets, io_emit, modify, lift, throw, ret.
    cbn [io_drv io_trace fst snd].
    eexists. split.
    + destruct (cal_data_read env); cbn [snd]; cbv zeta;
        repeat match goal with |- context [if ?c then _ else _] => destruct c end;
        cbn [snd]; rewrite <- !app_assoc; reflexivity.
    + reflexivity.
  - unfold iqs269_suspend, bind, gets, io_emit, modify, ret.
    cbn [io_drv io_trace fst snd]. cbv zeta.
    destruct (Z.land (iqs269_general_get p) IQS269_SYS_SETTINGS_PWR_MODE_MASK =? 0);
      [apply Hnil|].
    eexists. split.
    + rewrite check_eq.
      destruct (general_write env (iqs269_general_get p) =? 0);
        cbn [snd]; rewrite <- !app_assoc; reflexivity.
    + reflexivity.
  - unfold iqs269_resume, bind, gets, io_emit, modify, ret.
    cbn [io_drv io_trace fst snd]. cbv zeta.
    destruct (Z.land (iqs269_general_get p) IQS269_SYS_SETTINGS_PWR_MODE_MASK =? 0);
      [apply Hnil|].
    destruct (general_write env
                (Z.land (iqs269_general_get p)
                   (Z.lnot IQS269_SYS_SETTINGS_PWR_MODE_MASK)) =? 0) eqn:Hfirst.
    + cbn [io_drv io_trace fst snd]. rewrite check_eq.
      eexists. split.
      * clear Hfirst.
        match goal with |- context [if ?c then _ else _] => destruct c end;
          cbn [snd]; rewrite <- !app_assoc; reflexivity.
      * reflexivity.
    + cbn [io_drv io_trace fst snd]. rewrite check_eq. rewrite Hfirst.
      eexists. split.
      * cbn [snd]. rewrite <- !app_assoc. reflexivity.
      * reflexivity.
Qed.

Lemma le16_to_cpu_eq (lo hi : Z) :
  0 <= lo < 256 -> 0 <= hi < 256 -> le16_to_cpu (lo, hi) = lo + 256 * hi.
Proof.
  intros Hlo Hhi. unfold le16_to_cpu. cbn [fst snd].
  rewrite !u8_small by lia.
  assert (Hland : Z.land (Z.shiftl hi 8) lo = 0).
  { apply Z.bits_inj'; intros n Hn. rewrite Z.land_spec, Z.bits_0.
    destruct (Z.ltb_spec n 8).
    - rewrite Z.shiftl_spec by lia. rewrite (Z.testbit_neg_r hi) by lia. reflexivity.
    - rewrite (testbit_small lo 8 n) by lia. apply andb_false_r. }
  pose proof (Z.add_lor_land (Z.shiftl hi 8) lo) as Hadd.
  rewrite Hland, Z.add_0_r in Hadd. rewrite Hadd.
  rewrite Z.shiftl_mul_pow2 by lia. change (2 ^ 8) with 256.
  rewrite u16_small by lia. lia.
Qed.

Lemma config_store_stale (store : result Z -> Z -> M iqs269_private Z)
    (parsed : result Z) (count : Z) (p : iqs269_private) (n : Z) :
  In store config_stores ->
  fst (store parsed count p) = Ok n ->
  n = count /\ ati_current (snd (store parsed count p)) = false.
Proof.
  unfold config_stores.
  intros [<- | [<- | [<- | [<- | [<- | []]]]]].
  - unfold hall_enable_store, bind, lift, modify, ret.
    destruct parsed; cbn; [intros [= <-]; split; reflexivity | discriminate].
  - unfold rx_enable_store, bind, lift, gets, modify, ret, throw.
    destruct parsed as [v | e]; [|discriminate].
    destruct (v >? 255); [discriminate|]. cbn. intros [= <-]; split; reflexivity.
  - unfold ati_mode_store, bind, lift, gets, ret.
    destruct parsed as [v | e]; [|discriminate].
    rewrite ati_mode_set_eq.
    destruct ((ch_num p >=? IQS269_NUM_CH) || (v >? IQS269_CHx_ENG_A_ATI_MODE_MAX));
      [discriminate|].
    cbn. intros [= <-]; split; reflexivity.
  - unfold ati_base_store, bind, lift, gets, ret.
    destruct parsed as [v | e]; [|discriminate].
    destruct (classic_base v) as [Hin | Hout].
    + assert (Hb : exists b,
                (v = 75 /\ b = IQS269_CHx_ENG_B_ATI_BASE_75) \/
                (v = 100 /\ b = IQS269_CHx_ENG_B_ATI_BASE_100) \/
                (v = 150 /\ b = IQS269_CHx_ENG_B_ATI_BASE_150) \/
                (v = 200 /\ b = IQS269_CHx_ENG_B_ATI_BASE_200)).
      { destruct Hin as [-> | [-> | [-> | ->]]]; eexists;
          [left | right; left | right; right; left | right; right; right];
          split; reflexivity. }
      destruct Hb as [b Hb]. rewrite (ati_base_set_eq p (ch_num p) v b Hb).
      destruct (ch_num p >=? IQS269_NUM_CH); [discriminate|].
      cbn. intros [= <-]; split; reflexivity.
    + rewrite (ati_base_set_other p (ch_num p) v Hout). discriminate.
  - unfold ati_target_store, bind, lift, gets, ret.
    destruct parsed as [v | e]; [|discriminate].
    rewrite ati_target_set_eq.
    destruct ((ch_num p >=? IQS269_NUM_CH) || (v >? IQS269_CHx_ENG_B_ATI_TARGET_MAX));
      [discriminate|].
    cbn. intros [= <-]; split; reflexivity.
Qed.

(** X12.  The counts of a channel can only be read from a device that runs
    the configuration the driver holds.  After any successful store to
    [hall_enable], [rx_enable], [ati_mode], [ati_base] or [ati_target],
    [counts_show] answers [-EPERM] and [ati_trigger_show] answers 0 without
    a transfer; once [iqs269_dev_init] has succeeded on a structure with
    Hall-effect sensing off and ATI complete, [counts_show] reads the two
    bytes at [IQS269_CHx_COUNTS + 2 * ch_num] and yields them as a
    little-endian number, or the error of the transfer. *)
Theorem counts_need_current_configuration (env : io_env) (bus : regmap)
    (store : result Z -> Z -> M iqs269_private Z) (parsed : result Z) (count n : Z)
    (p : iqs269_private) (t : list io) (a : list action) :
  In store config_stores ->
  fst (store parsed count p) = Ok n ->
  let stale := snd (store parsed count p) in
  let fresh := drv (snd (iqs269_dev_init bus (World stale a))) in
  counts_show env (IoWorld stale t) = (Err (- EPERM), IoWorld stale t) /\
  ati_trigger_show stale = (Ok 0, stale) /\
  (fst (iqs269_dev_init bus (World stale a)) = Ok tt ->
   hall_enable stale = false -> ati_done stale = true ->
   ati_trigger_show fresh = (Ok 1, fresh) /\
   io_trace (snd (counts_show env (IoWorld fresh t))) =
     t ++ [disable_irq; raw_read (IQS269_CHx_COUNTS + ch_num stale * 2) 2;
           iqs269_irq_wait; enable_irq] /\
   fst (counts_show env (IoWorld fresh t)) =
     match counts_read env with
     | Ok counts => Ok (le16_to_cpu counts)
     | Err e => Err e
     end /\
   forall lo hi, 0 <= lo < 256 -> 0 <= hi < 256 ->
     counts_read env = Ok (lo, hi) ->
     fst (counts_show env (IoWorld fresh t)) = Ok (lo + 256 * hi)).
Proof.
  intros Hin Hok. cbv zeta.
  destruct (config_store_stale store parsed count p n Hin Hok) as [_ Hstale].
  set (stale := snd (store parsed count p)) in *.
  split; [|split].
  - unfold counts_show, bind, gets, throw. cbn [io_drv]. rewrite Hstale. reflexivity.
  - unfold ati_trigger_show, gets. rewrite Hstale. reflexivity.
  - intros Hinit Hhall Hdone.
    rewrite dev_init_run in Hinit |- *. cbv zeta in Hinit |- *.
    repeat match type of Hinit with
           | fst (if ?c then _ else _) = _ => destruct c; [discriminate Hinit|]
           end.
    cbn [drv snd].
    assert (Hrun : counts_show env (IoWorld (set_ati_current true stale) t) =
              (match counts_read env with
               | Ok counts => Ok (le16_to_cpu counts)
               | Err e => Err e
               end,
               IoWorld (set_ati_current true stale)
                 (t ++ [disable_irq; raw_read (IQS269_CHx_COUNTS + ch_num stale * 2) 2;
                        iqs269_irq_wait; enable_irq]))).
    { unfold counts_show, bind, gets, io_emit, modify, lift, throw, ret.
      cbn [io_drv io_trace fst snd ati_current hall_enable ati_done ch_num set_ati_current].
      rewrite Hhall, Hdone. cbn [negb orb].
      destruct (counts_read env); rewrite <- !app_assoc; reflexivity. }
    rewrite Hrun. cbn [fst snd io_trace].
    split; [|split; [reflexivity|split; [reflexivity|]]].
    + unfold ati_trigger_show, gets.
      cbn [ati_current ati_done set_ati_current]. rewrite Hdone. reflexivity.
    + intros lo hi Hlo Hhi ->. rewrite le16_to_cpu_eq by assumption. reflexivity.
Qed.

Lemma counts_need_current_configuration_witness :
  let env := IoEnv (Ok (0x34, 0x12)) (Ok 0) (fun _ => 0) (fun _ => true) (fun _ => 0) in
  let stale := snd (ati_target_store (Ok 512) 4 slider_private) in
  let idle := snd (hall_enable_store (Ok 0) 2 (set_ati_done true slider_private)) in
  let fresh := drv (snd (iqs269_dev_init (bus_with quiet_flags) (World idle []))) in
  counts_show env (IoWorld stale []) = (Err (- EPERM), IoWorld stale []) /\
  fst (counts_show env (IoWorld fresh [])) = Ok 0x1234.
Proof.
  intros env stale idle fresh.
  assert (Hin : In ati_target_store config_stores)
    by (unfold config_stores; cbn; tauto).
  destruct (counts_need_current_configuration env (bus_with quiet_flags)
              ati_target_store (Ok 512) 4 4 slider_private [] [] Hin eq_refl)
    as (Hperm & _ & _).
  split; [exact Hperm|].
  assert (Hin' : In hall_enable_store config_stores)
    by (unfold config_stores; cbn; tauto).
  destruct (counts_need_current_configuration env (bus_with quiet_flags)
              hall_enable_store (Ok 0) 2 2 (set_ati_done true slider_private) [] []
              Hin' eq_refl)
    as (_ & _ & Hfresh).
  destruct (Hfresh eq_refl eq_refl eq_refl) as (_ & _ & _ & Hnum).
  assert (Hlo : 0 <= 0x34 < 256) by lia.
  assert (Hhi : 0 <= 0x12 < 256) by lia.
  exact (Hnum 0x34 0x12 Hlo Hhi eq_refl).
Defined.

(** ** Power management *)

Lemma general_get_bits (p : iqs269_private) (n : Z) :
  0 <= n ->
  Z.testbit (iqs269_general_get p) n =
  if n =? 13 then true
  else if (n =? 2) || (n =? 0) then false
  else Z.testbit (be16_to_cpu (general (sys_reg p))) n.
Proof.
  intros Hn. unfold iqs269_general_get, be16_to_cpu.
  unfold IQS269_SYS_SETTINGS_REDO_ATI, IQS269_SYS_SETTINGS_ACK_RESET,
    IQS269_SYS_SETTINGS_DIS_AUTO.
  generalize (Z.lor (Z.shiftl (u8 (be_hi (general (sys_reg p)))) 8)
                (u8 (be_lo (general (sys_reg p))))) as e.
  intros e. repeat bits_step. bits_cases.
Qed.

Lemma general_get_mode (p : iqs269_private) :
  Z.land (iqs269_general_get p) IQS269_SYS_SETTINGS_PWR_MODE_MASK =
  Z.land (be16_to_cpu (general (sys_reg p))) IQS269_SYS_SETTINGS_PWR_MODE_MASK.
Proof.
  apply Z.bits_inj'; intros n Hn. rewrite !Z.land_spec, general_get_bits by exact Hn.
  unfold IQS269_SYS_SETTINGS_PWR_MODE_MASK. rewrite testbit_GENMASK by lia.
  bits_cases.
Qed.

Lemma io_writes_app (t u : list io) : io_writes (t ++ u) = io_writes t ++ io_writes u.
Proof. unfold io_writes. apply omap_app. Qed.

Lemma suspend_resume_idle (env : io_env) (w : io_world) :
  Z.land (iqs269_general_get (io_drv w)) IQS269_SYS_SETTINGS_PWR_MODE_MASK = 0 ->
  iqs269_suspend env w = (Ok tt, w) /\ iqs269_resume env w = (Ok tt, w).
Proof.
  intros Hzero. unfold iqs269_suspend, iqs269_resume, bind, gets, ret.
  cbv zeta. rewrite Hzero. split; reflexivity.
Qed.

Lemma suspend_writes (env : io_env) (p : iqs269_private) (t : list io) :
  Z.land (iqs269_general_get p) IQS269_SYS_SETTINGS_PWR_MODE_MASK <> 0 ->
  io_writes (io_trace (snd (iqs269_suspend env (IoWorld p t)))) =
  io_writes t ++ [(IQS269_SYS_SETTINGS, iqs269_general_get p)].
Proof.
  intros Hmode. apply Z.eqb_neq in Hmode.
  unfold iqs269_suspend, bind, gets, io_emit, modify, ret.
  cbn [io_drv io_trace fst snd]. cbv zeta. rewrite Hmode. rewrite check_eq.
  destruct (general_write env (iqs269_general_get p) =? 0);
    cbn [snd io_trace]; rewrite <- !app_assoc; cbn [app];
    rewrite io_writes_app; reflexivity.
Qed.

(** X13.  Suspend and resume.  With a power mode of zero in the register
    image neither function touches the device.  Otherwise [iqs269_suspend]
    writes one word to [IQS269_SYS_SETTINGS]: the image's word with
    automatic power-mode switching disabled and the ATI and reset
    acknowledgement triggers cleared.  [iqs269_resume] first writes that
    word with the power mode cleared and, only if that write succeeded, the
    word with automatic switching enabled again; its second word carries
    the image's power mode and no trigger.  Each function returns the error
    of its last write. *)
Theorem suspend_resume_words (env : io_env) (p : iqs269_private) (t : list io) :
  let stored := be16_to_cpu (general (sys_reg p)) in
  let asleep := iqs269_general_get p in
  let awake := Z.land asleep (Z.lnot IQS269_SYS_SETTINGS_PWR_MODE_MASK) in
  let auto := Z.land asleep (Z.lnot IQS269_SYS_SETTINGS_DIS_AUTO) in
  let w := IoWorld p t in
  (Z.land stored IQS269_SYS_SETTINGS_PWR_MODE_MASK = 0 ->
     iqs269_suspend env w = (Ok tt, w) /\ iqs269_resume env w = (Ok tt, w)) /\
  (Z.land stored IQS269_SYS_SETTINGS_PWR_MODE_MASK <> 0 ->
     io_writes (io_trace (snd (iqs269_suspend env w))) =
       io_writes t ++ [(IQS269_SYS_SETTINGS, asleep)] /\
     retcode (fst (iqs269_suspend env w)) = general_write env asleep /\
     io_writes (io_trace (snd (iqs269_resume env w))) =
       io_writes t ++ (IQS269_SYS_SETTINGS, awake) ::
         (if general_write env awake =? 0 then [(IQS269_SYS_SETTINGS, auto)] else []) /\
     retcode (fst (iqs269_resume env w)) =
       (if general_write env awake =? 0 then general_write env auto
        else general_write env awake)) /\
  asleep = Z.lor (Z.land stored (Z.lnot (Z.lor IQS269_SYS_SETTINGS_REDO_ATI
                                           IQS269_SYS_SETTINGS_ACK_RESET)))
             IQS269_SYS_SETTINGS_DIS_AUTO /\
  Z.land awake IQS269_SYS_SETTINGS_PWR_MODE_MASK = 0 /\
  auto = Z.land stored (Z.lnot (Z.lor (Z.lor IQS269_SYS_SETTINGS_REDO_ATI
                                         IQS269_SYS_SETTINGS_ACK_RESET)
                                  IQS269_SYS_SETTINGS_DIS_AUTO)).
Proof.
  cbv zeta.
  split; [|split; [|split; [|split]]].
  - intros Hzero. rewrite <- general_get_mode in Hzero.
    unfold iqs269_suspend, iqs269_resume, bind, gets, ret. cbn [io_drv].
    cbv zeta. rewrite Hzero. split; reflexivity.
  - intros Hmode. rewrite <- general_get_mode in Hmode.
    apply Z.eqb_neq in Hmode.
    unfold iqs269_suspend, iqs269_resume, bind, gets, io_emit, modify, ret.
    cbn [io_drv io_trace fst snd]. cbv zeta. rewrite Hmode.
    rewrite !check_eq.
    split; [|split; [|split]].
    + destruct (general_write env (iqs269_general_get p) =? 0);
        cbn [snd io_trace]; rewrite <- !app_assoc; cbn [app];
        rewrite io_writes_app; reflexivity.
    + destruct (Z.eqb_spec (general_write env (iqs269_general_get p)) 0) as [-> | Hne];
        reflexivity.
    + destruct (general_write env
                  (Z.land (iqs269_general_get p)
                     (Z.lnot IQS269_SYS_SETTINGS_PWR_MODE_MASK)) =? 0) eqn:Hfirst;
        cbn [io_drv io_trace fst snd]; rewrite ?Hfirst; rewrite check_eq;
        match goal with |- context [if ?c then _ else _] => destruct c end;
        cbn [snd io_trace]; rewrite <- ?app_assoc; cbn [app];
        rewrite io_writes_app; reflexivity.
    + destruct (general_write env
                  (Z.land (iqs269_general_get p)
                     (Z.lnot IQS269_SYS_SETTINGS_PWR_MODE_MASK)) =? 0) eqn:Hfirst;
        cbn [io_drv io_trace fst snd]; rewrite ?Hfirst; rewrite check_eq.
      * destruct (Z.eqb_spec (general_write env
                    (Z.land (iqs269_general_get p)
                       (Z.lnot IQS269_SYS_SETTINGS_DIS_AUTO))) 0) as [-> | Hne];
          reflexivity.
      * rewrite Hfirst. reflexivity.
  - apply Z.bits_inj'; intros n Hn. rewrite general_get_bits by exact Hn.
    unfold IQS269_SYS_SETTINGS_REDO_ATI, IQS269_SYS_SETTINGS_ACK_RESET,
      IQS269_SYS_SETTINGS_DIS_AUTO.
    repeat bits_step. bits_cases.
  - apply Z.bits_inj'; intros n Hn. rewrite !Z.land_spec, Z.bits_0.
    unfold IQS269_SYS_SETTINGS_PWR_MODE_MASK.
    rewrite Z.lnot_spec by lia. rewrite testbit_GENMASK by lia.
    destruct ((11 <=? n) && (n <=? 12)); cbn; rewrite ?andb_false_r; reflexivity.
  - apply Z.bits_inj'; intros n Hn.
    rewrite !Z.land_spec, general_get_bits by exact Hn.
    unfold IQS269_SYS_SETTINGS_REDO_ATI, IQS269_SYS_SETTINGS_ACK_RESET,
      IQS269_SYS_SETTINGS_DIS_AUTO.
    repeat bits_step. bits_cases.
Qed.

Lemma suspend_resume_words_witness :
  let env := IoEnv (Err (- EIO)) (Err (- EIO)) (fun _ => 0)
               (fun _ => true) (fun _ => 0) in
  let p := upd_sys_reg (set_general (cpu_to_be16 0x0825)) kzalloc_private in
  io_writes (io_trace (snd (iqs269_suspend env (IoWorld p [])))) =
    [(IQS269_SYS_SETTINGS, 0x2820)] /\
  io_writes (io_trace (snd (iqs269_resume env (IoWorld p [])))) =
    [(IQS269_SYS_SETTINGS, 0x2020); (IQS269_SYS_SETTINGS, 0x0820)] /\
  iqs269_suspend env (IoWorld kzalloc_private []) = (Ok tt, IoWorld kzalloc_private []).
Proof.
  intros env p.
  destruct (suspend_resume_words env p []) as (_ & Hon & _).
  destruct (suspend_resume_words env kzalloc_private []) as (Hoff & _).
  assert (Hmode : Z.land (be16_to_cpu (general (sys_reg p)))
                    IQS269_SYS_SETTINGS_PWR_MODE_MASK <> 0) by (vm_compute; discriminate).
  destruct (Hon Hmode) as (Hs & _ & Hr & _).
  split; [exact Hs|]. split; [exact Hr|].
  exact (proj1 (Hoff eq_refl)).
Defined.

Lemma nibble_div (val sh : Z) :
  0 <= sh ->
  Z.shiftr (Z.land val (GENMASK (sh + 3) sh)) sh = (val / 2 ^ sh) mod 16.
Proof.
  intros Hsh. change 16 with (2 ^ 4).
  rewrite <- Z.land_ones, <- Z.shiftr_div_pow2 by lia.
  apply Z.bits_inj'; intros n Hn.
  rewrite Z.shiftr_spec, !Z.land_spec, Z.shiftr_spec by lia.
  rewrite testbit_GENMASK by lia. rewrite Z.testbit_ones by lia.
  f_equal. destruct (Z.leb_spec sh (n + sh)), (Z.leb_spec (n + sh) (sh + 3)),
    (Z.leb_spec 0 n), (Z.ltb_spec n 4); cbn; try reflexivity; lia.
Qed.

(** X14.  [hall_bin_show] always makes its transfer, with the interrupt
    line held off; the error of the transfer comes before the check of the
    pad selection.  With both Hall-effect channels on the right pad it
    yields bits 11..8 of the calibration word, with both on the left pad
    bits 15..12, and [-EINVAL] for any other selection. *)
Theorem hall_bin_show_nibble (env : io_env) (p : iqs269_private) (t : list io) :
  let pads :=
    Z.land (rx_enable (ch_reg (sys_reg p) !!! 7%nat))
           (rx_enable (ch_reg (sys_reg p) !!! 6%nat)) in
  let res := hall_bin_show env (IoWorld p t) in
  snd res = IoWorld p (t ++ [disable_irq; regmap_read IQS269_CAL_DATA_A;
                             iqs269_irq_wait; enable_irq]) /\
  fst res =
    match cal_data_read env with
    | Err e => Err e
    | Ok val =>
        if pads =? 1 then Ok ((val / 256) mod 16)
        else if pads =? 2 then Ok ((val / 4096) mod 16)
        else Err (- EINVAL)
    end /\
  (forall bin, fst res = Ok bin -> 0 <= bin < 16).
Proof.
  cbv zeta.
  assert (Hrun : hall_bin_show env (IoWorld p t) =
    (match cal_data_read env with
     | Err e => Err e
     | Ok val =>
         if Z.land (rx_enable (ch_reg (sys_reg p) !!! 7%nat))
              (rx_enable (ch_reg (sys_reg p) !!! 6%nat)) =? 1
         then Ok ((val / 256) mod 16)
         else if Z.land (rx_enable (ch_reg (sys_reg p) !!! 7%nat))
                   (rx_enable (ch_reg (sys_reg p) !!! 6%nat)) =? 2
         then Ok ((val / 4096) mod 16)
         else Err (- EINVAL)
     end,
     IoWorld p (t ++ [disable_irq; regmap_read IQS269_CAL_DATA_A;
                      iqs269_irq_wait; enable_irq]))).
  { unfold hall_bin_show, bind, gets, io_emit, modify, lift, throw, ret.
    cbn [io_drv io_trace fst snd]. rewrite <- !app_assoc. cbn [app].
    destruct (cal_data_read env) as [val | e]; [|reflexivity].
    cbv zeta.
    change (Z.to_nat IQS269_CHx_HALL_ACTIVE) with 7%nat.
    change (Z.to_nat IQS269_CHx_HALL_INACTIVE) with 6%nat.
    change IQS269_HALL_PAD_R with 1. change IQS269_HALL_PAD_L with 2.
    unfold IQS269_CAL_DATA_A_HALL_BIN_R_MASK, IQS269_CAL_DATA_A_HALL_BIN_R_SHIFT,
      IQS269_CAL_DATA_A_HALL_BIN_L_MASK, IQS269_CAL_DATA_A_HALL_BIN_L_SHIFT.
    change (GENMASK 11 8) with (GENMASK (8 + 3) 8).
    change (GENMASK 15 12) with (GENMASK (12 + 3) 12).
    rewrite (nibble_div val 8) by lia. rewrite (nibble_div val 12) by lia.
    change (2 ^ 8) with 256. change (2 ^ 12) with 4096.
    repeat match goal with |- context [if ?c then _ else _] => destruct c end;
      reflexivity. }
  rewrite Hrun. cbn [fst snd].
  split; [reflexivity|]. split; [reflexivity|].
  intros bin. destruct (cal_data_read env) as [val | e]; [|discriminate].
  repeat match goal with |- context [if ?c then _ else _] => destruct c end;
    intros [= <-]; try discriminate; apply Z.mod_pos_bound; lia.
Qed.

Lemma hall_bin_show_nibble_witness :
  fst (hall_bin_show
         (IoEnv (Err (- EIO)) (Ok 0x3A5C) (fun _ => 0) (fun _ => true) (fun _ => 0))
         (IoWorld hall_pad_r_private [])) = Ok 10 /\
  fst (hall_bin_show
         (IoEnv (Err (- EIO)) (Ok 0x3A5C) (fun _ => 0) (fun _ => true) (fun _ => 0))
         (IoWorld kzalloc_private [])) = Err (- EINVAL).
Proof.
  destruct (hall_bin_show_nibble
              (IoEnv (Err (- EIO)) (Ok 0x3A5C) (fun _ => 0) (fun _ => true) (fun _ => 0))
              hall_pad_r_private []) as (_ & Hr & _).
  destruct (hall_bin_show_nibble
              (IoEnv (Err (- EIO)) (Ok 0x3A5C) (fun _ => 0) (fun _ => true) (fun _ => 0))
              kzalloc_private []) as (_ & Hz & _).
  split; [rewrite Hr | rewrite Hz]; reflexivity.
Defined.

(** ** Parsing a channel node *)

Lemma forallb_insert {A} (f : A -> bool) (l : list A) (n : nat) (x : A) :
  forallb f l = true -> f x = true -> forallb f (<[n := x]> l) = true.
Proof.
  revert n. induction l as [|y l IH]; intros [|n] Hl Hx; cbn in *;
    try reflexivity; apply andb_prop in Hl; destruct Hl as [Hy Hl].
  - now rewrite Hx, Hl.
  - now rewrite Hy, IH.
Qed.

Lemma sized_fields (p : iqs269_private) :
  sized p = true <->
  length (ch_reg (sys_reg p)) = 8%nat /\
  forallb (fun c => Nat.eqb (length (thresh c)) 3) (ch_reg (sys_reg p)) = true /\
  length (slider_select (sys_reg p)) = 2%nat /\
  length (switches p) = 6%nat /\ length (keycode p) = 48%nat /\
  length (sl_code p) = 2%nat /\
  forallb (fun g => Nat.eqb (length g) 4) (sl_code p) = true.
Proof.
  unfold sized, sized_sys_reg. rewrite !andb_true_iff, !Nat.eqb_eq. tauto.
Qed.

Lemma thresh_length (p : iqs269_private) (n : nat) :
  sized p = true -> (n < 8)%nat ->
  length (thresh (ch_reg (sys_reg p) !!! n)) = 3%nat.
Proof.
  intros Hs Hn. apply sized_fields in Hs. destruct Hs as (Hlen & Hall & _).
  rewrite forallb_forall in Hall. apply Nat.eqb_eq, Hall.
  apply list_elem_of_In. apply list_elem_of_lookup_total_2. lia.
Qed.

Lemma chan_frame_refl (n : nat) (p : iqs269_private) :
  sized p = true -> chan_frame n p p.
Proof. intros Hs. repeat split; auto. Qed.

Lemma chan_frame_sys (n : nat) (p0 s : iqs269_private)
    (f : iqs269_sys_reg -> iqs269_sys_reg) :
  (forall r, ch_reg (f r) = ch_reg r) ->
  (forall r, sys_outside (f r) = sys_outside r) ->
  (forall r, length (slider_select (f r)) = length (slider_select r)) ->
  chan_frame n p0 s -> chan_frame n p0 (upd_sys_reg f s).
Proof.
  intros Hch Hout Hsl (Hs & Ho & Hm & Hc & Hk).
  split; [|split; [|split; [|split]]].
  - apply sized_fields in Hs. apply sized_fields. cbn.
    rewrite Hch, Hsl. exact Hs.
  - rewrite <- Ho. unfold outside_channels. cbn. now rewrite Hout.
  - intros m Hne. cbn. rewrite Hch. apply Hm, Hne.
  - cbn. rewrite Hch. exact Hc.
  - exact Hk.
Qed.

Lemma chan_frame_ch (n : nat) (p0 s : iqs269_private)
    (g : iqs269_ch_reg -> iqs269_ch_reg) :
  (forall c, ati_comp (g c) = ati_comp c) ->
  (forall c, length (thresh c) = 3%nat -> length (thresh (g c)) = 3%nat) ->
  (n < 8)%nat ->
  chan_frame n p0 s -> chan_frame n p0 (upd_ch_reg n g s).
Proof.
  intros Hcomp Hth Hn (Hs & Ho & Hm & Hc & Hk).
  assert (Hlen : (n < length (ch_reg (sys_reg s)))%nat)
    by (rewrite (sized_ch_reg s Hs); exact Hn).
  split; [|split; [|split; [|split]]].
  - pose proof (thresh_length s n Hs Hn) as Hthn.
    apply sized_fields in Hs. apply sized_fields. cbn.
    rewrite length_insert.
    destruct Hs as (H1 & H2 & H3). split; [exact H1|]. split; [|exact H3].
    apply forallb_insert; [exact H2|]. apply Nat.eqb_eq, Hth, Hthn.
  - exact Ho.
  - intros m Hne. rewrite ch_reg_upd_other by congruence. apply Hm, Hne.
  - rewrite ch_reg_upd_same by exact Hlen. rewrite Hcomp. exact Hc.
  - exact Hk.
Qed.

Lemma chan_frame_current (n : nat) (p0 s : iqs269_private) (b : bool) :
  chan_frame n p0 s -> chan_frame n p0 (set_ati_current b s).
Proof. intros H. exact H. Qed.

Lemma chan_frame_switches (n : nat) (p0 s : iqs269_private) (i : nat)
    (x : iqs269_switch_desc) :
  chan_frame n p0 s -> chan_frame n p0 (set_switches (<[i := x]> (switches s)) s).
Proof.
  intros (Hs & Ho & Hm & Hc & Hk).
  split; [|split; [|split; [|split]]]; try assumption.
  apply sized_fields in Hs. apply sized_fields. cbn. rewrite length_insert. exact Hs.
Qed.

Lemma chan_frame_keycode (n : nat) (p0 s : iqs269_private) (i : nat) (v : Z) :
  (n < 8)%nat ->
  chan_frame n p0 s ->
  chan_frame n p0 (set_keycode (<[(i * 8 + n)%nat := v]> (keycode s)) s).
Proof.
  intros Hn (Hs & Ho & Hm & Hc & Hk).
  split; [|split; [|split; [|split]]]; try assumption.
  - apply sized_fields in Hs. apply sized_fields. cbn. rewrite length_insert. exact Hs.
  - intros j m Hne Hm8. cbn.
    rewrite list_lookup_total_insert_ne by lia. apply Hk; assumption.
Qed.

Lemma parse_chan_engine_state (ch_node : fwnode_handle) (ea eb : Z)
    (s : iqs269_private) :
  snd (parse_chan_engine ch_node ea eb s) = s.
Proof.
  unfold parse_chan_engine, bind, ret, throw. cbv zeta.
  repeat match goal with
         | |- context [match fwnode_property_read_u32 ?n ?k with _ => _ end] =>
             destruct (fwnode_property_read_u32 n k)
         | |- context [if ?c then _ else _] => destruct c
         end; reflexivity.
Qed.

(** The steps of [iqs269_parse_chan] after the channel number is known,
    taken by the head of the program. *)
Ltac mstep :=
  lazymatch goal with
  | |- maintains _ (ret _) => apply maintains_ret
  | |- maintains _ (throw _) => apply maintains_throw
  | |- maintains _ (lift _) => apply maintains_lift
  | |- maintains _ (gets _) => apply maintains_gets
  | |- maintains _ (check _) => apply maintains_check
  | |- maintains _ (bind _ _) => apply maintains_bind; [|intros ?]
  | |- maintains _ (when _ _) => apply maintains_when
  | |- maintains _ (for_each _ _) => apply maintains_for_each; intros ?
  | |- maintains _ (if_read_u32 _ _ _) => apply maintains_if_read_u32; intros ?
  | |- maintains _ (match ?r with Ok _ => _ | Err _ => _ end) => destruct r
  | |- maintains _ (match ?o with Some _ => _ | None => _ end) => destruct o
  | |- maintains _ (if _ then _ else _) => apply maintains_if
  | |- maintains _ (let _ := _ in _) => cbv zeta
  | |- maintains _ (parse_event _ _ _) => unfold parse_event
  | |- maintains _ (parse_event_thresh _ _ _) => unfold parse_event_thresh
  | |- maintains _ (parse_event_hyst _ _ _) => unfold parse_event_hyst
  | |- maintains _ (parse_event_code _ _ _) => unfold parse_event_code
  | |- maintains _ (iqs269_ati_mode_set _ _) => unfold iqs269_ati_mode_set
  | |- maintains _ (iqs269_ati_base_set _ _) => unfold iqs269_ati_base_set
  | |- maintains _ (iqs269_ati_target_set _ _) => unfold iqs269_ati_target_set
  end.

Ltac chan_steps :=
  change (Z.to_nat IQS269_NUM_CH) with 8%nat; repeat mstep.

Lemma parse_chan_engine_maintains (I : iqs269_private -> Prop)
    (ch_node : fwnode_handle) (ea eb : Z) :
  maintains I (parse_chan_engine ch_node ea eb).
Proof. intros s Hs. now rewrite parse_chan_engine_state. Qed.

Ltac frame_finish Hn :=
  first
    [ apply parse_chan_engine_maintains
    | apply maintains_modify; intros ? ?; first
        [ apply chan_frame_current; assumption
        | apply chan_frame_switches; assumption
        | apply chan_frame_keycode; [exact Hn | assumption]
        | apply chan_frame_ch;
            [ reflexivity
            | intros ? ?; cbn; rewrite ?length_insert; assumption
            | exact Hn | assumption ]
        | apply chan_frame_sys;
            [ reflexivity | reflexivity
            | intros ?; cbn; rewrite ?length_insert; reflexivity
            | assumption ] ]
    | apply maintains_zoom; intros ? ? ?; apply chan_frame_ch;
        [ reflexivity | intros ? ?; assumption | exact Hn | assumption ] ].

Lemma parse_chan_body_frame (p0 : iqs269_private) (ch_node : fwnode_handle) (reg : Z) :
  fwnode_property_read_u32 ch_node "reg" = Ok reg -> reg < IQS269_NUM_CH ->
  maintains (chan_frame (Z.to_nat reg) p0) (iqs269_parse_chan ch_node).
Proof.
  intros Hreg Hrange.
  assert (Hn : (Z.to_nat reg < 8)%nat) by (unfold IQS269_NUM_CH in Hrange; lia).
  unfold iqs269_parse_chan. rewrite Hreg.
  intros s Hs. unfold bind at 1. unfold lift at 1. cbv beta iota.
  chan_guard reg. cbv zeta. revert s Hs.
  match goal with |- forall s, _ s -> _ (snd (?m s)) =>
    change (maintains (chan_frame (Z.to_nat reg) p0) m) end.
  chan_steps; frame_finish Hn.
Qed.

(** X15.  A channel node reaches its own channel only.  Without a readable
    [reg], or with a channel number of 8 or more, [iqs269_parse_chan]
    fails and leaves the structure as it was.  Otherwise, whether it
    succeeds or fails later, the array sizes still hold, every field of the
    register image outside the channel blocks, the channel masks and the
    event mask is as before, and so are the blocks and the key codes of the
    other channels, the compensation word of its own channel, the slider
    key codes, the Hall-effect switch and the selected channel. *)
Theorem parse_chan_frame (ch_node : fwnode_handle) (p : iqs269_private) :
  sized p = true ->
  let res := iqs269_parse_chan ch_node p in
  match fwnode_property_read_u32 ch_node "reg" with
  | Err e => res = (Err e, p)
  | Ok reg =>
      if reg >=? IQS269_NUM_CH then res = (Err (- EINVAL), p)
      else chan_frame (Z.to_nat reg) p (snd res)
  end.
Proof.
  intros Hs. cbv zeta.
  destruct (fwnode_property_read_u32 ch_node "reg") as [reg | e] eqn:Hreg.
  - destruct (reg >=? IQS269_NUM_CH) eqn:Hguard.
    + unfold iqs269_parse_chan, bind, lift. rewrite Hreg, Hguard. reflexivity.
    + rewrite Z.geb_leb in Hguard. apply Z.leb_gt in Hguard.
      apply (parse_chan_body_frame p ch_node reg Hreg Hguard p).
      apply chan_frame_refl, Hs.
  - unfold iqs269_parse_chan, bind, lift. rewrite Hreg. reflexivity.
Qed.

Lemma parse_chan_frame_witness :
  chan_frame 3 slider_private (snd (iqs269_parse_chan late_fail_chan slider_private)).
Proof. exact (parse_chan_frame late_fail_chan slider_private eq_refl). Defined.

(** Running a sequence from its first step. *)
Lemma bind_modify {S B} (f : S -> S) (k : unit -> M S B) (s : S) :
  bind (modify f) k s = k tt (f s).
Proof. reflexivity. Qed.

Lemma bind_when_modify {S B} (c : bool) (f : S -> S) (k : unit -> M S B) (s : S) :
  bind (when c (modify f)) k s = k tt (if c then f s else s).
Proof. destruct c; reflexivity. Qed.

Lemma bind_gets {S A B} (g : S -> A) (k : A -> M S B) (s : S) :
  bind (gets g) k s = k (g s) s.
Proof. reflexivity. Qed.

Ltac peel :=
  lazymatch goal with
  | |- context C [bind (modify ?f) ?k ?s] => rewrite (bind_modify f k s)
  | |- context C [bind (when ?c (modify ?f)) ?k ?s] => rewrite (bind_when_modify c f k s)
  | |- context C [bind (gets ?g) ?k ?s] => rewrite (bind_gets g k s)
  end; cbv beta.

Ltac keep_proj :=
  first
    [ apply parse_chan_engine_maintains
    | apply maintains_modify; intros ? Hkeep; rewrite <- Hkeep; reflexivity
    | apply maintains_zoom; intros ? ? Hkeep; rewrite <- Hkeep; reflexivity ].

Lemma parse_chan_masks_eq (ch_node : fwnode_handle) (p : iqs269_private) (reg : Z) :
  fwnode_property_read_u32 ch_node "reg" = Ok reg -> reg < IQS269_NUM_CH ->
  let r := sys_reg p in
  let r' := sys_reg (snd (iqs269_parse_chan ch_node p)) in
  let mark (present : bool) (mask : Z) := if present then u8 (Z.lor mask (BIT reg)) else mask in
  let has := fwnode_property_present ch_node in
  active r' = mark true (active r) /\
  reseed r' = mark (negb (has "azoteq,reseed-disable")) (reseed r) /\
  blocking r' = mark (has "azoteq,blocking-enable") (blocking r) /\
  slider_select r' =
    (let sel := slider_select r in
     let sel := if has "azoteq,slider0-select"
                then <[0%nat := mark true (sel !!! 0%nat)]> sel else sel in
     if has "azoteq,slider1-select" && (Z.land (otp_option p) IQS269_OTP_OPTION_HOLD =? 0)
     then <[1%nat := mark true (sel !!! 1%nat)]> sel else sel).
Proof.
  intros Hreg Hrange. cbv zeta.
  pattern (snd (iqs269_parse_chan ch_node p)).
  match goal with |- ?Q _ => set (goal := Q) end.
  unfold iqs269_parse_chan. rewrite Hreg.
  unfold bind at 1. unfold lift at 1. cbv beta iota.
  chan_guard reg. cbv zeta.
  do 6 peel.
  match goal with |- goal (snd (?m ?s)) => set (s5 := s) end.
  match goal with |- goal (snd (?m ?s)) =>
    assert (Hkeep : maintains (fun s' => mask_fields s' = mask_fields s) m);
    [ chan_steps; keep_proj | specialize (Hkeep s eq_refl) ]
  end.
  assert (Hdep : forall s1 s2, mask_fields s1 = mask_fields s2 -> goal s2 -> goal s1).
  { unfold mask_fields, goal. intros s1 s2 [= -> -> -> ->]. exact (fun H => H). }
  apply (Hdep _ _ Hkeep). subst goal s5. cbv beta. clear.
  destruct (fwnode_property_present ch_node "azoteq,reseed-disable"),
    (fwnode_property_present ch_node "azoteq,blocking-enable"),
    (fwnode_property_present ch_node "azoteq,slider0-select"),
    (fwnode_property_present ch_node "azoteq,slider1-select");
    cbn [negb andb otp_option upd_sys_reg set_sys_reg];
    destruct (Z.land (otp_option p) IQS269_OTP_OPTION_HOLD =? 0);
    repeat split; reflexivity.
Qed.


Lemma testbit_mark (m reg b : Z) :
  0 <= b < 8 -> Z.testbit (u8 (Z.lor m (BIT reg))) b = Z.testbit m b || (reg =? b).
Proof.
  intros Hb. rewrite testbit_u8, Z.lor_spec. unfold BIT.
  rewrite Z.shiftl_spec by lia.
  destruct (Z.leb_spec 0 b), (Z.ltb_spec b 8); try lia.
  rewrite andb_true_r. f_equal.
  destruct (Z.eqb_spec reg b) as [-> | Hne].
  - now rewrite Z.sub_diag.
  - destruct (Z.lt_ge_cases (b - reg) 0).
    + apply Z.testbit_neg_r. lia.
    + apply (testbit_small 1 1); lia.
Qed.

(** X16.  The channel masks are stored first and kept.  Once
    [iqs269_parse_chan] has read a channel number below 8, the channel is
    marked in [active], in [reseed] unless the node has
    [azoteq,reseed-disable], in [blocking] if it has
    [azoteq,blocking-enable], and in the selection bytes of the sliders it
    names (slider 1 only without the touch-and-hold OTP option); nothing
    else in the masks changes, and this holds also when the node is refused
    for a later property.  In [active] the bit of the channel is set and the
    bits of the other channels are as they were. *)
Theorem parse_chan_masks (ch_node : fwnode_handle) (p : iqs269_private) (reg : Z) :
  fwnode_property_read_u32 ch_node "reg" = Ok reg -> reg < IQS269_NUM_CH ->
  let r := sys_reg p in
  let r' := sys_reg (snd (iqs269_parse_chan ch_node p)) in
  let mark (present : bool) (mask : Z) := if present then u8 (Z.lor mask (BIT reg)) else mask in
  let has := fwnode_property_present ch_node in
  active r' = mark true (active r) /\
  reseed r' = mark (negb (has "azoteq,reseed-disable")) (reseed r) /\
  blocking r' = mark (has "azoteq,blocking-enable") (blocking r) /\
  slider_select r' =
    (let sel := slider_select r in
     let sel := if has "azoteq,slider0-select"
                then <[0%nat := mark true (sel !!! 0%nat)]> sel else sel in
     if has "azoteq,slider1-select" && (Z.land (otp_option p) IQS269_OTP_OPTION_HOLD =? 0)
     then <[1%nat := mark true (sel !!! 1%nat)]> sel else sel) /\
  (0 <= reg -> Z.testbit (active r') reg = true) /\
  (forall b, 0 <= b < 8 -> b <> reg ->
     Z.testbit (active r') b = Z.testbit (active r) b).
Proof.
  intros Hreg Hlt. cbv zeta.
  destruct (parse_chan_masks_eq ch_node p reg Hreg Hlt) as (Ha & Hr & Hb & Hs).
  cbv zeta in Ha, Hr, Hb, Hs.
  split; [exact Ha|]. split; [exact Hr|]. split; [exact Hb|]. split; [exact Hs|].
  rewrite Ha. split.
  - intros Hpos. unfold IQS269_NUM_CH in Hlt.
    rewrite testbit_mark by lia. rewrite Z.eqb_refl. apply orb_true_r.
  - intros b Hb8 Hne. rewrite testbit_mark by exact Hb8.
    destruct (Z.eqb_spec reg b) as [-> | _]; [contradiction|]. apply orb_false_r.
Qed.

Lemma parse_chan_masks_witness :
  fst (iqs269_parse_chan late_fail_chan slider_private) = Err (- EINVAL) /\
  active (sys_reg (snd (iqs269_parse_chan late_fail_chan slider_private))) = 0x0F /\
  blocking (sys_reg (snd (iqs269_parse_chan late_fail_chan slider_private))) = 0x08.
Proof.
  assert (Hlt : 3 < IQS269_NUM_CH) by (unfold IQS269_NUM_CH; lia).
  destruct (parse_chan_masks late_fail_chan slider_private 3 eq_refl Hlt)
    as (Ha & _ & Hb & _ & _ & _).
  split; [reflexivity|]. split; [rewrite Ha | rewrite Hb]; reflexivity.
Defined.

(** *** The engine words *)

Lemma testbit_b2z_shift (b : bool) (k n : Z) :
  0 <= k -> 0 <= n -> Z.testbit (Z.shiftl (Z.b2z b) k) n = b && (n =? k).
Proof.
  intros Hk Hn. rewrite Z.shiftl_spec by lia.
  destruct (Z.eqb_spec n k) as [-> | Hne].
  - rewrite Z.sub_diag, Z.b2z_bit0. now rewrite andb_true_r.
  - rewrite andb_false_r. destruct (Z.lt_ge_cases (n - k) 0).
    + apply Z.testbit_neg_r. lia.
    + destruct b; cbn [Z.b2z]; [|apply Z.bits_0].
      apply (testbit_small 1 1); lia.
Qed.

Lemma testbit_if (b : bool) (x y n : Z) :
  Z.testbit (if b then x else y) n = if b then Z.testbit x n else Z.testbit y n.
Proof. now destruct b. Qed.

(** Bit positions are decided one comparison at a time, dropping at once
    the cases that the position rules out. *)
Ltac cmp_prune :=
  repeat match goal with
  | |- context [?a <=? ?b] => destruct (Z.leb_spec a b); try lia
  | |- context [?a <? ?b] => destruct (Z.ltb_spec a b); try lia
  | |- context [?a =? ?b] => destruct (Z.eqb_spec a b); try lia
  end.

Ltac field_bits :=
  repeat first [ rewrite testbit_if | rewrite testbit_b2z_shift by lia | bits_step ].

(** At a fixed position: compute the positions, drop the bits a bounded
    value cannot have, and decide the rest as a formula of booleans. *)
Ltac fixed_bit :=
  repeat match goal with
  | |- context [Z.testbit ?x ?k] =>
      lazymatch k with
      | Zpos _ => fail
      | Z0 => fail
      | Zneg _ => rewrite (Z.testbit_neg_r x k) by lia
      | _ => let k' := eval vm_compute in k in change (Z.testbit x k) with (Z.testbit x k')
      end
  end;
  repeat rewrite Z.shiftr_spec by lia;
  repeat match goal with
  | |- context [Z.testbit ?x (?a + ?b)] =>
      let k' := eval vm_compute in (a + b) in change (Z.testbit x (a + b)) with (Z.testbit x k')
  end;
  repeat match goal with
  | H : 0 <= ?v <= 3 |- context [Z.testbit ?v ?k] =>
      rewrite (testbit_small v 2 k) by lia
  | H : 0 <= ?v <= 7 |- context [Z.testbit ?v ?k] =>
      rewrite (testbit_small v 3 k) by lia
  | H : 0 <= ?v <= 15 |- context [Z.testbit ?v ?k] =>
      rewrite (testbit_small v 4 k) by lia
  end;
  rewrite ?Z.bits_0;
  repeat match goal with
  | |- context [Z.testbit ?x ?k] => generalize (Z.testbit x k); intros ?
  end;
  vm_compute;
  repeat match goal with b : bool |- _ => destruct b end;
  reflexivity.

(** The positions below 16, one at a time. *)
Ltac each_bit_from n k :=
  first
    [ solve [exfalso; lia]
    | destruct (Z.eq_dec n k) as [-> | ?];
      [ | let k' := eval vm_compute in (k + 1) in each_bit_from n k' ] ].

Ltac each_bit n := each_bit_from n 0.



Lemma gtb_leb (a b : Z) : (a >? b) = negb (a <=? b).
Proof. rewrite Z.gtb_ltb. destruct (Z.ltb_spec b a), (Z.leb_spec a b); try reflexivity; lia. Qed.







(** ** Parsing the device node *)

(** A sequence that succeeds has gone through its first step. *)
Lemma bind_ok_inv {S A B} (m : M S A) (k : A -> M S B) (s s' : S) (b : B) :
  bind m k s = (Ok b, s') ->
  exists a s1, m s = (Ok a, s1) /\ k a s1 = (Ok b, s').
Proof.
  unfold bind. destruct (m s) as [[a | e] s1]; [|discriminate].
  intros H. exists a, s1. split; [reflexivity | exact H].
Qed.

Ltac pstep :=
  first
    [ mstep
    | lazymatch goal with
      | |- maintains _ (parse_prop_misc _) => unfold parse_prop_misc
      | |- maintains _ (parse_prop_touch_hold _) => unfold parse_prop_touch_hold
      | |- maintains _ (parse_prop_general _) => unfold parse_prop_general
      | |- maintains _ (parse_prop_gestures _ _) => unfold parse_prop_gestures
      | |- maintains _ (parse_gesture_params _ _) => unfold parse_gesture_params
      | |- maintains _ (parse_prop_rates _) => unfold parse_prop_rates
      | |- maintains _ (parse_filt_str _ _ _ _) => unfold parse_filt_str
      | |- maintains _ (iqs269_parse_chan _) => unfold iqs269_parse_chan
      end ].

Ltac prop_steps :=
  change (Z.to_nat IQS269_NUM_CH) with 8%nat; repeat pstep.

(** The stages of a successful [iqs269_parse_prop]. *)
Lemma parse_prop_stages (bus : regmap) (dev : fwnode_handle) (p p' : iqs269_private) :
  iqs269_parse_prop bus dev p = (Ok tt, p') ->
  exists image s1 s2 s3 s4,
    sys_settings_read bus = Ok image /\
    parse_prop_rates dev
      (set_sys_reg image
         (set_hall_enable (fwnode_property_present dev "azoteq,hall-enable") p))
    = (Ok tt, s1) /\
    parse_prop_misc dev s1 = (Ok tt, s2) /\
    parse_prop_touch_hold dev (clear_masks s2) = (Ok tt, s3) /\
    for_each (node_children dev) iqs269_parse_chan
      (upd_sys_reg (set_event_mask (u8 (Z.lnot (u8 IQS269_EVENT_MASK_SYS)))) s3)
    = (Ok tt, s4) /\
    parse_prop_general dev (upd_sys_reg (fun r => set_redo_ati (active r) r) s4)
    = (Ok tt, p').
Proof.
  unfold iqs269_parse_prop. intros H.
  rewrite bind_modify in H.
  apply bind_ok_inv in H. destruct H as (image & s0 & Hread & H).
  unfold lift in Hread. injection Hread as Hread <-.
  rewrite bind_modify in H.
  apply bind_ok_inv in H. destruct H as ([] & s1 & Hrates & H).
  apply bind_ok_inv in H. destruct H as ([] & s2 & Hmisc & H).
  rewrite !bind_modify in H.
  apply bind_ok_inv in H. destruct H as ([] & s3 & Hhold & H).
  rewrite bind_modify in H.
  apply bind_ok_inv in H. destruct H as ([] & s4 & Hloop & H).
  rewrite bind_modify in H.
  exists image, s1, s2, s3, s4. repeat split; assumption.
Qed.

Lemma parse_chan_ok_reg (c : fwnode_handle) (s s' : iqs269_private) :
  iqs269_parse_chan c s = (Ok tt, s') ->
  exists reg, fwnode_property_read_u32 c "reg" = Ok reg /\ reg < IQS269_NUM_CH.
Proof.
  unfold iqs269_parse_chan. intros H.
  apply bind_ok_inv in H. destruct H as (reg & s0 & Hreg & H).
  unfold lift in Hreg. injection Hreg as Hreg <-.
  exists reg. split; [exact Hreg|].
  destruct (reg >=? IQS269_NUM_CH) eqn:Hguard; [discriminate H|].
  rewrite Z.geb_leb in Hguard. apply Z.leb_gt in Hguard. exact Hguard.
Qed.

(** The channel loop of [iqs269_parse_prop]: every node adds its channel to
    the masks it asks for. *)
Lemma chan_loop_masks (l : list fwnode_handle) (s s' : iqs269_private) :
  length (slider_select (sys_reg s)) = 2%nat ->
  for_each l iqs269_parse_chan s = (Ok tt, s') ->
  length (slider_select (sys_reg s')) = 2%nat /\
  forall b, 0 <= b < 8 ->
    Z.testbit (active (sys_reg s')) b
      = Z.testbit (active (sys_reg s)) b || chan_marked (fun _ => true) l b /\
    Z.testbit (reseed (sys_reg s')) b
      = Z.testbit (reseed (sys_reg s)) b
        || chan_marked (fun c => negb (fwnode_property_present c "azoteq,reseed-disable")) l b /\
    Z.testbit (blocking (sys_reg s')) b
      = Z.testbit (blocking (sys_reg s)) b
        || chan_marked (fun c => fwnode_property_present c "azoteq,blocking-enable") l b /\
    Z.testbit (slider_select (sys_reg s') !!! 0%nat) b
      = Z.testbit (slider_select (sys_reg s) !!! 0%nat) b
        || chan_marked (fun c => fwnode_property_present c "azoteq,slider0-select") l b.
Proof.
  revert s. induction l as [|c l IH]; intros s Hlen Hrun.
  - cbn in Hrun. injection Hrun as <-. split; [exact Hlen|].
    intros b Hb. cbn. now rewrite !orb_false_r.
  - cbn [for_each] in Hrun. apply bind_ok_inv in Hrun.
    destruct Hrun as ([] & s1 & Hc & Hrest).
    destruct (parse_chan_ok_reg c s s1 Hc) as (reg & Hreg & Hlt).
    pose proof (parse_chan_masks_eq c s reg Hreg Hlt) as Hm.
    cbv zeta in Hm. rewrite Hc in Hm. cbn [snd] in Hm.
    destruct Hm as (Ha & Hr & Hb & Hsl).
    assert (Hlen1 : length (slider_select (sys_reg s1)) = 2%nat).
    { rewrite Hsl. repeat match goal with |- context [if ?c then _ else _] => destruct c end;
        rewrite ?length_insert; exact Hlen. }
    destruct (IH s1 Hlen1 Hrest) as [Hlen' Hbits].
    split; [exact Hlen'|].
    intros b Hbr. destruct (Hbits b Hbr) as (Ha' & Hr' & Hb' & Hs').
    rewrite Ha', Hr', Hb', Hs', Ha, Hr, Hb, Hsl.
    unfold chan_marked. cbn [existsb]. rewrite Hreg.
    assert (Hsel0 : forall (sel : list Z) (v w : Z) (c1 : bool), length sel = 2%nat ->
              (if c1 then <[1%nat := w]> (<[0%nat := v]> sel) else <[0%nat := v]> sel)
                !!! 0%nat = v).
    { intros sel v w c1 Hsel. destruct c1;
        rewrite ?list_lookup_total_insert_ne by lia;
        apply list_lookup_total_insert_eq; lia. }
    assert (Hsel1 : forall (sel : list Z) (w : Z) (c1 : bool),
              (if c1 then <[1%nat := w]> sel else sel) !!! 0%nat = sel !!! 0%nat).
    { intros sel w c1. destruct c1; [|reflexivity].
      apply list_lookup_total_insert_ne. lia. }
    cbv zeta.
    destruct (fwnode_property_present c "azoteq,reseed-disable"),
      (fwnode_property_present c "azoteq,blocking-enable"),
      (fwnode_property_present c "azoteq,slider0-select");
      cbn [negb andb orb];
      rewrite ?Hsel0 by exact Hlen; rewrite ?Hsel1;
      rewrite ?testbit_mark by exact Hbr;
      repeat split; rewrite <- ?orb_assoc; reflexivity.
Qed.

Lemma chan_loop_regs (l : list fwnode_handle) (s s' : iqs269_private) :
  for_each l iqs269_parse_chan s = (Ok tt, s') ->
  forall c, In c l ->
    exists reg, fwnode_property_read_u32 c "reg" = Ok reg /\ reg < IQS269_NUM_CH.
Proof.
  revert s. induction l as [|c0 l IH]; intros s Hrun c Hin; [destruct Hin|].
  cbn [for_each] in Hrun. apply bind_ok_inv in Hrun.
  destruct Hrun as ([] & s1 & Hc & Hrest).
  destruct Hin as [<- | Hin].
  - exact (parse_chan_ok_reg c0 s s1 Hc).
  - exact (IH s1 Hrest c Hin).
Qed.

Ltac keep_sel :=
  first
    [ apply parse_chan_engine_maintains
    | apply maintains_modify; intros ? Hkeep; rewrite <- Hkeep; cbn;
      rewrite ?list_lookup_total_insert_ne by lia; rewrite ?length_insert;
      reflexivity
    | apply maintains_zoom; intros ? ? Hkeep; rewrite <- Hkeep; reflexivity ].

(** X18.  The channel masks say which channels the device node describes.
    After a successful [iqs269_parse_prop] every child node has a channel
    number below 8; bit [b] of [active] is set exactly when some child has
    channel number [b], bit [b] of [reseed] when such a child lacks
    [azoteq,reseed-disable], bit [b] of [blocking] when such a child has
    [azoteq,blocking-enable], and bit [b] of the selection byte of slider 0
    when such a child has [azoteq,slider0-select], whatever the device held
    in these registers; and [redo_ati] equals [active]. *)
Theorem parse_prop_channel_masks (bus : regmap) (dev : fwnode_handle)
    (p p' : iqs269_private) :
  (forall image, sys_settings_read bus = Ok image -> sized_sys_reg image = true) ->
  iqs269_parse_prop bus dev p = (Ok tt, p') ->
  let r' := sys_reg p' in
  let chans := node_children dev in
  let has (k : string) (c : fwnode_handle) := fwnode_property_present c k in
  redo_ati r' = active r' /\
  (forall c, In c chans ->
     exists reg, fwnode_property_read_u32 c "reg" = Ok reg /\ reg < IQS269_NUM_CH) /\
  (forall b, 0 <= b < 8 ->
     Z.testbit (active r') b = chan_marked (fun _ => true) chans b /\
     Z.testbit (reseed r') b
       = chan_marked (fun c => negb (has "azoteq,reseed-disable" c)) chans b /\
     Z.testbit (blocking r') b = chan_marked (has "azoteq,blocking-enable") chans b /\
     Z.testbit (slider_select r' !!! 0%nat) b
       = chan_marked (has "azoteq,slider0-select") chans b).
Proof.
  intros Hsized Hrun. cbv zeta.
  destruct (parse_prop_stages bus dev p p' Hrun)
    as (image & s1 & s2 & s3 & s4 & Hread & Hrates & Hmisc & Hhold & Hloop & Hgen).
  specialize (Hsized image Hread).
  assert (Hlen0 : length (slider_select image) = 2%nat).
  { unfold sized_sys_reg in Hsized. rewrite !andb_true_iff in Hsized.
    apply Nat.eqb_eq. tauto. }
  (* the stages before the masks are cleared keep the selection bytes *)
  assert (Hlen1 : length (slider_select (sys_reg s1)) = 2%nat).
  { assert (Hk : maintains (fun s => length (slider_select (sys_reg s)) = 2%nat)
                   (parse_prop_rates dev)) by (prop_steps; keep_sel).
    match type of Hrates with _ ?s = _ => specialize (Hk s Hlen0) end.
    now rewrite Hrates in Hk. }
  assert (Hlen2 : length (slider_select (sys_reg s2)) = 2%nat).
  { assert (Hk : maintains (fun s => length (slider_select (sys_reg s)) = 2%nat)
                   (parse_prop_misc dev)) by (prop_steps; keep_sel).
    specialize (Hk _ Hlen1). now rewrite Hmisc in Hk. }
  (* the touch-and-hold block keeps the cleared masks *)
  pose (cleared := fun s : iqs269_private =>
    (active (sys_reg s), reseed (sys_reg s), blocking (sys_reg s),
     slider_select (sys_reg s) !!! 0%nat, length (slider_select (sys_reg s)))
    = (0, 0, 0, 0, 2%nat)).
  assert (H3 : cleared s3).
  { assert (Hk : maintains cleared (parse_prop_touch_hold dev)).
    { unfold cleared. prop_steps; keep_sel. }
    assert (H0 : cleared (clear_masks s2)).
    { unfold cleared, clear_masks. cbn. rewrite length_insert, Hlen2.
      rewrite list_lookup_total_insert_eq by lia. reflexivity. }
    specialize (Hk _ H0). now rewrite Hhold in Hk. }
  unfold cleared in H3. injection H3 as Ha3 Hr3 Hb3 Hs3 Hl3.
  (* the channel loop *)
  match type of Hloop with _ _ _ ?s = _ =>
    destruct (chan_loop_masks (node_children dev) s s4 Hl3 Hloop) as [Hl4 Hbits]
  end.
  cbn [sys_reg upd_sys_reg set_sys_reg active reseed blocking slider_select
       set_event_mask] in Hbits.
  (* the general word is built without touching the masks *)
  assert (Hk : maintains
            (fun s => (active (sys_reg s), reseed (sys_reg s), blocking (sys_reg s),
                       slider_select (sys_reg s), redo_ati (sys_reg s))
                      = (active (sys_reg s4), reseed (sys_reg s4), blocking (sys_reg s4),
                         slider_select (sys_reg s4), active (sys_reg s4)))
            (parse_prop_general dev)) by (prop_steps; keep_sel).
  match type of Hgen with _ _ ?s = _ => specialize (Hk s eq_refl) end.
  rewrite Hgen in Hk. cbn [snd] in Hk.
  injection Hk as Ha Hr Hb Hs Hredo.
  split; [congruence|].
  split; [exact (chan_loop_regs _ _ _ Hloop)|].
  intros b Hbr. destruct (Hbits b Hbr) as (Ha4 & Hr4 & Hb4 & Hs4).
  rewrite Ha, Hr, Hb, Hs, Ha4, Hr4, Hb4, Hs4, Ha3, Hr3, Hb3, Hs3.
  rewrite Z.bits_0. repeat split; reflexivity.
Qed.

Lemma parse_prop_channel_masks_witness :
  redo_ati (sys_reg slider_private) = active (sys_reg slider_private) /\
  Z.testbit (active (sys_reg slider_private)) 2 = true /\
  Z.testbit (slider_select (sys_reg slider_private) !!! 0%nat) 2 = false /\
  Z.testbit (active (sys_reg slider_private)) 3 = false.
Proof.
  assert (Hsized : forall image,
            sys_settings_read (bus_with quiet_flags) = Ok image ->
            sized_sys_reg image = true) by (intros image [= <-]; reflexivity).
  assert (Hrun : iqs269_parse_prop (bus_with quiet_flags) slider_node kzalloc_private
                 = (Ok tt, slider_private)) by (vm_compute; reflexivity).
  destruct (parse_prop_channel_masks _ _ _ _ Hsized Hrun) as (Hredo & _ & Hbits).
  assert (H2 : 0 <= 2 < 8) by lia. assert (H3 : 0 <= 3 < 8) by lia.
  destruct (Hbits 2 H2) as (Ha2 & _ & _ & Hs2).
  destruct (Hbits 3 H3) as (Ha3 & _).
  split; [exact Hredo|]. split; [rewrite Ha2; reflexivity|].
  split; [rewrite Hs2; reflexivity | rewrite Ha3; reflexivity].
Defined.

(** *** Report rates and timeouts *)

Lemma range_step_ok {S} (dev : fwnode_handle) (propname : string) (max : Z)
    (g : Z -> S -> S) (s s' : S) :
  if_read_u32 dev propname
    (fun val => if val >? max then throw (- EINVAL) else modify (g val)) s
  = (Ok tt, s') ->
  s' = match fwnode_property_read_u32 dev propname with
       | Ok v => g v s
       | Err _ => s
       end /\
  (forall v, fwnode_property_read_u32 dev propname = Ok v -> v <= max).
Proof.
  unfold if_read_u32.
  destruct (fwnode_property_read_u32 dev propname) as [v | e].
  - destruct (v >? max) eqn:Hgt; [discriminate|].
    intros [= <-]. split; [reflexivity|]. intros ? [= <-].
    rewrite Z.gtb_ltb in Hgt. apply Z.ltb_ge in Hgt. exact Hgt.
  - intros [= <-]. split; [reflexivity | discriminate].
Qed.

Ltac keep_rates :=
  first
    [ apply parse_chan_engine_maintains
    | apply maintains_modify; intros ? Hkeep; rewrite <- Hkeep; reflexivity
    | apply maintains_zoom; intros ? ? Hkeep; rewrite <- Hkeep; reflexivity ].

Lemma div_u8 (v unit max : Z) :
  0 < unit -> 0 <= v <= max -> max < 256 * unit -> u8 (v / unit) = v / unit.
Proof.
  intros Hu Hv Hmax. apply u8_small. split.
  - apply Z.div_pos; lia.
  - apply Z.div_lt_upper_bound; lia.
Qed.

(** X19.  Report rates and timeouts.  After a successful
    [iqs269_parse_prop], each rate or timeout named in the device node is
    within its limit and its register holds the value in units of 1, 16 or
    512 ms, rounded down and without truncation to the byte; a rate or
    timeout the node does not name is what the device held. *)
Theorem parse_prop_rates_stored (bus : regmap) (dev : fwnode_handle)
    (p p' : iqs269_private) (image : iqs269_sys_reg) :
  sys_settings_read bus = Ok image ->
  iqs269_parse_prop bus dev p = (Ok tt, p') ->
  Forall (fun '(propname, field, unit, max) =>
            match fwnode_property_read_u32 dev propname with
            | Ok v => v <= max /\ (0 <= v -> field (sys_reg p') = v / unit)
            | Err _ => field (sys_reg p') = field image
            end) rate_props.
Proof.
  intros Hread Hrun.
  destruct (parse_prop_stages bus dev p p' Hrun)
    as (image' & s1 & s2 & s3 & s4 & Hread' & Hrates & Hmisc & Hhold & Hloop & Hgen).
  assert (image' = image) as -> by congruence. clear Hread'.
  (* after the rates: everything keeps them *)
  assert (Hlater : rate_fields p' = rate_fields s1).
  { assert (K2 : maintains (fun s => rate_fields s = rate_fields s1) (parse_prop_misc dev))
      by (prop_steps; keep_rates).
    assert (K3 : maintains (fun s => rate_fields s = rate_fields s1)
                   (parse_prop_touch_hold dev)) by (prop_steps; keep_rates).
    assert (K4 : maintains (fun s => rate_fields s = rate_fields s1)
                   (for_each (node_children dev) iqs269_parse_chan))
      by (prop_steps; keep_rates).
    assert (K5 : maintains (fun s => rate_fields s = rate_fields s1)
                   (parse_prop_general dev)) by (prop_steps; keep_rates).
    specialize (K2 s1 eq_refl). rewrite Hmisc in K2. cbn [snd] in K2.
    specialize (K3 (clear_masks s2) K2). rewrite Hhold in K3. cbn [snd] in K3.
    match type of Hloop with _ _ _ ?s = _ => specialize (K4 s K3) end.
    rewrite Hloop in K4. cbn [snd] in K4.
    match type of Hgen with _ _ ?s = _ => specialize (K5 s K4) end.
    rewrite Hgen in K5. exact K5. }
  (* the rates themselves *)
  unfold parse_prop_rates in Hrates.
  match type of Hrates with _ _ ?s = _ => set (s0 := s) in * end.
  assert (H0 : rate_fields s0 = (rate_np image, rate_lp image, rate_ulp image,
                                 timeout_pwr image, timeout_lta image)) by reflexivity.
  clearbody s0.
  do 4 (apply bind_ok_inv in Hrates; destruct Hrates as ([] & ? & Hf & Hrates);
        match type of Hf with ?m ?s = (_, ?t) =>
          assert (rate_fields t = rate_fields s) as Ht;
          [ assert (Kf : maintains (fun x => rate_fields x = rate_fields s) m)
              by (prop_steps; keep_rates);
            specialize (Kf s eq_refl); rewrite Hf in Kf; exact Kf
          | rewrite <- Ht in H0; clear Hf Ht ]
        end).
  do 4 (apply bind_ok_inv in Hrates; destruct Hrates as ([] & ? & Hs & Hrates);
        apply range_step_ok in Hs; destruct Hs as [-> ?]).
  apply range_step_ok in Hrates. destruct Hrates as [-> ?].
  unfold rate_fields in Hlater, H0. injection H0 as Hnp Hlp Hulp Hpwr Hlta.
  injection Hlater as Knp Klp Kulp Kpwr Klta.
  unfold IQS269_RATE_NP_MS_MAX, IQS269_RATE_LP_MS_MAX, IQS269_RATE_ULP_MS_MAX,
    IQS269_TIMEOUT_PWR_MS_MAX, IQS269_TIMEOUT_LTA_MS_MAX in *.
  unfold rate_props.
  unfold IQS269_RATE_NP_MS_MAX, IQS269_RATE_LP_MS_MAX, IQS269_RATE_ULP_MS_MAX,
    IQS269_TIMEOUT_PWR_MS_MAX, IQS269_TIMEOUT_LTA_MS_MAX.
  repeat (apply Forall_cons; split); [.. | constructor]; cbv beta iota;
    rewrite ?Knp, ?Klp, ?Kulp, ?Kpwr, ?Klta; clear Knp Klp Kulp Kpwr Klta.
  all: destruct (fwnode_property_read_u32 dev "azoteq,rate-np-ms") as [v1 | ?];
    destruct (fwnode_property_read_u32 dev "azoteq,rate-lp-ms") as [v2 | ?];
    destruct (fwnode_property_read_u32 dev "azoteq,rate-ulp-ms") as [v3 | ?];
    destruct (fwnode_property_read_u32 dev "azoteq,timeout-pwr-ms") as [v4 | ?];
    destruct (fwnode_property_read_u32 dev "azoteq,timeout-lta-ms") as [v5 | ?];
    cbn [sys_reg upd_sys_reg set_sys_reg rate_np rate_lp rate_ulp timeout_pwr
         timeout_lta set_rate_np set_rate_lp set_rate_ulp set_timeout_pwr
         set_timeout_lta];
    first
      [ assumption
      | repeat match goal with H : forall v, Ok ?x = Ok v -> _ |- _ =>
                 specialize (H x eq_refl) end;
        split; [assumption|]; intros Hpos; rewrite ?Z.div_1_r;
        first [ apply u8_small; lia
              | apply (div_u8 _ 16 4080); lia | apply (div_u8 _ 512 130560); lia ] ].
Qed.

Lemma parse_prop_rates_stored_witness :
  rate_ulp (sys_reg rates_private) = 6 /\
  timeout_pwr (sys_reg rates_private) = 3 /\
  rate_np (sys_reg rates_private) = 0.
Proof.
  assert (Hrun : iqs269_parse_prop (bus_with quiet_flags) rates_node kzalloc_private
                 = (Ok tt, rates_private)) by (vm_compute; reflexivity).
  pose proof (parse_prop_rates_stored (bus_with quiet_flags) rates_node
                kzalloc_private rates_private zero_sys_reg eq_refl Hrun) as H.
  unfold rate_props in H.
  inversion H as [|? ? Hnp H1]; subst. inversion H1 as [|? ? _ H2]; subst.
  inversion H2 as [|? ? Hulp H3]; subst. inversion H3 as [|? ? Hpwr _]; subst.
  cbv beta iota in Hnp, Hulp, Hpwr.
  assert (Hpos1 : 0 <= 100) by lia. assert (Hpos2 : 0 <= 2000) by lia.
  split; [exact (proj2 Hulp Hpos1)|]. split; [exact (proj2 Hpwr Hpos2)|].
  exact Hnp.
Defined.

(** *** The general word *)

Lemma parse_prop_gestures_word (dev : fwnode_handle) (general general' : Z)
    (s s' : iqs269_private) :
  parse_prop_gestures dev general s = (Ok general', s') ->
  general' =
    if fwnode_property_present dev "linux,keycodes"
       && fwnode_property_present dev "azoteq,gesture-swipe"
    then u16 (Z.lor general IQS269_SYS_SETTINGS_SLIDER_SWIPE) else general.
Proof.
  unfold parse_prop_gestures.
  destruct (fwnode_property_present dev "linux,keycodes"); cbn [andb];
    [|intros [= <- _]; reflexivity].
  cbv zeta.
  destruct (_ >? _); [discriminate|]. destruct (_ <? _); [discriminate|].
  intros H.
  apply bind_ok_inv in H. destruct H as (val & s1 & _ & H).
  rewrite bind_modify in H. rewrite bind_gets in H.
  apply bind_ok_inv in H. destruct H as ([] & s2 & _ & H).
  rewrite bind_modify in H. injection H as <- _. reflexivity.
Qed.

Lemma general_word (G : Z) (clk swipe ro lp : bool) (sm uu : option Z) :
  (forall v, sm = Some v -> 0 <= v <= 3) ->
  (forall v, uu = Some v -> 0 <= v <= 7) ->
  let w := if clk then u16 (Z.lor G IQS269_SYS_SETTINGS_CLK_DIV) else G in
  let w := u16 (Z.land w (Z.lnot IQS269_SYS_SETTINGS_ULP_AUTO)) in
  let w := u16 (Z.land w (Z.lnot IQS269_SYS_SETTINGS_DIS_AUTO)) in
  let w := u16 (Z.land w (Z.lnot IQS269_SYS_SETTINGS_PWR_MODE_MASK)) in
  let w := match sm with
           | Some v => u16 (Z.lor w (Z.shiftl v IQS269_SYS_SETTINGS_PWR_MODE_SHIFT))
           | None => w
           end in
  let w := match uu with
           | Some v =>
               u16 (Z.lor (u16 (Z.land w (Z.lnot IQS269_SYS_SETTINGS_ULP_UPDATE_MASK)))
                      (Z.shiftl v IQS269_SYS_SETTINGS_ULP_UPDATE_SHIFT))
           | None => w
           end in
  let w := if swipe then u16 (Z.lor w IQS269_SYS_SETTINGS_SLIDER_SWIPE) else w in
  let w := u16 (Z.land w (Z.lnot IQS269_SYS_SETTINGS_RESEED_OFFSET)) in
  let w := if ro then u16 (Z.lor w IQS269_SYS_SETTINGS_RESEED_OFFSET) else w in
  let w := u16 (Z.lor w IQS269_SYS_SETTINGS_EVENT_MODE) in
  let w := if lp then u16 (Z.lor w IQS269_SYS_SETTINGS_EVENT_MODE_LP) else w in
  let w := u16 (Z.lor w IQS269_SYS_SETTINGS_REDO_ATI) in
  let w := u16 (Z.lor w IQS269_SYS_SETTINGS_ACK_RESET) in
  u16 w =
  Z.lor (Z.land G (Z.lor (match uu with Some _ => 0 | None => GENMASK 10 8 end)
                     (Z.lor (BIT 15) (Z.lor (BIT 7) (Z.lor (BIT 4)
                        (Z.lor (BIT 3) (BIT 1)))))))
    (Z.lor (Z.shiftl (Z.b2z clk) 15)
    (Z.lor (Z.shiftl (match sm with Some v => v | None => 0 end) 11)
    (Z.lor (Z.shiftl (match uu with Some v => v | None => 0 end) 8)
    (Z.lor (Z.shiftl (Z.b2z swipe) 7)
    (Z.lor (Z.shiftl (Z.b2z ro) 6)
    (Z.lor (Z.shiftl (Z.b2z lp) 4) 0x25)))))).
Proof.
  intros Hsm Huu. cbv zeta.
  unfold IQS269_SYS_SETTINGS_CLK_DIV, IQS269_SYS_SETTINGS_ULP_AUTO,
    IQS269_SYS_SETTINGS_DIS_AUTO, IQS269_SYS_SETTINGS_PWR_MODE_MASK,
    IQS269_SYS_SETTINGS_PWR_MODE_SHIFT, IQS269_SYS_SETTINGS_ULP_UPDATE_MASK,
    IQS269_SYS_SETTINGS_ULP_UPDATE_SHIFT, IQS269_SYS_SETTINGS_SLIDER_SWIPE,
    IQS269_SYS_SETTINGS_RESEED_OFFSET, IQS269_SYS_SETTINGS_EVENT_MODE,
    IQS269_SYS_SETTINGS_EVENT_MODE_LP, IQS269_SYS_SETTINGS_REDO_ATI,
    IQS269_SYS_SETTINGS_ACK_RESET.
  change 0x25 with (Z.lor (BIT 5) (Z.lor (BIT 2) (BIT 0))).
  apply Z.bits_inj'; intros n Hn.
  destruct sm as [mv|]; [specialize (Hsm mv eq_refl)|clear Hsm];
    (destruct uu as [uv|]; [specialize (Huu uv eq_refl)|clear Huu]).
  all: field_bits.
  all: (destruct (Z.ltb_spec n 16) as [Hlt | Hge]; [each_bit n; fixed_bit|]).
  all: cmp_prune.
  all: rewrite ?(testbit_small mv 2) by lia; rewrite ?(testbit_small uv 3) by lia.
  all: rewrite ?Z.bits_0; cbn [andb orb negb]; rewrite ?andb_false_r, ?orb_false_r.
  all: destruct clk, swipe, ro, lp; cbn [andb orb negb]; rewrite ?andb_false_r;
    try reflexivity.
Qed.
Lemma bind_ret {S A B} (a : A) (k : A -> M S B) (s : S) : bind (ret a) k s = k a s.
Proof. reflexivity. Qed.

(** The general word that a successful [parse_prop_general] stores. *)
Lemma parse_prop_general_ok (dev : fwnode_handle) (s p' : iqs269_private) :
  (forall v, fwnode_property_read_u32 dev "azoteq,suspend-mode" = Ok v -> 0 <= v) ->
  (forall v, fwnode_property_read_u32 dev "azoteq,ulp-update" = Ok v -> 0 <= v) ->
  parse_prop_general dev s = (Ok tt, p') ->
  be16_to_cpu (general (sys_reg p'))
  = general_fields dev (be16_to_cpu (general (sys_reg s))) (raw_slider p') /\
  0 <= prop_or dev "azoteq,suspend-mode" 0 <= 3 /\
  0 <= prop_or dev "azoteq,ulp-update" 0 <= 7.
Proof.
  intros Hsm Huu. unfold parse_prop_general, general_fields, prop_or.
  rewrite bind_gets. cbv zeta.
  unfold IQS269_SYS_SETTINGS_PWR_MODE_MAX, IQS269_SYS_SETTINGS_ULP_UPDATE_MAX.
  set (G := be16_to_cpu (general (sys_reg s))).
  set (clk := fwnode_property_present dev "azoteq,clk-div").
  set (ro := fwnode_property_present dev "azoteq,reseed-offset").
  intros H.
  apply bind_ok_inv in H. destruct H as (g1 & s1 & H1 & H).
  apply bind_ok_inv in H. destruct H as (g2 & s2 & H2 & H).
  apply bind_ok_inv in H. destruct H as (g3 & s3 & H3 & H).
  apply parse_prop_gestures_word in H3.
  rewrite bind_gets in H. injection H as <-.
  change (general (sys_reg (upd_sys_reg (set_general ?v) ?q))) with v.
  rewrite be16_roundtrip.
  change (raw_slider (upd_sys_reg (set_general ?v) ?q)) with (raw_slider q).
  fold (raw_slider s3). set (lp := raw_slider s3). clearbody lp.
  unfold flag16. fold ro.
  set (swipe := fwnode_property_present dev "linux,keycodes"
                && fwnode_property_present dev "azoteq,gesture-swipe") in *.
  subst g3.
  destruct (fwnode_property_read_u32 dev "azoteq,suspend-mode") as [mv | ?];
    [specialize (Hsm mv eq_refl)|clear Hsm];
    (destruct (fwnode_property_read_u32 dev "azoteq,ulp-update") as [uv | ?];
       [specialize (Huu uv eq_refl)|clear Huu]).
  all: repeat match goal with
       | H : (if ?v >? ?m then _ else _) _ = _ |- _ =>
           let Hgt := fresh "Hgt" in
           destruct (v >? m) eqn:Hgt; [discriminate H|];
           rewrite Z.gtb_ltb in Hgt; apply Z.ltb_ge in Hgt
       end.
  all: unfold ret in H1, H2; injection H1 as <- <-; injection H2 as <- <-.
  all: (split; [|lia]).
  - exact (general_word G clk swipe ro lp (Some mv) (Some uv)
             ltac:(intros ? [= <-]; lia) ltac:(intros ? [= <-]; lia)).
  - exact (general_word G clk swipe ro lp (Some mv) None
             ltac:(intros ? [= <-]; lia) ltac:(intros ? H; discriminate H)).
  - exact (general_word G clk swipe ro lp None (Some uv)
             ltac:(intros ? H; discriminate H) ltac:(intros ? [= <-]; lia)).
  - exact (general_word G clk swipe ro lp None None
             ltac:(intros ? H; discriminate H) ltac:(intros ? H; discriminate H)).
Qed.

Ltac keep_general :=
  first
    [ apply parse_chan_engine_maintains
    | apply maintains_modify; intros ? Hinv; rewrite <- Hinv; reflexivity
    | apply maintains_zoom; intros ? ? Hinv; rewrite <- Hinv; reflexivity ].

Lemma general_fields_bits (dev : fwnode_handle) (G : Z) (lp : bool) :
  0 <= prop_or dev "azoteq,suspend-mode" 0 <= 3 ->
  0 <= prop_or dev "azoteq,ulp-update" 0 <= 7 ->
  let g := general_fields dev G lp in
  Z.testbit g 0 = true /\ Z.testbit g 2 = true /\ Z.testbit g 5 = true /\
  Z.testbit g 13 = false /\ Z.testbit g 14 = false /\
  Z.testbit g 6 = fwnode_property_present dev "azoteq,reseed-offset" /\
  Z.testbit g 15 = fwnode_property_present dev "azoteq,clk-div" || Z.testbit G 15 /\
  Z.land g IQS269_SYS_SETTINGS_PWR_MODE_MASK
  = Z.shiftl (prop_or dev "azoteq,suspend-mode" 0) 11.
Proof.
  intros Hmode Hupd. cbv zeta. unfold general_fields.
  set (mv := prop_or dev "azoteq,suspend-mode" 0) in *.
  set (uv := prop_or dev "azoteq,ulp-update" 0) in *.
  clearbody mv uv.
  set (clk := fwnode_property_present dev "azoteq,clk-div").
  set (ro := fwnode_property_present dev "azoteq,reseed-offset").
  set (swipe := fwnode_property_present dev "linux,keycodes"
                && fwnode_property_present dev "azoteq,gesture-swipe").
  clearbody clk ro swipe.
  change 0x25 with (Z.lor (BIT 5) (Z.lor (BIT 2) (BIT 0))).
  change 0x809A with (Z.lor (BIT 15) (Z.lor (BIT 7) (Z.lor (BIT 4) (Z.lor (BIT 3) (BIT 1))))).
  change 0x879A with (Z.lor (GENMASK 10 8)
    (Z.lor (BIT 15) (Z.lor (BIT 7) (Z.lor (BIT 4) (Z.lor (BIT 3) (BIT 1)))))).
  unfold IQS269_SYS_SETTINGS_PWR_MODE_MASK.
  destruct (fwnode_property_read_u32 dev "azoteq,ulp-update") as [? | ?].
  all: repeat split.
  all: try (lazymatch goal with |- Z.testbit _ _ = _ => field_bits; fixed_bit end).
  all: apply Z.bits_inj'; intros n Hn; field_bits.
  all: (destruct (Z.ltb_spec n 16) as [Hlt | Hge]; [each_bit n; fixed_bit|]).
  all: cmp_prune.
  all: rewrite ?(testbit_small mv 2) by lia; rewrite ?(testbit_small uv 3) by lia.
  all: rewrite ?Z.bits_0; cbn [andb orb negb]; rewrite ?andb_false_r, ?orb_false_r.
  all: try reflexivity.
Qed.

(** X20.  The general word.  After a successful [iqs269_parse_prop] the
    general word of the image is the word the device held with its fields
    replaced as [general_fields] says.  The event mode, the ATI trigger and
    the reset acknowledgement are always set and the two automatic
    power-mode bits always clear; the power mode is the value of
    [azoteq,suspend-mode], or 0 without it.  So [iqs269_suspend] and
    [iqs269_resume] leave the device alone exactly when the node asks for
    no suspend mode, and otherwise [iqs269_suspend] writes the word of
    [iqs269_general_get]. *)
Theorem parse_prop_general_word (bus : regmap) (dev : fwnode_handle)
    (p p' : iqs269_private) (image : iqs269_sys_reg) (env : io_env) (t : list io) :
  (forall v, fwnode_property_read_u32 dev "azoteq,suspend-mode" = Ok v -> 0 <= v) ->
  (forall v, fwnode_property_read_u32 dev "azoteq,ulp-update" = Ok v -> 0 <= v) ->
  sys_settings_read bus = Ok image ->
  iqs269_parse_prop bus dev p = (Ok tt, p') ->
  let g := be16_to_cpu (general (sys_reg p')) in
  let mode := prop_or dev "azoteq,suspend-mode" 0 in
  g = general_fields dev (be16_to_cpu (general image)) (raw_slider p') /\
  Z.testbit g 0 = true /\ Z.testbit g 2 = true /\ Z.testbit g 5 = true /\
  Z.testbit g 13 = false /\ Z.testbit g 14 = false /\
  0 <= mode <= 3 /\
  Z.land g IQS269_SYS_SETTINGS_PWR_MODE_MASK = Z.shiftl mode 11 /\
  (mode = 0 ->
     iqs269_suspend env (IoWorld p' t) = (Ok tt, IoWorld p' t) /\
     iqs269_resume env (IoWorld p' t) = (Ok tt, IoWorld p' t)) /\
  (mode <> 0 ->
     io_writes (io_trace (snd (iqs269_suspend env (IoWorld p' t)))) =
     io_writes t ++ [(IQS269_SYS_SETTINGS, iqs269_general_get p')]).
Proof.
  intros Hsm Huu Hread Hrun. cbv zeta.
  destruct (parse_prop_stages bus dev p p' Hrun)
    as (image' & s1 & s2 & s3 & s4 & Hread' & Hrates & Hmisc & Hhold & Hloop & Hgen).
  assert (image' = image) as -> by congruence. clear Hread'.
  assert (HG : general (sys_reg s4) = general image).
  { assert (K1 : maintains (fun s => general (sys_reg s) = general image)
                   (parse_prop_rates dev)) by (prop_steps; keep_general).
    assert (K2 : maintains (fun s => general (sys_reg s) = general image)
                   (parse_prop_misc dev)) by (prop_steps; keep_general).
    assert (K3 : maintains (fun s => general (sys_reg s) = general image)
                   (parse_prop_touch_hold dev)) by (prop_steps; keep_general).
    assert (K4 : maintains (fun s => general (sys_reg s) = general image)
                   (for_each (node_children dev) iqs269_parse_chan))
      by (prop_steps; keep_general).
    match type of Hrates with _ _ ?s = _ => specialize (K1 s eq_refl) end.
    rewrite Hrates in K1. cbn [snd] in K1.
    specialize (K2 s1 K1). rewrite Hmisc in K2. cbn [snd] in K2.
    specialize (K3 (clear_masks s2) K2). rewrite Hhold in K3. cbn [snd] in K3.
    match type of Hloop with _ _ _ ?s = _ => specialize (K4 s K3) end.
    rewrite Hloop in K4. exact K4. }
  destruct (parse_prop_general_ok dev _ p' Hsm Huu Hgen) as (Hword & Hmode & Hupd).
  change (general (sys_reg (upd_sys_reg ?f s4))) with (general (sys_reg s4)) in Hword.
  rewrite HG in Hword.
  destruct (general_fields_bits dev (be16_to_cpu (general image)) (raw_slider p')
              Hmode Hupd) as (B0 & B2 & B5 & B13 & B14 & _ & _ & Hfield).
  cbv zeta in B0, B2, B5, B13, B14, Hfield.
  rewrite <- Hword in B0, B2, B5, B13, B14, Hfield.
  assert (Hget : Z.land (iqs269_general_get p') IQS269_SYS_SETTINGS_PWR_MODE_MASK
                 = Z.shiftl (prop_or dev "azoteq,suspend-mode" 0) 11).
  { rewrite general_get_mode. exact Hfield. }
  repeat (split; [assumption|]).
  split.
  - intros Hzero. apply suspend_resume_idle. cbn [io_drv].
    rewrite Hget, Hzero. reflexivity.
  - intros Hnz. apply suspend_writes. rewrite Hget.
    rewrite Z.shiftl_eq_0_iff by lia. exact Hnz.
Qed.

Lemma parse_prop_general_word_witness :
  be16_to_cpu (general (sys_reg rates_private)) = 0x9825 /\
  io_writes (io_trace (snd (iqs269_suspend
     (IoEnv (Err (- EIO)) (Err (- EIO)) (fun _ => 0) (fun _ => true) (fun _ => 0))
     (IoWorld rates_private [])))) = [(IQS269_SYS_SETTINGS, 0xB820)].
Proof.
  assert (Hrun : iqs269_parse_prop (bus_with quiet_flags) rates_node kzalloc_private
                 = (Ok tt, rates_private)) by (vm_compute; reflexivity).
  assert (Hsm : forall v, fwnode_property_read_u32 rates_node "azoteq,suspend-mode" = Ok v ->
                  0 <= v) by (intros v H; vm_compute in H; injection H as <-; lia).
  assert (Huu : forall v, fwnode_property_read_u32 rates_node "azoteq,ulp-update" = Ok v ->
                  0 <= v) by (intros v H; vm_compute in H; discriminate H).
  destruct (parse_prop_general_word (bus_with quiet_flags) rates_node kzalloc_private
              rates_private zero_sys_reg
              (IoEnv (Err (- EIO)) (Err (- EIO)) (fun _ => 0) (fun _ => true) (fun _ => 0))
              [] Hsm Huu eq_refl Hrun)
    as (Hword & _ & _ & _ & _ & _ & _ & _ & _ & Hwrite).
  split.
  - rewrite Hword. vm_compute. reflexivity.
  - rewrite Hwrite by (vm_compute; discriminate). vm_compute. reflexivity.
Defined.
(** ** Touch-and-hold *)


(** *** The selection byte of slider 1 *)

Lemma chan_loop_sel1 (l : list fwnode_handle) (s s' : iqs269_private) :
  length (slider_select (sys_reg s)) = 2%nat ->
  for_each l iqs269_parse_chan s = (Ok tt, s') ->
  length (slider_select (sys_reg s')) = 2%nat /\
  otp_option s' = otp_option s /\
  ((Z.land (otp_option s) IQS269_OTP_OPTION_HOLD =? 0) = false ->
   slider_select (sys_reg s') !!! 1%nat = slider_select (sys_reg s) !!! 1%nat) /\
  forall b, 0 <= b < 8 ->
    Z.testbit (slider_select (sys_reg s') !!! 1%nat) b
    = Z.testbit (slider_select (sys_reg s) !!! 1%nat) b
      || (Z.land (otp_option s) IQS269_OTP_OPTION_HOLD =? 0)
         && chan_marked (fun c => fwnode_property_present c "azoteq,slider1-select") l b.
Proof.
  revert s. induction l as [|c l IH]; intros s Hlen Hrun.
  - cbn in Hrun. injection Hrun as <-. split; [exact Hlen|]. split; [reflexivity|]. split; [reflexivity|].
    intros b Hb. cbn. now rewrite andb_false_r, orb_false_r.
  - cbn [for_each] in Hrun. apply bind_ok_inv in Hrun.
    destruct Hrun as ([] & s1 & Hc & Hrest).
    destruct (parse_chan_ok_reg c s s1 Hc) as (reg & Hreg & Hlt).
    pose proof (parse_chan_masks_eq c s reg Hreg Hlt) as Hm.
    cbv zeta in Hm. rewrite Hc in Hm. cbn [snd] in Hm.
    destruct Hm as (_ & _ & _ & Hsl).
    assert (Hotp : otp_option s1 = otp_option s).
    { assert (K : maintains (fun x => otp_option x = otp_option s) (iqs269_parse_chan c))
        by (prop_steps; keep_rates).
      specialize (K s eq_refl). now rewrite Hc in K. }
    assert (Hlen1 : length (slider_select (sys_reg s1)) = 2%nat).
    { rewrite Hsl. repeat match goal with |- context [if ?c then _ else _] => destruct c end;
        rewrite ?length_insert; exact Hlen. }
    destruct (IH s1 Hlen1 Hrest) as (Hlen' & Hotp' & Hsame & Hbits).
    split; [exact Hlen'|]. split; [congruence|].
    split.
    { intros Hhold. rewrite Hotp in Hsame. rewrite (Hsame Hhold), Hsl, Hhold.
      cbn [negb andb]. rewrite andb_false_r.
      destruct (fwnode_property_present c "azoteq,slider0-select");
        rewrite ?list_lookup_total_insert_ne by lia; reflexivity. }
    intros b Hbr. rewrite (Hbits b Hbr), Hotp, Hsl.
    unfold chan_marked. cbn [existsb]. rewrite Hreg.
    destruct (Z.land (otp_option s) IQS269_OTP_OPTION_HOLD =? 0);
      destruct (fwnode_property_present c "azoteq,slider0-select");
      destruct (fwnode_property_present c "azoteq,slider1-select");
      cbn [negb andb orb];
      rewrite ?list_lookup_total_insert_eq by (rewrite ?length_insert; lia);
      rewrite ?(list_lookup_total_insert_ne _ 0%nat 1%nat) by lia;
      rewrite ?testbit_mark by exact Hbr;
      rewrite ?andb_false_r, ?orb_false_r, <- ?orb_assoc; reflexivity.
Qed.

Lemma touch_hold_ok (dev : fwnode_handle) (s s' : iqs269_private) :
  parse_prop_touch_hold dev s = (Ok tt, s') ->
  let store v := upd_sys_reg (fun r =>
                   set_slider_select (<[1%nat := u8 v]> (slider_select r)) r) s in
  if negb (Z.land (otp_option s) IQS269_OTP_OPTION_HOLD =? 0) then
    match fwnode_property_read_u32 dev "azoteq,touch-hold-ms" with
    | Ok v => IQS269_TOUCH_HOLD_MS_MIN <= v <= IQS269_TOUCH_HOLD_MS_MAX /\ s' = store (v / 256)
    | Err _ =>
        s' = if fw_num (ver_info s) <? IQS269_VER_INFO_FW_NUM_3
             then store IQS269_TOUCH_HOLD_DEFAULT else s
    end
  else s' = store 0.
Proof.
  unfold parse_prop_touch_hold. rewrite bind_gets. cbv zeta.
  destruct (negb (Z.land (otp_option s) IQS269_OTP_OPTION_HOLD =? 0)).
  - destruct (fwnode_property_read_u32 dev "azoteq,touch-hold-ms") as [v | e].
    + destruct (Z.ltb_spec v IQS269_TOUCH_HOLD_MS_MIN); cbn [orb]; [discriminate|].
      rewrite gtb_leb. destruct (Z.leb_spec v IQS269_TOUCH_HOLD_MS_MAX); cbn [negb];
        [|discriminate].
      intros [= <-]. split; [lia | reflexivity].
    + destruct (_ <? _); intros [= <-]; reflexivity.
  - intros [= <-]. reflexivity.
Qed.

(** X22.  The selection byte of slider 1 is the touch-and-hold ceiling on a
    device with that option.  After a successful [iqs269_parse_prop] on a
    device whose [otp_option] has the HOLD bit, slider 1 has no type,
    [slider_select[1]] is [azoteq,touch-hold-ms / 256] for a value between
    256 and 65280 ms (no other value is accepted), the default [0x14] when
    the property is absent and the firmware is older than revision 3, and the
    byte read from the device otherwise, whatever [azoteq,slider1-select] the
    channels carry.  Without the HOLD bit, bit [b] of the byte is set exactly
    when a child with channel number [b] has [azoteq,slider1-select]. *)
Theorem parse_prop_slider1 (bus : regmap) (dev : fwnode_handle)
    (p p' : iqs269_private) (image : iqs269_sys_reg) :
  sized_sys_reg image = true ->
  sys_settings_read bus = Ok image ->
  iqs269_parse_prop bus dev p = (Ok tt, p') ->
  let sel1 := slider_select (sys_reg p') !!! 1%nat in
  otp_option p' = otp_option p /\
  if negb (Z.land (otp_option p) IQS269_OTP_OPTION_HOLD =? 0) then
    iqs269_slider_type p' 1 = IQS269_SLIDER_NONE /\
    match fwnode_property_read_u32 dev "azoteq,touch-hold-ms" with
    | Ok v => IQS269_TOUCH_HOLD_MS_MIN <= v <= IQS269_TOUCH_HOLD_MS_MAX /\ sel1 = v / 256
    | Err _ =>
        sel1 = if fw_num (ver_info p) <? IQS269_VER_INFO_FW_NUM_3
               then IQS269_TOUCH_HOLD_DEFAULT
               else slider_select image !!! 1%nat
    end
  else
    forall b, 0 <= b < 8 ->
      Z.testbit sel1 b
      = chan_marked (fun c => fwnode_property_present c "azoteq,slider1-select")
          (node_children dev) b.
Proof.
  intros Hsized Hread0 Hrun. cbv zeta.
  destruct (parse_prop_stages bus dev p p' Hrun)
    as (image' & s1 & s2 & s3 & s4 & Hread & Hrates & Hmisc & Hhold & Hloop & Hgen).
  rewrite Hread0 in Hread. injection Hread as <-.
  assert (Hlen0 : length (slider_select image) = 2%nat).
  { unfold sized_sys_reg in Hsized. rewrite !andb_true_iff in Hsized.
    apply Nat.eqb_eq. tauto. }
  pose (kept := fun s : iqs269_private =>
    (otp_option s, ver_info s, slider_select (sys_reg s))
    = (otp_option p, ver_info p, slider_select image)).
  assert (H1 : kept s1).
  { assert (Hk : maintains kept (parse_prop_rates dev))
      by (unfold kept; prop_steps; keep_rates).
    match type of Hrates with _ ?s = _ => specialize (Hk s eq_refl) end.
    now rewrite Hrates in Hk. }
  assert (H2 : kept s2).
  { assert (Hk : maintains kept (parse_prop_misc dev))
      by (unfold kept; prop_steps; keep_rates).
    specialize (Hk _ H1). now rewrite Hmisc in Hk. }
  unfold kept in H2. injection H2 as Ho2 Hv2 Hs2.
  (* the touch-and-hold block *)
  pose proof (touch_hold_ok dev _ _ Hhold) as Hth. cbv zeta in Hth.
  replace (otp_option (clear_masks s2)) with (otp_option p) in Hth by (now rewrite <- Ho2).
  replace (ver_info (clear_masks s2)) with (ver_info p) in Hth by (now rewrite <- Hv2).
  assert (Hl3 : length (slider_select (sys_reg s3)) = 2%nat
                /\ otp_option s3 = otp_option p).
  { assert (Hc : length (slider_select (sys_reg (clear_masks s2))) = 2%nat)
      by (unfold clear_masks; cbn; now rewrite length_insert, Hs2).
    assert (Hoc : otp_option (clear_masks s2) = otp_option p) by (now rewrite <- Ho2).
    destruct (negb (Z.land (otp_option p) IQS269_OTP_OPTION_HOLD =? 0)).
    - destruct (fwnode_property_read_u32 dev "azoteq,touch-hold-ms") as [v | e].
      + destruct Hth as [_ ->]. unfold clear_masks. cbn. rewrite !length_insert. split; [now rewrite Hs2 | exact Ho2].
      + destruct (_ <? _); subst s3; unfold clear_masks; cbn; rewrite ?length_insert;
          (split; [now rewrite Hs2 | exact Ho2]).
    - subst s3. unfold clear_masks. cbn. rewrite !length_insert. split; [now rewrite Hs2 | exact Ho2]. }
  destruct Hl3 as [Hl3 Ho3].
  (* the channel loop *)
  match type of Hloop with _ _ _ ?s = _ =>
    destruct (chan_loop_sel1 (node_children dev) s s4 Hl3 Hloop) as (Hl4 & Ho4 & Hsame & Hbits)
  end.
  cbn [sys_reg upd_sys_reg set_sys_reg slider_select set_event_mask otp_option] in Hbits, Ho4, Hsame.
  rewrite Ho3 in Hbits, Ho4, Hsame.
  (* the general word *)
  assert (Hk : maintains
            (fun s => (otp_option s, slider_select (sys_reg s))
                      = (otp_option p, slider_select (sys_reg s4)))
            (parse_prop_general dev)) by (prop_steps; keep_rates).
  match type of Hgen with _ _ ?s = _ =>
    assert (H0 : (otp_option s, slider_select (sys_reg s))
                 = (otp_option p, slider_select (sys_reg s4)))
      by (cbn; now rewrite Ho4);
    specialize (Hk s H0)
  end.
  rewrite Hgen in Hk. cbn [snd] in Hk. injection Hk as Ho' Hs'.
  split; [exact Ho'|].
  unfold iqs269_slider_type. rewrite Ho', Hs'.
  assert (Hsel : slider_select (sys_reg (clear_masks s2)) !!! 1%nat
                 = slider_select image !!! 1%nat).
  { unfold clear_masks. cbn. rewrite list_lookup_total_insert_ne by lia. now rewrite Hs2. }
  assert (Hlc : length (slider_select (sys_reg (clear_masks s2))) = 2%nat)
    by (unfold clear_masks; cbn; now rewrite length_insert, Hs2).
  destruct (Z.land (otp_option p) IQS269_OTP_OPTION_HOLD =? 0) eqn:Hopt;
    cbn [negb andb Nat.eqb] in *.
  - intros b Hb. rewrite (Hbits b Hb). subst s3. cbn [sys_reg upd_sys_reg set_sys_reg slider_select set_slider_select].
    rewrite list_lookup_total_insert_eq by (rewrite Hlc; lia).
    change (u8 0) with 0. now rewrite Z.bits_0.
  - split; [reflexivity|].
    rewrite (Hsame eq_refl).
    destruct (fwnode_property_read_u32 dev "azoteq,touch-hold-ms") as [v | e].
    + destruct Hth as [Hrange ->]. split; [exact Hrange|].
      cbn [sys_reg upd_sys_reg set_sys_reg slider_select set_slider_select].
      rewrite list_lookup_total_insert_eq by (rewrite Hlc; lia).
      unfold IQS269_TOUCH_HOLD_MS_MIN, IQS269_TOUCH_HOLD_MS_MAX in Hrange.
      apply u8_small. split; [apply Z.div_pos; lia | apply Z.div_lt_upper_bound; lia].
    + subst s3. destruct (_ <? _);
        cbn [sys_reg upd_sys_reg set_sys_reg slider_select set_slider_select].
      * rewrite list_lookup_total_insert_eq by (rewrite Hlc; lia). reflexivity.
      * exact Hsel.
Qed.

Lemma parse_prop_slider1_witness :
  slider_select (sys_reg hold_private) !!! 1%nat = 20 /\
  iqs269_slider_type hold_private 1 = IQS269_SLIDER_NONE.
Proof.
  assert (Hsized : sized_sys_reg zero_sys_reg = true) by reflexivity.
  assert (Hread : sys_settings_read (bus_with quiet_flags) = Ok zero_sys_reg)
    by reflexivity.
  assert (Hrun : iqs269_parse_prop (bus_with quiet_flags) hold_node hold_start
                 = (Ok tt, hold_private)) by (vm_compute; reflexivity).
  destruct (parse_prop_slider1 _ _ _ _ _ Hsized Hread Hrun) as [_ H].
  change (negb (Z.land (otp_option hold_start) IQS269_OTP_OPTION_HOLD =? 0))
    with true in H.
  change (fwnode_property_read_u32 hold_node "azoteq,touch-hold-ms")
    with (@Ok Z 5120) in H.
  cbv iota in H. destruct H as (Htype & _ & Hsel).
  split; [exact Hsel | exact Htype].
Defined.
(** ** Key codes of a channel *)

(** A successful sequence whose first step keeps an invariant. *)
Lemma bind_ok_keep {S A B} (I : S -> Prop) (m : M S A) (k : A -> M S B)
    (s s' : S) (b : B) :
  maintains I m -> I s -> bind m k s = (Ok b, s') ->
  exists a s1, I s1 /\ k a s1 = (Ok b, s').
Proof.
  intros Hm Hs H. apply bind_ok_inv in H. destruct H as (a & s1 & Hrun & H).
  exists a, s1. split; [|exact H].
  specialize (Hm s Hs). now rewrite Hrun in Hm.
Qed.

Ltac keep_first I HI H :=
  lazymatch type of H with
  | bind ?m ?k ?s = _ =>
      let K := fresh "K" in
      let s1 := fresh "s" in
      let HI' := fresh "HI" in
      let H' := fresh "H" in
      assert (K : maintains I m) by (chan_steps; keep_proj);
      destruct (bind_ok_keep I m k s _ _ K HI H) as (? & s1 & HI' & H');
      clear H HI K; rename H' into H; rename HI' into HI; cbv beta in H, HI
  end.

(** One event of the loop: what it stores for its key code. *)
Lemma parse_event_ok (reg : Z) (ch_node : fwnode_handle) (i : nat)
    (s s' : iqs269_private) :
  parse_event reg ch_node i s = (Ok tt, s') ->
  code_fields s' =
    match event_code ch_node i with
    | Some val =>
        (if hall_pair reg && hall_enable s then keycode s
         else <[(i * 8 + Z.to_nat reg)%nat := val]> (keycode s),
         if (reg =? IQS269_CHx_HALL_ACTIVE) && hall_enable s
         then <[i := SwitchDesc val true]> (switches s) else switches s,
         u8 (Z.land (event_mask (sys_reg s)) (Z.lnot (mask (iqs269_events !!! i)))),
         hall_enable s)
    | None => code_fields s
    end.
Proof.
  unfold parse_event, event_code.
  destruct (fwnode_get_named_child_node ch_node (name (iqs269_events !!! i)))
    as [ev_node|]; [|intros [= <-]; reflexivity].
  intros H.
  assert (HI : code_fields s = code_fields s) by reflexivity.
  unfold parse_event_code in H.
  do 2 keep_first (fun x : iqs269_private => code_fields x = code_fields s) HI H.
  unfold code_fields in HI. injection HI as Hk Hs He Hh.
  destruct (fwnode_property_read_u32 ev_node "linux,code") as [val | e].
  - rewrite bind_gets in H. cbv beta in H.
    rewrite !bind_when_modify in H. unfold modify in H. injection H as <-.
    unfold code_fields, hall_pair. rewrite <- Hk, <- Hs, <- He, <- Hh.
    change (Z.to_nat IQS269_NUM_CH) with 8%nat.
    destruct (reg =? IQS269_CHx_HALL_ACTIVE), (reg =? IQS269_CHx_HALL_INACTIVE),
      (hall_enable s1) eqn:E;
      cbn [keycode switches sys_reg event_mask hall_enable upd_sys_reg set_sys_reg
           set_keycode set_switches set_event_mask negb andb orb];
      rewrite ?E; reflexivity.
  - destruct (e =? - EINVAL); [|discriminate H].
    injection H as <-. unfold code_fields. now rewrite Hk, Hs, He, Hh.
Qed.

(** The events of a list, one after the other. *)
Lemma event_loop_ok (reg : Z) (ch_node : fwnode_handle) (l : list nat)
    (s s' : iqs269_private) :
  0 <= reg < 8 -> NoDup l ->
  length (keycode s) = 48%nat -> length (switches s) = 6%nat ->
  for_each l (parse_event reg ch_node) s = (Ok tt, s') ->
  length (keycode s') = 48%nat /\ length (switches s') = 6%nat /\
  hall_enable s' = hall_enable s /\
  (forall i, (i < 6)%nat ->
     let idx := (i * 8 + Z.to_nat reg)%nat in
     match (if bool_decide (i ∈ l) then event_code ch_node i else None) with
     | Some val =>
         keycode s' !!! idx
           = (if hall_pair reg && hall_enable s then keycode s !!! idx else val) /\
         switches s' !!! i
           = (if (reg =? IQS269_CHx_HALL_ACTIVE) && hall_enable s
              then SwitchDesc val true else switches s !!! i)
     | None =>
         keycode s' !!! idx = keycode s !!! idx /\ switches s' !!! i = switches s !!! i
     end) /\
  (forall b, 0 <= b < 8 ->
     Z.testbit (event_mask (sys_reg s')) b
     = Z.testbit (event_mask (sys_reg s)) b
       && negb (existsb (fun i => match event_code ch_node i with
                                  | Some _ => Z.testbit (mask (iqs269_events !!! i)) b
                                  | None => false
                                  end) l)).
Proof.
  intros Hreg. revert s. induction l as [|j l IH]; intros s Hnd Hlk Hls Hrun.
  - cbn in Hrun. injection Hrun as <-. repeat split; try assumption.
    intros b Hb. cbn. now rewrite andb_true_r.
  - cbn [for_each] in Hrun. apply bind_ok_inv in Hrun.
    destruct Hrun as ([] & s1 & Hj & Hrest).
    apply parse_event_ok in Hj. unfold code_fields in Hj.
    apply NoDup_cons in Hnd. destruct Hnd as [Hnotin Hnd].
    assert (H1 : length (keycode s1) = 48%nat /\ length (switches s1) = 6%nat
                 /\ hall_enable s1 = hall_enable s).
    { destruct (event_code ch_node j); injection Hj as -> -> _ ->;
        repeat match goal with |- context [if ?c then _ else _] => destruct c end;
        rewrite ?length_insert; auto. }
    destruct H1 as (Hlk1 & Hls1 & Hh1).
    destruct (IH s1 Hnd Hlk1 Hls1 Hrest) as (Hlk' & Hls' & Hh' & Hcodes & Hmask).
    split; [exact Hlk'|]. split; [exact Hls'|]. split; [congruence|].
    split.
    + intros i Hi. specialize (Hcodes i Hi). cbv zeta in Hcodes |- *.
      rewrite Hh1 in Hcodes.
      destruct (decide (i = j)) as [-> | Hne].
      * rewrite bool_decide_eq_true_2 by (apply elem_of_cons; left; reflexivity).
        rewrite bool_decide_eq_false_2 in Hcodes by exact Hnotin.
        destruct Hcodes as [-> ->].
        destruct (event_code ch_node j); injection Hj as -> -> _ _.
        -- split.
           ++ destruct (hall_pair reg && hall_enable s); [reflexivity|].
              apply list_lookup_total_insert_eq. lia.
           ++ destruct ((reg =? IQS269_CHx_HALL_ACTIVE) && hall_enable s); [|reflexivity].
              apply list_lookup_total_insert_eq. lia.
        -- split; reflexivity.
      * assert (Hk1 : keycode s1 !!! (i * 8 + Z.to_nat reg)%nat
                      = keycode s !!! (i * 8 + Z.to_nat reg)%nat).
        { destruct (event_code ch_node j); injection Hj as -> _ _ _; [|reflexivity].
          destruct (hall_pair reg && hall_enable s); [reflexivity|].
          apply list_lookup_total_insert_ne. lia. }
        assert (Hs1 : switches s1 !!! i = switches s !!! i).
        { destruct (event_code ch_node j); injection Hj as _ -> _ _; [|reflexivity].
          destruct ((reg =? IQS269_CHx_HALL_ACTIVE) && hall_enable s); [|reflexivity].
          apply list_lookup_total_insert_ne. congruence. }
        rewrite Hk1, Hs1 in Hcodes.
        destruct (bool_decide (i ∈ l)) eqn:Hin.
        -- rewrite bool_decide_eq_true_2
             by (apply elem_of_cons; right; apply bool_decide_eq_true in Hin; exact Hin).
           exact Hcodes.
        -- rewrite bool_decide_eq_false_2
             by (apply bool_decide_eq_false in Hin; intros Hc;
                 apply elem_of_cons in Hc; destruct Hc as [Hc | Hc];
                 [exact (Hne Hc) | exact (Hin Hc)]).
           exact Hcodes.
    + intros b Hb. rewrite (Hmask b Hb). cbn [existsb].
      destruct (event_code ch_node j); injection Hj as _ _ -> _.
      * rewrite testbit_u8, Z.land_spec, Z.lnot_spec by lia.
        destruct (Z.leb_spec 0 b), (Z.ltb_spec b 8); try lia.
        rewrite negb_orb. cbn [andb].
        destruct (Z.testbit (event_mask (sys_reg s)) b),
          (Z.testbit (mask (iqs269_events !!! j)) b); reflexivity.
      * reflexivity.
Qed.

(** X23.  The key codes a channel node gives are stored where the report
    looks them up.  After a successful [iqs269_parse_chan] of a node with
    channel number [reg], for each of the six events: when the node has the
    child of that event with a readable [linux,code], [keycode[i * 8 + reg]]
    holds that code, unless Hall-effect sensing is enabled and [reg] is one of
    the two Hall channels, in which case the key code is left alone and, for
    the active Hall channel only, switch [i] gets the code and is enabled;
    without such a code, both entries are as before.  Bit [b] of
    [event_mask] is cleared exactly when some event with a code has it in its
    mask, and [hall_enable] is not changed. *)
Theorem parse_chan_event_codes (ch_node : fwnode_handle) (p p' : iqs269_private)
    (reg : Z) :
  sized p = true ->
  fwnode_property_read_u32 ch_node "reg" = Ok reg -> 0 <= reg ->
  iqs269_parse_chan ch_node p = (Ok tt, p') ->
  hall_enable p' = hall_enable p /\
  (forall i, (i < 6)%nat ->
     let idx := (i * 8 + Z.to_nat reg)%nat in
     match event_code ch_node i with
     | Some val =>
         keycode p' !!! idx
           = (if hall_pair reg && hall_enable p then keycode p !!! idx else val) /\
         switches p' !!! i
           = (if (reg =? IQS269_CHx_HALL_ACTIVE) && hall_enable p
              then SwitchDesc val true else switches p !!! i)
     | None =>
         keycode p' !!! idx = keycode p !!! idx /\ switches p' !!! i = switches p !!! i
     end) /\
  (forall b, 0 <= b < 8 ->
     Z.testbit (event_mask (sys_reg p')) b
     = Z.testbit (event_mask (sys_reg p)) b
       && negb (existsb (fun i => match event_code ch_node i with
                                  | Some _ => Z.testbit (mask (iqs269_events !!! i)) b
                                  | None => false
                                  end) (seq 0 6))).
Proof.
  intros Hsized Hreg Hpos H.
  apply sized_fields in Hsized.
  destruct Hsized as (_ & _ & _ & Hls & Hlk & _).
  unfold iqs269_parse_chan in H. apply bind_ok_inv in H.
  destruct H as (reg' & s0 & Hr & H).
  unfold lift in Hr. rewrite Hreg in Hr. injection Hr as <- <-.
  destruct (reg >=? IQS269_NUM_CH) eqn:Hguard; [discriminate H|].
  rewrite Z.geb_leb in Hguard. apply Z.leb_gt in Hguard.
  unfold IQS269_NUM_CH in Hguard. cbv zeta in H.
  assert (HI : code_fields p = code_fields p) by reflexivity.
  revert HI H. generalize p at 1 3. intros s HI H.
  repeat keep_first (fun x : iqs269_private => code_fields x = code_fields p) HI H.
  unfold code_fields in HI. injection HI as Hk Hs He Hh.
  change (length iqs269_events) with 6%nat in H.
  assert (Hnd : NoDup (seq 0 6)) by apply NoDup_seq.
  rewrite <- Hk in Hlk. rewrite <- Hs in Hls.
  destruct (event_loop_ok reg ch_node (seq 0 6) _ p' (conj Hpos Hguard) Hnd Hlk Hls H)
    as (_ & _ & Hhall & Hcodes & Hmask).
  rewrite Hk, Hs, Hh in Hcodes. rewrite He in Hmask.
  split; [congruence|]. split; [|exact Hmask].
  intros i Hi. specialize (Hcodes i Hi).
  rewrite bool_decide_eq_true_2 in Hcodes by (apply elem_of_seq; lia).
  exact Hcodes.
Qed.

Lemma parse_chan_event_codes_witness :
  keycode hall_private !!! 23%nat = 0 /\
  switches hall_private !!! 2%nat = SwitchDesc 0x0d true /\
  Z.testbit (event_mask (sys_reg hall_private)) 1 = false.
Proof.
  assert (Hpos : 0 <= 7) by lia.
  assert (Hrun : iqs269_parse_chan hall_chan (set_hall_enable true kzalloc_private)
                 = (Ok tt, hall_private)) by (vm_compute; reflexivity).
  destruct (parse_chan_event_codes hall_chan (set_hall_enable true kzalloc_private)
              hall_private 7 eq_refl eq_refl Hpos Hrun) as (_ & Hcodes & Hmask).
  assert (H2 : (2 < 6)%nat) by lia.
  assert (H1 : 0 <= 1 < 8) by lia.
  destruct (Hcodes 2%nat H2) as [Hk Hs].
  split; [exact Hk|]. split; [exact Hs|]. exact (Hmask 1 H1).
Defined.
(** ** Input set-up and reports *)

Lemma emits_for_each_in {A} (P : action -> Prop) (l : list A)
    (body : A -> M world unit) :
  (forall x, In x l -> emits P (body x) tt) -> emits P (for_each l body) tt.
Proof.
  induction l as [|x l IH]; intros Hbody; simpl.
  - apply emits_ret.
  - eapply emits_bind; [apply Hbody; now left|].
    apply IH. intros y Hy. apply Hbody. now right.
Qed.

Lemma io_for_each_run {A} (f : A -> list io) (l : list A) (body : A -> M io_world unit) :
  (forall x w, body x w = (Ok tt, IoWorld (io_drv w) (io_trace w ++ f x))) ->
  forall w, for_each l body w = (Ok tt, IoWorld (io_drv w) (io_trace w ++ flat_map f l)).
Proof.
  intros Hbody. induction l as [|x l IH]; intros w; simpl.
  - rewrite app_nil_r. now destruct w.
  - unfold bind. rewrite Hbody, IH. cbn [io_drv io_trace]. now rewrite <- app_assoc.
Qed.

Lemma input_init_channel_run (p : iqs269_private) (i j : nat) (w : io_world) :
  input_init_channel p i j w
  = (Ok tt, IoWorld (io_drv w) (io_trace w ++ chan_caps p i j)).
Proof.
  unfold chan_caps, input_init_channel, bind, when, io_emit, modify, ret. cbv zeta.
  destruct w as [q t].
  repeat match goal with |- context [if ?c then _ else _] => destruct c end;
    cbn [io_drv io_trace fst snd app]; rewrite ?app_nil_r, <- ?app_assoc; reflexivity.
Qed.

Lemma input_init_keypad (env : io_env) (p : iqs269_private) (t : list io) :
  alloc_ok env keypad = true ->
  iqs269_input_init env (IoWorld p t)
  = for_each (seq 0 (Z.to_nat IQS269_NUM_SL)) (input_init_slider env p)
      (IoWorld p (t ++ keypad_caps p)).
Proof.
  intros Halloc. unfold iqs269_input_init. rewrite Halloc. cbn [negb].
  rewrite bind_gets. cbn [io_drv]. unfold bind at 1.
  rewrite (io_for_each_run
             (fun i => flat_map (chan_caps p i) (seq 0 (Z.to_nat IQS269_NUM_CH)))).
  - reflexivity.
  - intros i w. apply io_for_each_run. intros j w'. apply input_init_channel_run.
Qed.

Lemma input_init_slider_ok (env : io_env) (p : iqs269_private) (i : nat)
    (w w' : io_world) :
  input_init_slider env p i w = (Ok tt, w') ->
  w' = IoWorld (io_drv w) (io_trace w ++ slider_acts p i).
Proof.
  unfold input_init_slider, slider_acts.
  destruct (slider_id_eqb (iqs269_slider_type p i) IQS269_SLIDER_NONE).
  { intros [= <-]. rewrite app_nil_r. now destruct w. }
  destruct (negb (alloc_ok env (slider i))); [discriminate|].
  unfold bind at 1.
  rewrite (io_for_each_run
             (fun j => if (sl_code p !!! i) !!! j =? KEY_RESERVED then []
                       else [input_set_capability (slider i) EV_KEY
                               ((sl_code p !!! i) !!! j)])).
  2: { intros j w0. unfold when, io_emit, modify, ret.
       destruct (_ =? _); cbn [negb]; [rewrite app_nil_r; now destruct w0 | reflexivity]. }
  unfold bind, when, io_emit, modify, ret, check, throw.
  destruct (slider_id_eqb (iqs269_slider_type p i) IQS269_SLIDER_RAW);
    cbn [io_drv io_trace]; destruct (register_result env (slider i) =? 0);
    intros [= <-]; change (Z.to_nat IQS269_NUM_GESTURES) with 4%nat;
    cbn [seq flat_map app]; rewrite <- ?app_assoc; cbn [app]; reflexivity.
Qed.

(** The set-up trace of a successful [iqs269_input_init]. *)
Lemma input_init_ok (env : io_env) (p : iqs269_private) (t : list io) (w' : io_world) :
  iqs269_input_init env (IoWorld p t) = (Ok tt, w') ->
  w' = IoWorld p (t ++ keypad_caps p ++ slider_acts p 0 ++ slider_acts p 1).
Proof.
  destruct (alloc_ok env keypad) eqn:Halloc;
    [|unfold iqs269_input_init; rewrite Halloc; discriminate].
  rewrite (input_init_keypad env p t Halloc).
  change (Z.to_nat IQS269_NUM_SL) with 2%nat. cbn [seq for_each].
  intros H.
  apply bind_ok_inv in H. destruct H as ([] & w1 & H0 & H).
  apply bind_ok_inv in H. destruct H as ([] & w2 & H1 & H).
  injection H as <-.
  apply input_init_slider_ok in H0. subst w1.
  apply input_init_slider_ok in H1. subst w2.
  cbn [io_drv io_trace]. now rewrite <- !app_assoc.
Qed.

Lemma keypad_caps_in (p : iqs269_private) (i j : nat) (a : io) :
  (i < length iqs269_events)%nat -> (j < 8)%nat ->
  In a (chan_caps p i j) -> In a (keypad_caps p).
Proof.
  intros Hi Hj Ha. unfold keypad_caps.
  apply in_flat_map. exists i. split; [apply in_seq; lia|].
  apply in_flat_map. exists j. split; [|exact Ha].
  apply in_seq. change (Z.to_nat IQS269_NUM_CH) with 8%nat. lia.
Qed.

Lemma report_channel_declared (caps : list io) (p : iqs269_private)
    (i : nat) (state : Z) (j : nat) :
  (forall a, In a (chan_caps p i j) -> In a caps) ->
  emits (declared caps) (report_channel p i state j) tt.
Proof.
  intros Hcaps. unfold report_channel. cbv zeta.
  assert (Hrun := input_init_channel_run p i j (IoWorld p [])).
  unfold input_init_channel in Hrun. cbv zeta in Hrun.
  unfold bind, when, io_emit, modify, ret in Hrun. cbn [io_drv io_trace] in Hrun.
  eapply emits_bind.
  - destruct ((Z.of_nat j =? IQS269_CHx_HALL_ACTIVE) && hall_enable p
              && enabled (switches p !!! i)) eqn:Hsw; [|apply emits_ret].
    apply emits_emit. cbn [declared]. apply Hcaps.
    repeat match type of Hrun with context [if ?c then _ else _] => destruct c end;
      injection Hrun as Hrun; rewrite <- Hrun; cbn; auto.
  - destruct (negb (((Z.of_nat j =? IQS269_CHx_HALL_ACTIVE)
                     || (Z.of_nat j =? IQS269_CHx_HALL_INACTIVE)) && hall_enable p))
      eqn:Hkey; [|apply emits_ret].
    apply emits_emit. cbn [declared].
    destruct (Z.eqb_spec (keycode p !!! (i * Z.to_nat IQS269_NUM_CH + j)%nat) KEY_RESERVED)
      as [Hres | Hres]; [left; exact Hres|].
    right. apply Hcaps.
    cbn [negb] in Hrun.
    repeat match type of Hrun with context [if ?c then _ else _] => destruct c end;
      injection Hrun as Hrun; rewrite <- Hrun; cbn; auto.
Qed.

Lemma slider_acts_key (p : iqs269_private) (i j : nat) :
  iqs269_slider_type p i <> IQS269_SLIDER_NONE -> (j < 4)%nat ->
  (sl_code p !!! i) !!! j <> KEY_RESERVED ->
  In (input_set_capability (slider i) EV_KEY ((sl_code p !!! i) !!! j)) (slider_acts p i).
Proof.
  intros Hty Hj Hcode. unfold slider_acts.
  destruct (iqs269_slider_type p i) eqn:Ety; [contradiction | |]; cbn [slider_id_eqb];
    (apply in_or_app; left; apply in_flat_map; exists j;
     split; [apply in_seq; change (Z.to_nat IQS269_NUM_GESTURES) with 4%nat; lia|];
     destruct (Z.eqb_spec ((sl_code p !!! i) !!! j) KEY_RESERVED);
       [contradiction | now left]).
Qed.

Lemma slider_acts_raw (p : iqs269_private) (i : nat) :
  iqs269_slider_type p i = IQS269_SLIDER_RAW ->
  In (input_set_capability (slider i) EV_KEY BTN_TOUCH) (slider_acts p i) /\
  In (input_set_abs_params (slider i) ABS_X 0 255 0 0) (slider_acts p i).
Proof.
  intros Hty. unfold slider_acts. rewrite Hty. cbn [slider_id_eqb].
  split; apply in_or_app; right; apply in_or_app; left; cbn; auto.
Qed.

Lemma report_slider_declared (caps : list io) (p : iqs269_private)
    (flags : iqs269_flags) (slider_x : list Z) (g : Z) (i : nat) :
  (forall a, In a (slider_acts p i) -> In a caps) ->
  emits (declared caps) (report_slider p flags slider_x g i)
    (u8 (Z.shiftr g (Z.of_nat i * IQS269_NUM_GESTURES))).
Proof.
  intros Hcaps. unfold report_slider. cbv zeta.
  assert (Hkey : iqs269_slider_type p i <> IQS269_SLIDER_NONE ->
            forall j v, In j (seq 0 (Z.to_nat IQS269_NUM_GESTURES)) ->
              declared caps (input_report_key (slider i) ((sl_code p !!! i) !!! j) v)).
  { intros Hty j v Hj. apply in_seq in Hj.
    change (Z.to_nat IQS269_NUM_GESTURES) with 4%nat in Hj. cbn [declared].
    destruct (Z.eq_dec ((sl_code p !!! i) !!! j) KEY_RESERVED) as [Hres | Hres];
      [left; exact Hres | right].
    apply Hcaps, slider_acts_key; [exact Hty | lia | exact Hres]. }
  destruct (iqs269_slider_type p i) eqn:Ety.
  - apply emits_ret.
  - assert (Hne : IQS269_SLIDER_KEY <> IQS269_SLIDER_NONE) by discriminate.
    eapply emits_bind; [|eapply emits_bind; [apply emits_emit; exact I | apply emits_ret]].
    unfold report_slider_key.
    eapply emits_bind.
    + apply emits_for_each_in. intros j Hj. apply emits_emit. now apply Hkey.
    + destruct (negb _); [apply emits_ret|].
      eapply emits_bind; [apply emits_emit; exact I|].
      apply emits_for_each_in. intros j Hj.
      destruct (negb (Nat.eqb j (gesture_id_val IQS269_GESTURE_HOLD)));
        [apply emits_emit; now apply Hkey | apply emits_ret].
  - destruct (slider_acts_raw p i Ety) as [Htouch Habs].
    eapply emits_bind; [|eapply emits_bind; [apply emits_emit; exact I | apply emits_ret]].
    unfold report_slider_raw. cbv zeta.
    eapply emits_bind.
    + apply emits_emit. cbn [declared]. right. apply Hcaps, Htouch.
    + apply emits_when, emits_emit. cbn [declared]. apply Hcaps, Habs.
Qed.

Lemma chan_caps_keypad (p : iqs269_private) (i j : nat) (a : io) :
  In a (chan_caps p i j) -> exists type code, a = input_set_capability keypad type code.
Proof.
  assert (Hrun := input_init_channel_run p i j (IoWorld p [])).
  unfold input_init_channel in Hrun. cbv zeta in Hrun.
  unfold bind, when, io_emit, modify, ret in Hrun. cbn [io_drv io_trace] in Hrun.
  repeat match type of Hrun with context [if ?c then _ else _] => destruct c end;
    injection Hrun as Hrun; rewrite <- Hrun; cbn;
    intros H; repeat (destruct H as [<- | H]; [eauto|]); destruct H.
Qed.

(** X21.  Nothing is reported that was not declared.  When
    [iqs269_input_init] has succeeded on a structure, every key the two
    decode loops of [iqs269_report] send for that structure carries the
    reserved code or a code declared as a capability of the same device,
    every switch was declared, and every position goes to an axis whose
    range was declared.  The keypad itself is not registered by
    [iqs269_input_init]. *)
Theorem reported_codes_declared (env : io_env) (p : iqs269_private)
    (flags : iqs269_flags) (slider_x : list Z) :
  fst (iqs269_input_init env (IoWorld p [])) = Ok tt ->
  let caps := io_trace (snd (iqs269_input_init env (IoWorld p []))) in
  (forall i, (i < length iqs269_events)%nat ->
     emits (declared caps) (report_event p flags i) tt) /\
  (forall g i, (i < 2)%nat ->
     emits (declared caps) (report_slider p flags slider_x g i)
       (u8 (Z.shiftr g (Z.of_nat i * IQS269_NUM_GESTURES)))) /\
  ~ In (input_register_device keypad) caps.
Proof.
  intros Hok. cbv zeta.
  destruct (iqs269_input_init env (IoWorld p [])) as [r w'] eqn:Hrun.
  cbn [fst] in Hok. subst r.
  apply input_init_ok in Hrun. subst w'. cbn [snd io_trace app].
  split; [|split].
  - intros i Hi. unfold report_event. cbv zeta.
    apply emits_for_each_in. intros j Hj. apply in_seq in Hj.
    change (Z.to_nat IQS269_NUM_CH) with 8%nat in Hj.
    apply report_channel_declared. intros a Ha.
    apply in_or_app. left. apply (keypad_caps_in p i j); [exact Hi | lia | exact Ha].
  - intros g i Hi. apply report_slider_declared. intros a Ha.
    apply in_or_app. right. apply in_or_app.
    destruct i as [|[|i]]; [left | right | lia]; exact Ha.
  - intros Hin. apply in_app_or in Hin. destruct Hin as [Hin | Hin].
    + unfold keypad_caps in Hin. apply in_flat_map in Hin.
      destruct Hin as (i & _ & Hin). apply in_flat_map in Hin.
      destruct Hin as (j & _ & Hin).
      destruct (chan_caps_keypad p i j _ Hin) as (ty & c & Heq). discriminate Heq.
    + assert (Hs : forall i, In (input_register_device keypad) (slider_acts p i) -> False).
      { intros i. unfold slider_acts.
        destruct (slider_id_eqb (iqs269_slider_type p i) IQS269_SLIDER_NONE);
          [intros []|].
        intros H. apply in_app_or in H. destruct H as [H | H].
        - apply in_flat_map in H. destruct H as (j & _ & H).
          destruct (_ =? _); [destruct H|]. destruct H as [H | []]. discriminate H.
        - apply in_app_or in H. destruct H as [H | H].
          + destruct (slider_id_eqb _ _); [|destruct H].
            destruct H as [H | [H | []]]; discriminate H.
          + destruct H as [H | []]. discriminate H. }
      apply in_app_or in Hin. destruct Hin as [Hin | Hin]; exact (Hs _ Hin).
Qed.

Lemma reported_codes_declared_witness :
  let env := IoEnv (Err (- EIO)) (Err (- EIO)) (fun _ => 0) (fun _ => true) (fun _ => 0) in
  let caps := io_trace (snd (iqs269_input_init env (IoWorld slider_private []))) in
  emits (declared caps) (report_event slider_private prox2_flags 0) tt /\
  emits (declared caps) (report_slider slider_private tap_flags [] 1 0) 1 /\
  In (input_set_capability keypad EV_KEY 0x1e) caps.
Proof.
  intros env caps.
  assert (Hok : fst (iqs269_input_init env (IoWorld slider_private [])) = Ok tt)
    by (vm_compute; reflexivity).
  destruct (reported_codes_declared env slider_private prox2_flags [] Hok)
    as (Hev & _ & _).
  destruct (reported_codes_declared env slider_private tap_flags [] Hok)
    as (_ & Hsl & _).
  split; [apply Hev; cbn; lia|].
  split; [exact (Hsl 1 0%nat ltac:(lia))|].
  vm_compute. tauto.
Defined.
(** ** Gesture timeouts and the swipe threshold, through [iqs269_parse_prop] *)

(** What a successful run of the "linux,keycodes" block leaves in the three
    fields, property by property. *)
Lemma parse_prop_gestures_stores (dev : fwnode_handle) (general general' : Z)
    (s s' : iqs269_private) :
  parse_prop_gestures dev general s = (Ok general', s') ->
  let step := if fw_num (ver_info s) <? IQS269_VER_INFO_FW_NUM_3 then 4 else 16 in
  let r := sys_reg s in
  let r' := sys_reg s' in
  if fwnode_property_present dev "linux,keycodes" then
    match fwnode_property_read_u32 dev "azoteq,timeout-tap-ms" with
    | Ok v => v <= 255 * step /\ (0 <= v -> timeout_tap r' = v / step)
    | Err _ => timeout_tap r' = timeout_tap r
    end /\
    match fwnode_property_read_u32 dev "azoteq,timeout-swipe-ms" with
    | Ok v => v <= 255 * step /\ (0 <= v -> timeout_swipe r' = v / step)
    | Err _ => timeout_swipe r' = timeout_swipe r
    end /\
    match fwnode_property_read_u32 dev "azoteq,thresh-swipe" with
    | Ok v => v <= 255 /\ (0 <= v -> thresh_swipe r' = v)
    | Err _ => thresh_swipe r' = thresh_swipe r
    end
  else
    timeout_tap r' = timeout_tap r /\ timeout_swipe r' = timeout_swipe r /\
    thresh_swipe r' = thresh_swipe r.
Proof.
  intros H. cbv zeta.
  destruct (fwnode_property_present dev "linux,keycodes") eqn:Hpresent.
  2:{ unfold parse_prop_gestures in H. rewrite Hpresent in H.
      injection H as _ <-. repeat split. }
  destruct (present_lookup dev _ Hpresent) as [codes Hcodes].
  rewrite (parse_prop_gestures_run dev general s codes Hcodes) in H.
  destruct (_ >? _); [discriminate|]. cbv zeta in H.
  destruct (parse_gesture_params dev _ _) as [[[]|e] s2] eqn:Hrun; [|discriminate].
  injection H as _ <-.
  revert Hrun.
  unfold parse_gesture_params, bind, if_read_u32, throw, modify, ret.
  unfold IQS269_TIMEOUT_TAP_MS_MAX, IQS269_TIMEOUT_SWIPE_MS_MAX, IQS269_THRESH_SWIPE_MAX.
  destruct (fw_num (ver_info s) <? IQS269_VER_INFO_FW_NUM_3);
    change (4080 / 1) with 4080; change (4080 / 4) with 1020;
    change (16 / 1) with 16; change (16 / 4) with 4;
    destruct (fwnode_property_read_u32 dev "azoteq,timeout-tap-ms") as [vt|et];
    destruct (fwnode_property_read_u32 dev "azoteq,timeout-swipe-ms") as [vs|es];
    destruct (fwnode_property_read_u32 dev "azoteq,thresh-swipe") as [vh|eh];
    cbv beta iota; gtb_cases; cbv beta iota;
    try (intros [= <-]); try discriminate; cbn;
    repeat split; try lia; try (intros Hv; apply u8_small; try lia;
      (split; [apply Z.div_pos; lia | apply Z.div_lt_upper_bound; lia])).
Qed.

(** The stages of [parse_prop_general] around the "linux,keycodes" block. *)
Lemma parse_prop_general_gestures (dev : fwnode_handle) (s p' : iqs269_private) :
  parse_prop_general dev s = (Ok tt, p') ->
  exists general general' general'' s',
    parse_prop_gestures dev general s = (Ok general', s') /\
    p' = upd_sys_reg (set_general general'') s'.
Proof.
  unfold parse_prop_general. rewrite bind_gets. cbv zeta. intros H.
  apply bind_ok_inv in H. destruct H as (g1 & s1 & H1 & H).
  apply bind_ok_inv in H. destruct H as (g2 & s2 & H2 & H).
  apply bind_ok_inv in H. destruct H as (g3 & s3 & H3 & H).
  rewrite bind_gets in H. injection H as <-.
  assert (E1 : s1 = s).
  { destruct (fwnode_property_read_u32 dev "azoteq,suspend-mode");
      [destruct (_ >? _); [discriminate H1|]|]; now injection H1 as _ <-. }
  subst s1.
  assert (E2 : s2 = s).
  { destruct (fwnode_property_read_u32 dev "azoteq,ulp-update");
      [destruct (_ >? _); [discriminate H2|]|]; now injection H2 as _ <-. }
  subst s2.
  eexists g2, g3, _, s3. split; [exact H3 | reflexivity].
Qed.

(** C9, as the code has it.  After [iqs269_parse_prop] has accepted a device
    node with [linux,keycodes], the tap timeout and the swipe timeout hold
    the supplied value divided by a step taken from the firmware number: 4 ms
    per unit below [IQS269_VER_INFO_FW_NUM_3], 16 ms per unit from there on,
    and no more than 255 steps are accepted.  The swipe threshold is stored
    as supplied, checked against 255 only, whatever the firmware number.  A
    property that is absent leaves the value read from the device, and
    without [linux,keycodes] none of the three properties is read. *)
Theorem gesture_steps_by_firmware (bus : regmap) (dev : fwnode_handle)
    (p p' : iqs269_private) (image : iqs269_sys_reg) :
  sys_settings_read bus = Ok image ->
  iqs269_parse_prop bus dev p = (Ok tt, p') ->
  let step := if fw_num (ver_info p) <? IQS269_VER_INFO_FW_NUM_3 then 4 else 16 in
  let r' := sys_reg p' in
  if fwnode_property_present dev "linux,keycodes" then
    match fwnode_property_read_u32 dev "azoteq,timeout-tap-ms" with
    | Ok v => v <= 255 * step /\ (0 <= v -> timeout_tap r' = v / step)
    | Err _ => timeout_tap r' = timeout_tap image
    end /\
    match fwnode_property_read_u32 dev "azoteq,timeout-swipe-ms" with
    | Ok v => v <= 255 * step /\ (0 <= v -> timeout_swipe r' = v / step)
    | Err _ => timeout_swipe r' = timeout_swipe image
    end /\
    match fwnode_property_read_u32 dev "azoteq,thresh-swipe" with
    | Ok v => v <= 255 /\ (0 <= v -> thresh_swipe r' = v)
    | Err _ => thresh_swipe r' = thresh_swipe image
    end
  else
    timeout_tap r' = timeout_tap image /\
    timeout_swipe r' = timeout_swipe image /\
    thresh_swipe r' = thresh_swipe image.
Proof.
  intros Hread0 Hrun. cbv zeta.
  destruct (parse_prop_stages bus dev p p' Hrun)
    as (image' & s1 & s2 & s3 & s4 & Hread & Hrates & Hmisc & Hhold & Hloop & Hgen).
  rewrite Hread0 in Hread. injection Hread as <-.
  (* nothing before the general word touches the three fields *)
  pose (kept := fun s : iqs269_private =>
    (ver_info s, timeout_tap (sys_reg s), timeout_swipe (sys_reg s),
     thresh_swipe (sys_reg s))
    = (ver_info p, timeout_tap image, timeout_swipe image, thresh_swipe image)).
  assert (H1 : kept s1).
  { assert (Hk : maintains kept (parse_prop_rates dev))
      by (unfold kept; prop_steps; keep_rates).
    match type of Hrates with _ ?s = _ => specialize (Hk s eq_refl) end.
    now rewrite Hrates in Hk. }
  assert (H2 : kept s2).
  { assert (Hk : maintains kept (parse_prop_misc dev))
      by (unfold kept; prop_steps; keep_rates).
    specialize (Hk _ H1). now rewrite Hmisc in Hk. }
  assert (H3 : kept s3).
  { assert (Hk : maintains kept (parse_prop_touch_hold dev))
      by (unfold kept; prop_steps; keep_rates).
    specialize (Hk (clear_masks s2) H2). now rewrite Hhold in Hk. }
  assert (H4 : kept s4).
  { assert (Hk : maintains kept (for_each (node_children dev) iqs269_parse_chan))
      by (unfold kept; prop_steps; keep_rates).
    match type of Hloop with _ _ _ ?s = _ => specialize (Hk s H3) end.
    now rewrite Hloop in Hk. }
  unfold kept in H4. injection H4 as Hv Ht Hs Hh.
  destruct (parse_prop_general_gestures dev _ _ Hgen)
    as (g & g' & g'' & s5 & Hgest & ->).
  apply parse_prop_gestures_stores in Hgest. cbv zeta in Hgest.
  cbn [sys_reg upd_sys_reg set_sys_reg ver_info timeout_tap timeout_swipe
       thresh_swipe set_redo_ati set_general] in Hgest |- *.
  rewrite Hv, Ht, Hs, Hh in Hgest. exact Hgest.
Qed.

(** A tap timeout of 400 ms and a swipe threshold of 200 on both sides of
    the firmware threshold: the timeout becomes 100 and 25 units, the
    threshold 200 and 200. *)
Lemma gesture_steps_by_firmware_witness :
  let old := snd (iqs269_parse_prop (bus_with quiet_flags) gesture_node
                    (with_fw_num 0x02 kzalloc_private)) in
  let new := snd (iqs269_parse_prop (bus_with quiet_flags) gesture_node
                    (with_fw_num 0x10 kzalloc_private)) in
  timeout_tap (sys_reg old) = 100 /\ timeout_tap (sys_reg new) = 25 /\
  thresh_swipe (sys_reg old) = 200 /\ thresh_swipe (sys_reg new) = 200.
Proof.
  intros old new.
  assert (Hread : sys_settings_read (bus_with quiet_flags) = Ok zero_sys_reg)
    by reflexivity.
  assert (Hold : iqs269_parse_prop (bus_with quiet_flags) gesture_node
                   (with_fw_num 0x02 kzalloc_private) = (Ok tt, old))
    by (vm_compute; reflexivity).
  assert (Hnew : iqs269_parse_prop (bus_with quiet_flags) gesture_node
                   (with_fw_num 0x10 kzalloc_private) = (Ok tt, new))
    by (vm_compute; reflexivity).
  pose proof (gesture_steps_by_firmware _ _ _ _ _ Hread Hold) as Ho.
  pose proof (gesture_steps_by_firmware _ _ _ _ _ Hread Hnew) as Hn.
  cbv zeta in Ho, Hn.
  change (fwnode_property_present gesture_node "linux,keycodes") with true in Ho, Hn.
  change (fwnode_property_read_u32 gesture_node "azoteq,timeout-tap-ms")
    with (@Ok Z 400) in Ho, Hn.
  change (fwnode_property_read_u32 gesture_node "azoteq,thresh-swipe")
    with (@Ok Z 200) in Ho, Hn.
  cbv iota in Ho, Hn.
  destruct Ho as ((_ & Hto) & _ & (_ & Hho)).
  destruct Hn as ((_ & Htn) & _ & (_ & Hhn)).
  assert (H400 : 0 <= 400) by lia. assert (H200 : 0 <= 200) by lia.
  split; [exact (Hto H400)|]. split; [exact (Htn H400)|].
  split; [exact (Hho H200) | exact (Hhn H200)].
Defined.

(** C9, as stated, fails for the swipe threshold: no pair of steps, the
    older firmware's the finer, yields the stored threshold by division.
    On firmware 0x10, [iqs269_parse_prop] stores a supplied threshold of 200
    as 200. *)
Lemma thresh_swipe_not_fw_scaled :
  ~ fw_derived_step "azoteq,thresh-swipe" thresh_swipe.
Proof.
  intros (step_old & step_new & Hsteps & H).
  assert (Hrun : iqs269_parse_prop (bus_with quiet_flags) gesture_node
                   (with_fw_num 0x10 kzalloc_private)
                 = (Ok tt, snd (iqs269_parse_prop (bus_with quiet_flags) gesture_node
                                  (with_fw_num 0x10 kzalloc_private))))
    by (vm_compute; reflexivity).
  assert (Hpos : 0 <= 200) by lia.
  specialize (H (bus_with quiet_flags) gesture_node 200
                (with_fw_num 0x10 kzalloc_private) _ eq_refl Hpos eq_refl Hrun).
  assert (Hstored :
    thresh_swipe (sys_reg (snd (iqs269_parse_prop (bus_with quiet_flags) gesture_node
                                  (with_fw_num 0x10 kzalloc_private)))) = 200)
    by reflexivity.
  rewrite Hstored in H.
  change (fw_num (ver_info (with_fw_num 16 kzalloc_private)) <? IQS269_VER_INFO_FW_NUM_3)
    with false in H.
  cbv iota in H.
  assert (Hlt : 200 / step_new < 200) by (apply Z.div_lt; lia).
  lia.
Qed.
(** ** Hysteresis nibbles, through [iqs269_parse_chan] *)

Ltac nibble_bits V W h n :=
  unfold lo_nibble, hi_nibble,
    IQS269_CHx_HYST_TOUCH_MASK, IQS269_CHx_HYST_DEEP_MASK, IQS269_CHx_HYST_DEEP_SHIFT;
  apply Z.bits_inj'; intros n ?;
  repeat bits_step; rewrite ?Z.testbit_ones by lia; repeat bits_step.

(** Storing the touch nibble, and storing the deep-touch nibble. *)
Lemma touch_store_nibbles (h V : Z) :
  0 <= V <= 15 ->
  let h' := u8 (Z.lor (u8 (Z.land h (Z.lnot IQS269_CHx_HYST_TOUCH_MASK))) V) in
  lo_nibble h' = V /\ hi_nibble h' = hi_nibble h /\ 0 <= h' < 256.
Proof.
  intros HV. cbv zeta. split; [|split; [|apply u8_range]].
  - nibble_bits V V h n.
    pose proof (testbit_small V 4 n) as HVn.
    destruct (Z.ltb_spec n 4).
    + bits_cases.
    + rewrite HVn by lia. bits_cases.
  - nibble_bits V V h n.
    rewrite (testbit_small V 4 (n + 4)) by lia. bits_cases.
Qed.

Lemma deep_store_nibbles (h W : Z) :
  0 <= W <= 15 ->
  let h' := u8 (Z.lor (u8 (Z.land h (Z.lnot IQS269_CHx_HYST_DEEP_MASK)))
                  (Z.shiftl W IQS269_CHx_HYST_DEEP_SHIFT)) in
  lo_nibble h' = lo_nibble h /\ hi_nibble h' = W /\ 0 <= h' < 256.
Proof.
  intros HW. cbv zeta. split; [|split; [|apply u8_range]].
  - nibble_bits W W h n.
    destruct (Z.ltb_spec n 4).
    + rewrite (Z.testbit_neg_r W (n - 4)) by lia. bits_cases.
    + bits_cases.
  - nibble_bits W W h n.
    replace (n + 4 - 4) with n by lia.
    pose proof (testbit_small W 4 n) as HWn.
    destruct (Z.ltb_spec n 4).
    + bits_cases.
    + rewrite HWn by lia. bits_cases.
Qed.

(** A byte is its two nibbles. *)
Lemma byte_of_nibbles (b : Z) :
  0 <= b < 256 ->
  Z.shiftr b 4 = hi_nibble b /\
  b = Z.lor (Z.shiftl (hi_nibble b) 4) (lo_nibble b).
Proof.
  intros Hb. split.
  - nibble_bits b b b n.
    destruct (Z.ltb_spec n 4).
    + bits_cases.
    + rewrite (testbit_small b 8 (n + 4)) by lia. bits_cases.
  - nibble_bits b b b n.
    destruct (Z.ltb_spec n 4).
    + rewrite (Z.testbit_neg_r _ (n - 4)) by lia. bits_cases.
    + repeat bits_step. rewrite ?Z.testbit_ones by lia.
      replace (n - 4 + 4) with n by lia.
      destruct (Z.ltb_spec n 8).
      * bits_cases.
      * rewrite (testbit_small b 8 n) by lia. bits_cases.
Qed.

(** Stores that keep the hysteresis byte of channel [n]. *)
Lemma hyst_kept_sys (n : nat) (h : Z) (s : iqs269_private)
    (f : iqs269_sys_reg -> iqs269_sys_reg) :
  (forall r, ch_reg (f r) = ch_reg r) ->
  hyst_kept n h s -> hyst_kept n h (upd_sys_reg f s).
Proof. intros Hch [Hl Hh]. unfold hyst_kept. cbn. rewrite Hch. now split. Qed.

Lemma hyst_kept_ch (n : nat) (h : Z) (s : iqs269_private)
    (g : iqs269_ch_reg -> iqs269_ch_reg) :
  (forall c, hyst (g c) = hyst c) -> (n < 8)%nat ->
  hyst_kept n h s -> hyst_kept n h (upd_ch_reg n g s).
Proof.
  intros Hg Hn [Hl Hh]. unfold hyst_kept.
  rewrite upd_ch_reg_length, ch_reg_upd_same by lia. rewrite Hg. now split.
Qed.

Ltac hyst_finish Hn :=
  first
    [ apply parse_chan_engine_maintains
    | apply maintains_modify; intros ? ?; first
        [ match goal with H : hyst_kept _ _ _ |- _ => exact H end
        | apply hyst_kept_ch; [reflexivity | exact Hn | assumption]
        | apply hyst_kept_sys; [reflexivity | assumption] ]
    | apply maintains_zoom; intros ? ? ?; apply hyst_kept_ch;
        [reflexivity | exact Hn | assumption] ].

Ltac keep_hyst Hn I HI H :=
  lazymatch type of H with
  | bind ?m ?k ?s = _ =>
      let K := fresh "K" in
      let s1 := fresh "s" in
      let HI' := fresh "HI" in
      let H' := fresh "H" in
      assert (K : maintains I m) by (chan_steps; hyst_finish Hn);
      destruct (bind_ok_keep I m k s _ _ K HI H) as (? & s1 & HI' & H');
      clear H HI K; rename H' into H; rename HI' into HI; cbv beta in H, HI
  end.

(** One event of the loop: what it does to the hysteresis byte of its
    channel. *)
Lemma parse_event_hyst_ok (reg : Z) (ch_node : fwnode_handle) (i : nat)
    (s s' : iqs269_private) (h : Z) :
  0 <= reg < 8 -> (i < 6)%nat ->
  hyst_kept (Z.to_nat reg) h s ->
  parse_event reg ch_node i s = (Ok tt, s') ->
  exists h', hyst_kept (Z.to_nat reg) h' s' /\
    match event_hyst ch_node i with
    | Some v =>
        v <= 15 /\
        (0 <= v ->
         if (2 <=? i)%nat && (i <=? 3)%nat
         then lo_nibble h' = v /\ hi_nibble h' = hi_nibble h /\ 0 <= h' < 256
         else if (4 <=? i)%nat
         then lo_nibble h' = lo_nibble h /\ hi_nibble h' = v /\ 0 <= h' < 256
         else h' = h)
    | None => h' = h
    end.
Proof.
  intros Hreg Hi HI H.
  assert (Hn : (Z.to_nat reg < 8)%nat) by lia.
  unfold parse_event in H. unfold event_hyst.
  destruct (fwnode_get_named_child_node ch_node (name (iqs269_events !!! i)))
    as [ev_node|].
  2:{ injection H as <-. exists h. split; [exact HI | reflexivity]. }
  keep_hyst Hn (hyst_kept (Z.to_nat reg) h) HI H.
  apply bind_ok_inv in H. destruct H as ([] & s2 & Hh & H).
  assert (Hcode : forall h2, hyst_kept (Z.to_nat reg) h2 s2 -> hyst_kept (Z.to_nat reg) h2 s').
  { intros h2 H2.
    assert (K : maintains (hyst_kept (Z.to_nat reg) h2) (parse_event_code reg i ev_node))
      by (chan_steps; hyst_finish Hn).
    specialize (K s2 H2). now rewrite H in K. }
  clear H. unfold parse_event_hyst, if_read_u32 in Hh.
  destruct (fwnode_property_read_u32 ev_node "azoteq,hyst") as [v | e].
  2:{ injection Hh as <-. exists h. split; [apply Hcode, HI | reflexivity]. }
  unfold IQS269_CHx_HYST_MAX in Hh.
  destruct (Z.gtb_spec v 15) as [Hgt | Hle]; [discriminate Hh|].
  destruct HI as [Hl Hhy].
  destruct i as [|[|[|[|[|[|i]]]]]]; try lia; cbn in Hh;
    unfold modify, ret in Hh; injection Hh as <-;
    (eexists; split;
     [ apply Hcode; split;
       [ rewrite ?upd_ch_reg_length; exact Hl | reflexivity ]
     | split; [lia|]; intros Hv; cbn [Nat.leb andb];
       rewrite ?ch_reg_upd_same by lia; cbn [hyst set_hyst]; rewrite ?Hhy ]).
  - reflexivity.
  - reflexivity.
  - apply touch_store_nibbles. lia.
  - apply touch_store_nibbles. lia.
  - apply deep_store_nibbles. lia.
  - apply deep_store_nibbles. lia.
Qed.

(** The hysteresis byte of a channel after its node has been parsed: each
    nibble holds what the node supplies for it, or what it held. *)
Lemma parse_chan_hyst_nibbles (ch_node : fwnode_handle) (p p' : iqs269_private)
    (reg : Z) :
  length (ch_reg (sys_reg p)) = 8%nat ->
  fwnode_property_read_u32 ch_node "reg" = Ok reg -> 0 <= reg ->
  hyst_cells_u32 ch_node = true ->
  iqs269_parse_chan ch_node p = (Ok tt, p') ->
  let h := hyst_byte reg p in
  let h' := hyst_byte reg p' in
  length (ch_reg (sys_reg p')) = 8%nat /\
  (forall v, touch_hyst ch_node = Some v -> 0 <= v <= 15) /\
  (forall v, deep_hyst ch_node = Some v -> 0 <= v <= 15) /\
  lo_nibble h' = match touch_hyst ch_node with Some v => v | None => lo_nibble h end /\
  hi_nibble h' = match deep_hyst ch_node with Some v => v | None => hi_nibble h end /\
  (0 <= h < 256 \/ touch_hyst ch_node <> None \/ deep_hyst ch_node <> None ->
   0 <= h' < 256).
Proof.
  intros Hlen Hreg Hpos Hcells H. cbv zeta.
  unfold iqs269_parse_chan in H. apply bind_ok_inv in H.
  destruct H as (reg' & s0 & Hr & H).
  unfold lift in Hr. rewrite Hreg in Hr. injection Hr as <- <-.
  destruct (reg >=? IQS269_NUM_CH) eqn:Hguard; [discriminate H|].
  rewrite Z.geb_leb in Hguard. apply Z.leb_gt in Hguard.
  unfold IQS269_NUM_CH in Hguard. cbv zeta in H.
  assert (Hn : (Z.to_nat reg < 8)%nat) by lia.
  assert (Hr8 : 0 <= reg < 8) by lia.
  unfold hyst_byte. set (h := hyst (ch_reg (sys_reg p) !!! Z.to_nat reg)).
  assert (HI : hyst_kept (Z.to_nat reg) h p) by (split; [exact Hlen | reflexivity]).
  clearbody h. revert HI H. generalize p at 1 2. intros s HI H.
  repeat keep_hyst Hn (hyst_kept (Z.to_nat reg) h) HI H.
  change (length iqs269_events) with 6%nat in H. cbn [seq for_each] in H.
  assert (Hc : forall i, (i < 6)%nat ->
                 match event_hyst ch_node i with Some v => 0 <= v | None => True end).
  { intros i Hi. unfold hyst_cells_u32 in Hcells. rewrite forallb_forall in Hcells.
    specialize (Hcells i ltac:(apply in_seq; cbn; lia)).
    destruct (event_hyst ch_node i); [lia | exact I]. }
  pose proof (Hc 0%nat ltac:(lia)) as C0. pose proof (Hc 1%nat ltac:(lia)) as C1.
  pose proof (Hc 2%nat ltac:(lia)) as C2. pose proof (Hc 3%nat ltac:(lia)) as C3.
  pose proof (Hc 4%nat ltac:(lia)) as C4. pose proof (Hc 5%nat ltac:(lia)) as C5.
  clear Hc Hcells.
  apply bind_ok_inv in H. destruct H as ([] & t1 & E0 & H).
  destruct (parse_event_hyst_ok reg ch_node 0 _ _ h Hr8 ltac:(lia) HI E0) as (h1 & I1 & P0).
  apply bind_ok_inv in H. destruct H as ([] & t2 & E1 & H).
  destruct (parse_event_hyst_ok reg ch_node 1 _ _ h1 Hr8 ltac:(lia) I1 E1) as (h2 & I2 & P1).
  apply bind_ok_inv in H. destruct H as ([] & t3 & E2 & H).
  destruct (parse_event_hyst_ok reg ch_node 2 _ _ h2 Hr8 ltac:(lia) I2 E2) as (h3 & I3 & P2).
  apply bind_ok_inv in H. destruct H as ([] & t4 & E3 & H).
  destruct (parse_event_hyst_ok reg ch_node 3 _ _ h3 Hr8 ltac:(lia) I3 E3) as (h4 & I4 & P3).
  apply bind_ok_inv in H. destruct H as ([] & t5 & E4 & H).
  destruct (parse_event_hyst_ok reg ch_node 4 _ _ h4 Hr8 ltac:(lia) I4 E4) as (h5 & I5 & P4).
  apply bind_ok_inv in H. destruct H as ([] & t6 & E5 & H).
  destruct (parse_event_hyst_ok reg ch_node 5 _ _ h5 Hr8 ltac:(lia) I5 E5) as (h6 & I6 & P5).
  injection H as <-. destruct I6 as [Hl6 ->].
  clear E0 E1 E2 E3 E4 E5 I1 I2 I3 I4 I5 HI.
  split; [exact Hl6|].
  unfold touch_hyst, deep_hyst, pair_hyst. cbn [event_id_val].
  cbn [Nat.leb andb] in P0, P1, P2, P3, P4, P5.
  destruct (event_hyst ch_node 0) as [v0|]; [destruct P0 as [_ P0]; specialize (P0 C0)|];
    subst h1.
  all: destruct (event_hyst ch_node 1) as [v1|]; [destruct P1 as [_ P1]; specialize (P1 C1)|];
    subst h2.
  all: destruct (event_hyst ch_node 2) as [v2|];
    [destruct P2 as [B2 P2]; destruct (P2 C2) as (L2 & U2 & R2); clear P2|subst h3];
  (destruct (event_hyst ch_node 3) as [v3|];
    [destruct P3 as [B3 P3]; destruct (P3 C3) as (L3 & U3 & R3); clear P3|subst h4]);
  (destruct (event_hyst ch_node 4) as [v4|];
    [destruct P4 as [B4 P4]; destruct (P4 C4) as (L4 & U4 & R4); clear P4|subst h5]);
  (destruct (event_hyst ch_node 5) as [v5|];
    [destruct P5 as [B5 P5]; destruct (P5 C5) as (L5 & U5 & R5); clear P5|subst h6]).
  all: repeat split; try (intros ? [= <-]); try lia; try congruence.
  all: try match goal with
           | Hor : _ \/ _ |- _ => destruct Hor as [? | [? | ?]]
           end; try lia; try congruence.
Qed.

(** *** Nodes that are accepted *)

Lemma accepts_ret {S A} (a : A) : accepts (@ret S A a).
Proof. intros s. now exists a, s. Qed.

Lemma accepts_gets {S A} (f : S -> A) : accepts (gets f).
Proof. intros s. now exists (f s), s. Qed.

Lemma accepts_modify {S} (f : S -> S) : accepts (modify f).
Proof. intros s. now exists tt, (f s). Qed.

Lemma accepts_bind {S A B} (m : M S A) (k : A -> M S B) :
  accepts m -> (forall a, accepts (k a)) -> accepts (bind m k).
Proof.
  intros Hm Hk s. destruct (Hm s) as (a & s1 & H1).
  destruct (Hk a s1) as (b & s2 & H2).
  exists b, s2. unfold bind. now rewrite H1.
Qed.

Lemma accepts_when {S} (c : bool) (m : M S unit) : accepts m -> accepts (when c m).
Proof. intros Hm. destruct c; [exact Hm | apply accepts_ret]. Qed.

Lemma accepts_if {S A} (c : bool) (m1 m2 : M S A) :
  accepts m1 -> accepts m2 -> accepts (if c then m1 else m2).
Proof. now destruct c. Qed.

Lemma accepts_zoom {S T A} (get : S -> T) (put : T -> S -> S) (m : M T A) :
  accepts m -> accepts (zoom get put m).
Proof.
  intros Hm s. destruct (Hm (get s)) as (a & t & H).
  exists a, (put t s). unfold zoom. now rewrite H.
Qed.

Lemma accepts_for_each {S A} (l : list A) (body : A -> M S unit) :
  (forall x, accepts (body x)) -> accepts (for_each l body).
Proof.
  intros Hb. induction l as [|x l IH]; cbn [for_each].
  - apply accepts_ret.
  - apply accepts_bind; [apply Hb | intros _; exact IH].
Qed.

(** What the lookups find in a node that has one property. *)
Lemma one_prop_read (nm k k' : string) (v : Z) (cs : list fwnode_handle) :
  fwnode_property_read_u32 (FwNode nm {[ k := [v] ]} cs) k'
  = if decide (k = k') then Ok v else Err (- EINVAL).
Proof.
  unfold fwnode_property_read_u32. cbn [node_props].
  destruct (decide (k = k')) as [<- | Hne].
  - now rewrite lookup_singleton_eq.
  - now rewrite lookup_singleton_ne.
Qed.

Lemma one_prop_present (nm k k' : string) (v : Z) (cs : list fwnode_handle) :
  fwnode_property_present (FwNode nm {[ k := [v] ]} cs) k'
  = if decide (k = k') then true else false.
Proof.
  unfold fwnode_property_present. cbn [node_props].
  destruct (decide (k = k')) as [<- | Hne].
  - now rewrite lookup_singleton_eq.
  - now rewrite lookup_singleton_ne.
Qed.

Lemma one_prop_count (nm k k' : string) (v : Z) (cs : list fwnode_handle) :
  k <> k' ->
  fwnode_property_count_u32 (FwNode nm {[ k := [v] ]} cs) k' = - EINVAL.
Proof.
  intros Hne. unfold fwnode_property_count_u32. cbn [node_props].
  now rewrite lookup_singleton_ne.
Qed.

Ltac astep :=
  lazymatch goal with
  | |- accepts (ret _) => apply accepts_ret
  | |- accepts (gets _) => apply accepts_gets
  | |- accepts (modify _) => apply accepts_modify
  | |- accepts (bind _ _) => apply accepts_bind; [|intros ?]
  | |- accepts (when _ _) => apply accepts_when
  | |- accepts (zoom_ch _ _ _ _) => apply accepts_zoom
  | |- accepts (for_each _ _) => apply accepts_for_each; intros ?
  | |- accepts (if _ then _ else _) => apply accepts_if
  end.

(** An event of a channel node whose event nodes carry a hysteresis of at
    most 15 and nothing else. *)
Lemma hyst_event_accepted (reg : Z) (r : Z) (events : list fwnode_handle) (i : nat) :
  Forall (fun c => exists nm v, c = hyst_event nm v /\ v <= 15) events ->
  accepts (parse_event reg (hyst_chan r events) i).
Proof.
  intros Hall. unfold parse_event, fwnode_get_named_child_node, hyst_chan.
  cbn [node_children].
  destruct (find _ events) as [c|] eqn:Hfind; [|apply accepts_ret].
  apply find_some in Hfind. destruct Hfind as [Hin _].
  rewrite List.Forall_forall in Hall. destruct (Hall c Hin) as (nm & v & -> & Hv).
  unfold parse_event_thresh, parse_event_hyst, parse_event_code, if_read_u32, hyst_event.
  rewrite !one_prop_read.
  repeat match goal with
         | |- context [decide (?a = ?b)] =>
             destruct (decide (a = b)) as [? | Hne];
             [try discriminate | try (exfalso; apply Hne; reflexivity); clear Hne]
         end.
  unfold IQS269_CHx_HYST_MAX.
  destruct (Z.gtb_spec v 15) as [Hgt | _]; [lia|].
  change (- EINVAL =? - EINVAL) with true. cbv iota.
  repeat astep.
Qed.

Lemma accepts_bind_lift {S A B} (a : A) (k : A -> M S B) :
  accepts (k a) -> accepts (bind (lift (Ok a)) k).
Proof. intros Hk s. exact (Hk s). Qed.

Ltac decide_props :=
  repeat match goal with
         | |- context [decide (?a = ?b)] =>
             destruct (decide (a = b)) as [? | Hne];
             [try discriminate | try (exfalso; apply Hne; reflexivity); clear Hne]
         end.

(** A channel node with a channel number below 8 and such event nodes is
    accepted, whatever the structure holds. *)
Lemma hyst_chan_accepted (reg : Z) (events : list fwnode_handle) :
  0 <= reg < 8 ->
  Forall (fun c => exists nm v, c = hyst_event nm v /\ v <= 15) events ->
  accepts (iqs269_parse_chan (hyst_chan reg events)).
Proof.
  intros Hreg Hall.
  pose proof (fun i => hyst_event_accepted reg reg events i Hall) as Hev.
  unfold iqs269_parse_chan.
  clear Hall.
  unfold parse_chan_engine, iqs269_parse_mask, if_read_u32, hyst_chan.
  rewrite !one_prop_read, !one_prop_present.
  rewrite !one_prop_count by discriminate.
  decide_props.
  change (- EINVAL <? 0) with true. cbv iota.
  apply accepts_bind_lift.
  destruct (Z.geb_spec reg IQS269_NUM_CH) as [Hge | _];
    [unfold IQS269_NUM_CH in Hge; lia|].
  cbv zeta. repeat astep. apply Hev.
Qed.

(** What the three kinds of plain nodes set. *)
Lemma hyst_chan_sets (reg V W : Z) :
  0 <= V -> 0 <= W ->
  sets_hyst (hyst_chan reg [hyst_event "event-touch" V; hyst_event "event-deep" W])
    reg (Some V) (Some W) /\
  sets_hyst (hyst_chan reg [hyst_event "event-touch" V]) reg (Some V) None /\
  sets_hyst (hyst_chan reg [hyst_event "event-deep" W]) reg None (Some W).
Proof.
  intros HV HW.
  assert (HVb : (0 <=? V) = true) by (apply Z.leb_le; exact HV).
  assert (HWb : (0 <=? W) = true) by (apply Z.leb_le; exact HW).
  unfold sets_hyst, hyst_cells_u32.
  repeat split; try reflexivity;
    change (length iqs269_events) with 6%nat; cbn [seq forallb];
    repeat match goal with
           | |- context [event_hyst ?n ?i] =>
               let o := eval vm_compute in (event_hyst n i) in
               change (event_hyst n i) with o
           end;
    cbv iota; rewrite ?HVb, ?HWb; reflexivity.
Qed.

(** A node that sets a nibble supplies an unsigned value for it. *)
Lemma sets_hyst_run (ch_node : fwnode_handle) (reg : Z) (t d : option Z)
    (p p' : iqs269_private) :
  length (ch_reg (sys_reg p)) = 8%nat -> 0 <= reg ->
  sets_hyst ch_node reg t d ->
  iqs269_parse_chan ch_node p = (Ok tt, p') ->
  let h := hyst_byte reg p in
  let h' := hyst_byte reg p' in
  length (ch_reg (sys_reg p')) = 8%nat /\
  (forall v, t = Some v -> 0 <= v <= 15) /\
  (forall v, d = Some v -> 0 <= v <= 15) /\
  lo_nibble h' = match t with Some v => v | None => lo_nibble h end /\
  hi_nibble h' = match d with Some v => v | None => hi_nibble h end /\
  (0 <= h < 256 \/ t <> None \/ d <> None -> 0 <= h' < 256).
Proof.
  intros Hlen Hpos (Hreg & Hcells & <- & <-) Hrun.
  exact (parse_chan_hyst_nibbles ch_node p p' reg Hlen Hreg Hpos Hcells Hrun).
Qed.

(** C8.  For a channel [reg] and a structure of the declared array sizes,
    setting the touch hysteresis to [V] and the deep-touch hysteresis to [W]
    through [iqs269_parse_chan] leaves in [ch_reg[reg].hyst] one byte whose
    low nibble is [V] and whose high nibble is [W], whatever the byte held
    before: when one accepted channel node carries both values (the event
    loop then stores the touch nibble first), and when two accepted nodes of
    the channel carry one value each and are parsed one after the other, in
    either order.  A node is only accepted with values up to 15; and for
    every channel below 8 and all [V], [W] up to 15 the nodes that carry
    nothing but the channel number and these values are accepted. *)
Theorem hyst_nibbles_merge (p : iqs269_private) (reg V W : Z) :
  sized p = true -> 0 <= reg ->
  let merged (p' : iqs269_private) :=
    0 <= V <= 15 /\ 0 <= W <= 15 /\
    0 <= hyst_byte reg p' < 256 /\
    hyst_byte reg p' = Z.lor (Z.shiftl W 4) V /\
    Z.land (hyst_byte reg p') (Z.ones 4) = V /\
    Z.shiftr (hyst_byte reg p') 4 = W in
  (forall both_ch p',
     sets_hyst both_ch reg (Some V) (Some W) ->
     iqs269_parse_chan both_ch p = (Ok tt, p') -> merged p') /\
  (forall touch_ch deep_ch,
     sets_hyst touch_ch reg (Some V) None ->
     sets_hyst deep_ch reg None (Some W) ->
     (forall p', for_each [touch_ch; deep_ch] iqs269_parse_chan p = (Ok tt, p') ->
                 merged p') /\
     (forall p', for_each [deep_ch; touch_ch] iqs269_parse_chan p = (Ok tt, p') ->
                 merged p')) /\
  (reg < 8 -> 0 <= V <= 15 -> 0 <= W <= 15 ->
   let touch_ev := hyst_event "event-touch" V in
   let deep_ev := hyst_event "event-deep" W in
   exists p1 p2 p3,
     iqs269_parse_chan (hyst_chan reg [touch_ev; deep_ev]) p = (Ok tt, p1) /\
     for_each [hyst_chan reg [touch_ev]; hyst_chan reg [deep_ev]] iqs269_parse_chan p
       = (Ok tt, p2) /\
     for_each [hyst_chan reg [deep_ev]; hyst_chan reg [touch_ev]] iqs269_parse_chan p
       = (Ok tt, p3) /\
     merged p1 /\ merged p2 /\ merged p3).
Proof.
  intros Hs Hpos. cbv zeta.
  apply sized_ch_reg in Hs.
  assert (Hfin : forall b, 0 <= b < 256 -> lo_nibble b = V -> hi_nibble b = W ->
                   0 <= b < 256 /\ b = Z.lor (Z.shiftl W 4) V /\
                   Z.land b (Z.ones 4) = V /\ Z.shiftr b 4 = W).
  { intros b Hb Hlo Hhi. destruct (byte_of_nibbles b Hb) as [Hsh Hbyte].
    rewrite Hlo, Hhi in Hbyte.
    split; [exact Hb|]. split; [exact Hbyte|].
    split; [exact Hlo | now rewrite Hsh]. }
  assert (Htwo : forall a b p',
            for_each [a; b] iqs269_parse_chan p = (Ok tt, p') ->
            exists p1,
              iqs269_parse_chan a p = (Ok tt, p1) /\
              iqs269_parse_chan b p1 = (Ok tt, p')).
  { intros a b p' H. cbn [for_each] in H.
    apply bind_ok_inv in H. destruct H as ([] & p1 & Ha & H).
    apply bind_ok_inv in H. destruct H as ([] & p2 & Hb & H).
    injection H as <-. exists p1. split; assumption. }
  assert (Hone : forall both_ch p',
            sets_hyst both_ch reg (Some V) (Some W) ->
            iqs269_parse_chan both_ch p = (Ok tt, p') ->
            (0 <= V <= 15) /\ (0 <= W <= 15) /\
            0 <= hyst_byte reg p' < 256 /\
            hyst_byte reg p' = Z.lor (Z.shiftl W 4) V /\
            Z.land (hyst_byte reg p') (Z.ones 4) = V /\
            Z.shiftr (hyst_byte reg p') 4 = W).
  { intros both_ch p' Hb Hrun.
    destruct (sets_hyst_run _ _ _ _ _ _ Hs Hpos Hb Hrun)
      as (_ & HV & HW & Hlo & Hhi & Hrange).
    split; [exact (HV V eq_refl)|]. split; [exact (HW W eq_refl)|].
    apply Hfin; [apply Hrange; right; left; discriminate | exact Hlo | exact Hhi]. }
  assert (Hpair : forall touch_ch deep_ch,
            sets_hyst touch_ch reg (Some V) None ->
            sets_hyst deep_ch reg None (Some W) ->
            (forall p', for_each [touch_ch; deep_ch] iqs269_parse_chan p = (Ok tt, p') ->
               (0 <= V <= 15) /\ (0 <= W <= 15) /\
               0 <= hyst_byte reg p' < 256 /\
               hyst_byte reg p' = Z.lor (Z.shiftl W 4) V /\
               Z.land (hyst_byte reg p') (Z.ones 4) = V /\
               Z.shiftr (hyst_byte reg p') 4 = W) /\
            (forall p', for_each [deep_ch; touch_ch] iqs269_parse_chan p = (Ok tt, p') ->
               (0 <= V <= 15) /\ (0 <= W <= 15) /\
               0 <= hyst_byte reg p' < 256 /\
               hyst_byte reg p' = Z.lor (Z.shiftl W 4) V /\
               Z.land (hyst_byte reg p') (Z.ones 4) = V /\
               Z.shiftr (hyst_byte reg p') 4 = W)).
  { intros touch_ch deep_ch Ht Hd. split.
    - intros p' Hrun.
      destruct (Htwo _ _ _ Hrun) as (p1 & H1 & H2).
      destruct (sets_hyst_run _ _ _ _ _ _ Hs Hpos Ht H1)
        as (Hs1 & HV & _ & Hlo1 & _ & Hr1).
      destruct (sets_hyst_run _ _ _ _ _ _ Hs1 Hpos Hd H2)
        as (_ & _ & HW & Hlo2 & Hhi2 & Hr2).
      split; [exact (HV V eq_refl)|]. split; [exact (HW W eq_refl)|].
      apply Hfin; [apply Hr2; right; right; discriminate | congruence | exact Hhi2].
    - intros p' Hrun.
      destruct (Htwo _ _ _ Hrun) as (p1 & H1 & H2).
      destruct (sets_hyst_run _ _ _ _ _ _ Hs Hpos Hd H1)
        as (Hs1 & _ & HW & _ & Hhi1 & Hr1).
      destruct (sets_hyst_run _ _ _ _ _ _ Hs1 Hpos Ht H2)
        as (_ & HV & _ & Hlo2 & Hhi2 & Hr2).
      split; [exact (HV V eq_refl)|]. split; [exact (HW W eq_refl)|].
      apply Hfin; [apply Hr2; right; left; discriminate | exact Hlo2 | congruence]. }
  split; [exact Hone|]. split; [exact Hpair|].
  intros Hlt HV HW.
  destruct (hyst_chan_sets reg V W ltac:(lia) ltac:(lia)) as (Sb & St & Sd).
  assert (Ft : Forall (fun c => exists nm v, c = hyst_event nm v /\ v <= 15)
                 [hyst_event "event-touch" V])
    by (repeat (apply List.Forall_cons; [eexists _, _; split; [reflexivity | lia]|]);
        apply List.Forall_nil).
  assert (Fd : Forall (fun c => exists nm v, c = hyst_event nm v /\ v <= 15)
                 [hyst_event "event-deep" W])
    by (repeat (apply List.Forall_cons; [eexists _, _; split; [reflexivity | lia]|]);
        apply List.Forall_nil).
  assert (Fb : Forall (fun c => exists nm v, c = hyst_event nm v /\ v <= 15)
                 [hyst_event "event-touch" V; hyst_event "event-deep" W])
    by (repeat (apply List.Forall_cons; [eexists _, _; split; [reflexivity | lia]|]);
        apply List.Forall_nil).
  pose proof (hyst_chan_accepted reg _ (conj Hpos Hlt) Ft) as At.
  pose proof (hyst_chan_accepted reg _ (conj Hpos Hlt) Fd) as Ad.
  pose proof (hyst_chan_accepted reg _ (conj Hpos Hlt) Fb) as Ab.
  assert (Aall : forall l, Forall (fun c => accepts (iqs269_parse_chan c)) l ->
                   accepts (for_each l iqs269_parse_chan)).
  { intros l Hl. induction Hl as [|c l Hc _ IH]; cbn [for_each].
    - apply accepts_ret.
    - apply accepts_bind; [exact Hc | intros _; exact IH]. }
  destruct (Ab p) as ([] & p1 & R1).
  assert (Atd : accepts (for_each [hyst_chan reg [hyst_event "event-touch" V];
                                   hyst_chan reg [hyst_event "event-deep" W]]
                          iqs269_parse_chan))
    by (apply Aall; repeat (apply List.Forall_cons; [assumption|]);
        apply List.Forall_nil).
  assert (Adt : accepts (for_each [hyst_chan reg [hyst_event "event-deep" W];
                                   hyst_chan reg [hyst_event "event-touch" V]]
                          iqs269_parse_chan))
    by (apply Aall; repeat (apply List.Forall_cons; [assumption|]);
        apply List.Forall_nil).
  destruct (Atd p) as ([] & p2 & R2).
  destruct (Adt p) as ([] & p3 & R3).
  destruct (Hpair _ _ St Sd) as [Htd Hdt].
  exists p1, p2, p3.
  split; [exact R1|]. split; [exact R2|]. split; [exact R3|].
  split; [exact (Hone _ _ Sb R1)|]. split; [exact (Htd _ R2) | exact (Hdt _ R3)].
Qed.

(** Channel 2 with every bit of the byte set beforehand, a touch hysteresis
    of 5 and a deep-touch hysteresis of 9: the byte is 0x95 from one node
    and from two nodes in either order. *)
Lemma hyst_nibbles_merge_witness :
  let p := upd_ch_reg 2 (set_hyst 0xFF) kzalloc_private in
  let one := snd (iqs269_parse_chan hyst_both_chan p) in
  let touch_first := snd (for_each [hyst_touch_chan; hyst_deep_chan] iqs269_parse_chan p) in
  let deep_first := snd (for_each [hyst_deep_chan; hyst_touch_chan] iqs269_parse_chan p) in
  hyst_byte 2 one = 0x95 /\ hyst_byte 2 touch_first = 0x95 /\
  hyst_byte 2 deep_first = 0x95.
Proof.
  intros p one touch_first deep_first.
  assert (Hpos : 0 <= 2) by lia.
  destruct (hyst_nibbles_merge p 2 5 9 eq_refl Hpos) as (Hone & Hpair & _).
  assert (Sb : sets_hyst hyst_both_chan 2 (Some 5) (Some 9))
    by (repeat split; reflexivity).
  assert (St : sets_hyst hyst_touch_chan 2 (Some 5) None)
    by (repeat split; reflexivity).
  assert (Sd : sets_hyst hyst_deep_chan 2 None (Some 9))
    by (repeat split; reflexivity).
  assert (R1 : iqs269_parse_chan hyst_both_chan p = (Ok tt, one))
    by (vm_compute; reflexivity).
  assert (R2 : for_each [hyst_touch_chan; hyst_deep_chan] iqs269_parse_chan p
               = (Ok tt, touch_first)) by (vm_compute; reflexivity).
  assert (R3 : for_each [hyst_deep_chan; hyst_touch_chan] iqs269_parse_chan p
               = (Ok tt, deep_first)) by (vm_compute; reflexivity).
  destruct (Hpair _ _ St Sd) as [Htd Hdt].
  destruct (Hone _ _ Sb R1) as (_ & _ & _ & H1 & _).
  destruct (Htd _ R2) as (_ & _ & _ & H2 & _).
  destruct (Hdt _ R3) as (_ & _ & _ & H3 & _).
  split; [exact H1|]. split; [exact H2 | exact H3].
Defined.
